(** * coverage.sqldata: the SQLite-backed coverage data store

    A shallow embedding of [coverage/sqldata.py] (class [CoverageData]) and
    the properties of its write, merge and query paths.

    Conventions of the embedding.
    - One process and one thread: [os.getpid()] never changes and
      [threading.get_ident()] is constant, so [self._dbs] has at most one
      entry and the [_locked] decorator is the identity.
    - [self._debug] is [NoDebugging]: every [self._debug.should(...)] is false.
    - The relational engine is out of scope of the sources; its tables are
      modelled by their declared keys: a table with a unique key is a finite
      map from the key, the [arc] table (unique on the whole row) is a finite
      set of rows.  A cursor enumerates a table in the order of
      [map_to_list]/[elements].
    - A [with self._connect() as con:] block is a unit of work on a data
      file: when its body raises, the file keeps the rows it had on entry.
      The [":memory:"] database of a [no_disk] store keeps what the body
      wrote before it raised.  Either way the attributes of the Python
      object keep their new values. *)

From Stdlib Require Import ZArith NArith List String Ascii.
From Stdlib.Strings Require Import Byte.
From Stdlib Require DecimalString.
From stdpp Require Import base decidable option list gmap fin_maps fin_sets strings.

#[local] Set Warnings "-clear-no-such-hyp".
#[local] Set Default Proof Using "Type*".

Local Open Scope Z_scope.
Local Open Scope string_scope.

(** ** coverage.numbits *)

Local Open Scope N_scope.

(** A numbits blob: a sequence of bytes, each byte a number below 256. *)
Abbreviation numbits := (list N) (only parsing).

(** The byte at index [byte_i] of the encoding of [nums]: bit [bit_i] is set
    exactly when [byte_i * 8 + bit_i] is a member of [nums]. *)
Definition byte_of (nums : list N) (byte_i : N) : N :=
  foldr (λ bit_i acc,
           if bool_decide (byte_i * 8 + bit_i ∈ nums)
           then N.lor (N.shiftl 1 bit_i) acc else acc)
        0%N [0; 1; 2; 3; 4; 5; 6; 7]%N.

(** Modelled from the spec: [coverage.numbits.nums_to_numbits] is not among
    the sources.  Section 4.1: "encode(set_of_non_negative_integers) → blob
    ... a byte array where bit i of byte i/8 represents membership of value
    i"; the array stops at the byte of the largest member, so it has no
    trailing zero byte, and the empty set is the empty blob. *)
Definition nums_to_numbits (nums : list N) : numbits :=
  match nums with
  | [] => []
  | _ =>
      let nbytes := (foldr N.max 0 nums / 8 + 1)%N in
      byte_of nums <$> (N.of_nat <$> seq 0 (N.to_nat nbytes))
  end.

(** The members of one byte, lowest bit first. *)
Definition bits_of (byte_i : N) (byte : N) : list N :=
  omap (λ bit_i, if N.testbit byte bit_i then Some (byte_i * 8 + bit_i)%N else None)
       [0; 1; 2; 3; 4; 5; 6; 7]%N.

(** Modelled from the spec: [coverage.numbits.numbits_to_nums] is not among
    the sources.  Section 4.1: "decode(blob) → set_of_non_negative_integers",
    the values whose bit is set; "Decode of an empty blob yields an empty
    set". *)
Definition numbits_to_nums (b : numbits) : list N :=
  mjoin (imap (λ byte_i byte, bits_of (N.of_nat byte_i) byte) b).

(** Bytewise or, the shorter blob read as padded with zero bytes. *)
Fixpoint or_bytes (b1 b2 : numbits) : numbits :=
  match b1, b2 with
  | [], _ => b2
  | _, [] => b1
  | x :: b1', y :: b2' => N.lor x y :: or_bytes b1' b2'
  end.

(** Drop the trailing zero bytes. *)
Definition rstrip0 (b : numbits) : numbits :=
  foldr (λ x acc, match acc with
                  | [] => if (x =? 0)%N then [] else [x]
                  | _ => x :: acc
                  end) [] b.

(** Modelled from the spec: [coverage.numbits.numbits_union] is not among the
    sources.  Section 4.1: "union must handle differently-sized inputs (treat
    the shorter as zero-padded)"; "trailing all-zero bytes are trimmed". *)
Definition numbits_union (b1 b2 : numbits) : numbits :=
  rstrip0 (or_bytes b1 b2).

Local Close Scope N_scope.

(** ** The relational store *)

(** [SCHEMA_VERSION = 7]. *)
Definition SCHEMA_VERSION : Z := 7.

(** The tables of [SCHEMA].  Every [id] is an [integer primary key]; [file]
    and [context] are unique on their text column, so they are maps from the
    text to the id.  [line_bits] is unique on [(file_id, context_id)], [arc]
    on the whole row, [tracer] has [file_id] as primary key.
    [tbl_coverage_schema] is the list of rows of [coverage_schema]. *)
Record Database : Type := mkDatabase {
  tbl_coverage_schema : list Z;
  tbl_meta : gmap string string;
  tbl_file : gmap string Z;
  tbl_context : gmap string Z;
  tbl_line_bits : gmap (Z * Z) numbits;
  tbl_arc : gset (Z * Z * Z * Z);
  tbl_tracer : gmap Z string;
}.

Definition set_tbl_meta (v : gmap string string) (db : Database) : Database :=
  mkDatabase (tbl_coverage_schema db) v (tbl_file db) (tbl_context db)
             (tbl_line_bits db) (tbl_arc db) (tbl_tracer db).
Definition set_tbl_file (v : gmap string Z) (db : Database) : Database :=
  mkDatabase (tbl_coverage_schema db) (tbl_meta db) v (tbl_context db)
             (tbl_line_bits db) (tbl_arc db) (tbl_tracer db).
Definition set_tbl_context (v : gmap string Z) (db : Database) : Database :=
  mkDatabase (tbl_coverage_schema db) (tbl_meta db) (tbl_file db) v
             (tbl_line_bits db) (tbl_arc db) (tbl_tracer db).
Definition set_tbl_line_bits (v : gmap (Z * Z) numbits) (db : Database) : Database :=
  mkDatabase (tbl_coverage_schema db) (tbl_meta db) (tbl_file db) (tbl_context db)
             v (tbl_arc db) (tbl_tracer db).
Definition set_tbl_arc (v : gset (Z * Z * Z * Z)) (db : Database) : Database :=
  mkDatabase (tbl_coverage_schema db) (tbl_meta db) (tbl_file db) (tbl_context db)
             (tbl_line_bits db) v (tbl_tracer db).
Definition set_tbl_tracer (v : gmap Z string) (db : Database) : Database :=
  mkDatabase (tbl_coverage_schema db) (tbl_meta db) (tbl_file db) (tbl_context db)
             (tbl_line_bits db) (tbl_arc db) v.

(** The rowid given to a new row of a table with an [integer primary key]:
    one more than the largest id in the table, 1 in an empty table. *)
Definition next_rowid (tbl : gmap string Z) : Z :=
  foldr Z.max 0 (snd <$> map_to_list tbl) + 1.

(** [insert or ignore into <table> (<text>) values (?)] on [file] or
    [context]: a new row with a new rowid unless the text is there. *)
Definition insert_or_ignore_name (name : string) (tbl : gmap string Z) : gmap string Z :=
  match tbl !! name with
  | Some _ => tbl
  | None => <[name := next_rowid tbl]> tbl
  end.

(** [insert or replace into file (path) values (?)]: the row of the same
    path, if any, is replaced by the new row, which gets a new rowid. *)
Definition insert_or_replace_name (name : string) (tbl : gmap string Z) : gmap string Z :=
  <[name := next_rowid tbl]> tbl.

(** [insert or ignore into meta (key, value) values (?, ?)]. *)
Definition insert_or_ignore_meta (key value : string) (tbl : gmap string string)
  : gmap string string :=
  match tbl !! key with
  | Some _ => tbl
  | None => <[key := value]> tbl
  end.

(** [insert or ignore into tracer (file_id, tracer) values (?, ?)]. *)
Definition insert_or_ignore_tracer (file_id : Z) (name : string) (tbl : gmap Z string)
  : gmap Z string :=
  match tbl !! file_id with
  | Some _ => tbl
  | None => <[file_id := name]> tbl
  end.

(** The rows of [... inner join file on file.id = <x>.file_id]: the paths of
    the [file] rows with this id (at most one when ids are distinct). *)
Definition names_of_id (tbl : gmap string Z) (id : Z) : list string :=
  fst <$> filter (λ row, row.2 = id) (map_to_list tbl).

(** ** The store object and its exceptions *)

(** The message of a [DataError]: a literal text, or a format with its
    arguments.
    - [Conflicting_file_tracer_name filename a b] is
      ["Conflicting file tracer name for '{}': {!r} vs {!r}".format(filename, a, b)];
    - [Unrecognized_serialization head len] is
      [f"Unrecognized serialization: {data[:40]!r} (head of {len(data)} bytes)"]
      with [head = data[:40]] and [len = len(data)];
    - [Wrong_schema v] is ["Couldn't use data file {!r}: wrong schema: {} instead of {}"];
    - [Not_a_coverage_data_file] is
      ["Data file {!r} doesn't seem to be a coverage data file: {}"]. *)
Inductive Message : Type :=
| Text (msg : string)
| Conflicting_file_tracer_name (filename existing_plugin plugin_name : string)
| Unrecognized_serialization (head : list byte) (len : nat)
| Wrong_schema (schema_version : Z)
| Not_a_coverage_data_file.

(** What an operation can raise.  [SqliteError] stands for an error of the
    engine as the connection object passes it on ([sqlite3.Error], e.g. a
    failed uniqueness constraint of a plain [insert], a query on a database
    without tables, or a [REGEXP] function that raises); [OverflowError] is
    what binding a Python [int] outside the signed 64-bit range to a
    statement raises; [ForeignError] stands for an error raised by [zlib],
    [bytes.decode] or the restoring script. *)
Inductive Exception : Type :=
| DataError (msg : Message)
| KeyError (key : string)
| ValueError
| AssertionError
| OverflowError
| SqliteError
| ForeignError.

(** The attributes of a [CoverageData] object that the operations read or
    write.  [storage] is what [self._filename] names: the contents of the
    data file, [None] when there is no such file; for a [no_disk] store, the
    [":memory:"] database of its connection.  [_dbs] tells whether
    [self._dbs] has a connection for the current thread. *)
Record CoverageData : Type := mkCoverageData {
  _no_disk : bool;
  storage : option Database;
  _dbs : bool;
  _file_map : gmap string Z;
  _have_used : bool;
  _has_lines : bool;
  _has_arcs : bool;
  _current_context : option string;
  _current_context_id : option Z;
  _query_context_ids : option (list Z);
}.

Definition set_storage (v : option Database) (s : CoverageData) : CoverageData :=
  mkCoverageData (_no_disk s) v (_dbs s) (_file_map s) (_have_used s) (_has_lines s)
    (_has_arcs s) (_current_context s) (_current_context_id s) (_query_context_ids s).
Definition set_dbs (v : bool) (s : CoverageData) : CoverageData :=
  mkCoverageData (_no_disk s) (storage s) v (_file_map s) (_have_used s) (_has_lines s)
    (_has_arcs s) (_current_context s) (_current_context_id s) (_query_context_ids s).
Definition set_file_map (v : gmap string Z) (s : CoverageData) : CoverageData :=
  mkCoverageData (_no_disk s) (storage s) (_dbs s) v (_have_used s) (_has_lines s)
    (_has_arcs s) (_current_context s) (_current_context_id s) (_query_context_ids s).
Definition set_have_used (v : bool) (s : CoverageData) : CoverageData :=
  mkCoverageData (_no_disk s) (storage s) (_dbs s) (_file_map s) v (_has_lines s)
    (_has_arcs s) (_current_context s) (_current_context_id s) (_query_context_ids s).
Definition set_has_lines (v : bool) (s : CoverageData) : CoverageData :=
  mkCoverageData (_no_disk s) (storage s) (_dbs s) (_file_map s) (_have_used s) v
    (_has_arcs s) (_current_context s) (_current_context_id s) (_query_context_ids s).
Definition set_has_arcs (v : bool) (s : CoverageData) : CoverageData :=
  mkCoverageData (_no_disk s) (storage s) (_dbs s) (_file_map s) (_have_used s) (_has_lines s)
    v (_current_context s) (_current_context_id s) (_query_context_ids s).
Definition set_current_context (v : option string) (s : CoverageData) : CoverageData :=
  mkCoverageData (_no_disk s) (storage s) (_dbs s) (_file_map s) (_have_used s) (_has_lines s)
    (_has_arcs s) v (_current_context_id s) (_query_context_ids s).
Definition set_current_context_id (v : option Z) (s : CoverageData) : CoverageData :=
  mkCoverageData (_no_disk s) (storage s) (_dbs s) (_file_map s) (_have_used s) (_has_lines s)
    (_has_arcs s) (_current_context s) v (_query_context_ids s).
Definition set_query_context_ids (v : option (list Z)) (s : CoverageData) : CoverageData :=
  mkCoverageData (_no_disk s) (storage s) (_dbs s) (_file_map s) (_have_used s) (_has_lines s)
    (_has_arcs s) (_current_context s) (_current_context_id s) v.

(** [CoverageData.__init__]: nothing is opened; [on_disk] is the data file
    found under [self._filename], if any. *)
Definition __init__ (no_disk : bool) (on_disk : option Database) : CoverageData :=
  mkCoverageData no_disk (if no_disk then None else on_disk) false ∅ false false false
                 None None None.

(** ** Methods as state transformers that may raise *)

Inductive Result (A : Type) : Type :=
| Ok (a : A) (self : CoverageData)
| Raise (e : Exception) (self : CoverageData).
Arguments Ok {A} a self.
Arguments Raise {A} e self.

Definition M (A : Type) : Type := CoverageData → Result A.

Definition ret {A} (a : A) : M A := λ s, Ok a s.
Definition raise {A} (e : Exception) : M A := λ s, Raise e s.
Definition bind {A B} (m : M A) (k : A → M B) : M B :=
  λ s, match m s with
       | Ok a s' => k a s'
       | Raise e s' => Raise e s'
       end.
Definition get : M CoverageData := λ s, Ok s s.
Definition modify (f : CoverageData → CoverageData) : M unit := λ s, Ok tt (f s).

Notation "'let!' x ':=' m 'in' k" := (bind m (λ x, k))
  (at level 10, x name, m at level 100, k at level 200).
Notation "m1 ';;;' m2" := (bind m1 (λ _, m2))
  (at level 100, m2 at level 200, right associativity).

(** [for x in xs: body(x)]. *)
Fixpoint for_each {A} (xs : list A) (body : A → M unit) : M unit :=
  match xs with
  | [] => ret tt
  | x :: xs' => body x ;;; for_each xs' body
  end.

(** Modelled from the spec: the body of a [with <connection>:] block; the
    connection object, [coverage.sqlitedb.SqliteDb], is not among the
    sources.  The block commits when it returns.  When it raises, a data
    file is left with the rows it had when the block was entered (the unit
    of work of the spec), while the [":memory:"] database of a [no_disk]
    store, whose connection works without a journal and is never closed,
    keeps the rows written before the exception.  Either way the attributes
    of the object, [_file_map] among them, stay as the body left them. *)
Definition transaction {A} (body : M A) : M A :=
  λ s, match body s with
       | Ok a s' => Ok a s'
       | Raise e s' => Raise e (if _no_disk s then s' else set_storage (storage s) s')
       end.

(** A query on the open database. *)
Definition db_read {A} (q : Database → A) : M A :=
  λ s, match storage s with
       | Some db => Ok (q db) s
       | None => Raise SqliteError s
       end.

(** A statement that changes the open database. *)
Definition db_write (stmt : Database → Database) : M unit :=
  λ s, match storage s with
       | Some db => Ok tt (set_storage (Some (stmt db)) s)
       | None => Raise SqliteError s
       end.

(** Python's [int(text)] on the decimal texts this module writes with
    [str(int(arcs))]; [None] stands for [ValueError]. *)
Definition int (text : string) : option Z :=
  Z.of_int <$> DecimalString.NilEmpty.int_of_string text.

#[export] Instance byte_eq_decision : EqDecision byte := Byte.byte_eq_dec.

(** [str(int(b))]. *)
Definition str_int (b : bool) : string := if b then "1" else "0".

(** The signed 64-bit integers, the values of an SQLite [INTEGER]. *)
Definition is_int64 (n : Z) : bool := ((- 2 ^ 63 <=? n) && (n <? 2 ^ 63))%Z.

(** The characters with a meaning of their own in a pattern of [re]. *)
Definition metacharacters : list ascii := list_ascii_of_string ".^$*+?{}[]\|()".

(** The pattern has no metacharacter: it stands for its own text. *)
Definition plain (pattern : string) : bool :=
  forallb (λ c, negb (existsb (Ascii.eqb c) metacharacters)) (list_ascii_of_string pattern).

(** [text.startswith(pattern)]. *)
Fixpoint starts_with (pattern text : string) : bool :=
  match pattern, text with
  | EmptyString, _ => true
  | String c pattern', String d text' => Ascii.eqb c d && starts_with pattern' text'
  | String _ _, EmptyString => false
  end.

(** [re.search(pattern, text) is not None] for a pattern without
    metacharacters: the pattern occurs somewhere in the text. *)
Fixpoint literal_search (pattern text : string) : bool :=
  starts_with pattern text
  || match text with
     | EmptyString => false
     | String _ text' => literal_search pattern text'
     end.

(** The engine of the examples knows no metacharacter: it raises on every
    pattern that has one. *)
Definition literal_engine (pattern text : string) : option bool := None.

Section CoverageData.

(** [coverage.version.__version__] is not among the sources: any text. *)
Variable __version__ : string.

(** [re.search(pattern, text) is not None] for the patterns with
    metacharacters, whose syntax is not modelled here; [None] when [re]
    rejects the pattern ([re.error]). *)
Variable re_engine : string → string → option bool.

(** Modelled from the spec: the [REGEXP] function of the connection
    ([coverage.sqlitedb] is not among the sources) is [re.search], as the
    docstring of [set_query_contexts] says: [text regexp pattern] holds when
    the pattern matches somewhere in the text, not only when it matches the
    whole of it.  [None] when the function raises. *)
Definition regexp (pattern text : string) : option bool :=
  if plain pattern then Some (literal_search pattern text) else re_engine pattern text.

(** What [zlib.decompress(data).decode("utf-8")] returns, [None] when it
    raises; and the database left by [db.executescript(script)] run on the
    database found under the file name, [None] when it raises. *)
Variable decompress : list byte → option string.
Variable executescript : string → option Database → option Database.

(** Drop the parameters that a goal does not mention. *)
Ltac tidy :=
  try clear executescript; try clear decompress; try clear re_engine; try clear __version__.

(** [_reset]: close the connections of a disk store, forget the cache. *)
Definition _reset : M unit :=
  modify (λ s, set_current_context_id None
                 (set_have_used false
                    (set_file_map ∅
                       (if _no_disk s then s else set_dbs false s)))).

(** [_init_db]: the database after [executescript(SCHEMA)] and the two
    inserts. *)
Definition _init_db : Database :=
  mkDatabase [SCHEMA_VERSION] {["version" := __version__]} ∅ ∅ ∅ ∅ ∅.

(** [_read_db]. *)
Definition _read_db : M unit :=
  transaction (
    let! s := get in
    match storage s with
    | None => modify (set_storage (Some _init_db))
    | Some db =>
        match tbl_coverage_schema db with
        | [schema_version] =>
            if bool_decide (schema_version ≠ SCHEMA_VERSION)
            then raise (DataError (Wrong_schema schema_version))
            else ret tt
        | _ => raise (DataError Not_a_coverage_data_file)
        end
    end ;;;
    let! row := db_read (λ db, tbl_meta db !! "has_arcs") in
    match row with
    | Some value =>
        match int value with
        | Some n =>
            modify (λ s, set_has_lines (negb (bool_decide (n ≠ 0)))
                           (set_has_arcs (bool_decide (n ≠ 0)) s))
        | None => raise ValueError
        end
    | None => ret tt
    end ;;;
    let! rows := db_read tbl_file in
    modify (λ s, set_file_map (rows ∪ _file_map s) s)).

(** [_open_db]: a new connection object; the [":memory:"] database of a
    [no_disk] store starts empty. *)
Definition _open_db : M unit :=
  modify (λ s, set_dbs true (if _no_disk s then set_storage None s else s)) ;;;
  _read_db.

(** [_connect]. *)
Definition _connect : M unit :=
  let! s := get in
  if _dbs s then ret tt else _open_db.

(** [with self._connect() as con: body]. *)
Definition with_connect {A} (body : M A) : M A :=
  _connect ;;; transaction body.

(** [os.path.exists(self._filename)]. *)
Definition path_exists (s : CoverageData) : bool :=
  negb (_no_disk s) && bool_decide (is_Some (storage s)).

(** [erase(parallel=False)]. *)
Definition erase : M unit :=
  _reset ;;;
  let! s := get in
  if _no_disk s then ret tt
  else modify (set_storage None).

(** [read]. *)
Definition read : M unit :=
  let! s := get in
  if path_exists s
  then with_connect (modify (set_have_used true))
  else ret tt.

(** [_start_using]. *)
Definition _start_using : M unit :=
  let! s := get in
  (if negb (_have_used s) then erase else ret tt) ;;;
  modify (set_have_used true).

(** [_file_id(filename, add)]. *)
Definition _file_id (filename : string) (add : bool) : M (option Z) :=
  let! s := get in
  (if bool_decide (_file_map s !! filename = None) then
     if add then
       with_connect (
         let! rowid := db_read (λ db, next_rowid (tbl_file db)) in
         db_write (λ db, set_tbl_file (insert_or_replace_name filename (tbl_file db)) db) ;;;
         modify (λ s, set_file_map (<[filename := rowid]> (_file_map s)) s))
     else ret tt
   else ret tt) ;;;
  let! s := get in
  ret (_file_map s !! filename).

(** [_context_id(context)]. *)
Definition _context_id (context : string) : M (option Z) :=
  _start_using ;;;
  with_connect (db_read (λ db, tbl_context db !! context)).

(** [set_context(context)]. *)
Definition set_context (context : option string) : M unit :=
  modify (λ s, set_current_context_id None (set_current_context context s)).

(** [insert into context (context) values (?)], returning the rowid; a plain
    insert fails on an existing context. *)
Definition insert_context (context : string) : M Z :=
  let! tbl := db_read tbl_context in
  match tbl !! context with
  | Some _ => raise SqliteError
  | None =>
      db_write (set_tbl_context (<[context := next_rowid tbl]> tbl)) ;;;
      ret (next_rowid tbl)
  end.

(** [_set_context_id]. *)
Definition _set_context_id : M unit :=
  let! s := get in
  let context := default "" (_current_context s) in
  let! context_id := _context_id context in
  match context_id with
  | Some id => modify (set_current_context_id (Some id))
  | None =>
      with_connect (
        let! rowid := insert_context context in
        modify (set_current_context_id (Some rowid)))
  end.

(** [_choose_lines_or_arcs(lines, arcs)]. *)
Definition _choose_lines_or_arcs (lines arcs : bool) : M unit :=
  if negb (lines || arcs) then raise AssertionError
  else if lines && arcs then raise AssertionError
  else
    let! s := get in
    if lines && _has_arcs s then
      raise (DataError (Text "Can't add line measurements to existing branch data"))
    else if arcs && _has_lines s then
      raise (DataError (Text "Can't add branch measurements to existing line data"))
    else if negb (_has_arcs s) && negb (_has_lines s) then
      modify (λ s, set_has_arcs arcs (set_has_lines lines s)) ;;;
      with_connect (
        db_write (λ db, set_tbl_meta
                          (insert_or_ignore_meta "has_arcs" (str_int arcs) (tbl_meta db)) db))
    else ret tt.

(** A row whose [file_id] or [context_id] is [None] (SQL [NULL]) equals no
    parameter of any query of this module and joins with no row: writing it
    is not observable, and it is left out of the tables. *)
Definition row_key (file_id context_id : option Z) : option (Z * Z) :=
  match file_id, context_id with
  | Some f, Some c => Some (f, c)
  | _, _ => None
  end.

(** The body of the loop of [add_lines], for one [(filename, linenos)]. *)
Definition add_lines_item (item : string * list N) : M unit :=
  let line_bits := nums_to_numbits item.2 in
  let! file_id := _file_id item.1 true in
  let! s := get in
  match row_key file_id (_current_context_id s) with
  | None => ret tt
  | Some key =>
      let! existing := db_read (λ db, tbl_line_bits db !! key) in
      let line_bits :=
        match existing with
        | Some numbits0 => numbits_union line_bits numbits0
        | None => line_bits
        end in
      db_write (λ db, set_tbl_line_bits (<[key := line_bits]> (tbl_line_bits db)) db)
  end.

(** [add_lines(line_data)]; [line_data.items()] in iteration order.  The
    line numbers are in the domain of the numbits codec. *)
Definition add_lines (line_data : list (string * list N)) : M unit :=
  _start_using ;;;
  _choose_lines_or_arcs true false ;;;
  match line_data with
  | [] => ret tt
  | _ => with_connect (_set_context_id ;;; for_each line_data add_lines_item)
  end.

(** The rows of [data] that [executemany] binds: those before the first
    row with a line number outside the signed 64-bit range. *)
Fixpoint bound_rows (data : list (Z * Z * Z * Z)) : list (Z * Z * Z * Z) :=
  match data with
  | [] => []
  | row :: data' =>
      if is_int64 row.1.2 && is_int64 row.2 then row :: bound_rows data' else []
  end.

(** [executemany("insert or ignore into arc (file_id, context_id, fromno, tono)
    values (?, ?, ?, ?)", data)]: the rows are bound and written in order;
    a line number outside the signed 64-bit range raises [OverflowError]
    at its row, after the rows before it are written. *)
Definition insert_arcs (data : list (Z * Z * Z * Z)) : M unit :=
  db_write (λ db, set_tbl_arc (tbl_arc db ∪ list_to_set (bound_rows data)) db) ;;;
  if bool_decide (bound_rows data = data) then ret tt else raise OverflowError.

(** The body of the loop of [add_arcs], for one [(filename, arcs)]. *)
Definition add_arcs_item (item : string * list (Z * Z)) : M unit :=
  match item.2 with
  | [] => ret tt
  | _ =>
      let! file_id := _file_id item.1 true in
      let! s := get in
      match row_key file_id (_current_context_id s) with
      | None => ret tt
      | Some key =>
          let data : list (Z * Z * Z * Z) :=
            (λ a, (key.1, key.2, a.1, a.2)) <$> item.2 in
          insert_arcs data
      end
  end.

(** [add_arcs(arc_data)]. *)
Definition add_arcs (arc_data : list (string * list (Z * Z))) : M unit :=
  _start_using ;;;
  _choose_lines_or_arcs false true ;;;
  match arc_data with
  | [] => ret tt
  | _ => with_connect (_set_context_id ;;; for_each arc_data add_arcs_item)
  end.

(** [file_tracer(filename)]. *)
Definition file_tracer (filename : string) : M (option string) :=
  _start_using ;;;
  with_connect (
    let! file_id := _file_id filename false in
    match file_id with
    | None => ret None
    | Some id =>
        let! row := db_read (λ db, tbl_tracer db !! id) in
        match row with
        | Some name => ret (Some name)
        | None => ret (Some "")
        end
    end).

(** [insert into tracer (file_id, tracer) values (?, ?)]: a plain insert
    fails when the file has a row. *)
Definition insert_tracer (file_id : option Z) (plugin_name : string) : M unit :=
  match file_id with
  | None => ret tt
  | Some id =>
      let! row := db_read (λ db, tbl_tracer db !! id) in
      match row with
      | Some _ => raise SqliteError
      | None => db_write (λ db, set_tbl_tracer (<[id := plugin_name]> (tbl_tracer db)) db)
      end
  end.

(** Python truth of a [str | None]. *)
Definition truthy (x : option string) : bool :=
  match x with
  | Some name => negb (String.eqb name "")
  | None => false
  end.

(** The body of the loop of [add_file_tracers], for one [(filename,
    plugin_name)]. *)
Definition add_file_tracers_item (item : string * string) : M unit :=
  let! file_id := _file_id item.1 true in
  let! existing_plugin := file_tracer item.1 in
  if truthy existing_plugin then
    if bool_decide (existing_plugin ≠ Some item.2) then
      raise (DataError (Conflicting_file_tracer_name
                          item.1 (default "" existing_plugin) item.2))
    else ret tt
  else if truthy (Some item.2) then insert_tracer file_id item.2
  else ret tt.

(** [add_file_tracers(file_tracers)]. *)
Definition add_file_tracers (file_tracers : list (string * string)) : M unit :=
  match file_tracers with
  | [] => ret tt
  | _ =>
      _start_using ;;;
      with_connect (for_each file_tracers add_file_tracers_item)
  end.

(** [touch_files(filenames, plugin_name)]. *)
Definition touch_files (filenames : list string) (plugin_name : option string) : M unit :=
  _start_using ;;;
  with_connect (
    let! s := get in
    if negb (_has_arcs s) && negb (_has_lines s) then
      raise (DataError (Text "Can't touch files in an empty CoverageData"))
    else
      for_each filenames (λ filename,
        _file_id filename true ;;;
        if truthy plugin_name
        then add_file_tracers [(filename, default "" plugin_name)]
        else ret tt)).

(** [touch_file(filename, plugin_name="")]. *)
Definition touch_file (filename plugin_name : string) : M unit :=
  touch_files [filename] (Some plugin_name).

(** [delete from line_bits where file_id=?] and [delete from arc where
    file_id=?]. *)
Definition delete_line_bits (file_id : Z) (db : Database) : Database :=
  set_tbl_line_bits (filter (λ row, row.1.1 ≠ file_id) (tbl_line_bits db)) db.
Definition delete_arc (file_id : Z) (db : Database) : Database :=
  set_tbl_arc (filter (λ row, row.1.1.1 ≠ file_id) (tbl_arc db)) db.

(** [purge_files(filenames)]. *)
Definition purge_files (filenames : list string) : M unit :=
  _start_using ;;;
  with_connect (
    let! s := get in
    let! sql :=
      (if _has_lines s then ret delete_line_bits
       else if _has_arcs s then ret delete_arc
       else raise (DataError (Text "Can't purge files in an empty CoverageData"))) in
    for_each filenames (λ filename,
      let! file_id := _file_id filename false in
      match file_id with
      | None => ret tt
      | Some id => db_write (sql id)
      end)).

(** *** Query path *)

(** [has_arcs]. *)
Definition has_arcs (s : CoverageData) : bool := _has_arcs s.

(** [measured_files]. *)
Definition measured_files (s : CoverageData) : gset string := dom (_file_map s).

(** [measured_contexts]. *)
Definition measured_contexts : M (gset string) :=
  _start_using ;;;
  with_connect (db_read (λ db, dom (tbl_context db))).

(** [set_query_context(context)]. *)
Definition set_query_context (context : string) : M unit :=
  _start_using ;;;
  with_connect (
    let! rows := db_read (λ db, option_list (tbl_context db !! context)) in
    modify (set_query_context_ids (Some rows))).

(** [context regexp ? or context regexp ? ...] on one row: the engine
    evaluates the disjuncts from the left, up to the first that holds;
    [None] when the function raises. *)
Fixpoint regexp_any (patterns : list string) (context : string) : option bool :=
  match patterns with
  | [] => Some false
  | pattern :: patterns' =>
      match regexp pattern context with
      | Some true => Some true
      | Some false => regexp_any patterns' context
      | None => None
      end
  end.

(** [select id from context where context regexp ? or context regexp ? ...];
    [None] when the function raises on some row. *)
Definition select_context_regexp (contexts : list string) (db : Database)
  : option (list Z) :=
  if forallb (λ row : string * Z, bool_decide (is_Some (regexp_any contexts row.1)))
             (map_to_list (tbl_context db))
  then Some (snd <$> filter (λ row : string * Z, regexp_any contexts row.1 = Some true)
                            (map_to_list (tbl_context db)))
  else None.

(** [set_query_contexts(contexts)]. *)
Definition set_query_contexts (contexts : option (list string)) : M unit :=
  _start_using ;;;
  match contexts with
  | Some (pattern :: patterns) =>
      with_connect (
        let! rows := db_read (select_context_regexp (pattern :: patterns)) in
        match rows with
        | Some ids => modify (set_query_context_ids (Some ids))
        | None => raise SqliteError
        end)
  | _ => modify (set_query_context_ids None)
  end.

(** The clause [and context_id in (?, ...)] added to a query when
    [self._query_context_ids is not None]. *)
Definition context_selected (ids : option (list Z)) (context_id : Z) : Prop :=
  match ids with
  | None => True
  | Some l => context_id ∈ l
  end.

#[export] Instance context_selected_dec ids context_id :
  Decision (context_selected ids context_id).
Proof. destruct ids; simpl; apply _. Defined.

(** [select distinct fromno, tono from arc where file_id = ? ...]. *)
Definition select_arcs (file_id : Z) (ids : option (list Z)) (db : Database)
  : gset (Z * Z) :=
  set_map (λ row : Z * Z * Z * Z, (row.1.2, row.2))
          (filter (λ row : Z * Z * Z * Z,
                     row.1.1.1 = file_id ∧ context_selected ids row.1.1.2)
                  (tbl_arc db)).

(** [arcs(filename)]; the list is "in no particular order". *)
Definition arcs (filename : string) : M (option (list (Z * Z))) :=
  _start_using ;;;
  with_connect (
    let! file_id := _file_id filename false in
    match file_id with
    | None => ret None
    | Some id =>
        let! s := get in
        let! rows := db_read (select_arcs id (_query_context_ids s)) in
        ret (Some (elements rows))
    end).

(** [select numbits from line_bits where file_id = ? ...]. *)
Definition select_numbits (file_id : Z) (ids : option (list Z)) (db : Database)
  : list numbits :=
  snd <$> map_to_list
            (filter (λ row : Z * Z * numbits,
                       row.1.1 = file_id ∧ context_selected ids row.1.2)
                    (tbl_line_bits db)).

(** [nums = set(); for row in bitmaps: nums.update(numbits_to_nums(row[0]))]. *)
Definition nums_of (bitmaps : list numbits) : gset Z :=
  foldl (λ nums row, nums ∪ list_to_set (Z.of_N <$> numbits_to_nums row)) ∅ bitmaps.

(** [lines(filename)]. *)
Definition lines (filename : string) : M (option (list Z)) :=
  _start_using ;;;
  let! s := get in
  let! from_arcs :=
    (if has_arcs s then
       let! arcs := arcs filename in
       match arcs with
       | Some pairs =>
           let all_lines := pairs ≫= (λ a : Z * Z, [a.1; a.2]) in
           ret (Some (elements (list_to_set (filter (λ l, 0 < l) all_lines) : gset Z)))
       | None => ret None
       end
     else ret None) in
  match from_arcs with
  | Some result => ret (Some result)
  | None =>
      with_connect (
        let! file_id := _file_id filename false in
        match file_id with
        | None => ret None
        | Some id =>
            let! s := get in
            let! bitmaps := db_read (select_numbits id (_query_context_ids s)) in
            ret (Some (elements (nums_of bitmaps)))
        end)
  end.

(** [lineno_contexts_map[lineno].add(context)] on a [defaultdict(set)]. *)
Definition add_context (lineno : Z) (context : string) (m : gmap Z (gset string))
  : gmap Z (gset string) :=
  <[lineno := default ∅ (m !! lineno) ∪ {[context]}]> m.

(** The rows [arc.fromno, arc.tono, context.context] of the arc query of
    [contexts_by_lineno]. *)
Definition select_arc_contexts (file_id : Z) (ids : option (list Z)) (db : Database)
  : list (Z * Z * string) :=
  elements (filter (λ row : Z * Z * Z * Z,
                      row.1.1.1 = file_id ∧ context_selected ids row.1.1.2)
                   (tbl_arc db))
    ≫= (λ row, (λ context, (row.1.2, row.2, context))
                 <$> names_of_id (tbl_context db) row.1.1.2).

(** The rows [l.numbits, c.context] of the line query of
    [contexts_by_lineno]. *)
Definition select_numbits_contexts (file_id : Z) (ids : option (list Z)) (db : Database)
  : list (numbits * string) :=
  map_to_list (filter (λ row : Z * Z * numbits,
                         row.1.1 = file_id ∧ context_selected ids row.1.2)
                      (tbl_line_bits db))
    ≫= (λ row, (λ context, (row.2, context)) <$> names_of_id (tbl_context db) row.1.2).

(** [contexts_by_lineno(filename)]; each list of contexts is in no particular
    order. *)
Definition contexts_by_lineno (filename : string) : M (gmap Z (list string)) :=
  _start_using ;;;
  with_connect (
    let! file_id := _file_id filename false in
    match file_id with
    | None => ret ∅
    | Some id =>
        let! s := get in
        let! lineno_contexts_map :=
          (if has_arcs s then
             let! rows := db_read (select_arc_contexts id (_query_context_ids s)) in
             ret (foldl (λ m row,
                           let m1 := if bool_decide (0 < row.1.1)
                                     then add_context row.1.1 row.2 m else m in
                           if bool_decide (0 < row.1.2)
                           then add_context row.1.2 row.2 m1 else m1)
                        ∅ rows)
           else
             let! rows := db_read (select_numbits_contexts id (_query_context_ids s)) in
             ret (foldl (λ m row,
                           foldl (λ m lineno, add_context (Z.of_N lineno) row.2 m)
                                 m (numbits_to_nums row.1))
                        ∅ rows)) in
        ret (elements <$> lineno_contexts_map)
    end).

(** *** Serialization *)

(** [loads(data)]. *)
Definition loads (data : list byte) : M unit :=
  if bool_decide (take 1 data ≠ [x7a]) then
    raise (DataError (Unrecognized_serialization (take 40 data) (length data)))
  else
    match decompress (drop 1 data) with
    | None => raise ForeignError
    | Some script =>
        modify (λ s, set_dbs true (if _no_disk s then set_storage None s else s)) ;;;
        transaction (
          let! s := get in
          match executescript script (storage s) with
          | None => raise ForeignError
          | Some db => modify (set_storage (Some db))
          end) ;;;
        _read_db ;;;
        modify (set_have_used true)
    end.

(** *** Merge engine *)

(** [d[key]] on a dict keyed by text. *)
Definition getitem {V} (d : gmap string V) (key : string) : M V :=
  match d !! key with
  | Some v => ret v
  | None => raise (KeyError key)
  end.

(** A list comprehension or generator whose elements may raise. *)
Fixpoint map_M {A B} (f : A → M B) (xs : list A) : M (list B) :=
  match xs with
  | [] => ret []
  | x :: xs' =>
      let! y := f x in
      let! ys := map_M f xs' in
      ret (y :: ys)
  end.

(** A loop that updates a local variable. *)
Fixpoint fold_M {A B} (f : B → A → M B) (xs : list A) (acc : B) : M B :=
  match xs with
  | [] => ret acc
  | x :: xs' =>
      let! acc' := f acc x in
      fold_M f xs' acc'
  end.

(** What [update] collects from [other_data]. *)
Record Collected : Type := mkCollected {
  other_files : gmap string string;
  other_contexts : list string;
  other_arcs : list (string * string * Z * Z);
  other_lines : gmap (string * string) numbits;
  other_tracers : gmap string string;
}.

(** [select file.path, context.context, arc.fromno, arc.tono from arc inner
    join file ... inner join context ...]. *)
Definition select_arc_join (db : Database) : list (string * string * Z * Z) :=
  elements (tbl_arc db) ≫= (λ row,
    names_of_id (tbl_file db) row.1.1.1 ≫= (λ path,
      (λ context, (path, context, row.1.2, row.2))
        <$> names_of_id (tbl_context db) row.1.1.2)).

(** [select file.path, context.context, line_bits.numbits from line_bits
    inner join file ... inner join context ...]. *)
Definition select_line_bits_join (db : Database) : list (string * string * numbits) :=
  map_to_list (tbl_line_bits db) ≫= (λ row,
    names_of_id (tbl_file db) row.1.1 ≫= (λ path,
      (λ context, (path, context, row.2)) <$> names_of_id (tbl_context db) row.1.2)).

(** [select file.path, tracer from tracer inner join file on file.id =
    tracer.file_id]. *)
Definition select_tracer_join (db : Database) : list (string * string) :=
  map_to_list (tbl_tracer db) ≫= (λ row,
    (λ path, (path, row.2)) <$> names_of_id (tbl_file db) row.1).

(** What [update] reads through the connection of [other_data], mapping the
    paths. *)
Definition collect_rows (map_path : string → string) (db : Database) : M Collected :=
  let files : gmap string string :=
    map_imap (λ path _, Some (map_path path)) (tbl_file db) in
  let contexts := (map_to_list (tbl_context db)).*1 in
  let! arcs :=
    map_M (λ row : string * string * Z * Z,
             let! file := getitem files row.1.1.1 in
             ret (file, row.1.1.2, row.1.2, row.2))
          (select_arc_join db) in
  let! lines :=
    fold_M (λ (lines : gmap (string * string) numbits) (row : string * string * numbits),
              let! file := getitem files row.1.1 in
              let key := (file, row.1.2) in
              let numbits :=
                match lines !! key with
                | Some numbits0 => numbits_union numbits0 row.2
                | None => row.2
                end in
              ret (<[key := numbits]> lines))
           (select_line_bits_join db) ∅ in
  let! tracers :=
    fold_M (λ (tracers : gmap string string) (row : string * string),
              let! file := getitem files row.1 in
              ret (<[file := row.2]> tracers))
           (select_tracer_join db) ∅ in
  ret (mkCollected files contexts arcs lines tracers).

(** The first half of [update], run on [other_data]. *)
Definition collect (map_path : string → string) : M Collected :=
  read ;;;
  with_connect (
    let! db := db_read id in
    collect_rows map_path db).

(** [this_tracers]: every file with the empty tracer, then overridden with
    the recorded tracers under [map_path(path)]. *)
Definition this_tracers (map_path : string → string) (db : Database) : gmap string string :=
  foldl (λ (d : gmap string string) (row : string * string), <[map_path row.1 := row.2]> d)
        ∅ (select_tracer_join db)
  ∪ ((λ _, "") <$> tbl_file db).

(** The loop "Prepare tracers and fail, if a conflict is found". *)
Definition prepare_tracers (this_tracers tracers : gmap string string)
    (paths : list string) : M (gmap string string) :=
  fold_M (λ (tracer_map : gmap string string) (path : string),
            let this_tracer := this_tracers !! path in
            let other_tracer := default "" (tracers !! path) in
            match this_tracer with
            | Some name =>
                if bool_decide (name ≠ other_tracer) then
                  raise (DataError (Conflicting_file_tracer_name path name other_tracer))
                else ret (<[path := other_tracer]> tracer_map)
            | None => ret (<[path := other_tracer]> tracer_map)
            end)
         paths ∅.

(** The second half of [update], run on [self]. *)
Definition merge (map_path : string → string) (c : Collected) : M unit :=
  with_connect (
    let! db := db_read id in
    let this_tracers := this_tracers map_path db in
    let paths := (map_to_list (other_files c)).*2 in
    db_write (λ db, set_tbl_file
                      (foldl (λ tbl file, insert_or_ignore_name file tbl) (tbl_file db) paths)
                      db) ;;;
    let! file_ids := db_read tbl_file in
    modify (λ s, set_file_map (file_ids ∪ _file_map s) s) ;;;
    db_write (λ db, set_tbl_context
                      (foldl (λ tbl context, insert_or_ignore_name context tbl)
                             (tbl_context db) (other_contexts c))
                      db) ;;;
    let! context_ids := db_read tbl_context in
    let! tracer_map := prepare_tracers this_tracers (other_tracers c) paths in
    match other_arcs c with
    | [] => ret tt
    | _ =>
        _choose_lines_or_arcs false true ;;;
        let! arc_rows :=
          map_M (λ row : string * string * Z * Z,
                   let! file_id := getitem file_ids row.1.1.1 in
                   let! context_id := getitem context_ids row.1.1.2 in
                   ret (file_id, context_id, row.1.2, row.2))
                (other_arcs c) in
        db_write (λ db, set_tbl_arc (tbl_arc db ∪ list_to_set arc_rows) db)
    end ;;;
    (if bool_decide (other_lines c = ∅) then ret tt
     else
       _choose_lines_or_arcs true false ;;;
       let! rows :=
         map_M (λ item : string * string * numbits,
                  let! file_id := getitem file_ids item.1.1 in
                  let! context_id := getitem context_ids item.1.2 in
                  let! existing := db_read (λ db, tbl_line_bits db !! (file_id, context_id)) in
                  ret (file_id, context_id,
                       match existing with
                       | Some numbits0 => numbits_union item.2 numbits0
                       | None => item.2
                       end))
               (map_to_list (other_lines c)) in
       db_write (λ db, set_tbl_line_bits
                         (foldl (λ tbl (row : Z * Z * numbits), <[row.1 := row.2]> tbl)
                                (tbl_line_bits db) rows)
                         db)) ;;;
    let! tracer_rows :=
      map_M (λ item : string * string,
               let! file_id := getitem file_ids item.1 in
               ret (file_id, item.2))
            (map_to_list tracer_map) in
    db_write (λ db, set_tbl_tracer
                      (foldl (λ tbl (row : Z * string), insert_or_ignore_tracer row.1 row.2 tbl)
                             (tbl_tracer db) tracer_rows)
                      db)) ;;;
  let! s := get in
  if negb (_no_disk s) then _reset ;;; read else ret tt.

(** The outcome of [self.update(other_data, map_path)]: both objects. *)
Inductive UpdateResult : Type :=
| Updated (self other_data : CoverageData)
| UpdateRaise (e : Exception) (self other_data : CoverageData).

(** [update(other_data, map_path)]. *)
Definition update (self other_data : CoverageData) (map_path : option (string → string))
  : UpdateResult :=
  if _has_lines self && _has_arcs other_data then
    UpdateRaise (DataError (Text "Can't combine arc data with line data")) self other_data
  else if _has_arcs self && _has_lines other_data then
    UpdateRaise (DataError (Text "Can't combine line data with arc data")) self other_data
  else
    let map_path := default (λ p, p) map_path in
    match _start_using self with
    | Raise e self1 => UpdateRaise e self1 other_data
    | Ok _ self1 =>
        match collect map_path other_data with
        | Raise e other1 => UpdateRaise e self1 other1
        | Ok c other1 =>
            match merge map_path c self1 with
            | Raise e self2 => UpdateRaise e self2 other1
            | Ok _ self2 => Updated self2 other1
            end
        end
    end.

(** ** Predicates used in the statements *)

(** The store is in use: [_start_using] and [_connect] have run. *)
Definition ready (s : CoverageData) : Prop :=
  _have_used s = true ∧ _dbs s = true ∧ is_Some (storage s).

(** Bit [n] of a blob, false beyond its end. *)
Definition bit_at (b : numbits) (n : N) : bool :=
  N.testbit (default 0%N (b !! N.to_nat (n / 8))) (n mod 8).

(** The store is in at most one mode. *)
Definition mode_ok (s : CoverageData) : Prop :=
  ¬ (_has_lines s = true ∧ _has_arcs s = true).

(** The store has no mode yet. *)
Definition no_mode (s : CoverageData) : Prop :=
  _has_lines s = false ∧ _has_arcs s = false.

(** The store is in use with these mode flags. *)
Definition committed (lines arcs : bool) (s : CoverageData) : Prop :=
  _have_used s = true ∧ _dbs s = true ∧ _has_lines s = lines ∧ _has_arcs s = arcs.

(** The store is in use and committed to line-mode, resp. arc-mode. *)
Definition line_mode : CoverageData → Prop := committed true false.
Definition arc_mode : CoverageData → Prop := committed false true.

(** The value recorded under a key of [meta], if any. *)
Definition meta_value (key : string) (s : CoverageData) : option string :=
  db ← storage s; tbl_meta db !! key.

(** What the object and the file under its name agree on outside a call:
    an open connection has a database, whose [meta] has no mode while the
    object has none; a disk store that was used and then reset has had its
    file erased. *)
Definition lifecycle_ok (s : CoverageData) : Prop :=
  (_dbs s = true →
     is_Some (storage s) ∧ (no_mode s → meta_value "has_arcs" s = None))
  ∧ (_dbs s = false → _no_disk s = false → _have_used s = true → storage s = None).

(** The rows of the data tables ([file], [context], [line_bits], [arc],
    [tracer]) of the store; none when there is no database. *)
Definition data_rows (s : CoverageData)
  : gmap string Z * gmap string Z * gmap (Z * Z) numbits * gset (Z * Z * Z * Z)
    * gmap Z string :=
  match storage s with
  | Some db => (tbl_file db, tbl_context db, tbl_line_bits db, tbl_arc db, tbl_tracer db)
  | None => (∅, ∅, ∅, ∅, ∅)
  end.

Definition no_rows
  : gmap string Z * gmap string Z * gmap (Z * Z) numbits * gset (Z * Z * Z * Z)
    * gmap Z string := (∅, ∅, ∅, ∅, ∅).

(** The state an operation leaves, whether it returns or raises. *)
Definition state_after {A} (r : Result A) : CoverageData :=
  match r with
  | Ok _ s => s
  | Raise _ s => s
  end.

(** [post R E r]: when [r] returns, the state satisfies [R]; when it raises
    [e], [E e] holds of the state. *)
Definition post {A} (R : CoverageData → Prop) (E : Exception → CoverageData → Prop)
    (r : Result A) : Prop :=
  match r with
  | Ok _ s => R s
  | Raise e s => E e s
  end.

(** [R] holds however the operation ends. *)
Definition always (R : CoverageData → Prop) : Exception → CoverageData → Prop :=
  λ _ s, R s.

(** Nothing is said of the state after an error. *)
Definition whatever : Exception → CoverageData → Prop := λ _ _, True.

(** The calls of the public interface on one store. *)
Inductive Call : Type :=
| Call_set_context (context : option string)
| Call_add_lines (line_data : list (string * list N))
| Call_add_arcs (arc_data : list (string * list (Z * Z)))
| Call_add_file_tracers (file_tracers : list (string * string))
| Call_touch_files (filenames : list string) (plugin_name : option string)
| Call_purge_files (filenames : list string)
| Call_erase
| Call_read
| Call_loads (data : list byte)
| Call_file_tracer (filename : string)
| Call_measured_contexts
| Call_set_query_context (context : string)
| Call_set_query_contexts (contexts : option (list string))
| Call_lines (filename : string)
| Call_arcs (filename : string)
| Call_contexts_by_lineno (filename : string).

(** The store after a call. *)
Definition call (c : Call) (s : CoverageData) : CoverageData :=
  match c with
  | Call_set_context context => state_after (set_context context s)
  | Call_add_lines line_data => state_after (add_lines line_data s)
  | Call_add_arcs arc_data => state_after (add_arcs arc_data s)
  | Call_add_file_tracers file_tracers => state_after (add_file_tracers file_tracers s)
  | Call_touch_files filenames plugin_name => state_after (touch_files filenames plugin_name s)
  | Call_purge_files filenames => state_after (purge_files filenames s)
  | Call_erase => state_after (erase s)
  | Call_read => state_after (read s)
  | Call_loads data => state_after (loads data s)
  | Call_file_tracer filename => state_after (file_tracer filename s)
  | Call_measured_contexts => state_after (measured_contexts s)
  | Call_set_query_context context => state_after (set_query_context context s)
  | Call_set_query_contexts contexts => state_after (set_query_contexts contexts s)
  | Call_lines filename => state_after (lines filename s)
  | Call_arcs filename => state_after (arcs filename s)
  | Call_contexts_by_lineno filename => state_after (contexts_by_lineno filename s)
  end.

(** The calls that neither discard the store's state nor load a foreign
    one: all but [erase], [read] and [loads]. *)
Definition keeps_store (c : Call) : Prop :=
  match c with
  | Call_erase | Call_read | Call_loads _ => False
  | _ => True
  end.

(** What [collect_rows] returns: no lookup in [files] can fail. *)
Definition collected (map_path : string → string) (db : Database) : Collected :=
  mkCollected
    (map_imap (λ path _, Some (map_path path)) (tbl_file db))
    ((map_to_list (tbl_context db)).*1)
    ((λ row : string * string * Z * Z, (map_path row.1.1.1, row.1.1.2, row.1.2, row.2))
       <$> select_arc_join db)
    (foldl (λ (lines : gmap (string * string) numbits) (row : string * string * numbits),
              <[(map_path row.1.1, row.1.2) :=
                  match lines !! (map_path row.1.1, row.1.2) with
                  | Some numbits0 => numbits_union numbits0 row.2
                  | None => row.2
                  end]> lines)
           ∅ (select_line_bits_join db))
    (foldl (λ (tracers : gmap string string) (row : string * string),
              <[map_path row.1 := row.2]> tracers)
           ∅ (select_tracer_join db)).

(** The errors of a mode conflict. *)
Definition is_mode_conflict (e : Exception) : Prop :=
  e = DataError (Text "Can't add line measurements to existing branch data")
  ∨ e = DataError (Text "Can't add branch measurements to existing line data")
  ∨ e = DataError (Text "Can't combine arc data with line data")
  ∨ e = DataError (Text "Can't combine line data with arc data").

(** The store holds rows of at most one of [arc] and [line_bits]. *)
Definition one_kind (s : CoverageData) : Prop :=
  ∀ db, storage s = Some db → tbl_arc db = ∅ ∨ tbl_line_bits db = ∅.

(** The tracer recorded for a file of the store: [""] for a measured file
    without a [tracer] row, [None] for a file that is not measured. *)
Definition tracer_of (s : CoverageData) (filename : string) : option string :=
  id ← _file_map s !! filename;
  db ← storage s;
  Some (default "" (tbl_tracer db !! id)).


(** Both line numbers of the arc are signed 64-bit integers. *)
Definition arc_in_range (a : Z * Z) : Prop := is_int64 a.1 = true ∧ is_int64 a.2 = true.

(** Every arc of the data can be bound to a statement. *)
Definition arcs_in_range (arc_data : list (string * list (Z * Z))) : Prop :=
  Forall (λ item : string * list (Z * Z), Forall arc_in_range item.2) arc_data.

(** The values that the call passes to the engine can be bound: the line
    numbers of arcs are signed 64-bit integers. *)
Definition bindable (c : Call) : Prop :=
  match c with
  | Call_add_arcs arc_data => arcs_in_range arc_data
  | _ => True
  end.

(** The text contains the pattern: [pattern in text]. *)
Definition contains (pattern text : string) : Prop :=
  ∃ before after, text = before +:+ pattern +:+ after.

(** The ids under which the files named in [filenames] are known. *)
Definition ids_of (s : CoverageData) (filenames : list string) : list Z :=
  omap (λ filename, _file_map s !! filename) filenames.

(** What [lines] computes from the arcs of a file in arc-mode. *)
Definition lines_of_arcs (pairs : list (Z * Z)) : list Z :=
  elements (list_to_set (filter (λ l, 0 < l) (pairs ≫= (λ a : Z * Z, [a.1; a.2]))) : gset Z).

(** The two loops of [contexts_by_lineno] that fill [lineno_contexts_map]. *)
Definition arc_contexts_map (rows : list (Z * Z * string)) : gmap Z (gset string) :=
  foldl (λ m row,
           let m1 := if bool_decide (0 < row.1.1)
                     then add_context row.1.1 row.2 m else m in
           if bool_decide (0 < row.1.2)
           then add_context row.1.2 row.2 m1 else m1)
        ∅ rows.
Definition line_contexts_map (rows : list (numbits * string)) : gmap Z (gset string) :=
  foldl (λ m row,
           foldl (λ m lineno, add_context (Z.of_N lineno) row.2 m)
                 m (numbits_to_nums row.1))
        ∅ rows.

(** [context] is among the contexts recorded for [lineno] in a map of
    [contexts_by_lineno]. *)
Definition has_context {V} `{ElemOf string V} (m : gmap Z V) (lineno : Z) (context : string)
  : Prop :=
  ∃ contexts, m !! lineno = Some contexts ∧ context ∈ contexts.

(** The constraints that [SCHEMA] declares and the engine does not enforce:
    the [id]s of [file] are distinct, and every [file_id] of [line_bits],
    [arc] and [tracer] is the id of a [file] row ("foreign key (file_id)
    references file (id)"). *)
Definition file_ids_distinct (db : Database) : Prop :=
  ∀ path1 path2 id,
    tbl_file db !! path1 = Some id → tbl_file db !! path2 = Some id → path1 = path2.

Definition references_ok (db : Database) : Prop :=
  (∀ key, is_Some (tbl_line_bits db !! key) → ∃ path, tbl_file db !! path = Some key.1)
  ∧ (∀ row, row ∈ tbl_arc db → ∃ path, tbl_file db !! path = Some row.1.1.1)
  ∧ (∀ id, is_Some (tbl_tracer db !! id) → ∃ path, tbl_file db !! path = Some id).

(** [self._file_map] mirrors the [file] table. *)
Definition cache_ok (s : CoverageData) : Prop :=
  ∀ db, storage s = Some db → _file_map s = tbl_file db.

(** A store in use whose cache mirrors the [file] table and whose database
    satisfies the declared constraints. *)
Definition store_ok (s : CoverageData) : Prop :=
  ready s
  ∧ ∃ db, storage s = Some db ∧ _file_map s = tbl_file db
          ∧ file_ids_distinct db ∧ references_ok db.

(** Line [n] is in the numbits of some [line_bits] row of the file. *)
Definition has_line (s : CoverageData) (filename : string) (n : Z) : Prop :=
  ∃ db id context_id nb k,
    storage s = Some db ∧ _file_map s !! filename = Some id
    ∧ tbl_line_bits db !! (id, context_id) = Some nb
    ∧ k ∈ numbits_to_nums nb ∧ n = Z.of_N k.

(** The attributes that adding data leaves alone. *)
Definition same_attrs (s s' : CoverageData) : Prop :=
  _no_disk s' = _no_disk s ∧ _has_lines s' = _has_lines s ∧ _has_arcs s' = _has_arcs s
  ∧ _current_context s' = _current_context s
  ∧ _query_context_ids s' = _query_context_ids s.

(** From [s] to [s'], exactly the line data [added] has been recorded: the
    files of [added] have become known, and their lines are the old ones and
    the added ones. *)
Definition extends (added : list (string * list N)) (s s' : CoverageData) : Prop :=
  (∀ g, is_Some (_file_map s' !! g) ↔ is_Some (_file_map s !! g) ∨ g ∈ added.*1)
  ∧ (∀ g n, has_line s' g n
            ↔ has_line s g n ∨ ∃ nums k, (g, nums) ∈ added ∧ k ∈ nums ∧ n = Z.of_N k).

(** The store after [_start_using], which never raises. *)
Definition started (s : CoverageData) : CoverageData := state_after (_start_using s).

(** The messages of the mode conflicts. *)
Definition lines_on_arcs : Exception :=
  DataError (Text "Can't add line measurements to existing branch data").
Definition arcs_on_lines : Exception :=
  DataError (Text "Can't add branch measurements to existing line data").

(** ** Deciding the predicates on a given store *)

#[export] Instance ready_dec s : Decision (ready s).
Proof. unfold ready. apply _. Defined.

#[export] Instance file_ids_distinct_dec db : Decision (file_ids_distinct db).
Proof.
  destruct (decide (map_Forall (λ path1 id1,
              map_Forall (λ path2 id2, id1 = id2 → path1 = path2) (tbl_file db))
              (tbl_file db))) as [Hyes|Hno]; [left|right];
    unfold file_ids_distinct, map_Forall in *.
  - intros path1 path2 id H1 H2. by eapply (Hyes path1 id H1 path2 id H2).
  - intros H. apply Hno. intros path1 id1 H1 path2 id2 H2 <-. by eapply H.
Defined.

#[export] Instance references_ok_dec db : Decision (references_ok db).
Proof.
  pose (known := λ id : Z, map_Exists (λ _ id', id' = id) (tbl_file db)).
  destruct (decide (map_Forall (λ (key : Z * Z) _, known key.1) (tbl_line_bits db)
                    ∧ set_Forall (λ row : Z * Z * Z * Z, known row.1.1.1) (tbl_arc db)
                    ∧ map_Forall (λ id _, known id) (tbl_tracer db)))
    as [(Hl & Ha & Ht)|Hno]; [left|right];
    unfold references_ok, known, map_Forall, set_Forall, map_Exists in *.
  - split; [|split].
    + intros key [nb Hkey]. destruct (Hl key nb Hkey) as (path & id & Hp & ->). by exists path.
    + intros row Hrow. destruct (Ha row Hrow) as (path & id & Hp & ->). by exists path.
    + intros id [name Hid]. destruct (Ht id name Hid) as (path & id' & Hp & ->). by exists path.
  - intros (Hl & Ha & Ht). apply Hno. split; [|split].
    + intros key nb Hkey. destruct (Hl key (ex_intro _ nb Hkey)) as [path Hp]. by exists path, key.1.
    + intros row Hrow. destruct (Ha row Hrow) as [path Hp]. by exists path, row.1.1.1.
    + intros id name Hid. destruct (Ht id (ex_intro _ name Hid)) as [path Hp]. by exists path, id.
Defined.

#[export] Instance store_ok_dec s : Decision (store_ok s).
Proof.
  unfold store_ok. destruct (storage s) as [db|].
  - destruct (decide (ready s ∧ _file_map s = tbl_file db
                      ∧ file_ids_distinct db ∧ references_ok db))
      as [(? & ? & ? & ?)|Hno]; [left|right].
    + split; [done|]. by exists db.
    + intros (? & db' & [= <-] & ? & ? & ?). by apply Hno.
  - right. by intros (_ & db & [=] & _).
Defined.

(** ** Stores of the examples *)

(** A store in memory after its first query: in use, connected, without
    data. *)
Definition new_store : CoverageData := state_after (measured_contexts (__init__ true None)).

(** The database of a store: the initial one when it has none. *)
Definition database (s : CoverageData) : Database := default _init_db (storage s).

(** Lines of two files, recorded under two contexts. *)
Definition two_contexts_store : CoverageData :=
  state_after
    (add_lines [("a.py", [4%N; 5%N])]
       (state_after
          (set_context (Some "integration")
             (state_after
                (add_lines [("a.py", [1%N; 2%N]); ("b.py", [7%N])]
                   (state_after (set_context (Some "unit_tests") new_store))))))).

(** The same store, queried under the context ["integration"]. *)
Definition integration_store : CoverageData :=
  state_after (set_query_context "integration" two_contexts_store).

(** Arcs of two files. *)
Definition arcs_store : CoverageData :=
  state_after (add_arcs [("a.py", [(-1, 1); (1, 2); (2, -1)]); ("b.py", [(-1, 7)])] new_store).

(** A merge repeated under a path map that is not idempotent: the other
    store has one traced file, ["a"], which the map sends to ["b"], while it
    sends ["b"] to ["c"]. *)
Definition chain_map (path : string) : string :=
  if bool_decide (path = "a") then "b"
  else if bool_decide (path = "b") then "c"
  else path.

Definition traced_store : CoverageData :=
  state_after (add_file_tracers [("a", "T")]
                 (state_after (add_lines [("a", [1%N])] (__init__ true None)))).

Definition merged_once : UpdateResult :=
  update (__init__ true None) traced_store (Some chain_map).

Definition merged_twice : UpdateResult :=
  match merged_once with
  | Updated self other_data => update self other_data (Some chain_map)
  | UpdateRaise e self other_data => UpdateRaise e self other_data
  end.

(** The store is in use and its [meta] table records [has_arcs] as [v]. *)
Definition meta_recorded (v : string) (s : CoverageData) : Prop :=
  _have_used s = true ∧ _dbs s = true ∧ meta_value "has_arcs" s = Some v.

(** Where the database of an opened store comes from. *)
Definition opened_from (s0 s : CoverageData) : Prop :=
  ∀ db, storage s = Some db → storage s0 = Some db ∨ db = _init_db.

(** What is raised is not a mode conflict. *)
Definition no_conflict : Exception → CoverageData → Prop :=
  λ e _, ¬ is_mode_conflict e.

(** The body of [merge] on a store whose connection is open and which is
    not in the mode that the incoming rows do not need. *)
Definition mergeable (no_lines : bool) (s : CoverageData) : Prop :=
  _dbs s = true ∧ (if no_lines then _has_lines s = false else _has_arcs s = false).

(** ** Predicates of the further properties *)

(** Arc [a] of the file is in the [arc] table. *)
Definition has_arc (s : CoverageData) (filename : string) (a : Z * Z) : Prop :=
  ∃ db id context_id,
    storage s = Some db ∧ _file_map s !! filename = Some id
    ∧ (id, context_id, a.1, a.2) ∈ tbl_arc db.

(** From [s] to [s'], exactly the arc data [added] has been recorded: the
    files of [added] with arcs have become known, and their arcs are the old
    ones and the added ones. *)
Definition extends_arcs (added : list (string * list (Z * Z))) (s s' : CoverageData) : Prop :=
  (∀ g, is_Some (_file_map s' !! g)
        ↔ is_Some (_file_map s !! g) ∨ ∃ arcs, (g, arcs) ∈ added ∧ arcs ≠ [])
  ∧ (∀ g a, has_arc s' g a ↔ has_arc s g a ∨ ∃ arcs, (g, arcs) ∈ added ∧ a ∈ arcs).

(** The store with a new [file] row for [filename], as [_file_id(filename,
    add=True)] leaves it. *)
Definition with_file (filename : string) (db : Database) (s : CoverageData) : CoverageData :=
  set_file_map (<[filename := next_rowid (tbl_file db)]> (_file_map s))
    (set_storage (Some (set_tbl_file (insert_or_replace_name filename (tbl_file db)) db)) s).

(** From [s] to [s'] the cache and the tables [file], [line_bits], [arc]
    and [tracer] are the same. *)
Definition same_rows (s s' : CoverageData) : Prop :=
  _file_map s' = _file_map s
  ∧ ∃ db db', storage s = Some db ∧ storage s' = Some db'
              ∧ tbl_file db' = tbl_file db ∧ tbl_line_bits db' = tbl_line_bits db
              ∧ tbl_arc db' = tbl_arc db ∧ tbl_tracer db' = tbl_tracer db.

(** The [tracer] row of a file, if the file is known and has one. *)
Definition tracer_row (s : CoverageData) (filename : string) : option string :=
  id ← _file_map s !! filename;
  db ← storage s;
  tbl_tracer db !! id.

(** [__bool__]; [caught e] tells whether [e] is an instance of
    [CoverageException] ([coverage.exceptions] is not among the sources). *)
Definition __bool__ (caught : Exception → bool) : M bool :=
  λ s, if negb (_dbs s) && negb (path_exists s) then Ok false s
       else match with_connect (db_read (λ db, bool_decide (tbl_file db ≠ ∅))) s with
            | Ok b s' => Ok b s'
            | Raise e s' => if caught e then Ok false s' else Raise e s'
            end.

(** The object agrees with the database: the schema version is the
    module's, the cache is the [file] table, and the mode flags are what
    [meta] records under ["has_arcs"]. *)
Definition in_sync (s : CoverageData) (db : Database) : Prop :=
  tbl_coverage_schema db = [SCHEMA_VERSION]
  ∧ _file_map s = tbl_file db
  ∧ match tbl_meta db !! "has_arcs" with
    | None => no_mode s
    | Some value => value = str_int (_has_arcs s) ∧ _has_lines s = negb (_has_arcs s)
    end.

(** Two stores in use give the same answers: same database, cache, mode and
    query contexts. *)
Definition same_view (s t : CoverageData) : Prop :=
  ready s ∧ ready t ∧ storage t = storage s ∧ _file_map t = _file_map s
  ∧ _has_arcs t = _has_arcs s ∧ _query_context_ids t = _query_context_ids s.

(** [dumps]; [dump db] is the script that [con.dump()] returns, and
    [compress script] is [zlib.compress(script.encode("utf-8"))]. *)
Definition dumps (dump : Database → string) (compress : string → list byte)
  : M (list byte) :=
  with_connect (
    let! script := db_read dump in
    ret (x7a :: compress script)).

(** Every [context_id] of a [line_bits] or [arc] row is the id of a
    [context] row ("foreign key (context_id) references context (id)"). *)
Definition context_references_ok (db : Database) : Prop :=
  (∀ key, is_Some (tbl_line_bits db !! key) → ∃ context, tbl_context db !! context = Some key.2)
  ∧ (∀ row, row ∈ tbl_arc db → ∃ context, tbl_context db !! context = Some row.1.1.2).

(** No line of the map has an empty set of contexts. *)
Definition contexts_inhabited (m : gmap Z (gset string)) : Prop :=
  ∀ lineno contexts, m !! lineno = Some contexts → contexts ≠ ∅.

(** The ids of [context] are distinct ([id integer primary key]). *)
Definition context_ids_distinct (db : Database) : Prop :=
  ∀ context1 context2 id,
    tbl_context db !! context1 = Some id → tbl_context db !! context2 = Some id →
    context1 = context2.

(** Line [n] of the file is recorded under the context. *)
Definition line_in_context (s : CoverageData) (filename context : string) (n : Z) : Prop :=
  ∃ db id context_id nb k,
    storage s = Some db ∧ _file_map s !! filename = Some id
    ∧ tbl_context db !! context = Some context_id
    ∧ tbl_line_bits db !! (id, context_id) = Some nb
    ∧ k ∈ numbits_to_nums nb ∧ n = Z.of_N k.

(** The store satisfies the declared constraints, those on contexts too. *)
Definition store_ok_contexts (s : CoverageData) : Prop :=
  store_ok s
  ∧ ∃ db, storage s = Some db ∧ context_ids_distinct db ∧ context_references_ok db.

(** The calls of the collection phase and the queries: all but [erase],
    [read], [loads], and the calls that write tracers. *)
Definition collects_or_queries (c : Call) : Prop :=
  match c with
  | Call_erase | Call_read | Call_loads _ | Call_add_file_tracers _ => False
  | Call_touch_files _ plugin_name => truthy plugin_name = false
  | _ => True
  end.

#[export] Instance context_ids_distinct_dec db : Decision (context_ids_distinct db).
Proof.
  destruct (decide (map_Forall (λ context1 id1,
              map_Forall (λ context2 id2, id1 = id2 → context1 = context2) (tbl_context db))
              (tbl_context db))) as [Hyes|Hno]; [left|right];
    unfold context_ids_distinct, map_Forall in *.
  - intros c1 c2 id H1 H2. by eapply (Hyes c1 id H1 c2 id H2).
  - intros H. apply Hno. intros c1 id1 H1 c2 id2 H2 <-. by eapply H.
Defined.

#[export] Instance context_references_ok_dec db : Decision (context_references_ok db).
Proof.
  pose (known := λ id : Z, map_Exists (λ _ id', id' = id) (tbl_context db)).
  destruct (decide (map_Forall (λ (key : Z * Z) _, known key.2) (tbl_line_bits db)
                    ∧ set_Forall (λ row : Z * Z * Z * Z, known row.1.1.2) (tbl_arc db)))
    as [(Hl & Ha)|Hno]; [left|right];
    unfold context_references_ok, known, map_Forall, set_Forall, map_Exists in *.
  - split.
    + intros key [nb Hkey]. destruct (Hl key nb Hkey) as (c & id & Hc & ->). by exists c.
    + intros row Hrow. destruct (Ha row Hrow) as (c & id & Hc & ->). by exists c.
  - intros (Hl & Ha). apply Hno. split.
    + intros key nb Hkey. destruct (Hl key (ex_intro _ nb Hkey)) as [c Hc]. by exists c, key.2.
    + intros row Hrow. destruct (Ha row Hrow) as [c Hc]. by exists c, row.1.1.2.
Defined.

#[export] Instance store_ok_contexts_dec s : Decision (store_ok_contexts s).
Proof.
  unfold store_ok_contexts. destruct (storage s) as [db|].
  - destruct (decide (store_ok s ∧ context_ids_distinct db ∧ context_references_ok db))
      as [(? & ? & ?)|Hno]; [left|right].
    + split; [done|]. by exists db.
    + intros (? & db' & [= <-] & ? & ?). by apply Hno.
  - right. by intros (_ & db & [=] & _).
Defined.

#[export] Instance in_sync_dec s db : Decision (in_sync s db).
Proof.
  unfold in_sync, no_mode. destruct (tbl_meta db !! "has_arcs"); apply _.
Defined.

(** ** Stores of the further examples *)

(** A store on disk with the lines of one file. *)
Definition disk_store : CoverageData :=
  state_after (add_lines [("a.py", [1%N; 2%N])] (__init__ false None)).

(** A data file written under another schema version. *)
Definition old_schema_file : Database := mkDatabase [6] ∅ ∅ ∅ ∅ ∅ ∅.

(** [DataError] is a [CoverageException]. *)
Definition data_errors_caught (e : Exception) : bool :=
  match e with
  | DataError _ => true
  | _ => false
  end.


(** [executemany("insert or ignore into <table> (<text>) values (?)", names)]
    on [file] or [context]. *)
Definition insert_names (names : list string) (tbl : gmap string Z) : gmap string Z :=
  foldl (λ tbl name, insert_or_ignore_name name tbl) tbl names.

(** [executemany("insert or replace into line_bits ... values (?, ?, ?)", rows)]:
    the rows are keyed by [(file_id, context_id)]. *)
Definition write_rows (rows : list (Z * Z * numbits)) (tbl : gmap (Z * Z) numbits)
  : gmap (Z * Z) numbits :=
  foldl (λ tbl (row : Z * Z * numbits), <[row.1 := row.2]> tbl) tbl rows.

(** The ids of a [file] or [context] table are distinct. *)
Definition names_distinct (tbl : gmap string Z) : Prop :=
  ∀ name1 name2 id, tbl !! name1 = Some id → tbl !! name2 = Some id → name1 = name2.

(** No file of the database was measured by a plugin: every [tracer] row has
    the empty name. *)
Definition no_plugins (db : Database) : Prop :=
  map_Forall (λ _ name, name = "") (tbl_tracer db).

(** The [line_bits] rows that [update] writes: for each collected key, its
    numbits united with the numbits of the row it replaces. *)
Definition merged_rows (files contexts : gmap string Z) (tbl : gmap (Z * Z) numbits)
    (lines : gmap (string * string) numbits) : list (Z * Z * numbits) :=
  (λ item : string * string * numbits,
     let file_id := default 0 (files !! item.1.1) in
     let context_id := default 0 (contexts !! item.1.2) in
     (file_id, context_id,
      match tbl !! (file_id, context_id) with
      | Some numbits0 => numbits_union item.2 numbits0
      | None => item.2
      end)) <$> map_to_list lines.

(** The [tracer] table after [executemany("insert or ignore into tracer
    (file_id, tracer) values (?, ?)", ...)] with the rows of [tracer_map]. *)
Definition merged_tracers (files : gmap string Z) (tracer_map : gmap string string)
    (tbl : gmap Z string) : gmap Z string :=
  foldl (λ tbl (row : Z * string), insert_or_ignore_tracer row.1 row.2 tbl) tbl
        ((λ item : string * string, (default 0 (files !! item.1), item.2))
           <$> map_to_list tracer_map).

(** [tracer_map] of [update] when the loop that prepares it finds no
    conflict: every path of the other store with its tracer there, the
    empty name when it has none. *)
Definition merged_tracer_map (tracers : gmap string string) (paths : list string)
  : gmap string string :=
  foldl (λ (tracer_map : gmap string string) path,
           <[path := default "" (tracers !! path)]> tracer_map) ∅ paths.

#[export] Instance no_plugins_dec db : Decision (no_plugins db).
Proof. unfold no_plugins. apply _. Defined.

(** ** Stores of the merge examples *)

(** The lines of a second run, recorded for the files under other names. *)
Definition second_run : CoverageData :=
  state_after
    (add_lines [("a", [2%N; 3%N]); ("c", [1%N])]
       (state_after (set_context (Some "unit_tests") (__init__ false None)))).

(** A path map that gives the files of the second run the names of the
    first. *)
Definition with_suffix (path : string) : string := path +:+ ".py".

(** The [arc] rows that [update] writes: the collected arcs under the ids of
    their file and context. *)
Definition merged_arcs (files contexts : gmap string Z)
    (arcs : list (string * string * Z * Z)) : list (Z * Z * Z * Z) :=
  (λ row : string * string * Z * Z,
     (default 0 (files !! row.1.1.1), default 0 (contexts !! row.1.1.2), row.1.2, row.2))
    <$> arcs.

(** Arc [(fromno, tono)] of the file is recorded under the context. *)
Definition arc_in_context (s : CoverageData) (filename context : string) (a : Z * Z) : Prop :=
  ∃ db id context_id,
    storage s = Some db ∧ _file_map s !! filename = Some id
    ∧ tbl_context db !! context = Some context_id
    ∧ (id, context_id, a.1, a.2) ∈ tbl_arc db.

(** The arcs of a second run, recorded for the files under other names. *)
Definition second_arcs_run : CoverageData :=
  state_after (add_arcs [("a", [(-1, 2); (2, 5)]); ("c", [(-1, 1)])] (__init__ false None)).
(* ===================================================================== *)
(** * Properties *)
(* ===================================================================== *)

(** ** The numbits codec *)

Section numbits_facts.
Local Open Scope N_scope.

Lemma testbit_bits (P : N → bool) (l : list N) (i : N) :
  N.testbit (foldr (λ bit_i acc, if P bit_i then N.lor (N.shiftl 1 bit_i) acc else acc) 0 l) i
  = bool_decide (i ∈ l) && P i.
Proof.
  induction l as [|b l IH]; simpl; [reflexivity|].
  apply Bool.eq_iff_eq_true. destruct (P b) eqn:HP.
  - rewrite N.lor_spec, IH, N.shiftl_1_l, N.pow2_bits_eqb.
    rewrite orb_true_iff, !andb_true_iff, !bool_decide_eq_true, N.eqb_eq, elem_of_cons.
    (tidy; naive_solver).
  - rewrite IH, !andb_true_iff, !bool_decide_eq_true, elem_of_cons.
    (tidy; naive_solver congruence).
Qed.

Lemma elem_of_bit_indices (m : N) : m ∈ [0; 1; 2; 3; 4; 5; 6; 7] ↔ m < 8.
Proof.
  split.
  - intros Hin. repeat (apply elem_of_cons in Hin as [->|Hin]; [lia|]).
    by apply elem_of_nil in Hin.
  - intros Hlt.
    assert (m = 0 ∨ m = 1 ∨ m = 2 ∨ m = 3 ∨ m = 4 ∨ m = 5 ∨ m = 6 ∨ m = 7) as Hc by lia.
    (tidy; set_solver).
Qed.

Lemma elem_of_bits_of byte_i byte n :
  n ∈ bits_of byte_i byte ↔ ∃ bit_i, bit_i < 8 ∧ N.testbit byte bit_i = true ∧ n = byte_i * 8 + bit_i.
Proof.
  unfold bits_of. rewrite list_elem_of_omap. split.
  - intros (bit_i & Hin & Hn). exists bit_i.
    destruct (N.testbit byte bit_i) eqn:Hb; [|done]. injection Hn as <-.
    split; [|done]. by apply elem_of_bit_indices.
  - intros (bit_i & Hlt & Hb & ->). exists bit_i. rewrite Hb. split; [|done].
    by apply elem_of_bit_indices.
Qed.

(** Decoding reads the bits. *)
Lemma elem_of_numbits_to_nums b n :
  n ∈ numbits_to_nums b ↔ bit_at b n = true.
Proof.
  unfold numbits_to_nums, bit_at. rewrite list_elem_of_join. split.
  - intros (l & Hn & Hl). apply list_elem_of_lookup in Hl as [i Hi].
    rewrite list_lookup_imap in Hi.
    destruct (b !! i) as [byte|] eqn:Hb; simplify_eq/=.
    apply elem_of_bits_of in Hn as (bit_i & Hlt & Htb & ->).
    replace ((N.of_nat i * 8 + bit_i) / 8) with (N.of_nat i)
      by (apply N.div_unique with bit_i; lia).
    replace ((N.of_nat i * 8 + bit_i) mod 8) with bit_i
      by (apply N.mod_unique with (N.of_nat i); lia).
    rewrite Nat2N.id, Hb. done.
  - intros Hbit. destruct (b !! N.to_nat (n / 8)) as [byte|] eqn:Hb.
    + exists (bits_of (n / 8) byte). split.
      * apply elem_of_bits_of. exists (n mod 8). split; [apply N.mod_lt; lia|].
        split; [done|]. rewrite (N.div_mod n 8) at 1 by lia. lia.
      * apply list_elem_of_lookup. exists (N.to_nat (n / 8)).
        rewrite list_lookup_imap, Hb. simpl. by rewrite N2Nat.id.
    + simpl in Hbit. done.
Qed.

Lemma bit_at_nil n : bit_at [] n = false.
Proof. unfold bit_at. simpl. done. Qed.

Lemma bit_at_or_bytes b1 b2 n :
  bit_at (or_bytes b1 b2) n = bit_at b1 n || bit_at b2 n.
Proof.
  unfold bit_at. generalize (N.to_nat (n / 8)) as i. revert b2.
  induction b1 as [|x b1 IH]; intros b2 i.
  - simpl. done.
  - destruct b2 as [|y b2].
    + simpl. by rewrite orb_false_r.
    + destruct i as [|i]; simpl.
      * apply N.lor_spec.
      * apply IH.
Qed.

Lemma rstrip0_cons x b :
  rstrip0 (x :: b) = match rstrip0 b with
                     | [] => if (x =? 0) then [] else [x]
                     | _ => x :: rstrip0 b
                     end.
Proof. reflexivity. Qed.

Lemma lookup_rstrip0 b i :
  default 0 (rstrip0 b !! i) = default 0 (b !! i).
Proof.
  revert i. induction b as [|x b IH]; intros i; [done|].
  rewrite rstrip0_cons. destruct (rstrip0 b) as [|y l] eqn:Hr.
  - destruct i as [|i].
    + simpl. destruct (N.eqb_spec x 0) as [->|]; done.
    + simpl. rewrite <- IH. destruct (x =? 0); simpl; by rewrite ?lookup_nil.
  - destruct i as [|i]; simpl; [done|]. apply IH.
Qed.

Lemma bit_at_rstrip0 b n : bit_at (rstrip0 b) n = bit_at b n.
Proof. unfold bit_at. by rewrite lookup_rstrip0. Qed.

(** [decode(union(a, b)) = decode(a) ∪ decode(b)]. *)
Lemma bit_at_union b1 b2 n :
  bit_at (numbits_union b1 b2) n = bit_at b1 n || bit_at b2 n.
Proof. unfold numbits_union. by rewrite bit_at_rstrip0, bit_at_or_bytes. Qed.

Lemma elem_of_numbits_union b1 b2 n :
  n ∈ numbits_to_nums (numbits_union b1 b2)
  ↔ n ∈ numbits_to_nums b1 ∨ n ∈ numbits_to_nums b2.
Proof.
  rewrite !elem_of_numbits_to_nums, bit_at_union. apply orb_true_iff.
Qed.

Lemma foldr_max_ge (nums : list N) n : n ∈ nums → n ≤ foldr N.max 0 nums.
Proof.
  induction nums as [|x nums IH]; [by intros ?%elem_of_nil|].
  intros [->|Hin]%elem_of_cons; simpl; [lia|]. specialize (IH Hin). lia.
Qed.

(** [decode(encode(S)) = S]. *)
Lemma bit_at_nums_to_numbits nums n :
  bit_at (nums_to_numbits nums) n = bool_decide (n ∈ nums).
Proof.
  unfold nums_to_numbits. destruct nums as [|x0 nums0] eqn:Hnums.
  - rewrite bit_at_nil. symmetry. apply bool_decide_eq_false_2. (tidy; set_solver).
  - rewrite <- Hnums. clear Hnums. unfold bit_at. rewrite !list_lookup_fmap.
    destruct (decide (n / 8 < foldr N.max 0 nums / 8 + 1)) as [Hlt|Hge].
    + rewrite lookup_seq_lt by lia. simpl. rewrite N2Nat.id.
      unfold byte_of. rewrite (testbit_bits (λ bit_i, bool_decide (n / 8 * 8 + bit_i ∈ nums))).
      rewrite bool_decide_eq_true_2
        by (apply elem_of_bit_indices, N.mod_lt; discriminate).
      simpl. apply bool_decide_ext.
      replace (n / 8 * 8 + n mod 8) with n; [done|].
      rewrite (N.div_mod n 8) at 1 by lia. lia.
    + rewrite lookup_seq_ge by lia. simpl.
      symmetry. apply bool_decide_eq_false_2. intros Hin.
      apply foldr_max_ge in Hin. apply Hge.
      assert (n / 8 ≤ foldr N.max 0 nums / 8) by (apply N.Div0.div_le_mono; lia). lia.
Qed.

Lemma elem_of_nums_to_numbits nums n :
  n ∈ numbits_to_nums (nums_to_numbits nums) ↔ n ∈ nums.
Proof.
  rewrite elem_of_numbits_to_nums, bit_at_nums_to_numbits. apply bool_decide_eq_true.
Qed.

End numbits_facts.

(** ** Running the methods *)

Lemma bind_Ok {A B} (m : M A) (k : A → M B) s a s' :
  m s = Ok a s' → bind m k s = k a s'.
Proof. unfold bind. by intros ->. Qed.


Ltac unfold_monad :=
  unfold with_connect, transaction, _connect, _start_using, db_read, db_write,
    bind, ret, raise, get, modify in *.

Lemma ready_inv s :
  ready s →
  ∃ db, s = mkCoverageData (_no_disk s) (Some db) true (_file_map s) true (_has_lines s)
              (_has_arcs s) (_current_context s) (_current_context_id s)
              (_query_context_ids s).
Proof.
  intros (Hu & Hd & [db Hs]). exists db. destruct s; simpl in *. by subst.
Qed.

Lemma _start_using_used s : _have_used s = true → _start_using s = Ok tt s.
Proof. intros H. destruct s; simpl in *; subst. reflexivity. Qed.

Lemma _connect_open s : _dbs s = true → _connect s = Ok tt s.
Proof. intros H. destruct s; simpl in *; subst. reflexivity. Qed.

Lemma with_connect_open {A} (body : M A) s :
  _dbs s = true → with_connect body s = transaction body s.
Proof. intros H. unfold with_connect. by rewrite (bind_Ok _ _ _ _ _ (_connect_open s H)). Qed.

Lemma _file_id_known filename add s id :
  _file_map s !! filename = Some id → _file_id filename add s = Ok (Some id) s.
Proof.
  intros H. destruct s; simpl in *. unfold _file_id. unfold_monad. simpl.
  rewrite H. simpl. by rewrite H.
Qed.

Lemma _file_id_unknown filename s :
  _file_map s !! filename = None → _file_id filename false s = Ok None s.
Proof.
  intros H. destruct s; simpl in *. unfold _file_id. unfold_monad. simpl.
  rewrite H. simpl. by rewrite H.
Qed.

Lemma _file_id_new filename s db :
  _dbs s = true → storage s = Some db → _file_map s !! filename = None →
  _file_id filename true s
  = Ok (Some (next_rowid (tbl_file db)))
       (set_file_map (<[filename := next_rowid (tbl_file db)]> (_file_map s))
          (set_storage
             (Some (set_tbl_file (insert_or_replace_name filename (tbl_file db)) db)) s)).
Proof.
  intros Hd Hs H. destruct s; simpl in *; subst. unfold _file_id. unfold_monad. simpl.
  rewrite H. simpl. by rewrite lookup_insert_eq.
Qed.

(** ** Invariants along a method body *)

Section post_rules.
Context (R : CoverageData → Prop) (E : Exception → CoverageData → Prop).

Lemma post_ret {A} (a : A) s : R s → post R E (ret a s).
Proof. done. Qed.

Lemma post_raise {A} e s : E e s → post (A:=A) R E (raise e s).
Proof. done. Qed.

Lemma post_bind {A B} (m : M A) (k : A → M B) s :
  post R E (m s) → (∀ a s', R s' → post R E (k a s')) → post R E (bind m k s).
Proof. unfold bind. destruct (m s); simpl; auto. Qed.

Lemma post_get_bind {B} (k : CoverageData → M B) s :
  post R E (k s s) → post R E (bind get k s).
Proof. done. Qed.

Lemma post_db_read {A} (q : Database → A) s :
  E SqliteError s → R s → post R E (db_read q s).
Proof. unfold db_read. destruct (storage s); simpl; auto. Qed.

Lemma post_db_write stmt s :
  (∀ db, storage s = Some db → R (set_storage (Some (stmt db)) s)) →
  E SqliteError s → post R E (db_write stmt s).
Proof. unfold db_write. destruct (storage s); simpl; auto. Qed.

Lemma post_transaction {A} (body : M A) s :
  (∀ e s', E e s' → E e (set_storage (storage s) s')) →
  post R E (body s) → post R E (transaction body s).
Proof.
  unfold transaction. destruct (body s); simpl; [auto|].
  intros Hrestore Hraise. destruct (_no_disk s); auto.
Qed.

Lemma post_for_each {A} (xs : list A) (body : A → M unit) s :
  (∀ x s', R s' → post R E (body x s')) → R s → post R E (for_each xs body s).
Proof.
  intros Hbody. revert s. induction xs as [|x xs IH]; intros s Hs; simpl; [done|].
  apply post_bind; auto.
Qed.

Lemma post_map_M {A B} (f : A → M B) (xs : list A) s :
  (∀ x s', R s' → post R E (f x s')) → R s → post R E (map_M f xs s).
Proof.
  intros Hf. revert s. induction xs as [|x xs IH]; intros s Hs; simpl; [done|].
  apply post_bind; [auto|]. intros y s1 Hs1.
  apply post_bind; [auto|]. intros ys s2 Hs2. done.
Qed.

Lemma post_fold_M {A B} (f : B → A → M B) (xs : list A) acc s :
  (∀ acc x s', R s' → post R E (f acc x s')) → R s → post R E (fold_M f xs acc s).
Proof.
  intros Hf. revert acc s. induction xs as [|x xs IH]; intros acc s Hs; simpl; [done|].
  apply post_bind; auto.
Qed.

Lemma post_getitem {V} (d : gmap string V) key s :
  (∀ k, E (KeyError k) s) → R s → post R E (getitem d key s).
Proof. intros HE Hs. unfold getitem. destruct (d !! key); simpl; auto. Qed.

End post_rules.

Create HintDb post discriminated.

(** One step of a proof that a method body keeps an invariant; [leaf]
    closes the side goals about single assignments and raised errors. *)
Ltac post_step leaf :=
  let here := first [assumption | exact I | leaf] in
  lazymatch goal with
  | |- post _ _ (bind get _ _) => apply post_get_bind; cbv beta
  | |- post _ _ (bind _ _ _) => apply post_bind; [|intros ? ? ?]
  | |- post _ _ (ret _ _) => apply post_ret; here
  | |- post _ _ (raise _ _) => apply post_raise; leaf
  | |- post _ _ (db_read _ _) => apply post_db_read; [leaf|here]
  | |- post _ _ (db_write _ _) => apply post_db_write; [intros ? ?; leaf|leaf]
  | |- post _ _ (transaction _ _) => apply post_transaction; [intros ? ? ?; leaf|]
  | |- post _ _ (with_connect _ _) => unfold with_connect
  | |- post _ _ (for_each _ _ _) => apply post_for_each; [intros ? ? ?|here]
  | |- post _ _ (map_M _ _ _) => apply post_map_M; [intros ? ? ?|here]
  | |- post _ _ (fold_M _ _ _ _) => apply post_fold_M; [intros ? ? ? ?|here]
  | |- post _ _ (getitem _ _ _) => apply post_getitem; [intros ?; leaf|here]
  | |- post _ _ (modify _ _) => unfold modify, post; leaf
  | |- post _ _ (Ok _ _) => simpl; here
  | |- post _ _ (Raise _ _) => simpl; leaf
  | |- post _ _ (match ?x with _ => _ end _) => destruct x eqn:?
  | |- post _ _ _ => solve [eauto with post]
  end.

Ltac post_auto leaf := repeat (post_step leaf).

Ltac mode_leaf :=
  tidy;
  try assumption;
  unfold always, mode_ok in *;
  repeat match goal with s : CoverageData |- _ => destruct s end;
  simpl in *;
  repeat match goal with |- context [bool_decide ?P] => destruct (bool_decide P) end;
  simpl in *;
  repeat match goal with |- context [if ?b then _ else _] => destruct b; simpl in * end;
  try tauto; try (intuition congruence).

(** *** The store is never in both modes *)

Lemma _reset_mode s : mode_ok s → post mode_ok (always mode_ok) (_reset s).
Proof. intros. unfold _reset. post_auto mode_leaf. Qed.
#[local] Hint Resolve _reset_mode : post.

Lemma _read_db_mode s : mode_ok s → post mode_ok (always mode_ok) (_read_db s).
Proof. intros. unfold _read_db. post_auto mode_leaf. Qed.
#[local] Hint Resolve _read_db_mode : post.

Lemma _open_db_mode s : mode_ok s → post mode_ok (always mode_ok) (_open_db s).
Proof. intros. unfold _open_db. post_auto mode_leaf. Qed.
#[local] Hint Resolve _open_db_mode : post.

Lemma _connect_mode s : mode_ok s → post mode_ok (always mode_ok) (_connect s).
Proof. intros. unfold _connect. post_auto mode_leaf. Qed.
#[local] Hint Resolve _connect_mode : post.

Lemma erase_mode s : mode_ok s → post mode_ok (always mode_ok) (erase s).
Proof. intros. unfold erase. post_auto mode_leaf. Qed.
#[local] Hint Resolve erase_mode : post.

Lemma read_mode s : mode_ok s → post mode_ok (always mode_ok) (read s).
Proof. intros. unfold read. post_auto mode_leaf. Qed.
#[local] Hint Resolve read_mode : post.

Lemma _start_using_mode s : mode_ok s → post mode_ok (always mode_ok) (_start_using s).
Proof. intros. unfold _start_using. post_auto mode_leaf. Qed.
#[local] Hint Resolve _start_using_mode : post.

Lemma _file_id_mode filename add s :
  mode_ok s → post mode_ok (always mode_ok) (_file_id filename add s).
Proof. intros. unfold _file_id. post_auto mode_leaf. Qed.
#[local] Hint Resolve _file_id_mode : post.

Lemma _context_id_mode context s :
  mode_ok s → post mode_ok (always mode_ok) (_context_id context s).
Proof. intros. unfold _context_id. post_auto mode_leaf. Qed.
#[local] Hint Resolve _context_id_mode : post.

Lemma set_context_mode context s :
  mode_ok s → post mode_ok (always mode_ok) (set_context context s).
Proof. intros. unfold set_context. post_auto mode_leaf. Qed.
#[local] Hint Resolve set_context_mode : post.

Lemma insert_context_mode context s :
  mode_ok s → post mode_ok (always mode_ok) (insert_context context s).
Proof. intros. unfold insert_context. post_auto mode_leaf. Qed.
#[local] Hint Resolve insert_context_mode : post.

Lemma _set_context_id_mode s : mode_ok s → post mode_ok (always mode_ok) (_set_context_id s).
Proof. intros. unfold _set_context_id. post_auto mode_leaf. Qed.
#[local] Hint Resolve _set_context_id_mode : post.

Lemma _choose_lines_or_arcs_mode l a s :
  mode_ok s → post mode_ok (always mode_ok) (_choose_lines_or_arcs l a s).
Proof.
  intros. unfold _choose_lines_or_arcs. destruct l, a; cbn [negb orb andb]; post_auto mode_leaf.
Qed.
#[local] Hint Resolve _choose_lines_or_arcs_mode : post.

Lemma add_lines_mode line_data s :
  mode_ok s → post mode_ok (always mode_ok) (add_lines line_data s).
Proof. intros. unfold add_lines, add_lines_item. post_auto mode_leaf. Qed.
#[local] Hint Resolve add_lines_mode : post.

Lemma add_arcs_mode arc_data s :
  mode_ok s → post mode_ok (always mode_ok) (add_arcs arc_data s).
Proof. intros. unfold add_arcs, add_arcs_item, insert_arcs. post_auto mode_leaf. Qed.
#[local] Hint Resolve add_arcs_mode : post.

Lemma file_tracer_mode filename s :
  mode_ok s → post mode_ok (always mode_ok) (file_tracer filename s).
Proof. intros. unfold file_tracer. post_auto mode_leaf. Qed.
#[local] Hint Resolve file_tracer_mode : post.

Lemma insert_tracer_mode file_id plugin_name s :
  mode_ok s → post mode_ok (always mode_ok) (insert_tracer file_id plugin_name s).
Proof. intros. unfold insert_tracer. post_auto mode_leaf. Qed.
#[local] Hint Resolve insert_tracer_mode : post.

Lemma add_file_tracers_mode file_tracers s :
  mode_ok s → post mode_ok (always mode_ok) (add_file_tracers file_tracers s).
Proof. intros. unfold add_file_tracers, add_file_tracers_item. post_auto mode_leaf. Qed.
#[local] Hint Resolve add_file_tracers_mode : post.

Lemma touch_files_mode filenames plugin_name s :
  mode_ok s → post mode_ok (always mode_ok) (touch_files filenames plugin_name s).
Proof. intros. unfold touch_files. post_auto mode_leaf. Qed.
#[local] Hint Resolve touch_files_mode : post.

Lemma purge_files_mode filenames s :
  mode_ok s → post mode_ok (always mode_ok) (purge_files filenames s).
Proof. intros. unfold purge_files. post_auto mode_leaf. Qed.
#[local] Hint Resolve purge_files_mode : post.

Lemma measured_contexts_mode s :
  mode_ok s → post mode_ok (always mode_ok) (measured_contexts s).
Proof. intros. unfold measured_contexts. post_auto mode_leaf. Qed.
#[local] Hint Resolve measured_contexts_mode : post.

Lemma set_query_context_mode context s :
  mode_ok s → post mode_ok (always mode_ok) (set_query_context context s).
Proof. intros. unfold set_query_context. post_auto mode_leaf. Qed.
#[local] Hint Resolve set_query_context_mode : post.

Lemma set_query_contexts_mode contexts s :
  mode_ok s → post mode_ok (always mode_ok) (set_query_contexts contexts s).
Proof. intros. unfold set_query_contexts. post_auto mode_leaf. Qed.
#[local] Hint Resolve set_query_contexts_mode : post.

Lemma arcs_mode filename s : mode_ok s → post mode_ok (always mode_ok) (arcs filename s).
Proof. intros. unfold arcs. post_auto mode_leaf. Qed.
#[local] Hint Resolve arcs_mode : post.

Lemma lines_mode filename s : mode_ok s → post mode_ok (always mode_ok) (lines filename s).
Proof. intros. unfold lines. post_auto mode_leaf. Qed.
#[local] Hint Resolve lines_mode : post.

Lemma contexts_by_lineno_mode filename s :
  mode_ok s → post mode_ok (always mode_ok) (contexts_by_lineno filename s).
Proof. intros. unfold contexts_by_lineno. post_auto mode_leaf. Qed.
#[local] Hint Resolve contexts_by_lineno_mode : post.

Lemma loads_mode data s : mode_ok s → post mode_ok (always mode_ok) (loads data s).
Proof. intros. unfold loads. post_auto mode_leaf. Qed.
#[local] Hint Resolve loads_mode : post.

Lemma collect_mode map_path s : mode_ok s → post mode_ok (always mode_ok) (collect map_path s).
Proof. intros. unfold collect, collect_rows. post_auto mode_leaf. Qed.
#[local] Hint Resolve collect_mode : post.

Lemma prepare_tracers_mode d1 d2 paths s :
  mode_ok s → post mode_ok (always mode_ok) (prepare_tracers d1 d2 paths s).
Proof. intros. unfold prepare_tracers. post_auto mode_leaf. Qed.
#[local] Hint Resolve prepare_tracers_mode : post.

Lemma merge_mode map_path c s : mode_ok s → post mode_ok (always mode_ok) (merge map_path c s).
Proof. intros. unfold merge. post_auto mode_leaf. Qed.
#[local] Hint Resolve merge_mode : post.

Lemma post_state_after {A} R (r : Result A) : post R (always R) r → R (state_after r).
Proof. destruct r; simpl; auto. Qed.

Lemma call_mode c s : mode_ok s → mode_ok (call c s).
Proof.
  intros H. destruct c; unfold call; apply (post_state_after mode_ok);
    auto with post.
Qed.

Lemma update_mode self other_data map_path :
  mode_ok self → mode_ok other_data →
  match update self other_data map_path with
  | Updated self' other' => mode_ok self' ∧ mode_ok other'
  | UpdateRaise _ self' other' => mode_ok self' ∧ mode_ok other'
  end.
Proof.
  intros Hs Ho. unfold update.
  destruct (_has_lines self && _has_arcs other_data); [done|].
  destruct (_has_arcs self && _has_lines other_data); [done|].
  pose proof (_start_using_mode self Hs) as H1.
  destruct (_start_using self) as [[] self1|e self1]; simpl in H1; [|done].
  pose proof (collect_mode (default (λ p, p) map_path) other_data Ho) as H2.
  destruct (collect _ other_data) as [c other1|e other1]; simpl in H2; [|done].
  pose proof (merge_mode (default (λ p, p) map_path) c self1 H1) as H3.
  destruct (merge _ c self1) as [[] self2|e self2]; simpl in H3; done.
Qed.

(** *** A committed mode stays *)

Section committed_mode.
Context (l a : bool) (Hla : l || a = true).

Ltac committed_leaf :=
  tidy;
  try assumption;
  unfold always, committed in *;
  repeat match goal with s : CoverageData |- _ => destruct s end;
  simpl in *; try tauto; try (intuition congruence).

Lemma _start_using_committed s :
  committed l a s → post (committed l a) (always (committed l a)) (_start_using s).
Proof. intros H. rewrite _start_using_used; [done|apply H]. Qed.
#[local] Hint Resolve _start_using_committed : post.

Lemma _connect_committed s :
  committed l a s → post (committed l a) (always (committed l a)) (_connect s).
Proof. intros H. rewrite _connect_open; [done|apply H]. Qed.
#[local] Hint Resolve _connect_committed : post.

Lemma _choose_lines_or_arcs_committed l' a' s :
  committed l a s → post (committed l a) (always (committed l a)) (_choose_lines_or_arcs l' a' s).
Proof.
  intros H. unfold _choose_lines_or_arcs.
  destruct (negb (l' || a')); [done|].
  destruct (l' && a'); [done|].
  apply post_get_bind.
  destruct (l' && _has_arcs s); [done|].
  destruct (a' && _has_lines s); [done|].
  destruct H as (Hu & Hd & Hl & Ha).
  rewrite Hl, Ha. destruct l, a; try discriminate; simpl; done.
Qed.
#[local] Hint Resolve _choose_lines_or_arcs_committed : post.

Lemma _file_id_committed filename add s :
  committed l a s → post (committed l a) (always (committed l a)) (_file_id filename add s).
Proof. intros. unfold _file_id. post_auto committed_leaf. Qed.
#[local] Hint Resolve _file_id_committed : post.

Lemma _context_id_committed context s :
  committed l a s → post (committed l a) (always (committed l a)) (_context_id context s).
Proof. intros. unfold _context_id. post_auto committed_leaf. Qed.
#[local] Hint Resolve _context_id_committed : post.

Lemma set_context_committed context s :
  committed l a s → post (committed l a) (always (committed l a)) (set_context context s).
Proof. intros. unfold set_context. post_auto committed_leaf. Qed.

Lemma insert_context_committed context s :
  committed l a s → post (committed l a) (always (committed l a)) (insert_context context s).
Proof. intros. unfold insert_context. post_auto committed_leaf. Qed.
#[local] Hint Resolve insert_context_committed : post.

Lemma _set_context_id_committed s :
  committed l a s → post (committed l a) (always (committed l a)) (_set_context_id s).
Proof. intros. unfold _set_context_id. post_auto committed_leaf. Qed.
#[local] Hint Resolve _set_context_id_committed : post.

Lemma add_lines_committed line_data s :
  committed l a s → post (committed l a) (always (committed l a)) (add_lines line_data s).
Proof. intros. unfold add_lines, add_lines_item. post_auto committed_leaf. Qed.

Lemma add_arcs_committed arc_data s :
  committed l a s → post (committed l a) (always (committed l a)) (add_arcs arc_data s).
Proof. intros. unfold add_arcs, add_arcs_item, insert_arcs. post_auto committed_leaf. Qed.

Lemma file_tracer_committed filename s :
  committed l a s → post (committed l a) (always (committed l a)) (file_tracer filename s).
Proof. intros. unfold file_tracer. post_auto committed_leaf. Qed.
#[local] Hint Resolve file_tracer_committed : post.

Lemma insert_tracer_committed file_id plugin_name s :
  committed l a s → post (committed l a) (always (committed l a)) (insert_tracer file_id plugin_name s).
Proof. intros. unfold insert_tracer. post_auto committed_leaf. Qed.
#[local] Hint Resolve insert_tracer_committed : post.

Lemma add_file_tracers_committed file_tracers s :
  committed l a s → post (committed l a) (always (committed l a)) (add_file_tracers file_tracers s).
Proof. intros. unfold add_file_tracers, add_file_tracers_item. post_auto committed_leaf. Qed.
#[local] Hint Resolve add_file_tracers_committed : post.

Lemma touch_files_committed filenames plugin_name s :
  committed l a s → post (committed l a) (always (committed l a)) (touch_files filenames plugin_name s).
Proof. intros. unfold touch_files. post_auto committed_leaf. Qed.

Lemma purge_files_committed filenames s :
  committed l a s → post (committed l a) (always (committed l a)) (purge_files filenames s).
Proof. intros. unfold purge_files. post_auto committed_leaf. Qed.

Lemma measured_contexts_committed s :
  committed l a s → post (committed l a) (always (committed l a)) (measured_contexts s).
Proof. intros. unfold measured_contexts. post_auto committed_leaf. Qed.

Lemma set_query_context_committed context s :
  committed l a s → post (committed l a) (always (committed l a)) (set_query_context context s).
Proof. intros. unfold set_query_context. post_auto committed_leaf. Qed.

Lemma set_query_contexts_committed contexts s :
  committed l a s → post (committed l a) (always (committed l a)) (set_query_contexts contexts s).
Proof. intros. unfold set_query_contexts. post_auto committed_leaf. Qed.

Lemma arcs_committed filename s :
  committed l a s → post (committed l a) (always (committed l a)) (arcs filename s).
Proof. intros. unfold arcs. post_auto committed_leaf. Qed.
#[local] Hint Resolve arcs_committed : post.

Lemma lines_committed filename s :
  committed l a s → post (committed l a) (always (committed l a)) (lines filename s).
Proof. intros. unfold lines. post_auto committed_leaf. Qed.

Lemma contexts_by_lineno_committed filename s :
  committed l a s → post (committed l a) (always (committed l a)) (contexts_by_lineno filename s).
Proof. intros. unfold contexts_by_lineno. post_auto committed_leaf. Qed.

Lemma call_committed c s :
  keeps_store c → committed l a s → committed l a (call c s).
Proof.
  intros Hc H.
  destruct c; try done; unfold call; apply (post_state_after (committed l a));
    auto using set_context_committed, add_lines_committed, add_arcs_committed,
      add_file_tracers_committed, touch_files_committed, purge_files_committed,
      file_tracer_committed, measured_contexts_committed, set_query_context_committed,
      set_query_contexts_committed, lines_committed, arcs_committed,
      contexts_by_lineno_committed.
Qed.

End committed_mode.

(** *** Committing a mode *)

Lemma _start_using_started s : _start_using s = Ok tt (started s).
Proof.
  unfold started. destruct s as [nd st d fm hu hl ha cc ci qi].
  destruct hu, nd; reflexivity.
Qed.

Lemma started_used s : _have_used s = true → started s = s.
Proof. intros H. unfold started. by rewrite _start_using_used. Qed.

Lemma started_fields s :
  _have_used (started s) = true ∧ _has_lines (started s) = _has_lines s
  ∧ _has_arcs (started s) = _has_arcs s ∧ _no_disk (started s) = _no_disk s
  ∧ (data_rows (started s) = data_rows s ∨ data_rows (started s) = no_rows).
Proof.
  unfold started. destruct s as [nd st d fm hu hl ha cc ci qi].
  destruct hu, nd; simpl; auto 10.
Qed.

Lemma started_lifecycle s : lifecycle_ok s → lifecycle_ok (started s).
Proof.
  unfold started, lifecycle_ok, no_mode, meta_value.
  destruct s as [nd st d fm hu hl ha cc ci qi].
  destruct hu, nd; simpl; try done.
  intros [H1 H2]. split; [|done]. intros ->. by apply H1.
Qed.

(** The first choice of a mode on a store without one. *)
Lemma _choose_lines_or_arcs_first l a s :
  l = negb a → _have_used s = true → lifecycle_ok s → no_mode s →
  ∃ s', _choose_lines_or_arcs l a s = Ok tt s'
        ∧ committed l a s'
        ∧ meta_value "has_arcs" s' = Some (str_int a)
        ∧ (data_rows s' = data_rows s ∨ data_rows s' = no_rows).
Proof.
  intros -> Hu [H1 H2] [Hl Ha].
  destruct s as [nd st d fm hu hl ha cc ci qi]; simpl in *; subst.
  unfold _choose_lines_or_arcs, with_connect, _connect.
  destruct d.
  - destruct (H1 eq_refl) as [[db ->] Hm]. specialize (Hm (conj eq_refl eq_refl)).
    unfold meta_value in Hm. simpl in Hm.
    destruct a; simpl; (eexists; split; [reflexivity|]);
      unfold committed, meta_value, data_rows, insert_or_ignore_meta; simpl; rewrite Hm;
      rewrite lookup_insert_eq; auto.
  - assert (nd = true ∨ st = None) as Hfresh.
    { destruct nd; [by left|right]. by apply H2. }
    destruct a; simpl; unfold _open_db, _read_db; unfold_monad; simpl;
      (destruct Hfresh as [->| ->]; [|destruct nd]); simpl;
      (eexists; split; [reflexivity|]);
      unfold committed, meta_value, data_rows; simpl; auto.
Qed.

(** A call of the opposite kind raises, whatever the store. *)
Lemma add_arcs_on_lines arc_data s :
  _has_lines s = true → add_arcs arc_data s = Raise arcs_on_lines (started s).
Proof.
  intros H. unfold add_arcs.
  rewrite (bind_Ok _ _ _ _ _ (_start_using_started s)).
  destruct (started_fields s) as (_ & Hl & _). rewrite <- Hl in H.
  unfold _choose_lines_or_arcs, bind, get, raise. simpl. by rewrite H.
Qed.

Lemma add_lines_on_arcs line_data s :
  _has_arcs s = true → add_lines line_data s = Raise lines_on_arcs (started s).
Proof.
  intros H. unfold add_lines.
  rewrite (bind_Ok _ _ _ _ _ (_start_using_started s)).
  destruct (started_fields s) as (_ & _ & Ha & _). rewrite <- Ha in H.
  unfold _choose_lines_or_arcs, bind, get, raise. simpl. by rewrite H.
Qed.

(** *** The recorded mode stays in [meta] while data is added *)

Section meta_kept.
Context (v : string).

Ltac meta_leaf :=
  tidy;
  try assumption; try exact I;
  unfold whatever, meta_recorded, meta_value in *;
  repeat match goal with s : CoverageData |- _ => destruct s end;
  simpl in *; simplify_eq/=; try tauto; try (intuition congruence).

Lemma _start_using_meta s :
  meta_recorded v s → post (meta_recorded v) whatever (_start_using s).
Proof. intros H. rewrite _start_using_used; [done|apply H]. Qed.
#[local] Hint Resolve _start_using_meta : post.

Lemma _connect_meta s : meta_recorded v s → post (meta_recorded v) whatever (_connect s).
Proof. intros H. rewrite _connect_open; [done|apply H]. Qed.
#[local] Hint Resolve _connect_meta : post.

Lemma _file_id_meta filename add s :
  meta_recorded v s → post (meta_recorded v) whatever (_file_id filename add s).
Proof. intros. unfold _file_id. post_auto meta_leaf. Qed.
#[local] Hint Resolve _file_id_meta : post.

Lemma _context_id_meta context s :
  meta_recorded v s → post (meta_recorded v) whatever (_context_id context s).
Proof. intros. unfold _context_id. post_auto meta_leaf. Qed.
#[local] Hint Resolve _context_id_meta : post.

Lemma insert_context_meta context s :
  meta_recorded v s → post (meta_recorded v) whatever (insert_context context s).
Proof. intros. unfold insert_context. post_auto meta_leaf. Qed.
#[local] Hint Resolve insert_context_meta : post.

Lemma _set_context_id_meta s :
  meta_recorded v s → post (meta_recorded v) whatever (_set_context_id s).
Proof. intros. unfold _set_context_id. post_auto meta_leaf. Qed.
#[local] Hint Resolve _set_context_id_meta : post.

Lemma add_lines_item_meta item s :
  meta_recorded v s → post (meta_recorded v) whatever (add_lines_item item s).
Proof. intros. unfold add_lines_item. post_auto meta_leaf. Qed.
#[local] Hint Resolve add_lines_item_meta : post.

Lemma add_arcs_item_meta item s :
  meta_recorded v s → post (meta_recorded v) whatever (add_arcs_item item s).
Proof. intros. unfold add_arcs_item, insert_arcs. post_auto meta_leaf. Qed.
#[local] Hint Resolve add_arcs_item_meta : post.

Lemma add_lines_loop_meta line_data s :
  meta_recorded v s →
  post (meta_recorded v) whatever
    (with_connect (_set_context_id ;;; for_each line_data add_lines_item) s).
Proof. intros. post_auto meta_leaf. Qed.

Lemma add_arcs_loop_meta arc_data s :
  meta_recorded v s →
  post (meta_recorded v) whatever
    (with_connect (_set_context_id ;;; for_each arc_data add_arcs_item) s).
Proof. intros. post_auto meta_leaf. Qed.

End meta_kept.

(** The first successful [add_lines] on a store without a mode commits it to
    line-mode and records ["has_arcs" = "0"]. *)
Lemma add_lines_commits line_data s s' :
  lifecycle_ok s → no_mode s → add_lines line_data s = Ok tt s' →
  line_mode s' ∧ meta_value "has_arcs" s' = Some "0".
Proof.
  intros Hok Hno Hrun. unfold add_lines in Hrun.
  rewrite (bind_Ok _ _ _ _ _ (_start_using_started s)) in Hrun.
  destruct (started_fields s) as (Hu & Hl & Ha & _ & _).
  destruct (_choose_lines_or_arcs_first true false (started s)) as (s1 & Hc & Hcom & Hmeta & _);
    [done|done|by apply started_lifecycle|unfold no_mode in *; by rewrite Hl, Ha|].
  rewrite (bind_Ok _ _ _ _ _ Hc) in Hrun.
  destruct line_data as [|item line_data]; [by injection Hrun as <-|].
  pose proof (add_lines_loop_meta "0" (item :: line_data) s1) as Hm.
  pose proof (add_lines_committed true false eq_refl (item :: line_data) s1 Hcom) as Hk.
  unfold add_lines in Hk. rewrite (bind_Ok _ _ _ _ _ (_start_using_used s1 (proj1 Hcom))) in Hk.
  assert (_choose_lines_or_arcs true false s1 = Ok tt s1) as Hc1.
  { destruct Hcom as (? & ? & Hl1 & Ha1). unfold _choose_lines_or_arcs; unfold_monad.
    simpl. by rewrite Hl1, Ha1. }
  rewrite (bind_Ok _ _ _ _ _ Hc1) in Hk.
  rewrite Hrun in Hk, Hm. simpl in Hk, Hm.
  split; [done|]. apply Hm. split; [apply Hcom|]. split; [apply Hcom|done].
Qed.

(** The first successful [add_arcs] on a store without a mode commits it to
    arc-mode and records ["has_arcs" = "1"]. *)
Lemma add_arcs_commits arc_data s s' :
  lifecycle_ok s → no_mode s → add_arcs arc_data s = Ok tt s' →
  arc_mode s' ∧ meta_value "has_arcs" s' = Some "1".
Proof.
  intros Hok Hno Hrun. unfold add_arcs in Hrun.
  rewrite (bind_Ok _ _ _ _ _ (_start_using_started s)) in Hrun.
  destruct (started_fields s) as (Hu & Hl & Ha & _ & _).
  destruct (_choose_lines_or_arcs_first false true (started s)) as (s1 & Hc & Hcom & Hmeta & _);
    [done|done|by apply started_lifecycle|unfold no_mode in *; by rewrite Hl, Ha|].
  rewrite (bind_Ok _ _ _ _ _ Hc) in Hrun.
  destruct arc_data as [|item arc_data]; [by injection Hrun as <-|].
  pose proof (add_arcs_loop_meta "1" (item :: arc_data) s1) as Hm.
  pose proof (add_arcs_committed false true eq_refl (item :: arc_data) s1 Hcom) as Hk.
  unfold add_arcs in Hk. rewrite (bind_Ok _ _ _ _ _ (_start_using_used s1 (proj1 Hcom))) in Hk.
  assert (_choose_lines_or_arcs false true s1 = Ok tt s1) as Hc1.
  { destruct Hcom as (? & ? & Hl1 & Ha1). unfold _choose_lines_or_arcs; unfold_monad.
    simpl. by rewrite Hl1, Ha1. }
  rewrite (bind_Ok _ _ _ _ _ Hc1) in Hk.
  rewrite Hrun in Hk, Hm. simpl in Hk, Hm.
  split; [done|]. apply Hm. split; [apply Hcom|]. split; [apply Hcom|done].
Qed.

(** An empty [add_lines] or [add_arcs] on a store without a mode returns,
    after choosing the mode and touching no data row. *)
Lemma add_empty_first l a s :
  l = negb a → lifecycle_ok s → no_mode s →
  ∃ s', (_start_using ;;; _choose_lines_or_arcs l a ;;; ret tt) s = Ok tt s'
        ∧ committed l a s'
        ∧ meta_value "has_arcs" s' = Some (str_int a)
        ∧ (data_rows s' = data_rows s ∨ data_rows s' = no_rows).
Proof.
  intros Hla Hok Hno.
  destruct (started_fields s) as (Hu & Hl & Ha & _ & Hrows).
  destruct (_choose_lines_or_arcs_first l a (started s)) as (s1 & Hc & Hcom & Hmeta & Hrows1);
    [done|done|by apply started_lifecycle|unfold no_mode in *; by rewrite Hl, Ha|].
  exists s1. rewrite (bind_Ok _ _ _ _ _ (_start_using_started s)).
  rewrite (bind_Ok _ _ _ _ _ Hc). split; [done|]. split; [done|]. split; [done|].
  destruct Hrows1 as [->|]; auto.
Qed.

(** C10.  On a store without a mode, [add_lines] of an empty mapping returns
    and leaves the store committed to line-mode, with ["has_arcs" = "0"]
    recorded and no data row written; every [add_arcs] after it raises the
    mode conflict and changes nothing.  The same holds with lines and arcs
    exchanged. *)
Theorem empty_add_commits_mode (s : CoverageData) :
  lifecycle_ok s → no_mode s →
  (∃ s', add_lines [] s = Ok tt s'
         ∧ line_mode s'
         ∧ meta_value "has_arcs" s' = Some "0"
         ∧ (data_rows s' = data_rows s ∨ data_rows s' = no_rows)
         ∧ ∀ arc_data, add_arcs arc_data s' = Raise arcs_on_lines s')
  ∧ (∃ s', add_arcs [] s = Ok tt s'
           ∧ arc_mode s'
           ∧ meta_value "has_arcs" s' = Some "1"
           ∧ (data_rows s' = data_rows s ∨ data_rows s' = no_rows)
           ∧ ∀ line_data, add_lines line_data s' = Raise lines_on_arcs s').
Proof.
  intros Hok Hno. split.
  - destruct (add_empty_first true false s eq_refl Hok Hno) as (s' & Hrun & Hcom & Hm & Hr).
    exists s'. repeat split; try done; try apply Hcom.
    intros arc_data. rewrite add_arcs_on_lines by apply Hcom.
    by rewrite started_used by apply Hcom.
  - destruct (add_empty_first false true s eq_refl Hok Hno) as (s' & Hrun & Hcom & Hm & Hr).
    exists s'. repeat split; try done; try apply Hcom.
    intros line_data. rewrite add_lines_on_arcs by apply Hcom.
    by rewrite started_used by apply Hcom.
Qed.

(** C3.  A store is never in both modes: a new store has none, and every
    call, and [update] on both of its stores, keeps "not both".  The first
    successful [add_lines] (resp. [add_arcs]) on a store without a mode
    commits line-mode (resp. arc-mode) and records it in [meta]; the
    committed mode stays through every later call short of [erase], [read]
    and [loads]; and a call of the opposite kind raises the mode conflict,
    leaving the store as [_start_using] leaves it: unchanged when it is in
    use. *)
Theorem store_mode_exclusive :
  (∀ no_disk on_disk, mode_ok (__init__ no_disk on_disk) ∧ no_mode (__init__ no_disk on_disk))
  ∧ (∀ c s, mode_ok s → mode_ok (call c s))
  ∧ (∀ self other_data map_path, mode_ok self → mode_ok other_data →
       match update self other_data map_path with
       | Updated self' other' => mode_ok self' ∧ mode_ok other'
       | UpdateRaise _ self' other' => mode_ok self' ∧ mode_ok other'
       end)
  ∧ (∀ s line_data s', lifecycle_ok s → no_mode s → add_lines line_data s = Ok tt s' →
       line_mode s' ∧ meta_value "has_arcs" s' = Some "0")
  ∧ (∀ s arc_data s', lifecycle_ok s → no_mode s → add_arcs arc_data s = Ok tt s' →
       arc_mode s' ∧ meta_value "has_arcs" s' = Some "1")
  ∧ (∀ s c, keeps_store c → line_mode s → line_mode (call c s))
  ∧ (∀ s c, keeps_store c → arc_mode s → arc_mode (call c s))
  ∧ (∀ s arc_data, _has_lines s = true →
       add_arcs arc_data s = Raise arcs_on_lines (started s)
       ∧ (_have_used s = true → started s = s)
       ∧ (data_rows (started s) = data_rows s ∨ data_rows (started s) = no_rows))
  ∧ (∀ s line_data, _has_arcs s = true →
       add_lines line_data s = Raise lines_on_arcs (started s)
       ∧ (_have_used s = true → started s = s)
       ∧ (data_rows (started s) = data_rows s ∨ data_rows (started s) = no_rows)).
Proof.
  split; [|split; [|split; [|split; [|split; [|split; [|split; [|split]]]]]]].
  - intros nd disk. unfold mode_ok, no_mode. simpl. split; [|done]. by intros [? ?].
  - apply call_mode.
  - apply update_mode.
  - intros s line_data s'. apply add_lines_commits.
  - intros s arc_data s'. apply add_arcs_commits.
  - intros s c. by apply call_committed.
  - intros s c. by apply call_committed.
  - intros s arc_data H. split; [by apply add_arcs_on_lines|]. split; [apply started_used|].
    apply started_fields.
  - intros s line_data H. split; [by apply add_lines_on_arcs|]. split; [apply started_used|].
    apply started_fields.
Qed.

(** ** Serialization *)

(** C9.  [loads] raises the serialization error, with the first 40 bytes
    and the length of the data, whenever the data does not start with the
    marker byte ["z"], the empty data included; the store is left as it was. *)
Theorem loads_rejects_unmarked (data : list byte) (s : CoverageData) :
  take 1 data ≠ [x7a] →
  loads data s
  = Raise (DataError (Unrecognized_serialization (take 40 data) (length data))) s.
Proof.
  intros H. unfold loads. rewrite bool_decide_eq_true_2 by done. reflexivity.
Qed.

Lemma loads_rejects_empty s :
  loads [] s = Raise (DataError (Unrecognized_serialization [] 0)) s.
Proof. reflexivity. Qed.

(** ** Reading the other store *)

Lemma map_M_pure {A B} (f : A → M B) (g : A → B) (xs : list A) s :
  (∀ x, x ∈ xs → f x s = Ok (g x) s) → map_M f xs s = Ok (g <$> xs) s.
Proof.
  induction xs as [|x xs IH]; intros Hf; simpl; [done|].
  rewrite (bind_Ok _ _ _ _ _ (Hf x ltac:(left))).
  rewrite (bind_Ok _ _ _ _ _ (IH (λ y Hy, Hf y ltac:(by right)))). done.
Qed.

Lemma fold_M_pure {A B} (f : B → A → M B) (g : B → A → B) (xs : list A) acc s :
  (∀ acc x, x ∈ xs → f acc x s = Ok (g acc x) s) →
  fold_M f xs acc s = Ok (foldl g acc xs) s.
Proof.
  revert acc. induction xs as [|x xs IH]; intros acc Hf; simpl; [done|].
  rewrite (bind_Ok _ _ _ _ _ (Hf acc x ltac:(left))).
  apply IH. intros acc' y Hy. apply Hf. by right.
Qed.

Lemma elem_of_names_of_id (tbl : gmap string Z) id name :
  name ∈ names_of_id tbl id ↔ tbl !! name = Some id.
Proof.
  unfold names_of_id. rewrite list_elem_of_fmap. split.
  - intros ([n i] & -> & [Hi Hin]%list_elem_of_filter). simpl in *. subst.
    by apply elem_of_map_to_list.
  - intros H. exists (name, id). split; [done|].
    apply list_elem_of_filter. split; [done|]. by apply elem_of_map_to_list.
Qed.

Lemma collect_rows_collected map_path db s :
  collect_rows map_path db s = Ok (collected map_path db) s.
Proof.
  unfold collect_rows, collected.
  assert (∀ path id, tbl_file db !! path = Some id →
            ∀ s, getitem (map_imap (λ p (_ : Z), Some (map_path p)) (tbl_file db)) path s
                 = Ok (map_path path) s) as Hget.
  { intros path id H s0. unfold getitem. by rewrite map_lookup_imap, H. }
  erewrite bind_Ok; [|apply map_M_pure with
    (g := λ row : string * string * Z * Z, (map_path row.1.1.1, row.1.1.2, row.1.2, row.2))].
  2:{ intros [[[path ctx] fromno] tono] Hin. simpl.
      unfold select_arc_join in Hin.
      apply list_elem_of_bind in Hin as (row & Hin & _).
      apply list_elem_of_bind in Hin as (path' & Hin & Hp).
      apply list_elem_of_fmap in Hin as (ctx' & Heq & _). simplify_eq.
      apply elem_of_names_of_id in Hp.
      by rewrite (bind_Ok _ _ _ _ _ (Hget _ _ Hp s)). }
  erewrite bind_Ok; [|apply fold_M_pure with
    (g := λ (lines : gmap (string * string) numbits) (row : string * string * numbits),
            <[(map_path row.1.1, row.1.2) :=
                match lines !! (map_path row.1.1, row.1.2) with
                | Some numbits0 => numbits_union numbits0 row.2
                | None => row.2
                end]> lines)].
  2:{ intros acc [[path ctx] nb] Hin. simpl.
      unfold select_line_bits_join in Hin.
      apply list_elem_of_bind in Hin as (row & Hin & _).
      apply list_elem_of_bind in Hin as (path' & Hin & Hp).
      apply list_elem_of_fmap in Hin as (ctx' & Heq & _). simplify_eq.
      apply elem_of_names_of_id in Hp.
      by rewrite (bind_Ok _ _ _ _ _ (Hget _ _ Hp s)). }
  erewrite bind_Ok; [|apply fold_M_pure with
    (g := λ (tracers : gmap string string) (row : string * string),
            <[map_path row.1 := row.2]> tracers)].
  2:{ intros acc [path name] Hin. simpl.
      unfold select_tracer_join in Hin.
      apply list_elem_of_bind in Hin as (row & Hin & _).
      apply list_elem_of_fmap in Hin as (path' & Heq & Hp). simplify_eq.
      apply elem_of_names_of_id in Hp.
      by rewrite (bind_Ok _ _ _ _ _ (Hget _ _ Hp s)). }
  done.
Qed.

Lemma post_bind2 {A B} R1 R2 E (m : M A) (k : A → M B) s :
  post R1 E (m s) → (∀ a s', R1 s' → post R2 E (k a s')) → post R2 E (bind m k s).
Proof. unfold bind. destruct (m s); simpl; auto. Qed.

Lemma post_weaken {A} (R1 R2 : CoverageData → Prop) E (r : Result A) :
  (∀ s, R1 s → R2 s) → post R1 E r → post R2 E r.
Proof. destruct r; simpl; auto. Qed.

Ltac opened_leaf :=
  tidy;
  try assumption; try exact I;
  unfold whatever, opened_from in *;
  repeat match goal with s : CoverageData |- _ => destruct s end;
  simpl in *; intros; repeat (case_match; simpl in *); simplify_eq/=; auto.

Lemma _read_db_opened s0 s :
  opened_from s0 s → post (opened_from s0) whatever (_read_db s).
Proof. intros. unfold _read_db. post_auto opened_leaf. Qed.
#[local] Hint Resolve _read_db_opened : post.

Lemma _connect_opened s0 s :
  opened_from s0 s → post (opened_from s0) whatever (_connect s).
Proof. intros. unfold _connect, _open_db. post_auto opened_leaf. Qed.
#[local] Hint Resolve _connect_opened : post.

Lemma read_opened s0 s :
  opened_from s0 s → post (opened_from s0) whatever (read s).
Proof. intros. unfold read. post_auto opened_leaf. Qed.
#[local] Hint Resolve read_opened : post.

(** [collect] returns the rows of the database it finds or creates. *)
Lemma collect_spec map_path s c s' :
  collect map_path s = Ok c s' →
  ∃ db, storage s' = Some db ∧ (storage s = Some db ∨ db = _init_db)
        ∧ c = collected map_path db.
Proof.
  unfold collect, with_connect. intros Hrun.
  assert (opened_from s s) as H0 by (intros db; auto).
  pose proof (read_opened s s H0) as H1.
  unfold bind in Hrun at 1. destruct (read s) as [[] s1|]; [|done]. simpl in H1.
  pose proof (_connect_opened s s1 H1) as H2.
  unfold bind in Hrun at 1. destruct (_connect s1) as [[] s2|]; [|done]. simpl in H2.
  unfold transaction, bind, db_read in Hrun.
  destruct (storage s2) as [db|] eqn:Hdb; [|done].
  rewrite collect_rows_collected in Hrun. injection Hrun as <- <-.
  exists db. split; [done|]. split; [by apply H2|done].
Qed.

Lemma select_arc_join_empty db : tbl_arc db = ∅ → select_arc_join db = [].
Proof. unfold select_arc_join. intros ->. by rewrite elements_empty. Qed.

Lemma select_line_bits_join_empty db :
  tbl_line_bits db = ∅ → select_line_bits_join db = [].
Proof. unfold select_line_bits_join. intros ->. by rewrite map_to_list_empty. Qed.

(** ** Mode conflicts of [update] *)

Ltac conflict_leaf :=
  tidy;
  try assumption; try exact I;
  try (unfold no_conflict, is_mode_conflict; intros [?|[?|[?|?]]]; discriminate);
  repeat match goal with s : CoverageData |- _ => destruct s end;
  simpl in *; intros; simplify_eq/=; try (intuition congruence).

Lemma _read_db_no_conflict s : post (λ _, True) no_conflict (_read_db s).
Proof. unfold _read_db. post_auto conflict_leaf. Qed.
#[local] Hint Resolve _read_db_no_conflict : post.

Lemma _connect_no_conflict s : post (λ _, True) no_conflict (_connect s).
Proof. unfold _connect, _open_db. post_auto conflict_leaf. Qed.
#[local] Hint Resolve _connect_no_conflict : post.

Lemma read_no_conflict s : post (λ _, True) no_conflict (read s).
Proof. unfold read. post_auto conflict_leaf. Qed.
#[local] Hint Resolve read_no_conflict : post.

Lemma collect_no_conflict map_path s : post (λ _, True) no_conflict (collect map_path s).
Proof. unfold collect, collect_rows. post_auto conflict_leaf. Qed.

Ltac mergeable_leaf :=
  tidy;
  try assumption; try exact I;
  try (unfold no_conflict, is_mode_conflict; intros [?|[?|[?|?]]]; discriminate);
  unfold mergeable in *;
  repeat match goal with s : CoverageData |- _ => destruct s end;
  simpl in *; intros; simplify_eq/=; try (intuition congruence).

Lemma _connect_mergeable b s :
  mergeable b s → post (mergeable b) no_conflict (_connect s).
Proof. intros H. rewrite _connect_open; [done|apply H]. Qed.
#[local] Hint Resolve _connect_mergeable : post.

Lemma _choose_arcs_mergeable s :
  mergeable true s →
  post (mergeable true) no_conflict (_choose_lines_or_arcs false true s).
Proof.
  intros [Hd Hm]. destruct s as [nd st d fm hu hl ha cc ci qi]. simpl in *. subst.
  unfold _choose_lines_or_arcs, with_connect, _connect, mergeable.
  unfold_monad; simpl.
  destruct ha; simpl; [done|]. destruct st; simpl; [done|]. mergeable_leaf.
Qed.
#[local] Hint Resolve _choose_arcs_mergeable : post.

Lemma _choose_lines_mergeable s :
  mergeable false s →
  post (mergeable false) no_conflict (_choose_lines_or_arcs true false s).
Proof.
  intros [Hd Hm]. destruct s as [nd st d fm hu hl ha cc ci qi]. simpl in *. subst.
  unfold _choose_lines_or_arcs, with_connect, _connect, mergeable.
  unfold_monad; simpl.
  destruct hl; simpl; [done|]. destruct st; simpl; [done|]. mergeable_leaf.
Qed.
#[local] Hint Resolve _choose_lines_mergeable : post.

Lemma prepare_tracers_mergeable b d1 d2 paths s :
  mergeable b s → post (mergeable b) no_conflict (prepare_tracers d1 d2 paths s).
Proof. intros. unfold prepare_tracers. post_auto mergeable_leaf. Qed.
#[local] Hint Resolve prepare_tracers_mergeable : post.

Lemma merge_no_conflict (no_lines : bool) map_path c s :
  mergeable no_lines s →
  (if no_lines then other_lines c = ∅ else other_arcs c = []) →
  post (λ _, True) no_conflict (merge map_path c s).
Proof.
  intros Hs Hc. unfold merge.
  apply post_bind2 with (R1 := mergeable no_lines).
  - destruct no_lines.
    + rewrite Hc. rewrite bool_decide_eq_true_2 by done. post_auto mergeable_leaf.
    + rewrite Hc. post_auto mergeable_leaf.
  - intros [] s1 _. apply post_get_bind.
    destruct (negb (_no_disk s1)); [|done].
    unfold _reset. post_auto conflict_leaf.
Qed.

(** Opening the connection of a store that is in use. *)
Lemma _connect_lifecycle s :
  lifecycle_ok s → _have_used s = true →
  ∃ s', _connect s = Ok tt s' ∧ _dbs s' = true ∧ _have_used s' = true
        ∧ _has_lines s' = _has_lines s ∧ _has_arcs s' = _has_arcs s
        ∧ _no_disk s' = _no_disk s ∧ lifecycle_ok s'
        ∧ (_dbs s = true → s' = s)
        ∧ (_dbs s = false →
             storage s' = Some _init_db ∧ _file_map s' = _file_map s).
Proof.
  intros [H1 H2] Hu. destruct s as [nd st d fm hu hl ha cc ci qi]. simpl in *. subst.
  destruct d.
  - eexists. split; [reflexivity|]. simpl. split_and!; try done.
  - assert (nd = true ∨ st = None) as [->| ->].
    { destruct nd; [by left|right]. by apply H2. }
    + eexists. split; [reflexivity|]. simpl. rewrite (left_id_L ∅ (∪)).
      split_and!; try done;
        try (split; [|done]; intros _; split; [by eexists|done]).
    + destruct nd; (eexists; split; [reflexivity|]); simpl;
        rewrite (left_id_L ∅ (∪)); split_and!; try done;
        try (split; [|done]; intros _; split; [by eexists|done]).
Qed.

Lemma merge_connect map_path c s s' :
  _connect s = Ok tt s' → _dbs s' = true → merge map_path c s = merge map_path c s'.
Proof.
  intros Hc Hd. unfold merge, with_connect.
  unfold bind at 1. unfold bind at 1. rewrite Hc.
  symmetry. unfold bind at 1. unfold bind at 1. by rewrite (_connect_open s' Hd).
Qed.

(** ** File tracers *)

Lemma set_storage_same s : set_storage (storage s) s = s.
Proof. by destruct s. Qed.

Lemma transaction_Ok {A} (body : M A) s a s' :
  body s = Ok a s' → transaction body s = Ok a s'.
Proof. unfold transaction. by intros ->. Qed.

Lemma transaction_Raise {A} (body : M A) s e s' :
  body s = Raise e s' →
  transaction body s = Raise e (if _no_disk s then s' else set_storage (storage s) s').
Proof. unfold transaction. by intros ->. Qed.

(** A block that raises before it writes leaves the store as it was. *)
Lemma restored_same s : (if _no_disk s then s else set_storage (storage s) s) = s.
Proof. destruct (_no_disk s); [done|apply set_storage_same]. Qed.

Lemma file_tracer_ready filename s :
  ready s → file_tracer filename s = Ok (tracer_of s filename) s.
Proof.
  intros (Hu & Hd & [db Hdb]). unfold file_tracer, tracer_of.
  rewrite (bind_Ok _ _ _ _ _ (_start_using_used s Hu)).
  rewrite with_connect_open by done. apply transaction_Ok.
  destruct (_file_map s !! filename) as [id|] eqn:Hf.
  - rewrite (bind_Ok _ _ _ _ _ (_file_id_known filename false s id Hf)).
    unfold bind, db_read. rewrite Hdb. simpl. by destruct (tbl_tracer db !! id).
  - by rewrite (bind_Ok _ _ _ _ _ (_file_id_unknown filename s Hf)).
Qed.

Lemma add_file_tracers_unfold file_tracers s :
  file_tracers ≠ [] →
  add_file_tracers file_tracers s
  = (_start_using ;;; with_connect (for_each file_tracers add_file_tracers_item)) s.
Proof. by destruct file_tracers. Qed.




Lemma ready_set_file s fm db :
  ready s → ready (set_file_map fm (set_storage (Some db) s)).
Proof. intros (? & ? & ?). by repeat split. Qed.










(** ** Purging files *)

(** The loop of [purge_files] on a store in use. *)
Lemma purge_files_loop (sql : Z → Database → Database) filenames s db :
  storage s = Some db →
  for_each filenames (λ filename,
      let! file_id := _file_id filename false in
      match file_id with
      | None => ret tt
      | Some id => db_write (sql id)
      end) s
  = Ok tt (set_storage (Some (foldl (λ d id, sql id d) db (ids_of s filenames))) s).
Proof.
  revert s db. induction filenames as [|filename rest IH]; intros s db Hdb.
  - simpl. rewrite <- Hdb. by rewrite set_storage_same.
  - simpl. unfold ids_of. simpl. unfold bind in *.
    destruct (_file_map s !! filename) as [id|] eqn:Hf.
    + rewrite (_file_id_known filename false s id Hf).
      unfold db_write at 1. rewrite Hdb.
      rewrite (IH _ (sql id db)) by done. by destruct s.
    + rewrite (_file_id_unknown filename s Hf). unfold ret at 1.
      by rewrite (IH _ db).
Qed.

Lemma purged_line_bits ids db :
  let db' := foldl (λ d id, delete_line_bits id d) db ids in
  tbl_coverage_schema db' = tbl_coverage_schema db ∧ tbl_meta db' = tbl_meta db
  ∧ tbl_file db' = tbl_file db ∧ tbl_context db' = tbl_context db
  ∧ tbl_arc db' = tbl_arc db ∧ tbl_tracer db' = tbl_tracer db
  ∧ ∀ key, tbl_line_bits db' !! key
           = if bool_decide (key.1 ∈ ids) then None else tbl_line_bits db !! key.
Proof.
  revert db. induction ids as [|id ids IH]; intros db; simpl.
  - split_and!; done.
  - destruct (IH (delete_line_bits id db)) as (H1 & H2 & H3 & H4 & H5 & H6 & H7).
    split_and!; try done. intros key. rewrite H7. simpl.
    destruct (decide (key.1 = id)) as [Heq|Hne].
    + rewrite (bool_decide_eq_true_2 (key.1 ∈ id :: ids)) by (subst; left).
      destruct (bool_decide (key.1 ∈ ids)); [done|].
      apply map_lookup_filter_None. right. intros nb _. simpl. by intros [].
    + rewrite (bool_decide_ext (key.1 ∈ id :: ids) (key.1 ∈ ids)) by (tidy; set_solver).
      destruct (bool_decide (key.1 ∈ ids)); [done|].
      destruct (tbl_line_bits db !! key) as [nb|] eqn:Hk.
      * by apply map_lookup_filter_Some.
      * apply map_lookup_filter_None. by left.
Qed.

Lemma purged_arc ids db :
  let db' := foldl (λ d id, delete_arc id d) db ids in
  tbl_coverage_schema db' = tbl_coverage_schema db ∧ tbl_meta db' = tbl_meta db
  ∧ tbl_file db' = tbl_file db ∧ tbl_context db' = tbl_context db
  ∧ tbl_line_bits db' = tbl_line_bits db ∧ tbl_tracer db' = tbl_tracer db
  ∧ ∀ row, row ∈ tbl_arc db' ↔ row ∈ tbl_arc db ∧ row.1.1.1 ∉ ids.
Proof.
  revert db. induction ids as [|id ids IH]; intros db; simpl.
  - split_and!; try done. intros row. (tidy; set_solver).
  - destruct (IH (delete_arc id db)) as (H1 & H2 & H3 & H4 & H5 & H6 & H7).
    split_and!; try done. intros row. rewrite H7. simpl.
    rewrite elem_of_filter, elem_of_cons. (tidy; naive_solver).
Qed.

(** C8.  On a store in use, [purge_files] in line-mode deletes exactly the
    [line_bits] rows of the named files that the store knows, in arc-mode
    exactly their [arc] rows; every other table, the [file] and [context]
    rows included, the rows of every other file and the rest of the object
    are unchanged.  Without a mode it raises and changes nothing. *)
Theorem purge_files_frame (s : CoverageData) (db : Database) (filenames : list string) :
  ready s → storage s = Some db →
  (_has_lines s = true →
     ∃ db', purge_files filenames s = Ok tt (set_storage (Some db') s)
            ∧ tbl_coverage_schema db' = tbl_coverage_schema db
            ∧ tbl_meta db' = tbl_meta db
            ∧ tbl_file db' = tbl_file db ∧ tbl_context db' = tbl_context db
            ∧ tbl_arc db' = tbl_arc db ∧ tbl_tracer db' = tbl_tracer db
            ∧ ∀ key, tbl_line_bits db' !! key
                     = if bool_decide (key.1 ∈ ids_of s filenames) then None
                       else tbl_line_bits db !! key)
  ∧ (_has_lines s = false → _has_arcs s = true →
       ∃ db', purge_files filenames s = Ok tt (set_storage (Some db') s)
              ∧ tbl_coverage_schema db' = tbl_coverage_schema db
              ∧ tbl_meta db' = tbl_meta db
              ∧ tbl_file db' = tbl_file db ∧ tbl_context db' = tbl_context db
              ∧ tbl_line_bits db' = tbl_line_bits db ∧ tbl_tracer db' = tbl_tracer db
              ∧ ∀ row, row ∈ tbl_arc db' ↔ row ∈ tbl_arc db ∧ row.1.1.1 ∉ ids_of s filenames)
  ∧ (no_mode s →
       purge_files filenames s
       = Raise (DataError (Text "Can't purge files in an empty CoverageData")) s).
Proof.
  intros (Hu & Hd & _) Hdb.
  assert (purge_files filenames s = transaction
            (let! s0 := get in
             let! sql :=
               (if _has_lines s0 then ret delete_line_bits
                else if _has_arcs s0 then ret delete_arc
                else raise (DataError (Text "Can't purge files in an empty CoverageData"))) in
             for_each filenames (λ filename,
               let! file_id := _file_id filename false in
               match file_id with
               | None => ret tt
               | Some id => db_write (sql id)
               end)) s) as Hunfold.
  { unfold purge_files.
    rewrite (bind_Ok _ _ _ _ _ (_start_using_used s Hu)).
    by rewrite with_connect_open. }
  rewrite Hunfold. clear Hunfold.
  split; [|split].
  - intros Hl. eexists. split.
    + apply transaction_Ok. unfold bind at 1. unfold get. rewrite Hl.
      unfold bind at 1. unfold ret at 1. by apply purge_files_loop.
    + apply purged_line_bits.
  - intros Hl Ha. eexists. split.
    + apply transaction_Ok. unfold bind at 1. unfold get. rewrite Hl, Ha.
      unfold bind at 1. unfold ret at 1. by apply purge_files_loop.
    + apply purged_arc.
  - intros [Hl Ha]. erewrite transaction_Raise.
    2:{ unfold bind at 1. unfold get. rewrite Hl, Ha. reflexivity. }
    by rewrite restored_same.
Qed.

(** ** Query path *)

Lemma arcs_ready filename s db :
  ready s → storage s = Some db →
  arcs filename s
  = Ok (id ← _file_map s !! filename;
        Some (elements (select_arcs id (_query_context_ids s) db))) s.
Proof.
  intros (Hu & Hd & _) Hdb. unfold arcs.
  rewrite (bind_Ok _ _ _ _ _ (_start_using_used s Hu)).
  rewrite with_connect_open by done. apply transaction_Ok.
  destruct (_file_map s !! filename) as [id|] eqn:Hf.
  - rewrite (bind_Ok _ _ _ _ _ (_file_id_known filename false s id Hf)).
    unfold bind, get, db_read. by rewrite Hdb.
  - by rewrite (bind_Ok _ _ _ _ _ (_file_id_unknown filename s Hf)).
Qed.

Lemma lines_ready filename s db :
  ready s → storage s = Some db →
  lines filename s
  = Ok (id ← _file_map s !! filename;
        Some (if _has_arcs s
              then lines_of_arcs (elements (select_arcs id (_query_context_ids s) db))
              else elements (nums_of (select_numbits id (_query_context_ids s) db)))) s.
Proof.
  intros Hr Hdb. pose proof Hr as (Hu & Hd & _). unfold lines.
  rewrite (bind_Ok _ _ _ _ _ (_start_using_used s Hu)).
  unfold bind at 1. unfold get. unfold has_arcs.
  destruct (_file_map s !! filename) as [id|] eqn:Hf; simpl.
  - destruct (_has_arcs s).
    + unfold bind at 1. unfold bind at 1. rewrite (arcs_ready _ _ _ Hr Hdb), Hf. done.
    + unfold bind at 1. unfold ret at 1.
      rewrite with_connect_open by done. apply transaction_Ok.
      rewrite (bind_Ok _ _ _ _ _ (_file_id_known filename false s id Hf)).
      unfold bind, get, db_read. by rewrite Hdb.
  - assert (with_connect
              (let! file_id := _file_id filename false in
               match file_id with
               | Some id =>
                   let! s0 := get in
                   let! bitmaps := db_read (select_numbits id (_query_context_ids s0)) in
                   ret (Some (elements (nums_of bitmaps)))
               | None => ret None
               end) s = Ok None s) as Hq.
    { rewrite with_connect_open by done. apply transaction_Ok.
      by rewrite (bind_Ok _ _ _ _ _ (_file_id_unknown filename s Hf)). }
    destruct (_has_arcs s).
    + unfold bind at 1. unfold bind at 1. rewrite (arcs_ready _ _ _ Hr Hdb), Hf. done.
    + done.
Qed.

Lemma contexts_by_lineno_ready filename s db :
  ready s → storage s = Some db →
  contexts_by_lineno filename s
  = Ok (match _file_map s !! filename with
        | None => ∅
        | Some id =>
            elements <$>
              (if _has_arcs s
               then arc_contexts_map (select_arc_contexts id (_query_context_ids s) db)
               else line_contexts_map (select_numbits_contexts id (_query_context_ids s) db))
        end) s.
Proof.
  intros (Hu & Hd & _) Hdb. unfold contexts_by_lineno.
  rewrite (bind_Ok _ _ _ _ _ (_start_using_used s Hu)).
  rewrite with_connect_open by done. apply transaction_Ok.
  destruct (_file_map s !! filename) as [id|] eqn:Hf.
  - rewrite (bind_Ok _ _ _ _ _ (_file_id_known filename false s id Hf)).
    unfold bind, get, has_arcs. destruct (_has_arcs s); unfold db_read; by rewrite Hdb.
  - by rewrite (bind_Ok _ _ _ _ _ (_file_id_unknown filename s Hf)).
Qed.

Lemma elem_of_select_arcs id ids db a :
  a ∈ select_arcs id ids db
  ↔ ∃ context_id, (id, context_id, a.1, a.2) ∈ tbl_arc db ∧ context_selected ids context_id.
Proof.
  unfold select_arcs. rewrite elem_of_map. split.
  - intros ([[[f c] fromno] tono] & -> & [[Hf Hsel] Hin]%elem_of_filter).
    simpl in *. subst. eauto.
  - intros (c & Hin & Hsel). exists (id, c, a.1, a.2). split; [by destruct a|].
    apply elem_of_filter. by repeat split.
Qed.

Lemma elem_of_select_numbits id ids db nb :
  nb ∈ select_numbits id ids db
  ↔ ∃ context_id, tbl_line_bits db !! (id, context_id) = Some nb
                  ∧ context_selected ids context_id.
Proof.
  unfold select_numbits. rewrite list_elem_of_fmap. split.
  - intros ([[f c] nb'] & -> & Hin). apply elem_of_map_to_list in Hin.
    apply map_lookup_filter_Some in Hin as [Hin [Hf Hsel]]. simpl in *. subst. eauto.
  - intros (c & Hin & Hsel). exists ((id, c), nb). split; [done|].
    apply elem_of_map_to_list. apply map_lookup_filter_Some. by repeat split.
Qed.

Lemma elem_of_nums_of_acc bitmaps (acc : gset Z) n :
  n ∈ foldl (λ nums row, nums ∪ list_to_set (Z.of_N <$> numbits_to_nums row)) acc bitmaps
  ↔ n ∈ acc ∨ ∃ nb, nb ∈ bitmaps ∧ ∃ k, k ∈ numbits_to_nums nb ∧ n = Z.of_N k.
Proof.
  revert acc. induction bitmaps as [|nb bitmaps IH]; intros acc; simpl.
  - split; [auto|]. intros [?|(nb & Hin & _)]; [done|]. by apply elem_of_nil in Hin.
  - rewrite IH. rewrite elem_of_union, elem_of_list_to_set, list_elem_of_fmap.
    split.
    + intros [[?|(k & -> & Hk)]|(nb' & Hin & Hk)]; [by left| |].
      * right. exists nb. split; [left|]. eauto.
      * right. exists nb'. split; [by right|]. done.
    + intros [?|(nb' & Hin & k & Hk & ->)]; [by left; left|].
      apply elem_of_cons in Hin as [->|Hin]; [left; right; eauto|].
      right. exists nb'. eauto.
Qed.

Lemma elem_of_nums_of bitmaps n :
  n ∈ nums_of bitmaps
  ↔ ∃ nb, nb ∈ bitmaps ∧ ∃ k, k ∈ numbits_to_nums nb ∧ n = Z.of_N k.
Proof.
  unfold nums_of. rewrite elem_of_nums_of_acc. split; [|auto].
  intros [Hin|?]; [|done]. by apply not_elem_of_empty in Hin.
Qed.

Lemma elem_of_lines_of_arcs pairs n :
  n ∈ lines_of_arcs pairs ↔ 0 < n ∧ ∃ a, a ∈ pairs ∧ (n = a.1 ∨ n = a.2).
Proof.
  unfold lines_of_arcs. rewrite elem_of_elements, elem_of_list_to_set, list_elem_of_filter.
  rewrite list_elem_of_bind. split.
  - intros (Hpos & a & Hn & Ha). split; [done|]. exists a. split; [done|]. (tidy; set_solver).
  - intros (Hpos & a & Ha & Hn). split; [done|]. exists a. split; [|done]. (tidy; set_solver).
Qed.

Lemma has_context_add_context l c (m : gmap Z (gset string)) n c' :
  has_context (add_context l c m) n c' ↔ has_context m n c' ∨ (n = l ∧ c' = c).
Proof.
  unfold has_context, add_context. destruct (decide (n = l)) as [->|Hne].
  - rewrite lookup_insert_eq. split.
    + intros (X & [= <-] & Hin). apply elem_of_union in Hin as [Hin|Hin].
      * left. destruct (m !! l) as [Y|]; simpl in Hin; [eauto|].
        by apply not_elem_of_empty in Hin.
      * right. apply elem_of_singleton in Hin. done.
    + intros [(X & Hm & Hin)|[_ ->]]; eexists; (split; [done|]).
      * rewrite Hm. simpl. (tidy; set_solver).
      * (tidy; set_solver).
  - rewrite lookup_insert_ne by done. split; [by left|]. intros [?|[? _]]; done.
Qed.

Lemma has_context_empty n c : ¬ has_context (∅ : gmap Z (gset string)) n c.
Proof. intros (X & Hm & _). by rewrite lookup_empty in Hm. Qed.

Lemma has_context_arc_rows rows (m : gmap Z (gset string)) n c :
  has_context
    (foldl (λ m row,
              let m1 := if bool_decide (0 < row.1.1)
                        then add_context row.1.1 row.2 m else m in
              if bool_decide (0 < row.1.2)
              then add_context row.1.2 row.2 m1 else m1)
           m rows) n c
  ↔ has_context m n c
    ∨ ∃ row : Z * Z * string, row ∈ rows ∧ row.2 = c ∧ 0 < n ∧ (n = row.1.1 ∨ n = row.1.2).
Proof.
  revert m. induction rows as [|row rows IH]; intros m; simpl.
  - split; [auto|]. intros [?|(row & Hin & _)]; [done|]. by apply elem_of_nil in Hin.
  - rewrite IH. clear IH.
    assert (has_context
              (if bool_decide (0 < row.1.2)
               then add_context row.1.2 row.2
                      (if bool_decide (0 < row.1.1)
                       then add_context row.1.1 row.2 m else m)
               else if bool_decide (0 < row.1.1)
                    then add_context row.1.1 row.2 m else m) n c
            ↔ has_context m n c
              ∨ (row.2 = c ∧ 0 < n ∧ (n = row.1.1 ∨ n = row.1.2))) as ->.
    { repeat case_bool_decide; rewrite ?has_context_add_context; (tidy; naive_solver lia). }
    split.
    + intros [[?|?]|(row' & Hin & ?)]; [by left| |].
      * right. exists row. split; [left|done].
      * right. exists row'. split; [by right|done].
    + intros [?|(row' & Hin & ?)]; [by left; left|].
      apply elem_of_cons in Hin as [->|Hin]; [by left; right|].
      right. eauto.
Qed.

Lemma has_context_arc_contexts_map rows n c :
  has_context (arc_contexts_map rows) n c
  ↔ ∃ row : Z * Z * string, row ∈ rows ∧ row.2 = c ∧ 0 < n ∧ (n = row.1.1 ∨ n = row.1.2).
Proof.
  unfold arc_contexts_map. rewrite has_context_arc_rows. split; [|auto].
  intros [H|?]; [|done]. by apply has_context_empty in H.
Qed.

Lemma has_context_line_nums (nums : list N) c0 (m : gmap Z (gset string)) n c :
  has_context (foldl (λ m lineno, add_context (Z.of_N lineno) c0 m) m nums) n c
  ↔ has_context m n c ∨ (c = c0 ∧ ∃ k, k ∈ nums ∧ n = Z.of_N k).
Proof.
  revert m. induction nums as [|k nums IH]; intros m; simpl.
  - split; [auto|]. intros [?|(_ & k & Hin & _)]; [done|]. by apply elem_of_nil in Hin.
  - rewrite IH, has_context_add_context. split.
    + intros [[?|[-> ->]]|(-> & k' & Hin & ->)]; [by left| |].
      * right. split; [done|]. exists k. split; [left|done].
      * right. split; [done|]. exists k'. split; [by right|done].
    + intros [?|(-> & k' & Hin & ->)]; [by left; left|].
      apply elem_of_cons in Hin as [->|Hin]; [by left; right|].
      right. eauto.
Qed.

Lemma has_context_line_rows (rows : list (list N * string)) (m : gmap Z (gset string)) n c :
  has_context
    (foldl (λ m row,
              foldl (λ m lineno, add_context (Z.of_N lineno) row.2 m)
                    m (numbits_to_nums row.1))
           m rows) n c
  ↔ has_context m n c
    ∨ ∃ row : list N * string,
        row ∈ rows ∧ row.2 = c ∧ ∃ k, k ∈ numbits_to_nums row.1 ∧ n = Z.of_N k.
Proof.
  revert m. induction rows as [|row rows IH]; intros m; simpl.
  - split; [auto|]. intros [?|(row & Hin & _)]; [done|]. by apply elem_of_nil in Hin.
  - rewrite IH, has_context_line_nums. split.
    + intros [[?|[-> ?]]|(row' & Hin & ?)]; [by left| |].
      * right. exists row. split; [left|done].
      * right. exists row'. split; [by right|done].
    + intros [?|(row' & Hin & Hc & ?)]; [by left; left|].
      apply elem_of_cons in Hin as [->|Hin]; [by left; right|].
      right. eauto.
Qed.

Lemma has_context_line_contexts_map rows n c :
  has_context (line_contexts_map rows) n c
  ↔ ∃ row : list N * string,
      row ∈ rows ∧ row.2 = c ∧ ∃ k, k ∈ numbits_to_nums row.1 ∧ n = Z.of_N k.
Proof.
  unfold line_contexts_map. rewrite has_context_line_rows. split; [|auto].
  intros [H|?]; [|done]. by apply has_context_empty in H.
Qed.

Lemma has_context_elements (m : gmap Z (gset string)) n c :
  has_context (elements <$> m) n c ↔ has_context m n c.
Proof.
  unfold has_context. rewrite lookup_fmap. split.
  - intros (l & Hl & Hin). destruct (m !! n) as [X|]; simplify_eq/=.
    exists X. split; [done|]. by apply elem_of_elements.
  - intros (X & -> & Hin). eexists. split; [done|]. by apply elem_of_elements.
Qed.

Lemma elem_of_select_arc_contexts id ids db fromno tono c :
  (fromno, tono, c) ∈ select_arc_contexts id ids db
  ↔ ∃ context_id, (id, context_id, fromno, tono) ∈ tbl_arc db
                  ∧ context_selected ids context_id
                  ∧ tbl_context db !! c = Some context_id.
Proof.
  unfold select_arc_contexts. rewrite list_elem_of_bind. split.
  - intros ([[[f cid] fr] to] & Hin & Hrow). simpl in *.
    apply list_elem_of_fmap in Hin as (c' & [= -> -> ->] & Hc).
    apply elem_of_names_of_id in Hc.
    apply elem_of_elements, elem_of_filter in Hrow as [[Hf Hsel] Hrow]. simpl in *. subst.
    eauto.
  - intros (cid & Hrow & Hsel & Hc). exists (id, cid, fromno, tono). split.
    + simpl. apply list_elem_of_fmap. exists c. split; [done|]. by apply elem_of_names_of_id.
    + apply elem_of_elements, elem_of_filter. by repeat split.
Qed.

Lemma elem_of_select_numbits_contexts id ids db nb c :
  (nb, c) ∈ select_numbits_contexts id ids db
  ↔ ∃ context_id, tbl_line_bits db !! (id, context_id) = Some nb
                  ∧ context_selected ids context_id
                  ∧ tbl_context db !! c = Some context_id.
Proof.
  unfold select_numbits_contexts. rewrite list_elem_of_bind. split.
  - intros ([[f cid] nb'] & Hin & Hrow). simpl in *.
    apply list_elem_of_fmap in Hin as (c' & [= -> ->] & Hc).
    apply elem_of_names_of_id in Hc.
    apply elem_of_map_to_list, map_lookup_filter_Some in Hrow as [Hrow [Hf Hsel]].
    simpl in *. subst. eauto.
  - intros (cid & Hrow & Hsel & Hc). exists ((id, cid), nb). split.
    + simpl. apply list_elem_of_fmap. exists c. split; [done|]. by apply elem_of_names_of_id.
    + apply elem_of_map_to_list, map_lookup_filter_Some. by repeat split.
Qed.

Lemma ready_set_query_context_ids ids s : ready s → ready (set_query_context_ids ids s).
Proof. intros (? & ? & ?). by repeat split. Qed.

Lemma set_query_context_ready context s db :
  ready s → storage s = Some db →
  set_query_context context s
  = Ok tt (set_query_context_ids (Some (option_list (tbl_context db !! context))) s).
Proof.
  intros (Hu & Hd & _) Hdb. unfold set_query_context.
  rewrite (bind_Ok _ _ _ _ _ (_start_using_used s Hu)).
  rewrite with_connect_open by done. apply transaction_Ok.
  unfold bind, db_read, modify. by rewrite Hdb.
Qed.

Lemma set_query_contexts_ready pattern patterns s db :
  ready s → storage s = Some db →
  set_query_contexts (Some (pattern :: patterns)) s
  = match select_context_regexp (pattern :: patterns) db with
    | Some ids => Ok tt (set_query_context_ids (Some ids) s)
    | None => Raise SqliteError s
    end.
Proof.
  intros (Hu & Hd & _) Hdb. unfold set_query_contexts.
  rewrite (bind_Ok _ _ _ _ _ (_start_using_used s Hu)).
  rewrite with_connect_open by done.
  destruct (select_context_regexp (pattern :: patterns) db) as [ids|] eqn:Hrows.
  - apply transaction_Ok. unfold bind, db_read, modify. by rewrite Hdb, Hrows.
  - erewrite transaction_Raise; [by rewrite restored_same|].
    unfold bind, db_read. by rewrite Hdb, Hrows.
Qed.

Lemma starts_with_spec pattern text :
  starts_with pattern text = true ↔ ∃ after, text = pattern +:+ after.
Proof.
  revert text. induction pattern as [|c pattern IH]; intros text; simpl.
  - split; [intros _; by exists text|done].
  - destruct text as [|d text]; simpl.
    + split; [done|]. by intros [after Heq].
    + rewrite andb_true_iff, IH. split.
      * intros [Hc [after ->]]. apply Ascii.eqb_eq in Hc as ->. by exists after.
      * intros [after [= -> ->]]. split; [apply Ascii.eqb_refl|by exists after].
Qed.

(** A pattern without metacharacters is searched for, not matched against
    the whole text. *)
Lemma literal_search_spec pattern text :
  literal_search pattern text = true ↔ contains pattern text.
Proof.
  unfold contains. induction text as [|d text IH].
  - simpl. rewrite orb_false_r, starts_with_spec. split.
    + intros [after Heq]. by exists "", after.
    + intros ([|c before] & after & Heq); [by exists after|done].
  - cbn [literal_search]. rewrite orb_true_iff, IH, starts_with_spec. split.
    + intros [[after Heq]|(before & after & ->)].
      * by exists "", after.
      * by exists (String d before), after.
    + intros ([|c before] & after & Heq).
      * left. by exists after.
      * right. injection Heq as -> ->. by exists before, after.
Qed.

Lemma regexp_plain pattern text :
  plain pattern = true → regexp pattern text = Some (literal_search pattern text).
Proof. unfold regexp. by intros ->. Qed.

(** The disjunction holds when some pattern matches and the function raises
    on no pattern before it. *)
Lemma regexp_any_true patterns context :
  regexp_any patterns context = Some true
  ↔ ∃ (before : list string) pattern after,
      patterns = (before ++ pattern :: after)%list
      ∧ Forall (λ p, regexp p context = Some false) before
      ∧ regexp pattern context = Some true.
Proof.
  induction patterns as [|p patterns IH]; simpl.
  - split; [done|]. by intros ([|??] & ? & ? & ? & _).
  - destruct (regexp p context) as [[]|] eqn:Hp.
    + split; [intros _; by exists [], p, patterns|done].
    + rewrite IH. split.
      * intros (before & pattern & after & -> & Hbefore & Hpattern).
        exists (p :: before), pattern, after. split; [done|]. split; [by constructor|done].
      * intros ([|q before] & pattern & after & Heq & Hbefore & Hpattern);
          simplify_eq/=; try congruence.
        apply Forall_cons in Hbefore as [_ Hbefore]. by exists before, pattern, after.
    + split; [done|].
      intros ([|q before] & pattern & after & Heq & Hbefore & Hpattern);
        simplify_eq/=; try congruence.
      apply Forall_cons in Hbefore as [Hq _]. congruence.
Qed.

Lemma regexp_any_None patterns context :
  regexp_any patterns context = None
  ↔ ∃ (before : list string) pattern after,
      patterns = (before ++ pattern :: after)%list
      ∧ Forall (λ p, regexp p context = Some false) before
      ∧ regexp pattern context = None.
Proof.
  induction patterns as [|p patterns IH]; simpl.
  - split; [done|]. by intros ([|??] & ? & ? & ? & _).
  - destruct (regexp p context) as [[]|] eqn:Hp.
    + split; [done|].
      intros ([|q before] & pattern & after & Heq & Hbefore & Hpattern);
        simplify_eq/=; try congruence.
      apply Forall_cons in Hbefore as [Hq _]. congruence.
    + rewrite IH. split.
      * intros (before & pattern & after & -> & Hbefore & Hpattern).
        exists (p :: before), pattern, after. split; [done|]. split; [by constructor|done].
      * intros ([|q before] & pattern & after & Heq & Hbefore & Hpattern);
          simplify_eq/=; try congruence.
        apply Forall_cons in Hbefore as [_ Hbefore]. by exists before, pattern, after.
    + split; [intros _; by exists [], p, patterns|done].
Qed.

(** When the function raises on no pattern, the disjunction is the plain
    "some pattern matches". *)
Lemma regexp_any_valid patterns context :
  Forall (λ p, is_Some (regexp p context)) patterns →
  ∃ b, regexp_any patterns context = Some b
       ∧ (b = true ↔ ∃ p, p ∈ patterns ∧ regexp p context = Some true).
Proof.
  induction patterns as [|p patterns IH]; intros Hvalid; simpl.
  - exists false. split; [done|]. split; [done|]. by intros (? & ?%elem_of_nil & _).
  - apply Forall_cons in Hvalid as [[b Hp] Hvalid]. rewrite Hp. destruct b.
    + exists true. split; [done|]. split; [|done]. intros _. exists p. split; [by left|done].
    + destruct (IH Hvalid) as (b & Hany & Hb). exists b. split; [done|]. rewrite Hb. split.
      * intros (q & Hq & Hmatch). exists q. split; [by right|done].
      * intros (q & [->|Hq]%elem_of_cons & Hmatch); [congruence|]. by exists q.
Qed.

Lemma select_context_regexp_Some contexts db :
  (∀ context, is_Some (tbl_context db !! context) → is_Some (regexp_any contexts context)) →
  ∃ ids, select_context_regexp contexts db = Some ids
         ∧ ∀ context_id,
             context_id ∈ ids
             ↔ ∃ context, tbl_context db !! context = Some context_id
                          ∧ regexp_any contexts context = Some true.
Proof.
  intros Hvalid. unfold select_context_regexp.
  rewrite (proj2 (forallb_forall _ _)).
  2:{ intros [context cid] Hin%list_elem_of_In%elem_of_map_to_list. simpl.
      apply bool_decide_eq_true. apply Hvalid. by eexists. }
  eexists. split; [done|]. intros cid. rewrite list_elem_of_fmap. split.
  - intros ([c cid'] & -> & [Hany Hin]%list_elem_of_filter). simpl in *.
    apply elem_of_map_to_list in Hin. by exists c.
  - intros (c & Hc & Hany). exists (c, cid). split; [done|].
    apply list_elem_of_filter. split; [done|]. by apply elem_of_map_to_list.
Qed.

Lemma select_context_regexp_None contexts db context :
  is_Some (tbl_context db !! context) → regexp_any contexts context = None →
  select_context_regexp contexts db = None.
Proof.
  intros [cid Hc] Hany. unfold select_context_regexp.
  destruct (forallb _ _) eqn:Hall; [|done]. exfalso.
  rewrite forallb_forall in Hall.
  specialize (Hall (context, cid)
                (proj1 (list_elem_of_In _ _) (proj2 (elem_of_map_to_list _ _ _) Hc))).
  simpl in Hall. apply bool_decide_eq_true in Hall as [b Hb]. congruence.
Qed.

(** C6.  On a store in use: [set_query_context(name)] selects the ids of
    the contexts equal to [name]; [set_query_contexts(patterns)] with a
    non-empty list of patterns without metacharacters selects the ids of the
    contexts that contain one of the patterns, wherever in the context and
    whatever surrounds it: search, not a match of the whole text.  For
    patterns in general it selects the contexts that some pattern matches by
    [regexp], provided the function raises on none of them; if it raises on
    a pattern that is reached on some context (no pattern before it matches
    that context), the call raises and the selection stays as it was.  With
    [None] or an empty list the call clears the selection, and then every
    context is selected.  Whatever the selection [ids], [arcs], [lines] and
    [contexts_by_lineno] read exactly the rows of the file whose context is
    selected. *)
Theorem query_context_filter (s : CoverageData) (db : Database) :
  ready s → storage s = Some db →
  (∀ name, ∃ ids,
      set_query_context name s = Ok tt (set_query_context_ids (Some ids) s)
      ∧ ∀ context_id,
          context_selected (Some ids) context_id ↔ tbl_context db !! name = Some context_id)
  ∧ (∀ pattern patterns,
       Forall (λ p, plain p = true) (pattern :: patterns) →
       ∃ ids,
         set_query_contexts (Some (pattern :: patterns)) s
         = Ok tt (set_query_context_ids (Some ids) s)
         ∧ ∀ context_id,
             context_selected (Some ids) context_id
             ↔ ∃ context p, tbl_context db !! context = Some context_id
                            ∧ p ∈ pattern :: patterns ∧ contains p context)
  ∧ (∀ pattern patterns,
       (∀ context p, is_Some (tbl_context db !! context) → p ∈ pattern :: patterns →
                     is_Some (regexp p context)) →
       ∃ ids,
         set_query_contexts (Some (pattern :: patterns)) s
         = Ok tt (set_query_context_ids (Some ids) s)
         ∧ ∀ context_id,
             context_selected (Some ids) context_id
             ↔ ∃ context p, tbl_context db !! context = Some context_id
                            ∧ p ∈ pattern :: patterns ∧ regexp p context = Some true)
  ∧ (∀ (before : list string) pattern after context,
       is_Some (tbl_context db !! context) →
       Forall (λ p, regexp p context = Some false) before →
       regexp pattern context = None →
       (before ++ pattern :: after)%list ≠ []
       ∧ set_query_contexts (Some (before ++ pattern :: after)%list) s = Raise SqliteError s)
  ∧ (set_query_contexts None s = Ok tt (set_query_context_ids None s)
     ∧ set_query_contexts (Some []) s = Ok tt (set_query_context_ids None s)
     ∧ ∀ context_id, context_selected None context_id)
  ∧ (∀ ids filename id,
       _file_map s !! filename = Some id →
       let s' := set_query_context_ids ids s in
       (∃ l, arcs filename s' = Ok (Some l) s'
             ∧ ∀ a, a ∈ l
                    ↔ ∃ context_id, (id, context_id, a.1, a.2) ∈ tbl_arc db
                                    ∧ context_selected ids context_id)
       ∧ (∃ l, lines filename s' = Ok (Some l) s'
               ∧ ∀ n, n ∈ l
                      ↔ if _has_arcs s then
                          0 < n
                          ∧ ∃ context_id fromno tono,
                              (id, context_id, fromno, tono) ∈ tbl_arc db
                              ∧ context_selected ids context_id
                              ∧ (n = fromno ∨ n = tono)
                        else
                          ∃ context_id nb k,
                            tbl_line_bits db !! (id, context_id) = Some nb
                            ∧ context_selected ids context_id
                            ∧ k ∈ numbits_to_nums nb ∧ n = Z.of_N k)
       ∧ (∃ m, contexts_by_lineno filename s' = Ok m s'
               ∧ ∀ n context,
                   has_context m n context
                   ↔ if _has_arcs s then
                       0 < n
                       ∧ ∃ context_id fromno tono,
                           (id, context_id, fromno, tono) ∈ tbl_arc db
                           ∧ context_selected ids context_id
                           ∧ tbl_context db !! context = Some context_id
                           ∧ (n = fromno ∨ n = tono)
                     else
                       ∃ context_id nb k,
                         tbl_line_bits db !! (id, context_id) = Some nb
                         ∧ context_selected ids context_id
                         ∧ tbl_context db !! context = Some context_id
                         ∧ k ∈ numbits_to_nums nb ∧ n = Z.of_N k)).
Proof.
  intros Hr Hdb. pose proof Hr as (Hu & Hd & _). split_and!.
  - intros name. eexists. split; [by apply set_query_context_ready|].
    intros cid. simpl. destruct (tbl_context db !! name) as [cid'|]; simpl.
    + rewrite list_elem_of_singleton. split; congruence.
    + split; [by intros ?%elem_of_nil|done].
  - intros pattern patterns Hplain.
    destruct (select_context_regexp_Some (pattern :: patterns) db) as (ids & Hrows & Hids).
    { intros context _.
      destruct (regexp_any_valid (pattern :: patterns) context) as (b & -> & _); [|done].
      eapply Forall_impl; [exact Hplain|]. intros p Hp. simpl in Hp.
      rewrite regexp_plain by done. by eexists. }
    exists ids. rewrite (set_query_contexts_ready _ _ _ _ Hr Hdb), Hrows. split; [done|].
    intros cid. simpl. rewrite Hids. split.
    + intros (context & Hc & (before & p & after & Heq & _ & Hp)%regexp_any_true).
      exists context, p. split; [done|].
      assert (p ∈ pattern :: patterns) as Hin
        by (rewrite Heq; apply elem_of_app; right; by left).
      split; [done|]. rewrite Forall_forall in Hplain.
      rewrite regexp_plain in Hp by (by apply Hplain).
      apply literal_search_spec. congruence.
    + intros (context & p & Hc & Hin & Hp). exists context. split; [done|].
      destruct (regexp_any_valid (pattern :: patterns) context) as (b & Hany & Hb).
      { eapply Forall_impl; [exact Hplain|]. intros q Hq. simpl in Hq.
        rewrite regexp_plain by done. by eexists. }
      rewrite Hany. f_equal. apply Hb. exists p. split; [done|].
      rewrite Forall_forall in Hplain. rewrite regexp_plain by (by apply Hplain).
      f_equal. by apply literal_search_spec.
  - intros pattern patterns Hvalid.
    assert (∀ context, is_Some (tbl_context db !! context) →
                       Forall (λ p, is_Some (regexp p context)) (pattern :: patterns))
      as Hvalid'.
    { intros context Hc. apply Forall_forall. intros p Hp. by apply Hvalid. }
    destruct (select_context_regexp_Some (pattern :: patterns) db) as (ids & Hrows & Hids).
    { intros context Hc.
      by destruct (regexp_any_valid _ context (Hvalid' context Hc)) as (b & -> & _). }
    exists ids. rewrite (set_query_contexts_ready _ _ _ _ Hr Hdb), Hrows. split; [done|].
    intros cid. simpl. rewrite Hids. split.
    + intros (context & Hc & (before & p & after & Heq & _ & Hp)%regexp_any_true).
      exists context, p. split; [done|]. split; [|done].
      rewrite Heq. apply elem_of_app. right. by left.
    + intros (context & p & Hc & Hin & Hp). exists context. split; [done|].
      destruct (regexp_any_valid _ context (Hvalid' context ltac:(by eexists)))
        as (b & Hany & Hb).
      rewrite Hany. f_equal. apply Hb. by exists p.
  - intros before pattern after context Hc Hbefore Hpattern.
    split; [by destruct before|].
    destruct (before ++ pattern :: after)%list as [|p0 rest] eqn:Hlist; [by destruct before|].
    rewrite (set_query_contexts_ready _ _ _ _ Hr Hdb).
    rewrite (select_context_regexp_None (p0 :: rest) db context Hc); [done|].
    rewrite <- Hlist. apply regexp_any_None. by exists before, pattern, after.
  - unfold set_query_contexts. by rewrite (bind_Ok _ _ _ _ _ (_start_using_used s Hu)).
  - unfold set_query_contexts. by rewrite (bind_Ok _ _ _ _ _ (_start_using_used s Hu)).
  - done.
  - intros ids filename id Hf s'.
    assert (ready s') as Hr' by by apply ready_set_query_context_ids.
    assert (storage s' = Some db) as Hdb' by done.
    assert (_file_map s' !! filename = Some id) as Hf' by done.
    assert (_has_arcs s' = _has_arcs s) as Ha' by done.
    assert (_query_context_ids s' = ids) as Hq' by done.
    split_and!.
    + eexists. rewrite (arcs_ready _ _ _ Hr' Hdb'), Hf', Hq'. split; [done|].
      intros a. rewrite elem_of_elements. apply elem_of_select_arcs.
    + eexists. rewrite (lines_ready _ _ _ Hr' Hdb'), Hf', Hq', Ha'. split; [done|].
      intros n. destruct (_has_arcs s).
      * rewrite elem_of_lines_of_arcs. split.
        -- intros (Hpos & a & Ha & Hn). split; [done|].
           apply elem_of_elements, elem_of_select_arcs in Ha as (cid & Hrow & Hsel).
           exists cid, a.1, a.2. done.
        -- intros (Hpos & cid & fromno & tono & Hrow & Hsel & Hn). split; [done|].
           exists (fromno, tono). split; [|done].
           apply elem_of_elements, elem_of_select_arcs. eauto.
      * rewrite elem_of_elements, elem_of_nums_of. split.
        -- intros (nb & Hnb & k & Hk & ->).
           apply elem_of_select_numbits in Hnb as (cid & Hrow & Hsel). eauto 10.
        -- intros (cid & nb & k & Hrow & Hsel & Hk & ->). exists nb. split; [|eauto].
           apply elem_of_select_numbits. eauto.
    + eexists. rewrite (contexts_by_lineno_ready _ _ _ Hr' Hdb'), Hf', Hq', Ha'.
      split; [done|]. intros n c. rewrite has_context_elements. destruct (_has_arcs s).
      * rewrite has_context_arc_contexts_map. split.
        -- intros ([[fromno tono] c'] & Hin & Hc & Hpos & Hn). simpl in *. subst.
           apply elem_of_select_arc_contexts in Hin as (cid & Hrow & Hsel & Hctx).
           split; [done|]. exists cid, fromno, tono. done.
        -- intros (Hpos & cid & fromno & tono & Hrow & Hsel & Hctx & Hn).
           exists (fromno, tono, c). split; [|done].
           apply elem_of_select_arc_contexts. eauto.
      * rewrite has_context_line_contexts_map. split.
        -- intros ([nb c'] & Hin & Hc & k & Hk & ->). simpl in *. subst.
           apply elem_of_select_numbits_contexts in Hin as (cid & Hrow & Hsel & Hctx).
           exists cid, nb, k. done.
        -- intros (cid & nb & k & Hrow & Hsel & Hctx & Hk & ->).
           exists (nb, c). split; [|simpl; eauto].
           apply elem_of_select_numbits_contexts. eauto.
Qed.

Lemma started_file_map s filename :
  _file_map s !! filename = None → _file_map (started s) !! filename = None.
Proof.
  unfold started. destruct s as [nd st d fm hu hl ha cc ci qi].
  destruct hu, nd; simpl; done.
Qed.

(** A query for a file that the store does not know. *)
Lemma query_unknown {A} (K : Z → M (option A)) filename s :
  lifecycle_ok s → _have_used s = true → _file_map s !! filename = None →
  ∃ s', with_connect
          (let! file_id := _file_id filename false in
           match file_id with
           | None => ret None
           | Some id => K id
           end) s = Ok None s'
        ∧ lifecycle_ok s' ∧ _have_used s' = true ∧ _dbs s' = true
        ∧ _file_map s' !! filename = None ∧ _has_arcs s' = _has_arcs s.
Proof.
  intros Hok Hu Hf.
  destruct (_connect_lifecycle s Hok Hu)
    as (s' & Hc & Hd' & Hu' & _ & Ha' & _ & Hok' & Hsame & Hnew).
  assert (_file_map s' !! filename = None) as Hf'.
  { destruct (_dbs s) eqn:Hd.
    - by rewrite (Hsame eq_refl).
    - destruct (Hnew eq_refl) as [_ ->]. done. }
  exists s'. split; [|done]. unfold with_connect.
  rewrite (bind_Ok _ _ _ _ _ Hc). apply transaction_Ok.
  by rewrite (bind_Ok _ _ _ _ _ (_file_id_unknown filename s' Hf')).
Qed.

Lemma arcs_unknown filename s :
  lifecycle_ok s → _file_map s !! filename = None →
  ∃ s', arcs filename s = Ok None s'
        ∧ lifecycle_ok s' ∧ _have_used s' = true ∧ _dbs s' = true
        ∧ _file_map s' !! filename = None ∧ _has_arcs s' = _has_arcs s.
Proof.
  intros Hok Hf. unfold arcs. rewrite (bind_Ok _ _ _ _ _ (_start_using_started s)).
  destruct (started_fields s) as (Hu & _ & Ha & _).
  rewrite <- Ha. apply query_unknown; [by apply started_lifecycle|done|].
  by apply started_file_map.
Qed.

Lemma lines_unknown filename s :
  lifecycle_ok s → _file_map s !! filename = None →
  ∃ s', lines filename s = Ok None s'.
Proof.
  intros Hok Hf. unfold lines. rewrite (bind_Ok _ _ _ _ _ (_start_using_started s)).
  destruct (started_fields s) as (Hu & _ & Ha & _).
  pose proof (started_lifecycle s Hok) as Hok1.
  pose proof (started_file_map s filename Hf) as Hf1.
  unfold bind at 1. unfold get. unfold has_arcs.
  destruct (_has_arcs (started s)).
  - destruct (arcs_unknown filename (started s) Hok1 Hf1)
      as (s2 & Harcs & Hok2 & Hu2 & Hd2 & Hf2 & _).
    unfold bind at 1. unfold bind at 1. rewrite Harcs. unfold ret at 1.
    destruct (query_unknown
                (λ id, let! s0 := get in
                       let! bitmaps := db_read (select_numbits id (_query_context_ids s0)) in
                       ret (Some (elements (nums_of bitmaps))))
                filename s2 Hok2 Hu2 Hf2) as (s3 & Hq & _).
    eauto.
  - unfold bind at 1. unfold ret at 1.
    destruct (query_unknown
                (λ id, let! s0 := get in
                       let! bitmaps := db_read (select_numbits id (_query_context_ids s0)) in
                       ret (Some (elements (nums_of bitmaps))))
                filename (started s) Hok1 Hu Hf1) as (s3 & Hq & _).
    eauto.
Qed.

Lemma next_rowid_gt (tbl : gmap string Z) name id :
  tbl !! name = Some id → id < next_rowid tbl.
Proof.
  intros H. unfold next_rowid.
  assert (id ∈ (map_to_list tbl).*2) as Hin.
  { apply list_elem_of_fmap. exists (name, id). split; [done|]. by apply elem_of_map_to_list. }
  revert Hin. generalize ((map_to_list tbl).*2). intros l.
  induction l as [|x l IH]; [by intros ?%elem_of_nil|].
  intros [->|Hin]%elem_of_cons; simpl; [lia|]. specialize (IH Hin). lia.
Qed.

Lemma touch_files_new filename s db :
  ready s → storage s = Some db → ¬ no_mode s → _file_map s !! filename = None →
  touch_files [filename] None s
  = Ok tt (set_file_map (<[filename := next_rowid (tbl_file db)]> (_file_map s))
             (set_storage
                (Some (set_tbl_file (insert_or_replace_name filename (tbl_file db)) db)) s)).
Proof.
  intros (Hu & Hd & _) Hdb Hmode Hf. unfold touch_files.
  rewrite (bind_Ok _ _ _ _ _ (_start_using_used s Hu)).
  rewrite with_connect_open by done. apply transaction_Ok.
  unfold bind at 1. unfold get.
  destruct (negb (_has_arcs s) && negb (_has_lines s)) eqn:Hm.
  { destruct Hmode. apply andb_true_iff in Hm as [Ha Hl].
    apply negb_true_iff in Ha, Hl. by split. }
  simpl. unfold bind at 1. unfold bind at 1.
  by rewrite (_file_id_new _ _ _ Hd Hdb Hf).
Qed.

(** C5.  For a file that the store does not know, [arcs] and [lines] return
    [None].  For a file that a store in use knows, they return the empty
    list when no row of the file is selected by the query contexts (in
    line-mode: when the selected numbits hold no line).  In particular,
    after [touch_files] of a new file on a store whose rows all belong to
    known files, both return the empty list. *)
Theorem unmeasured_or_empty (s : CoverageData) (filename : string) :
  (lifecycle_ok s → _file_map s !! filename = None →
     (∃ s', arcs filename s = Ok None s') ∧ (∃ s', lines filename s = Ok None s'))
  ∧ (∀ db id,
       ready s → storage s = Some db → _file_map s !! filename = Some id →
       ((∀ context_id fromno tono,
           (id, context_id, fromno, tono) ∈ tbl_arc db →
           ¬ context_selected (_query_context_ids s) context_id) →
        arcs filename s = Ok (Some []) s
        ∧ (_has_arcs s = true → lines filename s = Ok (Some []) s))
       ∧ (_has_arcs s = false →
          (∀ context_id nb,
             tbl_line_bits db !! (id, context_id) = Some nb →
             context_selected (_query_context_ids s) context_id →
             numbits_to_nums nb = []) →
          lines filename s = Ok (Some []) s))
  ∧ (∀ db,
       ready s → storage s = Some db → ¬ no_mode s → references_ok db →
       _file_map s !! filename = None →
       ∃ s', touch_files [filename] None s = Ok tt s'
             ∧ arcs filename s' = Ok (Some []) s'
             ∧ lines filename s' = Ok (Some []) s').
Proof.
  assert (∀ s db id,
            ready s → storage s = Some db → _file_map s !! filename = Some id →
            ((∀ context_id fromno tono,
                (id, context_id, fromno, tono) ∈ tbl_arc db →
                ¬ context_selected (_query_context_ids s) context_id) →
             arcs filename s = Ok (Some []) s
             ∧ (_has_arcs s = true → lines filename s = Ok (Some []) s))
            ∧ (_has_arcs s = false →
               (∀ context_id nb,
                  tbl_line_bits db !! (id, context_id) = Some nb →
                  context_selected (_query_context_ids s) context_id →
                  numbits_to_nums nb = []) →
               lines filename s = Ok (Some []) s)) as Hempty.
  { clear s. intros s db id Hr Hdb Hf. split.
    - intros Hnone.
      assert (select_arcs id (_query_context_ids s) db = ∅) as Hsel.
      { apply elem_of_equiv_empty_L. intros a (cid & Hrow & Hs)%elem_of_select_arcs.
        by apply (Hnone cid a.1 a.2). }
      split.
      + rewrite (arcs_ready _ _ _ Hr Hdb), Hf. simpl. by rewrite Hsel, elements_empty.
      + intros Ha. rewrite (lines_ready _ _ _ Hr Hdb), Hf, Ha. simpl.
        by rewrite Hsel, elements_empty.
    - intros Ha Hnone. rewrite (lines_ready _ _ _ Hr Hdb), Hf, Ha. simpl.
      assert (nums_of (select_numbits id (_query_context_ids s) db) = ∅) as ->.
      { apply elem_of_equiv_empty_L. intros n (nb & Hnb & k & Hk & _)%elem_of_nums_of.
        apply elem_of_select_numbits in Hnb as (cid & Hrow & Hs).
        rewrite (Hnone cid nb Hrow Hs) in Hk. by apply elem_of_nil in Hk. }
      by rewrite elements_empty. }
  split_and!.
  - intros Hok Hf. split; [|by apply lines_unknown].
    destruct (arcs_unknown filename s Hok Hf) as (s' & H & _). eauto.
  - intros db id. apply Hempty.
  - intros db Hr Hdb Hmode (Hlb & Harc & _) Hf.
    eexists. split; [by apply touch_files_new|].
    set (s' := set_file_map _ _).
    assert (ready s') as Hr' by by apply ready_set_file.
    assert (∀ path, tbl_file db !! path ≠ Some (next_rowid (tbl_file db))) as Hfresh.
    { intros path Hp. apply next_rowid_gt in Hp. lia. }
    edestruct (Hempty s') as [Harcs Hlines]; [done|reflexivity|apply lookup_insert_eq|].
    simpl in *.
    assert (arcs filename s' = Ok (Some []) s'
            ∧ (_has_arcs s' = true → lines filename s' = Ok (Some []) s')) as [Ha1 Ha2].
    { apply Harcs. intros cid fromno tono Hrow _.
      destruct (Harc _ Hrow) as [path Hp]. by apply Hfresh in Hp. }
    split; [done|]. destruct (_has_arcs s') eqn:Ha; [by apply Ha2|].
    apply Hlines; [done|]. intros cid nb Hrow _.
    destruct (Hlb (next_rowid (tbl_file db), cid)) as [path Hp]; [by eexists|].
    by apply Hfresh in Hp.
Qed.

(** ** Adding lines *)

Lemma same_attrs_refl s : same_attrs s s.
Proof. by repeat split. Qed.

Lemma same_attrs_trans s1 s2 s3 : same_attrs s1 s2 → same_attrs s2 s3 → same_attrs s1 s3.
Proof. unfold same_attrs. intros (? & ? & ? & ? & ?) (? & ? & ? & ? & ?). split_and!; congruence. Qed.

(** One item of [add_lines] whose file is known. *)
Lemma add_lines_item_known context_id filename linenos s db id :
  _dbs s = true → storage s = Some db → _current_context_id s = Some context_id →
  _file_map s !! filename = Some id →
  add_lines_item (filename, linenos) s
  = Ok tt (set_storage
             (Some (set_tbl_line_bits
                      (<[(id, context_id) :=
                           match tbl_line_bits db !! (id, context_id) with
                           | Some numbits0 => numbits_union (nums_to_numbits linenos) numbits0
                           | None => nums_to_numbits linenos
                           end]> (tbl_line_bits db)) db)) s).
Proof.
  intros Hd Hdb Hc Hf. unfold add_lines_item. simpl.
  rewrite (bind_Ok _ _ _ _ _ (_file_id_known filename true s id Hf)).
  unfold bind, get, db_read, db_write. rewrite Hc. simpl. rewrite Hdb. simpl.
  by rewrite Hdb.
Qed.

(** One item of [add_lines] whose file is new. *)
Lemma add_lines_item_new context_id filename linenos s db :
  _dbs s = true → storage s = Some db → _current_context_id s = Some context_id →
  _file_map s !! filename = None →
  let id := next_rowid (tbl_file db) in
  add_lines_item (filename, linenos) s
  = Ok tt (set_file_map (<[filename := id]> (_file_map s))
             (set_storage
                (Some (set_tbl_line_bits
                         (<[(id, context_id) :=
                              match tbl_line_bits db !! (id, context_id) with
                              | Some numbits0 => numbits_union (nums_to_numbits linenos) numbits0
                              | None => nums_to_numbits linenos
                              end]> (tbl_line_bits db))
                         (set_tbl_file (insert_or_replace_name filename (tbl_file db)) db)))
                s)).
Proof.
  intros Hd Hdb Hc Hf id. unfold add_lines_item. simpl.
  rewrite (bind_Ok _ _ _ _ _ (_file_id_new filename s db Hd Hdb Hf)).
  unfold bind, get, db_read, db_write. simpl. rewrite Hc. simpl. by destruct s.
Qed.

Lemma store_ok_inv s :
  store_ok s →
  ∃ db, _have_used s = true ∧ _dbs s = true ∧ storage s = Some db
        ∧ _file_map s = tbl_file db ∧ file_ids_distinct db ∧ references_ok db.
Proof. intros ((Hu & Hd & _) & db & Hdb & Hc & Hi & Hrefs). exists db. done. Qed.

Lemma elem_of_union_numbits linenos existing (k : N) :
  k ∈ numbits_to_nums
        match existing with
        | Some numbits0 => numbits_union (nums_to_numbits linenos) numbits0
        | None => nums_to_numbits linenos
        end
  ↔ k ∈ linenos ∨ ∃ numbits0, existing = Some numbits0 ∧ k ∈ numbits_to_nums numbits0.
Proof.
  destruct existing as [nb0|].
  - rewrite elem_of_numbits_union, elem_of_nums_to_numbits. split.
    + intros [?|?]; [by left|right; eauto].
    + intros [?|(? & [= <-] & ?)]; [by left|by right].
  - rewrite elem_of_nums_to_numbits. split; [by left|]. intros [?|(? & ? & _)]; done.
Qed.

(** What one item of [add_lines] does to a store that satisfies the
    constraints: the lines of the item are added to its file, nothing else
    changes. *)
Lemma add_lines_item_spec context_id item s :
  store_ok s → _current_context_id s = Some context_id →
  ∃ s', add_lines_item item s = Ok tt s'
        ∧ store_ok s' ∧ _current_context_id s' = Some context_id ∧ same_attrs s s'
        ∧ (∀ g, is_Some (_file_map s' !! g) ↔ is_Some (_file_map s !! g) ∨ g = item.1)
        ∧ (∀ g n, has_line s' g n
                  ↔ has_line s g n ∨ (g = item.1 ∧ ∃ k, k ∈ item.2 ∧ n = Z.of_N k)).
Proof.
  intros Hok Hc. destruct (store_ok_inv s Hok) as (db & Hu & Hd & Hdb & Hcache & Hdist & Hrefs).
  destruct Hrefs as (Hrlb & Hrarc & Hrtr).
  destruct item as [f nums]. simpl.
  destruct (_file_map s !! f) as [id|] eqn:Hf.
  - (* the file is known *)
    eexists. split; [by apply (add_lines_item_known context_id _ _ _ db id)|].
    set (existing := tbl_line_bits db !! (id, context_id)).
    set (merged := match existing with
                   | Some numbits0 => numbits_union (nums_to_numbits nums) numbits0
                   | None => nums_to_numbits nums
                   end).
    assert (tbl_file db !! f = Some id) as Hfdb by by rewrite <- Hcache.
    split_and!.
    + split; [by repeat split|]. eexists. split; [reflexivity|]. simpl.
      split_and!; try done. unfold references_ok. simpl. split_and!; try done.
      intros key [nb Hkey].
      destruct (decide (key = (id, context_id))) as [->|Hne]; [eauto|].
      rewrite lookup_insert_ne in Hkey by done. apply Hrlb. by eexists.
    + done.
    + by repeat split.
    + intros g. simpl. split; [by left|]. intros [?| ->]; [done|by eexists].
    + intros g n. unfold has_line. simpl. split.
      * intros (db' & id' & c & nb & k & [= <-] & Hg & Hrow & Hk & ->). simpl in Hrow.
        destruct (decide ((id', c) = (id, context_id))) as [[= -> ->]|Hne].
        -- rewrite lookup_insert_eq in Hrow. injection Hrow as <-.
           assert (g = f) as -> by (apply (Hdist g f id); by rewrite <- ?Hcache).
           apply elem_of_union_numbits in Hk as [Hk|(nb0 & Hex & Hk)].
           ++ right. split; [done|]. by exists k.
           ++ left. exists db, id, context_id, nb0, k. done.
        -- rewrite lookup_insert_ne in Hrow by done.
           left. exists db, id', c, nb, k. done.
      * intros [(db' & id' & c & nb & k & Hdb' & Hg & Hrow & Hk & ->)|(-> & k & Hk & ->)].
        -- assert (db' = db) as -> by congruence.
           destruct (decide ((id', c) = (id, context_id))) as [[= -> ->]|Hne].
           ++ eexists _, id, context_id, merged, k. split_and!; try done.
              ** simpl. by rewrite lookup_insert_eq.
              ** apply elem_of_union_numbits. right. eauto.
           ++ eexists _, id', c, nb, k. split_and!; try done.
              simpl. by rewrite lookup_insert_ne.
        -- eexists _, id, context_id, merged, k. split_and!; try done.
           ** simpl. by rewrite lookup_insert_eq.
           ** apply elem_of_union_numbits. by left.
  - (* the file is new *)
    eexists. split; [by apply (add_lines_item_new context_id _ _ _ db)|].
    set (id := next_rowid (tbl_file db)).
    assert (∀ path, tbl_file db !! path ≠ Some id) as Hfresh.
    { intros path Hp. apply next_rowid_gt in Hp. unfold id in Hp. lia. }
    assert (tbl_file db !! f = None) as Hfdb by by rewrite <- Hcache.
    assert (∀ c, tbl_line_bits db !! (id, c) = None) as Hnorow.
    { intros c. destruct (tbl_line_bits db !! (id, c)) eqn:Hrow; [|done].
      destruct (Hrlb (id, c)) as [path Hp]; [by eexists|]. by apply Hfresh in Hp. }
    rewrite Hnorow. unfold insert_or_replace_name. fold id.
    split_and!.
    + split; [by repeat split|]. eexists. split; [reflexivity|]. simpl.
      split_and!.
      * by rewrite Hcache.
      * intros p1 p2 i. unfold file_ids_distinct in Hdist. simpl.
        destruct (decide (p1 = f)) as [->|H1], (decide (p2 = f)) as [->|H2];
          rewrite ?lookup_insert_eq, ?lookup_insert_ne by done; try done.
        -- intros [= <-] Hp. by apply Hfresh in Hp.
        -- intros Hp [= <-]. by apply Hfresh in Hp.
        -- apply Hdist.
      * unfold references_ok. simpl. split_and!.
        -- intros key [nb Hkey].
           destruct (decide (key = (id, context_id))) as [->|Hne].
           ++ exists f. by rewrite lookup_insert_eq.
           ++ rewrite lookup_insert_ne in Hkey by done.
              destruct (Hrlb key) as [path Hp]; [by eexists|]. exists path.
              rewrite lookup_insert_ne; [done|]. intros <-. congruence.
        -- intros row Hrow. destruct (Hrarc row Hrow) as [path Hp]. exists path.
           rewrite lookup_insert_ne; [done|]. intros <-. congruence.
        -- intros i Hi. destruct (Hrtr i Hi) as [path Hp]. exists path.
           rewrite lookup_insert_ne; [done|]. intros <-. congruence.
    + done.
    + by repeat split.
    + intros g. simpl. destruct (decide (g = f)) as [->|Hne].
      * rewrite lookup_insert_eq. split; [by right|by eexists].
      * rewrite lookup_insert_ne by done. split; [by left|]. by intros [?|?].
    + intros g n. unfold has_line. simpl. split.
      * intros (db' & id' & c & nb & k & [= <-] & Hg & Hrow & Hk & ->). simpl in Hrow.
        destruct (decide (g = f)) as [->|Hgf].
        -- rewrite lookup_insert_eq in Hg. injection Hg as <-.
           destruct (decide (c = context_id)) as [->|Hcne].
           ++ rewrite lookup_insert_eq in Hrow. injection Hrow as <-.
              rewrite elem_of_nums_to_numbits in Hk. right. split; [done|]. by exists k.
           ++ rewrite lookup_insert_ne in Hrow by congruence. by rewrite Hnorow in Hrow.
        -- rewrite lookup_insert_ne in Hg by done.
           assert (id' ≠ id) as Hid.
           { intros ->. rewrite Hcache in Hg. by apply Hfresh in Hg. }
           rewrite lookup_insert_ne in Hrow by congruence.
           left. exists db, id', c, nb, k. done.
      * intros [(db' & id' & c & nb & k & Hdb' & Hg & Hrow & Hk & ->)|(-> & k & Hk & ->)].
        -- assert (db' = db) as -> by congruence.
           assert (g ≠ f) as Hgf by (intros ->; congruence).
           assert (id' ≠ id) as Hid.
           { intros ->. rewrite Hcache in Hg. by apply Hfresh in Hg. }
           eexists _, id', c, nb, k. split_and!; try done.
           ++ simpl. by rewrite lookup_insert_ne.
           ++ simpl. rewrite lookup_insert_ne by congruence. done.
        -- eexists _, id, context_id, _, k. split_and!; try done.
           ++ simpl. by rewrite lookup_insert_eq.
           ++ simpl. by rewrite lookup_insert_eq.
           ++ by apply elem_of_nums_to_numbits.
Qed.

Lemma extends_refl s : extends [] s s.
Proof.
  split.
  - intros g. split; [by left|]. intros [?|Hin]; [done|]. by apply elem_of_nil in Hin.
  - intros g n. split; [by left|]. intros [?|(? & ? & Hin & _)]; [done|].
    by apply elem_of_nil in Hin.
Qed.

Lemma extends_trans l1 l2 s1 s2 s3 :
  extends l1 s1 s2 → extends l2 s2 s3 → extends (l1 ++ l2) s1 s3.
Proof.
  intros [Hk1 Hl1] [Hk2 Hl2]. split.
  - intros g. rewrite Hk2, Hk1, fmap_app, elem_of_app. (tidy; tauto).
  - intros g n. rewrite Hl2, Hl1. split.
    + intros [[?|(nums & k & Hin & ?)]|(nums & k & Hin & ?)]; [by left| |];
        right; exists nums, k; (split; [|done]); apply elem_of_app; auto.
    + intros [?|(nums & k & [Hin|Hin]%elem_of_app & ?)]; [by left; left| |].
      * left. right. by exists nums, k.
      * right. by exists nums, k.
Qed.

Lemma extends_same s s' :
  _file_map s' = _file_map s →
  (∀ db', storage s' = Some db' →
     ∃ db, storage s = Some db ∧ tbl_line_bits db' = tbl_line_bits db) →
  (∀ db, storage s = Some db →
     ∃ db', storage s' = Some db' ∧ tbl_line_bits db' = tbl_line_bits db) →
  extends [] s s'.
Proof.
  intros Hfm H1 H2. split.
  - intros g. rewrite Hfm. split; [by left|]. intros [?|Hin]; [done|].
    by apply elem_of_nil in Hin.
  - intros g n. split.
    + intros (db' & id & c & nb & k & Hdb' & Hg & Hrow & Hk). left.
      destruct (H1 db' Hdb') as (db & Hdb & Hlb).
      exists db, id, c, nb, k. by rewrite <- Hfm, <- Hlb.
    + intros [(db & id & c & nb & k & Hdb & Hg & Hrow & Hk)|(? & ? & Hin & _)];
        [|by apply elem_of_nil in Hin].
      destruct (H2 db Hdb) as (db' & Hdb' & Hlb).
      exists db', id, c, nb, k. by rewrite Hfm, Hlb.
Qed.

Lemma ready_fields s s' :
  ready s → _have_used s' = _have_used s → _dbs s' = _dbs s → is_Some (storage s') →
  ready s'.
Proof. intros (Hu & Hd & _) Hu' Hd' Hs. unfold ready. by rewrite Hu', Hd'. Qed.

(** The loop of [add_lines]. *)
Lemma add_lines_loop_spec context_id line_data s :
  store_ok s → _current_context_id s = Some context_id →
  ∃ s', for_each line_data add_lines_item s = Ok tt s'
        ∧ store_ok s' ∧ same_attrs s s' ∧ extends line_data s s'.
Proof.
  revert s. induction line_data as [|item rest IH]; intros s Hok Hc.
  - exists s. split; [done|]. split; [done|]. split; [apply same_attrs_refl|apply extends_refl].
  - destruct (add_lines_item_spec context_id item s Hok Hc)
      as (s1 & Hrun1 & Hok1 & Hc1 & Hat1 & Hk1 & Hl1).
    destruct (IH s1 Hok1 Hc1) as (s2 & Hrun2 & Hok2 & Hat2 & Hext2).
    exists s2. simpl. rewrite (bind_Ok _ _ _ _ _ Hrun1). split; [done|]. split; [done|].
    split; [by eapply same_attrs_trans|].
    apply (extends_trans [item] rest s s1 s2); [|done].
    split.
    + intros g. rewrite Hk1. simpl. rewrite list_elem_of_singleton. done.
    + intros g n. rewrite Hl1. split.
      * intros [?|(-> & k & Hk & ->)]; [by left|]. right. exists item.2, k.
        split; [|done]. apply list_elem_of_singleton. by destruct item.
      * intros [?|(nums & k & Hin%list_elem_of_singleton & Hk & ->)]; [by left|].
        right. subst item. simpl. eauto.
Qed.

(** [_set_context_id] on a store that satisfies the constraints. *)
Lemma _set_context_id_spec s :
  store_ok s →
  ∃ s' context_id, _set_context_id s = Ok tt s'
        ∧ store_ok s' ∧ _current_context_id s' = Some context_id
        ∧ same_attrs s s' ∧ extends [] s s'.
Proof.
  intros Hok. destruct (store_ok_inv s Hok) as (db & Hu & Hd & Hdb & Hcache & Hdist & Hrefs).
  unfold _set_context_id. unfold bind at 1. unfold get.
  set (context := default "" (_current_context s)).
  assert (_context_id context s = Ok (tbl_context db !! context) s) as Hcid.
  { unfold _context_id. rewrite (bind_Ok _ _ _ _ _ (_start_using_used s Hu)).
    rewrite with_connect_open by done. apply transaction_Ok.
    unfold db_read. by rewrite Hdb. }
  rewrite (bind_Ok _ _ _ _ _ Hcid).
  destruct (tbl_context db !! context) as [id|] eqn:Hctx.
  - exists (set_current_context_id (Some id) s), id. split; [done|].
    split; [|split; [done|split; [done|]]].
    + split; [by apply (ready_fields s _ (proj1 Hok))|]. exists db. done.
    + apply extends_same; [done| |]; intros db0 Hdb0; exists db0; done.
  - eexists _, (next_rowid (tbl_context db)). split.
    + rewrite with_connect_open by done. apply transaction_Ok.
      unfold insert_context, bind, db_read, db_write, modify. rewrite Hdb, Hctx. simpl.
      rewrite Hdb. reflexivity.
    + split; [|split; [done|split; [done|]]].
      * split; [by apply (ready_fields s _ (proj1 Hok))|]. eexists.
        split; [reflexivity|]. done.
      * apply extends_same; [done| |]; simpl.
        -- intros db' [= <-]. exists db. done.
        -- intros db0 Hdb0. eexists. split; [done|]. simpl. congruence.
Qed.

(** [_choose_lines_or_arcs(lines=True)] on a store that is not in arc-mode. *)
Lemma _choose_lines_spec s :
  store_ok s → _has_arcs s = false →
  ∃ s', _choose_lines_or_arcs true false s = Ok tt s'
        ∧ store_ok s' ∧ _has_lines s' = true ∧ _has_arcs s' = false
        ∧ _current_context s' = _current_context s
        ∧ _query_context_ids s' = _query_context_ids s
        ∧ extends [] s s'.
Proof.
  intros Hok Ha. destruct (store_ok_inv s Hok) as (db & Hu & Hd & Hdb & Hcache & Hdist & Hrefs).
  unfold _choose_lines_or_arcs. simpl. unfold bind at 1. unfold get. rewrite Ha. simpl.
  destruct (_has_lines s) eqn:Hl; simpl.
  - exists s. split; [done|]. split_and!; try done. apply extends_refl.
  - eexists. split.
    + unfold bind at 1. unfold modify at 1.
      rewrite with_connect_open by done. apply transaction_Ok.
      unfold db_write. simpl. rewrite Hdb. reflexivity.
    + split; [|split; [done|split; [done|split; [done|split; [done|]]]]].
      * split; [by apply (ready_fields s _ (proj1 Hok))|]. eexists.
        split; [reflexivity|]. done.
      * apply extends_same; [done| |]; simpl.
        -- intros db' [= <-]. exists db. done.
        -- intros db0 Hdb0. eexists. split; [done|]. simpl. congruence.
Qed.

(** One call of [add_lines] on a store in use that is not in arc-mode. *)
Lemma add_lines_spec line_data s :
  store_ok s → _has_arcs s = false →
  ∃ s', add_lines line_data s = Ok tt s'
        ∧ store_ok s' ∧ _has_lines s' = true ∧ _has_arcs s' = false
        ∧ _current_context s' = _current_context s
        ∧ _query_context_ids s' = _query_context_ids s
        ∧ extends line_data s s'.
Proof.
  intros Hok Ha. pose proof Hok as [(Hu & _) _].
  destruct (_choose_lines_spec s Hok Ha) as (s1 & Hrun1 & Hok1 & Hl1 & Ha1 & Hcc1 & Hq1 & Hext1).
  unfold add_lines. rewrite (bind_Ok _ _ _ _ _ (_start_using_used s Hu)).
  rewrite (bind_Ok _ _ _ _ _ Hrun1).
  destruct line_data as [|item rest]; [by exists s1|].
  destruct (_set_context_id_spec s1 Hok1) as (s2 & cid & Hrun2 & Hok2 & Hc2 & Hat2 & Hext2).
  destruct (add_lines_loop_spec cid (item :: rest) s2 Hok2 Hc2)
    as (s3 & Hrun3 & Hok3 & Hat3 & Hext3).
  exists s3. split.
  - rewrite with_connect_open by apply Hok1. apply transaction_Ok.
    by rewrite (bind_Ok _ _ _ _ _ Hrun2).
  - destruct Hat2 as (? & ? & ? & ? & ?), Hat3 as (? & ? & ? & ? & ?).
    split; [done|]. split; [congruence|]. split; [congruence|].
    split; [congruence|]. split; [congruence|].
    apply (extends_trans [] _ s s1 s3); [done|].
    by apply (extends_trans [] _ s1 s2 s3).
Qed.

(** A sequence of calls of [add_lines], no [set_context] in between. *)
Lemma add_lines_calls_spec calls s :
  store_ok s → _has_arcs s = false →
  ∃ s', for_each calls add_lines s = Ok tt s'
        ∧ store_ok s' ∧ _has_arcs s' = false
        ∧ _current_context s' = _current_context s
        ∧ _query_context_ids s' = _query_context_ids s
        ∧ extends (mjoin calls) s s'.
Proof.
  revert s. induction calls as [|line_data calls IH]; intros s Hok Ha.
  - exists s. split; [done|]. split; [done|]. split; [done|]. split; [done|].
    split; [done|]. apply extends_refl.
  - destruct (add_lines_spec line_data s Hok Ha)
      as (s1 & Hrun1 & Hok1 & _ & Ha1 & Hcc1 & Hq1 & Hext1).
    destruct (IH s1 Hok1 Ha1) as (s2 & Hrun2 & Hok2 & Ha2 & Hcc2 & Hq2 & Hext2).
    exists s2. simpl. rewrite (bind_Ok _ _ _ _ _ Hrun1).
    split; [done|]. split; [done|]. split; [done|]. split; [congruence|].
    split; [congruence|]. by eapply extends_trans.
Qed.

(** What [lines] returns on a store in line-mode without query contexts. *)
Lemma lines_has_line filename s :
  store_ok s → _has_arcs s = false → _query_context_ids s = None →
  ∃ result, lines filename s = Ok result s
            ∧ (is_Some result ↔ is_Some (_file_map s !! filename))
            ∧ ∀ n, n ∈ default [] result ↔ has_line s filename n.
Proof.
  intros Hok Ha Hq.
  destruct (store_ok_inv s Hok) as (db & Hu & Hd & Hdb & Hcache & Hdist & Hrefs).
  eexists. split; [by apply (lines_ready _ _ db); [apply Hok|]|].
  rewrite Ha, Hq. unfold has_line.
  destruct (_file_map s !! filename) as [id|] eqn:Hf; simpl.
  - split; [by split; eexists|]. intros n.
    rewrite elem_of_elements, elem_of_nums_of. split.
    + intros (nb & Hnb & k & Hk & ->).
      apply elem_of_select_numbits in Hnb as (cid & Hrow & _).
      exists db, id, cid, nb, k. done.
    + intros (db' & id' & cid & nb & k & Hdb' & [= <-] & Hrow & Hk & ->).
      assert (db' = db) as -> by congruence.
      exists nb. split; [|eauto]. apply elem_of_select_numbits. by exists cid.
  - split; [split; by intros [? ?]|]. intros n. split; [by intros ?%elem_of_nil|].
    intros (db' & id' & cid & nb & k & _ & ? & _). done.
Qed.

(** C1.  On a store in use that satisfies the declared constraints, is not
    in arc-mode and has no query contexts set, every sequence of [add_lines]
    calls under one context returns, and afterwards [lines(file)] is, as a
    set, what it was before together with all the lines added for the file:
    nothing recorded is lost; a file is measured after the calls exactly
    when it was before or one of the calls names it.  In the loop, when the
    [line_bits] row of the (file, context) pair exists, the row written is
    the union of the new numbits with the existing one. *)
Theorem add_lines_union (s : CoverageData) (calls : list (list (string * list N))) :
  store_ok s → _has_arcs s = false → _query_context_ids s = None →
  (∃ s', for_each calls add_lines s = Ok tt s'
         ∧ ∀ filename, ∃ before after,
             lines filename s = Ok before s ∧ lines filename s' = Ok after s'
             ∧ (is_Some after
                ↔ is_Some before ∨ ∃ line_data, line_data ∈ calls ∧ filename ∈ line_data.*1)
             ∧ ∀ n, n ∈ default [] after
                    ↔ n ∈ default [] before
                      ∨ ∃ line_data linenos k,
                          line_data ∈ calls ∧ (filename, linenos) ∈ line_data
                          ∧ k ∈ linenos ∧ n = Z.of_N k)
  ∧ (∀ db filename linenos id context_id existing,
       storage s = Some db → _file_map s !! filename = Some id →
       _current_context_id s = Some context_id →
       tbl_line_bits db !! (id, context_id) = Some existing →
       add_lines_item (filename, linenos) s
       = Ok tt (set_storage
                  (Some (set_tbl_line_bits
                           (<[(id, context_id) :=
                                numbits_union (nums_to_numbits linenos) existing]>
                              (tbl_line_bits db)) db)) s)).
Proof.
  intros Hok Ha Hq. split.
  - destruct (add_lines_calls_spec calls s Hok Ha)
      as (s' & Hrun & Hok' & Ha' & _ & Hq' & Hknown & Hlines).
    exists s'. split; [done|]. intros filename.
    destruct (lines_has_line filename s Hok Ha Hq) as (before & Hb & Hbs & Hbl).
    destruct (lines_has_line filename s' Hok' Ha' ltac:(congruence)) as (after & Haf & Has & Hal).
    exists before, after. split; [done|]. split; [done|]. split.
    + rewrite Has, Hknown, Hbs. split.
      * intros [?|Hin]; [by left|right].
        apply list_elem_of_fmap in Hin as ([f nums] & -> & Hin).
        apply list_elem_of_join in Hin as (line_data & Hin & Hld).
        exists line_data. split; [done|]. apply list_elem_of_fmap. by exists (f, nums).
      * intros [?|(line_data & Hld & Hin)]; [by left|right].
        apply list_elem_of_fmap in Hin as ([f nums] & -> & Hin).
        apply list_elem_of_fmap. exists (f, nums). split; [done|].
        apply list_elem_of_join. eauto.
    + intros n. rewrite Hal, Hlines, Hbl. split.
      * intros [?|(nums & k & Hin & Hk & ->)]; [by left|right].
        apply list_elem_of_join in Hin as (line_data & Hin & Hld).
        exists line_data, nums, k. done.
      * intros [?|(line_data & nums & k & Hld & Hin & Hk & ->)]; [by left|right].
        exists nums, k. split; [|done]. apply list_elem_of_join. eauto.
  - intros db filename linenos id cid existing Hdb Hf Hc Hrow.
    rewrite (add_lines_item_known cid filename linenos s db id); [by rewrite Hrow| |done..].
    apply Hok.
Qed.

(** ** Merging the same store twice *)

(** C2.  Merging a line-mode store, whose file ["a"] has the tracer ["T"],
    into a new store under [chain_map] returns, and the new store then has
    the file ["b"] with the tracer ["T"]; merging the same store a second
    time under the same map raises the tracer conflict
    [Conflicting file tracer name for 'b': '' vs 'T'] instead of leaving the
    content as it is: [this_tracers] holds the recorded tracer of ["b"]
    under [chain_map "b"], and the empty tracer under ["b"]. *)
Theorem update_twice_conflict :
  (∃ self other_data,
     merged_once = Updated self other_data
     ∧ file_tracer "b" self = Ok (Some "T") self
     ∧ lines "b" self = Ok (Some [1]) self)
  ∧ ∃ self other_data,
      merged_twice
      = UpdateRaise (DataError (Conflicting_file_tracer_name "b" "" "T")) self other_data.
Proof.
  split.
  - eexists _, _. split; [vm_compute; reflexivity|]. split; vm_compute; reflexivity.
  - eexists _, _. vm_compute. reflexivity.
Qed.

(* ===================================================================== *)
(** * Further properties *)
(* ===================================================================== *)

(** ** A new [file] row *)

(** The id of a new [file] row is that of no row, and no row of the data
    tables refers to it. *)
Lemma new_file_id_fresh db :
  references_ok db →
  (∀ path, tbl_file db !! path ≠ Some (next_rowid (tbl_file db)))
  ∧ (∀ c, tbl_line_bits db !! (next_rowid (tbl_file db), c) = None)
  ∧ (∀ row, row ∈ tbl_arc db → row.1.1.1 ≠ next_rowid (tbl_file db))
  ∧ tbl_tracer db !! next_rowid (tbl_file db) = None.
Proof.
  intros (Hrlb & Hrarc & Hrtr).
  assert (∀ path, tbl_file db !! path ≠ Some (next_rowid (tbl_file db))) as Hfresh.
  { intros path Hp. apply next_rowid_gt in Hp. lia. }
  split; [done|]. split; [|split].
  - intros c. destruct (tbl_line_bits db !! (next_rowid (tbl_file db), c)) eqn:Hrow; [|done].
    destruct (Hrlb (next_rowid (tbl_file db), c)) as [path Hp]; [by eexists|].
    by apply Hfresh in Hp.
  - intros row Hrow Heq. destruct (Hrarc row Hrow) as [path Hp]. rewrite Heq in Hp.
    by apply Hfresh in Hp.
  - destruct (tbl_tracer db !! next_rowid (tbl_file db)) eqn:Hrow; [|done].
    destruct (Hrtr (next_rowid (tbl_file db))) as [path Hp]; [by eexists|].
    by apply Hfresh in Hp.
Qed.

Lemma _file_id_add filename s db :
  _dbs s = true → storage s = Some db → _file_map s !! filename = None →
  _file_id filename true s = Ok (Some (next_rowid (tbl_file db))) (with_file filename db s).
Proof. apply _file_id_new. Qed.

(** A new [file] row keeps the constraints. *)
Lemma with_file_ok filename s db :
  store_ok s → storage s = Some db → _file_map s !! filename = None →
  store_ok (with_file filename db s).
Proof.
  intros Hok Hdb Hf.
  destruct (store_ok_inv s Hok) as (db' & Hu & Hd & Hdb' & Hcache & Hdist & Hrefs).
  assert (db' = db) as -> by congruence.
  destruct (new_file_id_fresh db Hrefs) as (Hfresh & _).
  destruct Hrefs as (Hrlb & Hrarc & Hrtr).
  assert (tbl_file db !! filename = None) as Hfdb by by rewrite <- Hcache.
  split; [by repeat split|]. eexists. split; [reflexivity|]. simpl.
  unfold insert_or_replace_name. split; [by rewrite Hcache|]. split.
  - intros p1 p2 i. simpl.
    destruct (decide (p1 = filename)) as [->|H1], (decide (p2 = filename)) as [->|H2];
      rewrite ?lookup_insert_eq, ?lookup_insert_ne by done; try done.
    + intros [= <-] Hp. by apply Hfresh in Hp.
    + intros Hp [= <-]. by apply Hfresh in Hp.
    + apply Hdist.
  - unfold references_ok. simpl. split; [|split].
    + intros key Hkey. destruct (Hrlb key Hkey) as [path Hp]. exists path.
      rewrite lookup_insert_ne; [done|]. intros <-. congruence.
    + intros row Hrow. destruct (Hrarc row Hrow) as [path Hp]. exists path.
      rewrite lookup_insert_ne; [done|]. intros <-. congruence.
    + intros i Hi. destruct (Hrtr i Hi) as [path Hp]. exists path.
      rewrite lookup_insert_ne; [done|]. intros <-. congruence.
Qed.

(** A new [file] row brings no arc and no line. *)
Lemma with_file_has_arc filename s db g a :
  store_ok s → storage s = Some db → _file_map s !! filename = None →
  has_arc (with_file filename db s) g a ↔ has_arc s g a.
Proof.
  intros Hok Hdb Hf.
  destruct (store_ok_inv s Hok) as (db' & Hu & Hd & Hdb' & Hcache & Hdist & Hrefs).
  assert (db' = db) as -> by congruence.
  destruct (new_file_id_fresh db Hrefs) as (Hfresh & _ & Hnoarc & _).
  unfold has_arc. simpl. split.
  - intros (db1 & id & c & [= <-] & Hg & Hrow). simpl in Hrow.
    destruct (decide (g = filename)) as [->|Hne].
    + rewrite lookup_insert_eq in Hg. injection Hg as <-. by apply Hnoarc in Hrow.
    + rewrite lookup_insert_ne in Hg by done. by exists db, id, c.
  - intros (db1 & id & c & Hdb1 & Hg & Hrow). assert (db1 = db) as -> by congruence.
    assert (g ≠ filename) by (intros ->; congruence).
    eexists _, id, c. split; [reflexivity|]. by rewrite lookup_insert_ne.
Qed.

Lemma with_file_has_line filename s db g n :
  store_ok s → storage s = Some db → _file_map s !! filename = None →
  has_line (with_file filename db s) g n ↔ has_line s g n.
Proof.
  intros Hok Hdb Hf.
  destruct (store_ok_inv s Hok) as (db' & Hu & Hd & Hdb' & Hcache & Hdist & Hrefs).
  assert (db' = db) as -> by congruence.
  destruct (new_file_id_fresh db Hrefs) as (Hfresh & Hnoline & _).
  unfold has_line. simpl. split.
  - intros (db1 & id & c & nb & k & [= <-] & Hg & Hrow & Hk). simpl in Hrow.
    destruct (decide (g = filename)) as [->|Hne].
    + rewrite lookup_insert_eq in Hg. injection Hg as <-. by rewrite Hnoline in Hrow.
    + rewrite lookup_insert_ne in Hg by done. by exists db, id, c, nb, k.
  - intros (db1 & id & c & nb & k & Hdb1 & Hg & Hrow & Hk).
    assert (db1 = db) as -> by congruence.
    assert (g ≠ filename) by (intros ->; congruence).
    eexists _, id, c, nb, k. split; [reflexivity|]. by rewrite lookup_insert_ne.
Qed.

Lemma with_file_known filename s db g :
  is_Some (_file_map (with_file filename db s) !! g)
  ↔ is_Some (_file_map s !! g) ∨ g = filename.
Proof.
  simpl. destruct (decide (g = filename)) as [->|Hne].
  - rewrite lookup_insert_eq. split; [by right|by eexists].
  - rewrite lookup_insert_ne by done. split; [by left|]. by intros [?|?].
Qed.

(** ** Arcs are added, never replaced *)

(** Writing arcs for a known file. *)
Lemma write_arcs_ok s db filename id context_id (pairs : list (Z * Z)) :
  store_ok s → storage s = Some db → _file_map s !! filename = Some id →
  let s' := set_storage
              (Some (set_tbl_arc
                       (tbl_arc db ∪ list_to_set ((λ a, (id, context_id, a.1, a.2)) <$> pairs))
                       db)) s in
  store_ok s'
  ∧ ∀ g a, has_arc s' g a ↔ has_arc s g a ∨ (g = filename ∧ a ∈ pairs).
Proof.
  intros Hok Hdb Hf s'.
  destruct (store_ok_inv s Hok) as (db' & Hu & Hd & Hdb' & Hcache & Hdist & Hrefs).
  assert (db' = db) as -> by congruence.
  destruct Hrefs as (Hrlb & Hrarc & Hrtr).
  assert (∀ row : Z * Z * Z * Z,
            row ∈ (list_to_set ((λ a, (id, context_id, a.1, a.2)) <$> pairs) : gset _)
            ↔ ∃ a, a ∈ pairs ∧ row = (id, context_id, a.1, a.2)) as Hnew.
  { intros row. rewrite elem_of_list_to_set, list_elem_of_fmap. (tidy; naive_solver). }
  split.
  - split; [by repeat split|]. eexists. split; [reflexivity|]. simpl.
    split; [done|]. split; [done|]. unfold references_ok. simpl. split; [done|].
    split; [|done]. intros row [Hrow|Hrow]%elem_of_union; [by apply Hrarc|].
    apply Hnew in Hrow as (a & _ & ->). exists filename. simpl. by rewrite <- Hcache.
  - intros g a. unfold has_arc. simpl. split.
    + intros (db1 & id1 & c & [= <-] & Hg & Hrow). simpl in Hrow.
      apply elem_of_union in Hrow as [Hrow|Hrow].
      * left. by exists db, id1, c.
      * apply Hnew in Hrow as ([a1 a2] & Hin & [= -> -> Ha1 Ha2]). simpl in *. right.
        split; [apply (Hdist g filename id); by rewrite <- ?Hcache|].
        destruct a as [b1 b2]. simpl in *. by subst.
    + intros [(db1 & id1 & c & Hdb1 & Hg & Hrow)|(-> & Hin)].
      * assert (db1 = db) as -> by congruence. eexists _, id1, c.
        split; [reflexivity|]. split; [done|]. simpl. apply elem_of_union. by left.
      * eexists _, id, context_id. split; [reflexivity|]. split; [done|]. simpl.
        apply elem_of_union. right. apply Hnew. by exists a.
Qed.

Lemma bound_rows_in_range (id context_id : Z) (pairs : list (Z * Z)) :
  Forall arc_in_range pairs →
  bound_rows ((λ a, (id, context_id, a.1, a.2)) <$> pairs)
  = (λ a, (id, context_id, a.1, a.2)) <$> pairs.
Proof.
  induction 1 as [|a pairs [H1 H2] _ IH]; [done|].
  rewrite fmap_cons. cbn [bound_rows fst snd]. by rewrite H1, H2, IH.
Qed.

Lemma insert_arcs_Ok data s db :
  storage s = Some db → bound_rows data = data →
  insert_arcs data s
  = Ok tt (set_storage (Some (set_tbl_arc (tbl_arc db ∪ list_to_set data) db)) s).
Proof.
  intros Hdb Hbound. unfold insert_arcs, bind, db_write. rewrite Hdb, Hbound.
  by rewrite bool_decide_eq_true_2.
Qed.

(** What one item of [add_arcs] does: a file without arcs is skipped. *)
Lemma add_arcs_item_spec context_id item s :
  store_ok s → _current_context_id s = Some context_id → Forall arc_in_range item.2 →
  ∃ s', add_arcs_item item s = Ok tt s'
        ∧ store_ok s' ∧ _current_context_id s' = Some context_id ∧ same_attrs s s'
        ∧ (∀ g, is_Some (_file_map s' !! g)
                ↔ is_Some (_file_map s !! g) ∨ (g = item.1 ∧ item.2 ≠ []))
        ∧ (∀ g a, has_arc s' g a ↔ has_arc s g a ∨ (g = item.1 ∧ a ∈ item.2)).
Proof.
  intros Hok Hc Hrange.
  destruct (store_ok_inv s Hok) as (db & Hu & Hd & Hdb & Hcache & Hdist & Hrefs).
  destruct item as [f pairs]. unfold add_arcs_item. simpl in *.
  destruct pairs as [|pair pairs].
  { exists s. split; [done|]. split; [done|]. split; [done|].
    split; [apply same_attrs_refl|]. split.
    - intros g. split; [by left|]. by intros [?|[_ ?]].
    - intros g a. split; [by left|]. intros [?|[_ Hin]]; [done|]. by apply elem_of_nil in Hin. }
  set (arcs0 := pair :: pairs).
  destruct (_file_map s !! f) as [id|] eqn:Hf.
  - destruct (write_arcs_ok s db f id context_id arcs0 Hok Hdb Hf) as [Hok' Harcs].
    eexists. split.
    { rewrite (bind_Ok _ _ _ _ _ (_file_id_known f true s id Hf)).
      unfold bind, get. rewrite Hc. simpl.
      apply insert_arcs_Ok; [done|exact (bound_rows_in_range _ _ arcs0 Hrange)]. }
    split; [exact Hok'|]. split; [done|]. split; [by repeat split|]. split; [|exact Harcs].
    intros g. simpl. split; [by left|]. intros [?|[-> _]]; [done|by eexists].
  - pose proof (with_file_ok f s db Hok Hdb Hf) as Hok1.
    assert (_file_map (with_file f db s) !! f = Some (next_rowid (tbl_file db))) as Hf1
      by (simpl; by rewrite lookup_insert_eq).
    destruct (write_arcs_ok (with_file f db s) _ f _ context_id arcs0 Hok1 eq_refl Hf1)
      as [Hok' Harcs].
    eexists. split.
    { rewrite (bind_Ok _ _ _ _ _ (_file_id_add f s db Hd Hdb Hf)).
      unfold bind, get. simpl. rewrite Hc. simpl.
      apply insert_arcs_Ok; [done|exact (bound_rows_in_range _ _ arcs0 Hrange)]. }
    split; [exact Hok'|]. split; [done|]. split; [by repeat split|]. split.
    + intros g. transitivity (is_Some (_file_map s !! g) ∨ g = f);
        [apply (with_file_known f s db g)|].
      split; [intros [?|?]; [by left|by right]|]. intros [?|[? _]]; [by left|by right].
    + intros g a. etrans; [apply (Harcs g a)|].
      by rewrite (with_file_has_arc f s db g a Hok Hdb Hf).
Qed.

(** *** Steps that leave the data rows alone *)

Lemma same_rows_ok s s' :
  store_ok s → same_rows s s' → _have_used s' = true → _dbs s' = true → store_ok s'.
Proof.
  intros Hok (Hfm & db & db' & Hdb & Hdb' & Hf & Hl & Ha & Ht) Hu' Hd'.
  destruct (store_ok_inv s Hok) as (db0 & Hu & Hd & Hdb0 & Hcache & Hdist & Hrefs).
  assert (db0 = db) as -> by congruence.
  split; [split; [done|split; [done|by eexists]]|]. exists db'. split; [done|].
  split; [congruence|]. split.
  - unfold file_ids_distinct. rewrite Hf. apply Hdist.
  - unfold references_ok. rewrite Hf, Hl, Ha, Ht. apply Hrefs.
Qed.

Lemma same_rows_has_arc s s' g a : same_rows s s' → has_arc s' g a ↔ has_arc s g a.
Proof.
  intros (Hfm & db & db' & Hdb & Hdb' & Hf & Hl & Ha & Ht). unfold has_arc. split.
  - intros (d & id & c & Hd & Hg & Hrow). assert (d = db') as -> by congruence.
    exists db, id, c. by rewrite <- Hfm, <- Ha.
  - intros (d & id & c & Hd & Hg & Hrow). assert (d = db) as -> by congruence.
    exists db', id, c. by rewrite Hfm, Ha.
Qed.

Lemma same_rows_has_line s s' g n : same_rows s s' → has_line s' g n ↔ has_line s g n.
Proof.
  intros (Hfm & db & db' & Hdb & Hdb' & Hf & Hl & Ha & Ht). unfold has_line. split.
  - intros (d & id & c & nb & k & Hd & Hg & Hrow & Hk). assert (d = db') as -> by congruence.
    exists db, id, c, nb, k. by rewrite <- Hfm, <- Hl.
  - intros (d & id & c & nb & k & Hd & Hg & Hrow & Hk). assert (d = db) as -> by congruence.
    exists db', id, c, nb, k. by rewrite Hfm, Hl.
Qed.

Lemma same_rows_tracer_of s s' g : same_rows s s' → tracer_of s' g = tracer_of s g.
Proof.
  intros (Hfm & db & db' & Hdb & Hdb' & Hf & Hl & Ha & Ht). unfold tracer_of.
  rewrite Hfm, Hdb, Hdb'. destruct (_file_map s !! g); simpl; [by rewrite Ht|done].
Qed.

Lemma set_tbl_context_same db : set_tbl_context (tbl_context db) db = db.
Proof. by destruct db. Qed.

(** [_set_context_id] on a store in use: the current context gets its row
    in [context], unless it has one, and its id becomes the current one. *)
Lemma _set_context_id_run s db :
  ready s → storage s = Some db →
  ∃ context_id,
    insert_or_ignore_name (default "" (_current_context s)) (tbl_context db)
      !! default "" (_current_context s) = Some context_id
    ∧ _set_context_id s
      = Ok tt (set_current_context_id (Some context_id)
                 (set_storage
                    (Some (set_tbl_context
                             (insert_or_ignore_name (default "" (_current_context s))
                                (tbl_context db)) db)) s)).
Proof.
  intros (Hu & Hd & _) Hdb.
  unfold _set_context_id. unfold bind at 1. unfold get.
  set (context := default "" (_current_context s)).
  assert (_context_id context s = Ok (tbl_context db !! context) s) as Hcid.
  { unfold _context_id. rewrite (bind_Ok _ _ _ _ _ (_start_using_used s Hu)).
    rewrite with_connect_open by done. apply transaction_Ok.
    unfold db_read. by rewrite Hdb. }
  rewrite (bind_Ok _ _ _ _ _ Hcid). unfold insert_or_ignore_name.
  destruct (tbl_context db !! context) as [id|] eqn:Hctx.
  - exists id. split; [done|]. rewrite set_tbl_context_same, <- Hdb, set_storage_same. done.
  - exists (next_rowid (tbl_context db)). split; [by rewrite lookup_insert_eq|].
    rewrite with_connect_open by done. apply transaction_Ok.
    unfold insert_context, bind, db_read, db_write, modify. rewrite Hdb, Hctx. simpl.
    rewrite Hdb. reflexivity.
Qed.

(** [_choose_lines_or_arcs(arcs=True)] on a store in use that is not in
    line-mode. *)
Lemma _choose_arcs_run s db :
  ready s → storage s = Some db → _has_lines s = false →
  _choose_lines_or_arcs false true s
  = Ok tt (if _has_arcs s then s
           else set_storage
                  (Some (set_tbl_meta (insert_or_ignore_meta "has_arcs" "1" (tbl_meta db)) db))
                  (set_has_arcs true (set_has_lines false s))).
Proof.
  intros (Hu & Hd & _) Hdb Hl.
  unfold _choose_lines_or_arcs. simpl. unfold bind at 1. unfold get. rewrite Hl. simpl.
  destruct (_has_arcs s) eqn:Ha; simpl; [done|].
  unfold bind at 1. unfold modify at 1.
  rewrite with_connect_open by done. apply transaction_Ok.
  unfold db_write. simpl. rewrite Hdb. reflexivity.
Qed.

(** The loop of [add_arcs]. *)
Lemma add_arcs_loop_spec context_id arc_data s :
  store_ok s → _current_context_id s = Some context_id → arcs_in_range arc_data →
  ∃ s', for_each arc_data add_arcs_item s = Ok tt s'
        ∧ store_ok s' ∧ same_attrs s s' ∧ extends_arcs arc_data s s'.
Proof.
  revert s. induction arc_data as [|item rest IH]; intros s Hok Hc Hrange.
  - exists s. split; [done|]. split; [done|]. split; [apply same_attrs_refl|]. split.
    + intros g. split; [by left|]. intros [?|(? & Hin & _)]; [done|].
      by apply elem_of_nil in Hin.
    + intros g a. split; [by left|]. intros [?|(? & Hin & _)]; [done|].
      by apply elem_of_nil in Hin.
  - apply Forall_cons in Hrange as [Hitem Hrange].
    destruct (add_arcs_item_spec context_id item s Hok Hc Hitem)
      as (s1 & Hrun1 & Hok1 & Hc1 & Hat1 & Hk1 & Ha1).
    destruct (IH s1 Hok1 Hc1 Hrange) as (s2 & Hrun2 & Hok2 & Hat2 & Hk2 & Ha2).
    exists s2. simpl. rewrite (bind_Ok _ _ _ _ _ Hrun1). split; [done|]. split; [done|].
    split; [by eapply same_attrs_trans|]. destruct item as [f pairs]. simpl in *. split.
    + intros g. rewrite Hk2, Hk1. split.
      * intros [[?|[-> ?]]|(arcs0 & Hin & ?)]; [by left| |].
        -- right. exists pairs. split; [left|done].
        -- right. exists arcs0. split; [by right|done].
      * intros [?|(arcs0 & [[= -> ->]|Hin]%elem_of_cons & ?)]; [by left; left| |].
        -- left. by right.
        -- right. by exists arcs0.
    + intros g a. rewrite Ha2, Ha1. split.
      * intros [[?|[-> ?]]|(arcs0 & Hin & ?)]; [by left| |].
        -- right. exists pairs. split; [left|done].
        -- right. exists arcs0. split; [by right|done].
      * intros [?|(arcs0 & [[= -> ->]|Hin]%elem_of_cons & ?)]; [by left; left| |].
        -- left. by right.
        -- right. by exists arcs0.
Qed.

Lemma extends_arcs_same_rows s s' : same_rows s s' → extends_arcs [] s s'.
Proof.
  intros Hsame. split.
  - intros g. destruct Hsame as [-> _]. split; [by left|].
    intros [?|(? & Hin & _)]; [done|]. by apply elem_of_nil in Hin.
  - intros g a. rewrite (same_rows_has_arc s s' g a Hsame). split; [by left|].
    intros [?|(? & Hin & _)]; [done|]. by apply elem_of_nil in Hin.
Qed.

Lemma extends_arcs_trans l s1 s2 s3 :
  extends_arcs [] s1 s2 → extends_arcs l s2 s3 → extends_arcs l s1 s3.
Proof.
  intros [Hk1 Ha1] [Hk2 Ha2]. split.
  - intros g. rewrite Hk2, Hk1. split; [|(tidy; tauto)].
    intros [[?|(? & Hin & _)]|?]; [by left| |by right]. by apply elem_of_nil in Hin.
  - intros g a. rewrite Ha2, Ha1. split; [|(tidy; tauto)].
    intros [[?|(? & Hin & _)]|?]; [by left| |by right]. by apply elem_of_nil in Hin.
Qed.

(** One call of [add_arcs] on a store in use that is not in line-mode. *)
Lemma add_arcs_spec arc_data s :
  store_ok s → _has_lines s = false → arcs_in_range arc_data →
  ∃ s', add_arcs arc_data s = Ok tt s'
        ∧ store_ok s' ∧ _has_lines s' = false ∧ _has_arcs s' = true
        ∧ _current_context s' = _current_context s
        ∧ _query_context_ids s' = _query_context_ids s
        ∧ extends_arcs arc_data s s'.
Proof.
  intros Hok Hl Hrange. pose proof Hok as [Hready _].
  destruct (store_ok_inv s Hok) as (db & Hu & Hd & Hdb & Hcache & Hdist & Hrefs).
  pose proof (_choose_arcs_run s db Hready Hdb Hl) as Hrun1.
  set (s1 := if _has_arcs s then s
             else set_storage
                    (Some (set_tbl_meta (insert_or_ignore_meta "has_arcs" "1" (tbl_meta db)) db))
                    (set_has_arcs true (set_has_lines false s))) in Hrun1.
  assert (same_rows s s1 ∧ ready s1 ∧ _has_lines s1 = false ∧ _has_arcs s1 = true
          ∧ _current_context s1 = _current_context s
          ∧ _query_context_ids s1 = _query_context_ids s) as (Hsame1 & Hready1 & Hl1 & Ha1 & Hcc1 & Hq1).
  { unfold s1. destruct (_has_arcs s) eqn:Ha.
    - split; [|done]. split; [done|]. by exists db, db.
    - split; [|by repeat split; try eexists]. split; [done|]. eexists db, _.
      split; [done|]. split; [reflexivity|]. done. }
  assert (store_ok s1) as Hok1 by (apply (same_rows_ok s s1 Hok Hsame1); apply Hready1).
  unfold add_arcs. rewrite (bind_Ok _ _ _ _ _ (_start_using_used s Hu)).
  rewrite (bind_Ok _ _ _ _ _ Hrun1).
  destruct arc_data as [|item rest].
  { exists s1. split; [done|]. split; [done|]. split; [done|]. split; [done|].
    split; [done|]. split; [done|]. by apply extends_arcs_same_rows. }
  destruct (store_ok_inv s1 Hok1) as (db1 & _ & Hd1 & Hdb1 & _).
  destruct (_set_context_id_run s1 db1 Hready1 Hdb1) as (cid & Hcid & Hrun2).
  set (s2 := set_current_context_id (Some cid)
               (set_storage
                  (Some (set_tbl_context
                           (insert_or_ignore_name (default "" (_current_context s1))
                              (tbl_context db1)) db1)) s1)) in Hrun2.
  assert (same_rows s1 s2) as Hsame2.
  { split; [done|]. eexists db1, _. split; [done|]. split; [reflexivity|]. done. }
  assert (store_ok s2) as Hok2 by (apply (same_rows_ok s1 s2 Hok1 Hsame2); apply Hready1).
  destruct (add_arcs_loop_spec cid (item :: rest) s2 Hok2 eq_refl Hrange)
    as (s3 & Hrun3 & Hok3 & Hat3 & Hext3).
  exists s3. split.
  - rewrite with_connect_open by done. apply transaction_Ok.
    by rewrite (bind_Ok _ _ _ _ _ Hrun2).
  - destruct Hat3 as (? & Hl3 & Ha3 & Hcc3 & Hq3). simpl in *.
    split; [done|]. split; [congruence|]. split; [congruence|].
    split; [congruence|]. split; [congruence|].
    apply (extends_arcs_trans _ s s1 s3); [by apply extends_arcs_same_rows|].
    apply (extends_arcs_trans _ s1 s2 s3); [by apply extends_arcs_same_rows|done].
Qed.

Lemma extends_arcs_app l1 l2 s1 s2 s3 :
  extends_arcs l1 s1 s2 → extends_arcs l2 s2 s3 → extends_arcs (l1 ++ l2) s1 s3.
Proof.
  intros [Hk1 Ha1] [Hk2 Ha2]. split.
  - intros g. rewrite Hk2, Hk1. split.
    + intros [[?|(p & Hin & ?)]|(p & Hin & ?)]; [by left| |];
        right; exists p; (split; [|done]); apply elem_of_app; auto.
    + intros [?|(p & [Hin|Hin]%elem_of_app & ?)]; [by left; left| |].
      * left. right. by exists p.
      * right. by exists p.
  - intros g a. rewrite Ha2, Ha1. split.
    + intros [[?|(p & Hin & ?)]|(p & Hin & ?)]; [by left| |];
        right; exists p; (split; [|done]); apply elem_of_app; auto.
    + intros [?|(p & [Hin|Hin]%elem_of_app & ?)]; [by left; left| |].
      * left. right. by exists p.
      * right. by exists p.
Qed.

(** A sequence of calls of [add_arcs], no [set_context] in between. *)
Lemma add_arcs_calls_spec calls s :
  store_ok s → _has_lines s = false → Forall arcs_in_range calls →
  ∃ s', for_each calls add_arcs s = Ok tt s'
        ∧ store_ok s' ∧ _has_lines s' = false ∧ (calls ≠ [] → _has_arcs s' = true)
        ∧ _query_context_ids s' = _query_context_ids s
        ∧ extends_arcs (mjoin calls) s s'.
Proof.
  revert s. induction calls as [|arc_data calls IH]; intros s Hok Hl Hrange.
  - exists s. split; [done|]. split; [done|]. split; [done|]. split; [done|].
    split; [done|]. apply extends_arcs_same_rows. split; [done|].
    destruct (store_ok_inv s Hok) as (db & _ & _ & Hdb & _). by exists db, db.
  - apply Forall_cons in Hrange as [Hcall Hrange].
    destruct (add_arcs_spec arc_data s Hok Hl Hcall)
      as (s1 & Hrun1 & Hok1 & Hl1 & Ha1 & _ & Hq1 & Hext1).
    destruct (IH s1 Hok1 Hl1 Hrange) as (s2 & Hrun2 & Hok2 & Hl2 & Ha2 & Hq2 & Hext2).
    exists s2. simpl. rewrite (bind_Ok _ _ _ _ _ Hrun1).
    split; [done|]. split; [done|]. split; [done|]. split.
    + intros _. destruct calls as [|c calls]; [|by apply Ha2].
      simpl in Hrun2. by injection Hrun2 as <-.
    + split; [congruence|]. by eapply extends_arcs_app.
Qed.

(** *** Line numbers that cannot be bound *)




(** What [arcs] returns on a store without query contexts. *)
Lemma arcs_has_arc filename s :
  store_ok s → _query_context_ids s = None →
  ∃ result, arcs filename s = Ok result s
            ∧ (is_Some result ↔ is_Some (_file_map s !! filename))
            ∧ ∀ a, a ∈ default [] result ↔ has_arc s filename a.
Proof.
  intros Hok Hq.
  destruct (store_ok_inv s Hok) as (db & Hu & Hd & Hdb & Hcache & Hdist & Hrefs).
  eexists. split; [by apply (arcs_ready _ _ db); [apply Hok|]|].
  rewrite Hq. unfold has_arc.
  destruct (_file_map s !! filename) as [id|] eqn:Hf; simpl.
  - split; [by split; eexists|]. intros a.
    rewrite elem_of_elements, elem_of_select_arcs. split.
    + intros (c & Hrow & _). by exists db, id, c.
    + intros (db' & id' & c & Hdb' & [= <-] & Hrow).
      assert (db' = db) as -> by congruence. by exists c.
  - split; [split; by intros [? ?]|]. intros a. split; [by intros ?%elem_of_nil|].
    intros (db' & id' & c & _ & ? & _). done.
Qed.

(** X1.  On a store in use that satisfies the declared constraints, is not
    in line-mode and has no query contexts set, every sequence of [add_arcs]
    calls under one context whose line numbers are signed 64-bit integers
    returns, and afterwards [arcs(file)] is, as a set, what it was before
    together with all the arcs added for the file.
    A file becomes measured only through a call that gives it at least one
    arc.  After at least one call, [lines(file)] is measured exactly when
    [arcs(file)] is, and its lines are the positive ends of the arcs. *)
Theorem add_arcs_union (s : CoverageData) (calls : list (list (string * list (Z * Z)))) :
  store_ok s → _has_lines s = false → _query_context_ids s = None →
  Forall arcs_in_range calls →
  ∃ s', for_each calls add_arcs s = Ok tt s'
        ∧ ∀ filename, ∃ before after,
            arcs filename s = Ok before s ∧ arcs filename s' = Ok after s'
            ∧ (is_Some after
               ↔ is_Some before
                 ∨ ∃ arc_data pairs,
                     arc_data ∈ calls ∧ (filename, pairs) ∈ arc_data ∧ pairs ≠ [])
            ∧ (∀ a, a ∈ default [] after
                    ↔ a ∈ default [] before
                      ∨ ∃ arc_data pairs,
                          arc_data ∈ calls ∧ (filename, pairs) ∈ arc_data ∧ a ∈ pairs)
            ∧ (calls ≠ [] →
               ∃ result, lines filename s' = Ok result s'
                         ∧ (is_Some result ↔ is_Some after)
                         ∧ ∀ n, n ∈ default [] result
                                ↔ 0 < n ∧ ∃ a, a ∈ default [] after ∧ (n = a.1 ∨ n = a.2)).
Proof.
  intros Hok Hl Hq Hrange.
  destruct (add_arcs_calls_spec calls s Hok Hl Hrange)
    as (s' & Hrun & Hok' & Hl' & Ha' & Hq' & Hknown & Harcs).
  exists s'. split; [done|]. intros filename.
  destruct (arcs_has_arc filename s Hok Hq) as (before & Hb & Hbs & Hbl).
  destruct (arcs_has_arc filename s' Hok' ltac:(congruence)) as (after & Haf & Has & Hal).
  exists before, after. split; [done|]. split; [done|]. split; [|split].
  - rewrite Has, Hknown, Hbs. split.
    + intros [?|(pairs & Hin & ?)]; [by left|right].
      apply list_elem_of_join in Hin as (arc_data & Hin & Had). by exists arc_data, pairs.
    + intros [?|(arc_data & pairs & Had & Hin & ?)]; [by left|right].
      exists pairs. split; [|done]. apply list_elem_of_join. eauto.
  - intros a. rewrite Hal, Harcs, Hbl. split.
    + intros [?|(pairs & Hin & ?)]; [by left|right].
      apply list_elem_of_join in Hin as (arc_data & Hin & Had). by exists arc_data, pairs.
    + intros [?|(arc_data & pairs & Had & Hin & ?)]; [by left|right].
      exists pairs. split; [|done]. apply list_elem_of_join. eauto.
  - intros Hne. specialize (Ha' Hne).
    destruct (store_ok_inv s' Hok') as (db' & Hu' & Hd' & Hdb' & _).
    pose proof (lines_ready filename s' db' (proj1 Hok') Hdb') as Hlines.
    pose proof (arcs_ready filename s' db' (proj1 Hok') Hdb') as Harcs'.
    rewrite Haf in Harcs'. injection Harcs' as ->.
    eexists. split; [exact Hlines|]. rewrite Ha'.
    destruct (_file_map s' !! filename) as [id|]; simpl.
    + split; [by split; eexists|]. intros n. apply elem_of_lines_of_arcs.
    + split; [split; by intros [? ?]|]. intros n. split; [by intros ?%elem_of_nil|].
      intros (_ & a & Hin & _). by apply elem_of_nil in Hin.
Qed.

(** ** Touching files *)

Lemma with_file_tracer_of filename s db g :
  store_ok s → storage s = Some db → _file_map s !! filename = None →
  tracer_of (with_file filename db s) g
  = if bool_decide (g = filename) then Some "" else tracer_of s g.
Proof.
  intros Hok Hdb Hf.
  destruct (store_ok_inv s Hok) as (db' & Hu & Hd & Hdb' & Hcache & Hdist & Hrefs).
  assert (db' = db) as -> by congruence.
  destruct (new_file_id_fresh db Hrefs) as (_ & _ & _ & Hnotracer).
  unfold tracer_of. simpl. case_bool_decide as Hg.
  - subst g. rewrite lookup_insert_eq. simpl. by rewrite Hnotracer.
  - rewrite lookup_insert_ne by done. by rewrite Hdb.
Qed.

(** [_file_id(filename, add=True)] on a store that satisfies the
    constraints: the file becomes known, with no data and no tracer. *)
Lemma _file_id_add_spec filename s :
  store_ok s →
  ∃ s' id, _file_id filename true s = Ok (Some id) s'
    ∧ store_ok s' ∧ same_attrs s s' ∧ _current_context_id s' = _current_context_id s
    ∧ _file_map s' !! filename = Some id
    ∧ (∀ g, is_Some (_file_map s' !! g) ↔ is_Some (_file_map s !! g) ∨ g = filename)
    ∧ (∀ g n, has_line s' g n ↔ has_line s g n)
    ∧ (∀ g a, has_arc s' g a ↔ has_arc s g a)
    ∧ (∀ g, tracer_of s' g
            = match tracer_of s g with
              | Some name => Some name
              | None => if bool_decide (g = filename) then Some "" else None
              end)
    ∧ (∀ g, tracer_row s' g = tracer_row s g).
Proof.
  intros Hok.
  destruct (store_ok_inv s Hok) as (db & Hu & Hd & Hdb & Hcache & Hdist & Hrefs).
  destruct (_file_map s !! filename) as [id|] eqn:Hf.
  - exists s, id. split; [by apply _file_id_known|]. split; [done|].
    split; [apply same_attrs_refl|]. split; [done|]. split; [done|]. split; [|split; [done|]].
    + intros g. split; [by left|]. intros [?| ->]; [done|by eexists].
    + split; [done|]. split; [|done]. intros g. destruct (tracer_of s g) eqn:Ht; [done|].
      case_bool_decide as Hg; [|done]. subst g. unfold tracer_of in Ht.
      rewrite Hf, Hdb in Ht. done.
  - eexists _, _. split; [by apply _file_id_add|].
    split; [by apply with_file_ok|]. split; [by repeat split|]. split; [done|].
    split; [simpl; by rewrite lookup_insert_eq|]. split; [apply with_file_known|].
    split; [intros g n; by apply with_file_has_line|].
    split; [intros g a; by apply with_file_has_arc|]. split.
    + intros g. rewrite (with_file_tracer_of filename s db g Hok Hdb Hf).
      case_bool_decide as Hg.
      * subst g. unfold tracer_of. by rewrite Hf.
      * by destruct (tracer_of s g).
    + intros g. unfold tracer_row. simpl.
      destruct (new_file_id_fresh db Hrefs) as (_ & _ & _ & Hnotracer).
      destruct (decide (g = filename)) as [->|Hne].
      * rewrite lookup_insert_eq, Hf. simpl. done.
      * rewrite lookup_insert_ne by done. by rewrite Hdb.
Qed.

(** The loop of [touch_files] without a plugin name. *)
Lemma touch_files_loop filenames plugin_name s :
  truthy plugin_name = false → store_ok s →
  ∃ s', for_each filenames (λ filename,
            _file_id filename true ;;;
            if truthy plugin_name
            then add_file_tracers [(filename, default "" plugin_name)]
            else ret tt) s = Ok tt s'
    ∧ store_ok s' ∧ same_attrs s s' ∧ _current_context_id s' = _current_context_id s
    ∧ (∀ g, is_Some (_file_map s' !! g) ↔ is_Some (_file_map s !! g) ∨ g ∈ filenames)
    ∧ (∀ g n, has_line s' g n ↔ has_line s g n)
    ∧ (∀ g a, has_arc s' g a ↔ has_arc s g a)
    ∧ (∀ g, tracer_of s' g
            = match tracer_of s g with
              | Some name => Some name
              | None => if bool_decide (g ∈ filenames) then Some "" else None
              end).
Proof.
  intros Hplugin. revert s. induction filenames as [|f rest IH]; intros s Hok.
  - exists s. split; [done|]. split; [done|]. split; [apply same_attrs_refl|].
    split; [done|]. split; [|split; [done|split; [done|]]].
    + intros g. split; [by left|]. intros [?|Hin]; [done|]. by apply elem_of_nil in Hin.
    + intros g. by destruct (tracer_of s g).
  - destruct (_file_id_add_spec f s Hok)
      as (s1 & id & Hrun1 & Hok1 & Hat1 & Hc1 & _ & Hk1 & Hl1 & Ha1 & Ht1 & _).
    destruct (IH s1 Hok1) as (s2 & Hrun2 & Hok2 & Hat2 & Hc2 & Hk2 & Hl2 & Ha2 & Ht2).
    exists s2. split.
    { simpl. unfold bind at 1. rewrite (bind_Ok _ _ _ _ _ Hrun1).
      rewrite Hplugin in Hrun2 |- *. simpl. exact Hrun2. }
    split; [done|]. split; [by eapply same_attrs_trans|]. split; [congruence|].
    split; [|split; [|split]].
    + intros g. rewrite Hk2, Hk1, elem_of_cons. (tidy; tauto).
    + intros g n. by rewrite Hl2, Hl1.
    + intros g a. by rewrite Ha2, Ha1.
    + intros g. rewrite Ht2, Ht1. destruct (tracer_of s g); [done|].
      repeat case_bool_decide; try done.
      * exfalso. (tidy; set_solver).
      * exfalso. (tidy; set_solver).
      * exfalso. (tidy; set_solver).
Qed.

(** X2.  [touch_files] without a plugin name (or with the empty one), on a
    store in use that satisfies the declared constraints and has a mode:
    it returns, the named files are measured afterwards, next to those that
    were; no line, no arc and no tracer of any file changes, and a file that
    was not measured has no lines, no arcs and the empty tracer.  On a store
    in use without a mode it raises and changes nothing, whatever the
    arguments. *)
Theorem touch_files_measures (s : CoverageData) (filenames : list string)
    (plugin_name : option string) :
  (store_ok s → ¬ no_mode s → truthy plugin_name = false →
   ∃ s', touch_files filenames plugin_name s = Ok tt s'
         ∧ store_ok s' ∧ same_attrs s s'
         ∧ (∀ g, g ∈ measured_files s' ↔ g ∈ measured_files s ∨ g ∈ filenames)
         ∧ (∀ g n, has_line s' g n ↔ has_line s g n)
         ∧ (∀ g a, has_arc s' g a ↔ has_arc s g a)
         ∧ (∀ g, tracer_of s' g
                 = match tracer_of s g with
                   | Some name => Some name
                   | None => if bool_decide (g ∈ filenames) then Some "" else None
                   end))
  ∧ (ready s → no_mode s →
     touch_files filenames plugin_name s
     = Raise (DataError (Text "Can't touch files in an empty CoverageData")) s).
Proof.
  split.
  - intros Hok Hmode Hplugin.
    destruct (store_ok_inv s Hok) as (db & Hu & Hd & Hdb & _).
    destruct (touch_files_loop filenames plugin_name s Hplugin Hok)
      as (s' & Hrun & Hok' & Hat & _ & Hk & Hl & Ha & Ht).
    exists s'. split.
    { unfold touch_files. rewrite (bind_Ok _ _ _ _ _ (_start_using_used s Hu)).
      rewrite with_connect_open by done. apply transaction_Ok.
      unfold bind at 1. unfold get.
      destruct (_has_arcs s) eqn:Harcs, (_has_lines s) eqn:Hlines; simpl; try done.
      exfalso. by apply Hmode. }
    split; [done|]. split; [done|]. split; [|done].
    intros g. unfold measured_files. rewrite !elem_of_dom. apply Hk.
  - intros (Hu & Hd & Hst) [Hl Ha]. unfold touch_files.
    rewrite (bind_Ok _ _ _ _ _ (_start_using_used s Hu)).
    rewrite with_connect_open by done.
    erewrite transaction_Raise; [by rewrite restored_same|].
    unfold bind at 1. unfold get. by rewrite Hl, Ha.
Qed.

(** ** File tracers *)

Lemma tracer_of_row s g :
  tracer_of s g = id ← _file_map s !! g; db ← storage s; Some (default "" (tbl_tracer db !! id)).
Proof. done. Qed.

Lemma has_line_proper s s' g n :
  _file_map s' = _file_map s →
  (∃ db db', storage s = Some db ∧ storage s' = Some db'
             ∧ tbl_line_bits db' = tbl_line_bits db) →
  has_line s' g n ↔ has_line s g n.
Proof.
  intros Hfm (db & db' & Hdb & Hdb' & Hl). unfold has_line. split.
  - intros (d & id & c & nb & k & Hd & Hg & Hrow & Hk). assert (d = db') as -> by congruence.
    exists db, id, c, nb, k. by rewrite <- Hfm, <- Hl.
  - intros (d & id & c & nb & k & Hd & Hg & Hrow & Hk). assert (d = db) as -> by congruence.
    exists db', id, c, nb, k. by rewrite Hfm, Hl.
Qed.

Lemma has_arc_proper s s' g a :
  _file_map s' = _file_map s →
  (∃ db db', storage s = Some db ∧ storage s' = Some db' ∧ tbl_arc db' = tbl_arc db) →
  has_arc s' g a ↔ has_arc s g a.
Proof.
  intros Hfm (db & db' & Hdb & Hdb' & Ha). unfold has_arc. split.
  - intros (d & id & c & Hd & Hg & Hrow). assert (d = db') as -> by congruence.
    exists db, id, c. by rewrite <- Hfm, <- Ha.
  - intros (d & id & c & Hd & Hg & Hrow). assert (d = db) as -> by congruence.
    exists db', id, c. by rewrite Hfm, Ha.
Qed.

(** One item of [add_file_tracers] for a file without a [tracer] row, or
    with the row that is being added. *)
Lemma add_file_tracers_item_spec filename plugin_name s :
  store_ok s →
  tracer_row s filename = None ∨ tracer_row s filename = Some plugin_name →
  ∃ s', add_file_tracers_item (filename, plugin_name) s = Ok tt s'
    ∧ store_ok s' ∧ same_attrs s s'
    ∧ tracer_of s' filename = Some plugin_name
    ∧ (∀ g, is_Some (_file_map s' !! g) ↔ is_Some (_file_map s !! g) ∨ g = filename)
    ∧ (∀ g, g ≠ filename → tracer_row s' g = tracer_row s g)
    ∧ (∀ g, g ≠ filename →
            tracer_of s' g = tracer_of s g)
    ∧ (∀ g n, has_line s' g n ↔ has_line s g n)
    ∧ (∀ g a, has_arc s' g a ↔ has_arc s g a).
Proof.
  intros Hok Hrow.
  destruct (_file_id_add_spec filename s Hok)
    as (s1 & id & Hrun1 & Hok1 & Hat1 & _ & Hf1 & Hk1 & Hl1 & Ha1 & Ht1 & Hr1).
  destruct (store_ok_inv s1 Hok1) as (db1 & Hu1 & Hd1 & Hdb1 & Hcache1 & Hdist1 & Hrefs1).
  rewrite <- (Hr1 filename) in Hrow.
  assert (tracer_row s1 filename = tbl_tracer db1 !! id) as Hrow1
    by (unfold tracer_row; by rewrite Hf1, Hdb1).
  assert (tracer_of s1 filename = Some (default "" (tbl_tracer db1 !! id))) as Htr1
    by (unfold tracer_of; by rewrite Hf1, Hdb1).
  unfold add_file_tracers_item. simpl. rewrite (bind_Ok _ _ _ _ _ Hrun1).
  rewrite (bind_Ok _ _ _ _ _ (file_tracer_ready filename s1 (proj1 Hok1))).
  rewrite Htr1. rewrite Hrow1 in Hrow.
  assert (∀ g, g ≠ filename → tracer_of s1 g = tracer_of s g) as Hother.
  { intros g Hg. rewrite Ht1. rewrite bool_decide_eq_false_2 by done.
    by destruct (tracer_of s g). }
  destruct (tbl_tracer db1 !! id) as [name|] eqn:Hname.
  - (* the file has the row already *)
    destruct Hrow as [?|[= ->]]; [done|]. simpl.
    destruct (String.eqb plugin_name "") eqn:Hempty; simpl.
    + apply String.eqb_eq in Hempty as ->. exists s1. split; [done|].
      split; [done|]. split; [done|]. split; [done|]. split; [done|].
      split; [intros g _; apply Hr1|]. done.
    + rewrite bool_decide_eq_false_2 by (intros H; by apply H).
      exists s1. split; [done|]. split; [done|]. split; [done|]. split; [done|].
      split; [done|]. split; [intros g _; apply Hr1|]. done.
  - (* the file has no row *)
    simpl. destruct (String.eqb plugin_name "") eqn:Hempty; simpl.
    + apply String.eqb_eq in Hempty as ->. exists s1. split; [done|].
      split; [done|]. split; [done|]. split; [done|]. split; [done|].
      split; [intros g _; apply Hr1|]. done.
    + eexists. split.
      { unfold insert_tracer, bind, db_read, db_write. rewrite Hdb1. simpl.
        rewrite Hname, Hdb1. reflexivity. }
      destruct Hrefs1 as (Hrlb & Hrarc & Hrtr).
      split; [|split; [by destruct Hat1 as (? & ? & ? & ? & ?); repeat split|]].
      { split; [by apply (ready_fields s1 _ (proj1 Hok1))|]. eexists.
        split; [reflexivity|]. simpl. split; [done|]. split; [done|].
        unfold references_ok. simpl. split; [done|]. split; [done|].
        intros i [x Hi]. destruct (decide (i = id)) as [->|Hne].
        - exists filename. by rewrite <- Hcache1.
        - rewrite lookup_insert_ne in Hi by done. apply Hrtr. by eexists. }
      split; [unfold tracer_of; simpl; rewrite Hf1; simpl; by rewrite lookup_insert_eq|].
      split; [done|].
      assert (∀ g, g ≠ filename → ∀ i, _file_map s1 !! g = Some i → i ≠ id) as Hids.
      { intros g Hg i Hi ->. apply Hg. apply (Hdist1 g filename id); by rewrite <- Hcache1. }
      split; [|split; [|split]].
      * intros g Hg. rewrite <- (Hr1 g). unfold tracer_row. simpl.
        destruct (_file_map s1 !! g) as [i|] eqn:Hi; simpl; [|done].
        rewrite Hdb1. simpl. rewrite lookup_insert_ne; [done|].
        intros Heq. by apply (Hids g Hg i Hi).
      * intros g Hg. rewrite <- (Hother g Hg). unfold tracer_of. simpl.
        destruct (_file_map s1 !! g) as [i|] eqn:Hi; simpl; [|done].
        rewrite Hdb1. simpl. rewrite lookup_insert_ne; [done|].
        intros Heq. by apply (Hids g Hg i Hi).
      * intros g n. rewrite <- Hl1. apply has_line_proper; [done|].
        eexists db1, _. split; [done|]. split; [reflexivity|]. done.
      * intros g a. rewrite <- Ha1. apply has_arc_proper; [done|].
        eexists db1, _. split; [done|]. split; [reflexivity|]. done.
Qed.

(** The loop of [add_file_tracers] over the items of a dict. *)
Lemma add_file_tracers_loop_spec file_tracers s :
  store_ok s → NoDup file_tracers.*1 →
  (∀ f p, (f, p) ∈ file_tracers → tracer_row s f = None ∨ tracer_row s f = Some p) →
  ∃ s', for_each file_tracers add_file_tracers_item s = Ok tt s'
    ∧ store_ok s' ∧ same_attrs s s'
    ∧ (∀ f p, (f, p) ∈ file_tracers → tracer_of s' f = Some p)
    ∧ (∀ g, g ∉ file_tracers.*1 → tracer_of s' g = tracer_of s g)
    ∧ (∀ g, g ∉ file_tracers.*1 → tracer_row s' g = tracer_row s g)
    ∧ (∀ g, is_Some (_file_map s' !! g) ↔ is_Some (_file_map s !! g) ∨ g ∈ file_tracers.*1)
    ∧ (∀ g n, has_line s' g n ↔ has_line s g n)
    ∧ (∀ g a, has_arc s' g a ↔ has_arc s g a).
Proof.
  revert s. induction file_tracers as [|[f p] rest IH]; intros s Hok Hnodup Hrows.
  - exists s. split; [done|]. split; [done|]. split; [apply same_attrs_refl|].
    split; [by intros ? ? ?%elem_of_nil|]. split; [done|]. split; [done|].
    split; [|done]. intros g. split; [by left|]. intros [?|Hin]; [done|].
    by apply elem_of_nil in Hin.
  - simpl in Hnodup. apply NoDup_cons in Hnodup as [Hf Hnodup].
    destruct (add_file_tracers_item_spec f p s Hok (Hrows f p ltac:(left)))
      as (s1 & Hrun1 & Hok1 & Hat1 & Ht1 & Hk1 & Hr1 & Ho1 & Hl1 & Ha1).
    assert (∀ g q, (g, q) ∈ rest → g ≠ f) as Hne.
    { intros g q Hin ->. apply Hf. apply list_elem_of_fmap. by exists (f, q). }
    destruct (IH s1 Hok1 Hnodup) as (s2 & Hrun2 & Hok2 & Hat2 & Ht2 & Ho2 & Hr2 & Hk2 & Hl2 & Ha2).
    { intros g q Hin. rewrite (Hr1 g (Hne g q Hin)). apply Hrows. by right. }
    exists s2. split; [simpl; by rewrite (bind_Ok _ _ _ _ _ Hrun1)|].
    split; [done|]. split; [by eapply same_attrs_trans|]. split; [|split; [|split; [|split]]].
    + intros g q [[= -> ->]|Hin]%elem_of_cons; [|by apply Ht2].
      by rewrite (Ho2 f Hf).
    + intros g Hg. simpl in Hg. apply not_elem_of_cons in Hg as [Hgf Hg].
      by rewrite (Ho2 g Hg), (Ho1 g Hgf).
    + intros g Hg. simpl in Hg. apply not_elem_of_cons in Hg as [Hgf Hg].
      by rewrite (Hr2 g Hg), (Hr1 g Hgf).
    + intros g. rewrite Hk2, Hk1. simpl. rewrite elem_of_cons. (tidy; tauto).
    + split; [intros g n; by rewrite Hl2, Hl1|]. intros g a. by rewrite Ha2, Ha1.
Qed.

(** X3.  On a store in use that satisfies the declared constraints,
    [add_file_tracers] of a dict whose files have no [tracer] row, or the
    row being added, returns; afterwards [file_tracer] gives every file of
    the dict its plugin name (the empty name included: the file is measured,
    without a plugin), the files of the dict are measured, every other file
    has the tracer it had, and no line or arc has changed. *)
Theorem add_file_tracers_recorded (s : CoverageData) (file_tracers : list (string * string)) :
  store_ok s → NoDup file_tracers.*1 →
  (∀ f p, (f, p) ∈ file_tracers → tracer_row s f = None ∨ tracer_row s f = Some p) →
  ∃ s', add_file_tracers file_tracers s = Ok tt s'
    ∧ store_ok s'
    ∧ (∀ f p, (f, p) ∈ file_tracers → file_tracer f s' = Ok (Some p) s')
    ∧ (∀ g, g ∉ file_tracers.*1 →
            ∃ name, file_tracer g s = Ok name s ∧ file_tracer g s' = Ok name s')
    ∧ (∀ g, g ∈ measured_files s' ↔ g ∈ measured_files s ∨ g ∈ file_tracers.*1)
    ∧ (∀ g n, has_line s' g n ↔ has_line s g n)
    ∧ (∀ g a, has_arc s' g a ↔ has_arc s g a).
Proof.
  intros Hok Hnodup Hrows.
  destruct (add_file_tracers_loop_spec file_tracers s Hok Hnodup Hrows)
    as (s' & Hrun & Hok' & _ & Ht & Ho & _ & Hk & Hl & Ha).
  destruct (store_ok_inv s Hok) as (db & Hu & Hd & Hdb & _).
  exists s'. split.
  { destruct file_tracers as [|item rest]; [by injection Hrun as <-|].
    rewrite add_file_tracers_unfold by done.
    rewrite (bind_Ok _ _ _ _ _ (_start_using_used s Hu)).
    rewrite with_connect_open by done. by apply transaction_Ok. }
  split; [done|]. split; [|split; [|split; [|done]]].
  - intros f p Hin. rewrite (file_tracer_ready f s' (proj1 Hok')). by rewrite (Ht f p Hin).
  - intros g Hg. exists (tracer_of s g). split; [by apply file_tracer_ready, Hok|].
    rewrite (file_tracer_ready g s' (proj1 Hok')). by rewrite (Ho g Hg).
  - intros g. unfold measured_files. rewrite !elem_of_dom. apply Hk.
Qed.

(** ** Erasing *)

(** A query for a file that the store does not know returns its default. *)
Lemma query_unknown_default {A} (none : A) (K : Z → M A) filename s :
  lifecycle_ok s → _have_used s = true → _file_map s !! filename = None →
  ∃ s', with_connect
          (let! file_id := _file_id filename false in
           match file_id with
           | None => ret none
           | Some id => K id
           end) s = Ok none s'.
Proof.
  intros Hok Hu Hf.
  destruct (_connect_lifecycle s Hok Hu)
    as (s' & Hc & Hd' & Hu' & _ & Ha' & _ & Hok' & Hsame & Hnew).
  assert (_file_map s' !! filename = None) as Hf'.
  { destruct (_dbs s) eqn:Hd.
    - by rewrite (Hsame eq_refl).
    - destruct (Hnew eq_refl) as [_ ->]. done. }
  exists s'. unfold with_connect.
  rewrite (bind_Ok _ _ _ _ _ Hc). apply transaction_Ok.
  by rewrite (bind_Ok _ _ _ _ _ (_file_id_unknown filename s' Hf')).
Qed.

Lemma file_tracer_unknown filename s :
  lifecycle_ok s → _file_map s !! filename = None →
  ∃ s', file_tracer filename s = Ok None s'.
Proof.
  intros Hok Hf. unfold file_tracer. rewrite (bind_Ok _ _ _ _ _ (_start_using_started s)).
  destruct (started_fields s) as (Hu & _).
  apply query_unknown_default; [by apply started_lifecycle|done|by apply started_file_map].
Qed.

Lemma contexts_by_lineno_unknown filename s :
  lifecycle_ok s → _file_map s !! filename = None →
  ∃ s', contexts_by_lineno filename s = Ok ∅ s'.
Proof.
  intros Hok Hf. unfold contexts_by_lineno.
  rewrite (bind_Ok _ _ _ _ _ (_start_using_started s)).
  destruct (started_fields s) as (Hu & _).
  apply query_unknown_default; [by apply started_lifecycle|done|by apply started_file_map].
Qed.

Lemma erase_lifecycle s : lifecycle_ok s → lifecycle_ok (state_after (erase s)).
Proof.
  unfold lifecycle_ok, no_mode, meta_value.
  destruct s as [nd st d fm hu hl ha cc ci qi]. destruct nd; simpl; [|done].
  intros [H1 H2]. split; [|done]. intros ->. by apply H1.
Qed.

(** X4.  [erase] always returns; afterwards no file is measured and the
    store counts as unused; the file of a disk store is gone, while the
    database of a memory store stays as it is.  On a store that satisfies
    the life-cycle constraint, [lines], [arcs] and [file_tracer] then return
    [None] for every file and [contexts_by_lineno] the empty dict.  The mode
    flags are not reset: after the erase of a line-mode store [add_arcs]
    still raises the mode conflict, and likewise [add_lines] after the erase
    of an arc-mode store. *)
Theorem erase_forgets (s : CoverageData) :
  ∃ s', erase s = Ok tt s'
    ∧ measured_files s' = ∅ ∧ _have_used s' = false
    ∧ _has_lines s' = _has_lines s ∧ _has_arcs s' = _has_arcs s
    ∧ storage s' = (if _no_disk s then storage s else None)
    ∧ (lifecycle_ok s →
       ∀ filename,
         (∃ s'', lines filename s' = Ok None s'')
         ∧ (∃ s'', arcs filename s' = Ok None s'')
         ∧ (∃ s'', file_tracer filename s' = Ok None s'')
         ∧ (∃ s'', contexts_by_lineno filename s' = Ok ∅ s''))
    ∧ (_has_lines s = true →
       ∀ arc_data, ∃ s'', add_arcs arc_data s' = Raise arcs_on_lines s'')
    ∧ (_has_arcs s = true →
       ∀ line_data, ∃ s'', add_lines line_data s' = Raise lines_on_arcs s'').
Proof.
  exists (state_after (erase s)).
  assert (erase s = Ok tt (state_after (erase s))) as Hrun.
  { destruct s as [nd st d fm hu hl ha cc ci qi]. by destruct nd. }
  split; [done|].
  assert (_file_map (state_after (erase s)) = ∅) as Hfm.
  { destruct s as [nd st d fm hu hl ha cc ci qi]. by destruct nd. }
  split; [unfold measured_files; by rewrite Hfm, dom_empty_L|].
  split; [destruct s as [nd st d fm hu hl ha cc ci qi]; by destruct nd|].
  assert (_has_lines (state_after (erase s)) = _has_lines s) as Hl
    by (destruct s as [nd st d fm hu hl ha cc ci qi]; by destruct nd).
  assert (_has_arcs (state_after (erase s)) = _has_arcs s) as Ha
    by (destruct s as [nd st d fm hu hl ha cc ci qi]; by destruct nd).
  split; [done|]. split; [done|].
  split; [destruct s as [nd st d fm hu hl ha cc ci qi]; by destruct nd|].
  split; [|split].
  - intros Hok filename. pose proof (erase_lifecycle s Hok) as Hok'.
    assert (_file_map (state_after (erase s)) !! filename = None) as Hf
      by by rewrite Hfm.
    split; [by apply lines_unknown|].
    split; [destruct (arcs_unknown filename _ Hok' Hf) as (s'' & H & _); by exists s''|].
    split; [by apply file_tracer_unknown|by apply contexts_by_lineno_unknown].
  - intros Hlines arc_data. eexists. apply add_arcs_on_lines. by rewrite Hl.
  - intros Harcs line_data. eexists. apply add_lines_on_arcs. by rewrite Ha.
Qed.

(** ** Truth of a store *)

(** X5.  [bool(data)]: on a store in use whose cache mirrors the [file]
    table it is true exactly when some file is measured, and the store is
    unchanged.  Without a connection and without a data file it is false and
    nothing is opened or created.  When the data file has another schema
    version and [DataError] is a [CoverageException], it is false as well,
    and the file is left as it is. *)
Theorem bool_measured (caught : Exception → bool) (s : CoverageData) :
  (store_ok s → __bool__ caught s = Ok (bool_decide (measured_files s ≠ ∅)) s)
  ∧ (_dbs s = false → path_exists s = false → __bool__ caught s = Ok false s)
  ∧ (∀ db v,
       _no_disk s = false → _dbs s = false → storage s = Some db →
       tbl_coverage_schema db = [v] → v ≠ SCHEMA_VERSION →
       caught (DataError (Wrong_schema v)) = true →
       ∃ s', __bool__ caught s = Ok false s' ∧ storage s' = Some db).
Proof.
  split; [|split].
  - intros Hok. destruct (store_ok_inv s Hok) as (db & Hu & Hd & Hdb & Hcache & _).
    unfold __bool__. rewrite Hd. simpl.
    assert (with_connect (db_read (λ db, bool_decide (tbl_file db ≠ ∅))) s
            = Ok (bool_decide (tbl_file db ≠ ∅)) s) as ->.
    { rewrite with_connect_open by done. apply transaction_Ok.
      unfold db_read. by rewrite Hdb. }
    f_equal. apply bool_decide_ext. unfold measured_files. rewrite Hcache. split.
    + intros Hne Hdom. apply Hne. by apply dom_empty_inv_L.
    + intros Hne Heq. apply Hne. rewrite Heq. apply dom_empty_L.
  - intros Hd Hp. unfold __bool__. by rewrite Hd, Hp.
  - intros db v Hnd Hd Hdb Hschema Hv Hcaught.
    destruct s as [nd st d fm hu hl ha cc ci qi]. simpl in *. subst.
    unfold __bool__, path_exists, with_connect, _connect, _open_db, _read_db.
    unfold_monad. simpl. rewrite Hschema. rewrite bool_decide_eq_true_2 by done. simpl.
    rewrite Hcaught. eexists. split; [reflexivity|]. done.
Qed.

(** ** Reading a data file *)

(** [_read_db] on a database that a store was in sync with: the flags and
    the cache of that store are restored. *)
Lemma _read_db_in_sync s db t :
  in_sync s db → storage t = Some db → no_mode t →
  _read_db t
  = Ok tt (set_file_map (tbl_file db ∪ _file_map t)
             (set_has_lines (_has_lines s) (set_has_arcs (_has_arcs s) t))).
Proof.
  intros (Hschema & Hcache & Hmeta) Hdb [Hl Ha].
  destruct t as [nd st d fm hu hl ha cc ci qi]. simpl in *. subst.
  unfold _read_db. unfold_monad. simpl. rewrite Hschema. simpl.
  destruct (tbl_meta db !! "has_arcs") as [value|].
  - destruct Hmeta as [-> ->]. by destruct (_has_arcs s).
  - destruct Hmeta as [-> ->]. done.
Qed.

(** Stores with the same view answer every query alike. *)
Lemma same_view_answers s t filename :
  same_view s t →
  (∃ r, lines filename s = Ok r s ∧ lines filename t = Ok r t)
  ∧ (∃ r, arcs filename s = Ok r s ∧ arcs filename t = Ok r t)
  ∧ (∃ r, file_tracer filename s = Ok r s ∧ file_tracer filename t = Ok r t)
  ∧ (∃ r, contexts_by_lineno filename s = Ok r s ∧ contexts_by_lineno filename t = Ok r t)
  ∧ measured_files t = measured_files s.
Proof.
  intros (Hs & Ht & Hst & Hfm & Ha & Hq).
  destruct Hs as (Hu & Hd & [db Hdb]). pose proof Hdb as Hdb'. rewrite <- Hst in Hdb'.
  assert (ready s) as Hs by (split; [done|split; [done|by eexists]]).
  split; [|split; [|split; [|split]]].
  - eexists. split; [by apply (lines_ready _ _ db)|].
    rewrite (lines_ready filename t db Ht Hdb'). by rewrite Hfm, Ha, Hq.
  - eexists. split; [by apply (arcs_ready _ _ db)|].
    rewrite (arcs_ready filename t db Ht Hdb'). by rewrite Hfm, Hq.
  - eexists. split; [by apply file_tracer_ready|].
    rewrite (file_tracer_ready filename t Ht). unfold tracer_of. by rewrite Hfm, Hst.
  - eexists. split; [by apply (contexts_by_lineno_ready _ _ db)|].
    rewrite (contexts_by_lineno_ready filename t db Ht Hdb'). by rewrite Hfm, Ha, Hq.
  - unfold measured_files. by rewrite Hfm.
Qed.

(** X6.  What one object has written, another reads: let a store in use be
    in sync with its data file and have no query contexts set.  [read] on a
    new object for the same file returns, leaves the file as it is, and the
    new object then has the same measured files and the same mode, and
    answers [lines], [arcs], [file_tracer] and [contexts_by_lineno] for
    every file as the first one does. *)
Theorem read_restores (s : CoverageData) (db : Database) :
  ready s → storage s = Some db → in_sync s db → _query_context_ids s = None →
  ∃ t, read (__init__ false (Some db)) = Ok tt t
       ∧ storage t = Some db
       ∧ measured_files t = measured_files s
       ∧ has_arcs t = has_arcs s ∧ _has_lines t = _has_lines s
       ∧ ∀ filename,
           (∃ r, lines filename s = Ok r s ∧ lines filename t = Ok r t)
           ∧ (∃ r, arcs filename s = Ok r s ∧ arcs filename t = Ok r t)
           ∧ (∃ r, file_tracer filename s = Ok r s ∧ file_tracer filename t = Ok r t)
           ∧ (∃ r, contexts_by_lineno filename s = Ok r s
                   ∧ contexts_by_lineno filename t = Ok r t).
Proof.
  intros Hready Hdb Hsync Hq.
  pose proof (_read_db_in_sync s db (set_dbs true (__init__ false (Some db))) Hsync
                eq_refl (conj eq_refl eq_refl)) as Hread.
  simpl in Hread. rewrite (right_id_L ∅ (∪)) in Hread.
  eexists. split.
  { unfold read, path_exists. simpl. unfold bind at 1. unfold get. simpl.
    unfold with_connect, _connect. unfold bind at 1. unfold bind at 1. unfold get. simpl.
    unfold _open_db. unfold bind at 1. unfold modify at 1. simpl. rewrite Hread.
    reflexivity. }
  destruct Hsync as (_ & Hcache & _).
  assert (same_view s
            (set_have_used true
               (set_file_map (tbl_file db)
                  (set_has_lines (_has_lines s)
                     (set_has_arcs (_has_arcs s)
                        (set_dbs true (__init__ false (Some db)))))))) as Hview.
  { split; [done|]. split; [by repeat split; try eexists|]. by repeat split. }
  split; [done|]. simpl.
  split; [unfold measured_files; simpl; by rewrite Hcache|]. split; [done|]. split; [done|].
  intros filename.
  destruct (same_view_answers _ _ filename Hview) as (H1 & H2 & H3 & H4 & _). done.
Qed.

(** X7.  [read] when there is nothing to read: without a data file (always
    so for a memory store) it does nothing, and creates no file.  On a data
    file of another schema version, or whose [coverage_schema] table does
    not hold exactly one row, an object without a connection raises the
    [DataError] of the case; the file is left as it is, and the connection
    that was opened stays registered. *)
Theorem read_edge_cases (t : CoverageData) :
  (path_exists t = false → read t = Ok tt t)
  ∧ (_no_disk t = true → read t = Ok tt t)
  ∧ (∀ db v,
       _no_disk t = false → _dbs t = false → storage t = Some db →
       tbl_coverage_schema db = [v] → v ≠ SCHEMA_VERSION →
       read t = Raise (DataError (Wrong_schema v)) (set_dbs true t))
  ∧ (∀ db,
       _no_disk t = false → _dbs t = false → storage t = Some db →
       length (tbl_coverage_schema db) ≠ 1%nat →
       read t = Raise (DataError Not_a_coverage_data_file) (set_dbs true t)).
Proof.
  split; [|split; [|split]].
  - intros Hp. unfold read, bind, get. by rewrite Hp.
  - intros Hnd. unfold read, bind, get, path_exists. by rewrite Hnd.
  - intros db v Hnd Hd Hdb Hschema Hv.
    destruct t as [nd st d fm hu hl ha cc ci qi]. simpl in *. subst.
    unfold read, path_exists, with_connect, _connect, _open_db, _read_db.
    unfold_monad. simpl. rewrite Hschema. by rewrite bool_decide_eq_true_2 by done.
  - intros db Hnd Hd Hdb Hschema.
    destruct t as [nd st d fm hu hl ha cc ci qi]. simpl in *. subst.
    unfold read, path_exists, with_connect, _connect, _open_db, _read_db.
    unfold_monad. simpl. destruct (tbl_coverage_schema db) as [|v [|w rest]]; try done.
Qed.

(** ** A new object that is used without [read] *)

Lemma started_new no_disk on_disk :
  started (__init__ no_disk on_disk)
  = mkCoverageData no_disk None false ∅ true false false None None None.
Proof. unfold started, __init__. by destruct no_disk. Qed.

(** X8.  A new object that is queried without a [read] before starts from
    an empty data file, whatever the file held: [lines], [arcs] and
    [file_tracer] return [None] for every file, [measured_contexts] returns
    no context, and the database is the initial one afterwards. *)
Theorem unread_store_is_empty (no_disk : bool) (on_disk : option Database)
    (filename : string) :
  let new := __init__ no_disk on_disk in
  let opened := mkCoverageData no_disk (Some _init_db) true ∅ true false false
                  None None None in
  lines filename new = Ok None opened
  ∧ arcs filename new = Ok None opened
  ∧ file_tracer filename new = Ok None opened
  ∧ measured_contexts new = Ok ∅ opened
  ∧ contexts_by_lineno filename new = Ok ∅ opened.
Proof.
  intros new opened.
  assert (_connect (started new) = Ok tt opened) as Hconnect.
  { unfold new. rewrite started_new. unfold opened, _connect, _open_db, _read_db.
    unfold_monad. simpl. destruct no_disk; simpl; by rewrite ?(left_id_L ∅ (∪)). }
  assert (_file_id filename false opened = Ok None opened) as Hfile by done.
  split; [|split; [|split; [|split]]].
  - unfold lines. rewrite (bind_Ok _ _ _ _ _ (_start_using_started new)).
    unfold bind at 1. unfold get. unfold has_arcs, new. rewrite started_new. simpl.
    fold new. unfold bind at 1. unfold ret at 1. rewrite <- (started_new no_disk on_disk).
    fold new. unfold with_connect. rewrite (bind_Ok _ _ _ _ _ Hconnect).
    apply transaction_Ok. by rewrite (bind_Ok _ _ _ _ _ Hfile).
  - unfold arcs. rewrite (bind_Ok _ _ _ _ _ (_start_using_started new)).
    unfold with_connect. rewrite (bind_Ok _ _ _ _ _ Hconnect).
    apply transaction_Ok. by rewrite (bind_Ok _ _ _ _ _ Hfile).
  - unfold file_tracer. rewrite (bind_Ok _ _ _ _ _ (_start_using_started new)).
    unfold with_connect. rewrite (bind_Ok _ _ _ _ _ Hconnect).
    apply transaction_Ok. by rewrite (bind_Ok _ _ _ _ _ Hfile).
  - unfold measured_contexts. rewrite (bind_Ok _ _ _ _ _ (_start_using_started new)).
    unfold with_connect. rewrite (bind_Ok _ _ _ _ _ Hconnect).
    apply transaction_Ok. unfold db_read. simpl. by rewrite dom_empty_L.
  - unfold contexts_by_lineno. rewrite (bind_Ok _ _ _ _ _ (_start_using_started new)).
    unfold with_connect. rewrite (bind_Ok _ _ _ _ _ Hconnect).
    apply transaction_Ok. by rewrite (bind_Ok _ _ _ _ _ Hfile).
Qed.

(** ** Serialization round trip *)

(** X9.  [loads(dumps())]: let a store in use be in sync with its database
    and have no query contexts set; let [zlib] give back the script it
    compressed, and the engine restore the dump of this database into an
    empty one.  Then [dumps] returns bytes that start with the marker and
    leaves the store unchanged, and [loads] of these bytes into a new object
    without a data file returns; the new object holds the same database,
    measured files and mode, and answers [lines], [arcs], [file_tracer] and
    [contexts_by_lineno] for every file as the first one does. *)
Theorem loads_dumps (dump : Database → string) (compress : string → list byte)
    (s : CoverageData) (db : Database) (no_disk : bool) :
  ready s → storage s = Some db → in_sync s db → _query_context_ids s = None →
  decompress (compress (dump db)) = Some (dump db) →
  executescript (dump db) None = Some db →
  ∃ data t,
    dumps dump compress s = Ok data s
    ∧ take 1 data = [x7a]
    ∧ loads data (__init__ no_disk None) = Ok tt t
    ∧ storage t = Some db
    ∧ measured_files t = measured_files s
    ∧ has_arcs t = has_arcs s ∧ _has_lines t = _has_lines s
    ∧ ∀ filename,
        (∃ r, lines filename s = Ok r s ∧ lines filename t = Ok r t)
        ∧ (∃ r, arcs filename s = Ok r s ∧ arcs filename t = Ok r t)
        ∧ (∃ r, file_tracer filename s = Ok r s ∧ file_tracer filename t = Ok r t)
        ∧ (∃ r, contexts_by_lineno filename s = Ok r s
                ∧ contexts_by_lineno filename t = Ok r t).
Proof.
  intros Hready Hdb Hsync Hq Hzlib Hrestore.
  pose proof Hready as (Hu & Hd & _).
  set (opened := set_storage (Some db) (set_dbs true (__init__ no_disk None))).
  pose proof (_read_db_in_sync s db opened Hsync eq_refl (conj eq_refl eq_refl)) as Hread.
  simpl in Hread. rewrite (right_id_L ∅ (∪)) in Hread.
  eexists (x7a :: compress (dump db)), _. split.
  { unfold dumps. rewrite with_connect_open by done. apply transaction_Ok.
    unfold bind, db_read. by rewrite Hdb. }
  split; [done|]. split.
  { unfold loads. rewrite bool_decide_eq_false_2 by (intros H; by apply H).
    change (drop 1 (x7a :: compress (dump db))) with (compress (dump db)).
    rewrite Hzlib. unfold bind at 1. unfold modify at 1.
    assert (transaction
              (let! s0 := get in
               match executescript (dump db) (storage s0) with
               | Some db0 => modify (set_storage (Some db0))
               | None => raise ForeignError
               end)
              (set_dbs true
                 (if _no_disk (__init__ no_disk None)
                  then set_storage None (__init__ no_disk None)
                  else __init__ no_disk None))
            = Ok tt opened) as Hscript.
    { apply transaction_Ok. unfold bind, get. destruct no_disk; simpl; by rewrite Hrestore. }
    rewrite (bind_Ok _ _ _ _ _ Hscript). rewrite (bind_Ok _ _ _ _ _ Hread). reflexivity. }
  destruct Hsync as (_ & Hcache & _).
  assert (same_view s
            (set_have_used true
               (set_file_map (tbl_file db)
                  (set_has_lines (_has_lines s) (set_has_arcs (_has_arcs s) opened)))))
    as Hview.
  { split; [done|]. split; [by repeat split; try eexists|]. by repeat split. }
  split; [done|]. simpl.
  split; [unfold measured_files; simpl; by rewrite Hcache|]. split; [done|]. split; [done|].
  intros filename.
  destruct (same_view_answers _ _ filename Hview) as (H1 & H2 & H3 & H4 & _). done.
Qed.

(** ** Lines and their contexts *)

Lemma add_context_inhabited lineno context m :
  contexts_inhabited m → contexts_inhabited (add_context lineno context m).
Proof.
  intros Hm n cs. unfold add_context. destruct (decide (n = lineno)) as [->|Hne].
  - rewrite lookup_insert_eq. intros [= <-]. (tidy; set_solver).
  - rewrite lookup_insert_ne by done. apply Hm.
Qed.

Lemma arc_contexts_map_inhabited rows : contexts_inhabited (arc_contexts_map rows).
Proof.
  unfold arc_contexts_map.
  assert (contexts_inhabited (∅ : gmap Z (gset string))) as Hempty by by intros ? ? ?.
  revert Hempty. generalize (∅ : gmap Z (gset string)).
  induction rows as [|row rows IH]; intros m Hm; simpl; [done|].
  apply IH. repeat case_bool_decide; auto using add_context_inhabited.
Qed.

Lemma line_contexts_map_inhabited rows : contexts_inhabited (line_contexts_map rows).
Proof.
  unfold line_contexts_map.
  assert (contexts_inhabited (∅ : gmap Z (gset string))) as Hempty by by intros ? ? ?.
  revert Hempty. generalize (∅ : gmap Z (gset string)).
  induction rows as [|row rows IH]; intros m Hm; simpl; [done|].
  apply IH. revert m Hm. generalize (numbits_to_nums row.1).
  intros nums. induction nums as [|k nums IHn]; intros m Hm; simpl; [done|].
  apply IHn. by apply add_context_inhabited.
Qed.

(** A key of [elements <$> m] has a context when the sets are inhabited. *)
Lemma inhabited_has_context (m : gmap Z (gset string)) n contexts :
  contexts_inhabited m → (elements <$> m) !! n = Some contexts →
  contexts ≠ [] ∧ ∃ context, has_context m n context.
Proof.
  intros Hm Hn. rewrite lookup_fmap in Hn.
  destruct (m !! n) as [cs|] eqn:Hcs; [|done]. injection Hn as <-.
  pose proof (Hm n cs Hcs) as Hne. apply set_choose_L in Hne as [c Hc]. split.
  - intros Hnil. apply elem_of_elements in Hc. rewrite Hnil in Hc. by apply elem_of_nil in Hc.
  - exists c, cs. done.
Qed.

(** X10.  On a store in use, for every file: [contexts_by_lineno] is the
    empty dict when [lines] is [None]; each of its keys is a line of
    [lines(file)] and has a non-empty list of contexts, all of which are
    rows of [context]; and when every row refers to a context that exists,
    each line of [lines(file)] is a key.  Both read the same query
    contexts. *)
Theorem contexts_by_lineno_lines (s : CoverageData) (db : Database) (filename : string) :
  ready s → storage s = Some db →
  ∃ result m,
    lines filename s = Ok result s ∧ contexts_by_lineno filename s = Ok m s
    ∧ (result = None → m = ∅)
    ∧ (∀ n contexts,
         m !! n = Some contexts →
         contexts ≠ [] ∧ n ∈ default [] result
         ∧ ∀ context, context ∈ contexts → is_Some (tbl_context db !! context))
    ∧ (context_references_ok db → ∀ n, n ∈ default [] result → is_Some (m !! n)).
Proof.
  intros Hready Hdb. eexists _, _.
  split; [by apply (lines_ready _ _ db)|]. split; [by apply (contexts_by_lineno_ready _ _ db)|].
  destruct (_file_map s !! filename) as [id|] eqn:Hf; simpl;
    [|split; [done|split; [by intros ? ? ?|]]; intros _ n Hn; by apply elem_of_nil in Hn].
  split; [done|]. destruct (_has_arcs s) eqn:Ha.
  - (* arc-mode *)
    assert (∀ n c, has_context (arc_contexts_map
                                  (select_arc_contexts id (_query_context_ids s) db)) n c
                   ↔ 0 < n ∧ ∃ context_id fromno tono,
                       (id, context_id, fromno, tono) ∈ tbl_arc db
                       ∧ context_selected (_query_context_ids s) context_id
                       ∧ tbl_context db !! c = Some context_id
                       ∧ (n = fromno ∨ n = tono)) as Hchar.
    { intros n c. rewrite has_context_arc_contexts_map. split.
      - intros ([[fromno tono] c'] & Hrow & <- & Hpos & Hn). simpl in *.
        apply elem_of_select_arc_contexts in Hrow as (cid & Hrow & Hsel & Hc).
        split; [done|]. by exists cid, fromno, tono.
      - intros (Hpos & cid & fromno & tono & Hrow & Hsel & Hc & Hn).
        exists (fromno, tono, c). split; [|done].
        apply elem_of_select_arc_contexts. by exists cid. }
    assert (∀ n, n ∈ lines_of_arcs (elements (select_arcs id (_query_context_ids s) db))
                 ↔ 0 < n ∧ ∃ context_id fromno tono,
                     (id, context_id, fromno, tono) ∈ tbl_arc db
                     ∧ context_selected (_query_context_ids s) context_id
                     ∧ (n = fromno ∨ n = tono)) as Hlines.
    { intros n. rewrite elem_of_lines_of_arcs. split.
      - intros (Hpos & [fromno tono] & Hin & Hn). split; [done|].
        apply elem_of_elements, elem_of_select_arcs in Hin as (cid & Hrow & Hsel).
        by exists cid, fromno, tono.
      - intros (Hpos & cid & fromno & tono & Hrow & Hsel & Hn). split; [done|].
        exists (fromno, tono). split; [|done].
        apply elem_of_elements, elem_of_select_arcs. by exists cid. }
    split.
    + intros n contexts Hn.
      destruct (inhabited_has_context _ n contexts (arc_contexts_map_inhabited _) Hn)
        as [Hne [c Hc]].
      split; [done|]. split.
      * apply Hlines. apply Hchar in Hc as (Hpos & cid & fromno & tono & ? & ? & ? & ?).
        split; [done|]. by exists cid, fromno, tono.
      * intros c' Hc'.
        assert (has_context
                  (elements <$> arc_contexts_map
                                  (select_arc_contexts id (_query_context_ids s) db)) n c')
          as Hhas by by exists contexts.
        apply has_context_elements, Hchar in Hhas as (_ & cid & _ & _ & _ & _ & Hctx & _).
        by eexists.
    + intros [_ Hrefs] n Hn. apply Hlines in Hn as (Hpos & cid & fromno & tono & Hrow & Hsel & Hn).
      destruct (Hrefs _ Hrow) as [c Hc]. simpl in Hc.
      assert (has_context (arc_contexts_map
                             (select_arc_contexts id (_query_context_ids s) db)) n c) as Hhas.
      { apply Hchar. split; [done|]. by exists cid, fromno, tono. }
      apply has_context_elements in Hhas as (cs & Hcs & _). by eexists.
  - (* line-mode *)
    assert (∀ n c, has_context (line_contexts_map
                                  (select_numbits_contexts id (_query_context_ids s) db)) n c
                   ↔ ∃ context_id nb k,
                       tbl_line_bits db !! (id, context_id) = Some nb
                       ∧ context_selected (_query_context_ids s) context_id
                       ∧ tbl_context db !! c = Some context_id
                       ∧ k ∈ numbits_to_nums nb ∧ n = Z.of_N k) as Hchar.
    { intros n c. rewrite has_context_line_contexts_map. split.
      - intros ([nb c'] & Hrow & <- & k & Hk & Hn). simpl in *.
        apply elem_of_select_numbits_contexts in Hrow as (cid & Hrow & Hsel & Hc).
        by exists cid, nb, k.
      - intros (cid & nb & k & Hrow & Hsel & Hc & Hk & Hn).
        exists (nb, c). split; [|split; [done|by exists k]].
        apply elem_of_select_numbits_contexts. by exists cid. }
    assert (∀ n, n ∈ elements (nums_of (select_numbits id (_query_context_ids s) db))
                 ↔ ∃ context_id nb k,
                     tbl_line_bits db !! (id, context_id) = Some nb
                     ∧ context_selected (_query_context_ids s) context_id
                     ∧ k ∈ numbits_to_nums nb ∧ n = Z.of_N k) as Hlines.
    { intros n. rewrite elem_of_elements, elem_of_nums_of. split.
      - intros (nb & Hnb & k & Hk & Hn).
        apply elem_of_select_numbits in Hnb as (cid & Hrow & Hsel). by exists cid, nb, k.
      - intros (cid & nb & k & Hrow & Hsel & Hk & Hn). exists nb.
        split; [|by exists k]. apply elem_of_select_numbits. by exists cid. }
    split.
    + intros n contexts Hn.
      destruct (inhabited_has_context _ n contexts (line_contexts_map_inhabited _) Hn)
        as [Hne [c Hc]].
      split; [done|]. split.
      * apply Hlines. apply Hchar in Hc as (cid & nb & k & ? & ? & ? & ? & ?).
        by exists cid, nb, k.
      * intros c' Hc'.
        assert (has_context
                  (elements <$> line_contexts_map
                                  (select_numbits_contexts id (_query_context_ids s) db)) n c')
          as Hhas by by exists contexts.
        apply has_context_elements, Hchar in Hhas as (cid & _ & _ & _ & _ & Hctx & _).
        by eexists.
    + intros [Hrefs _] n Hn. apply Hlines in Hn as (cid & nb & k & Hrow & Hsel & Hk & Hn).
      destruct (Hrefs (id, cid)) as [c Hc]; [by eexists|]. simpl in Hc.
      assert (has_context (line_contexts_map
                             (select_numbits_contexts id (_query_context_ids s) db)) n c)
        as Hhas.
      { apply Hchar. by exists cid, nb, k. }
      apply has_context_elements in Hhas as (cs & Hcs & _). by eexists.
Qed.

(** ** Lines are recorded under the current context *)

Lemma store_ok_contexts_inv s :
  store_ok_contexts s →
  ∃ db, store_ok s ∧ _have_used s = true ∧ _dbs s = true ∧ storage s = Some db
        ∧ _file_map s = tbl_file db ∧ file_ids_distinct db ∧ references_ok db
        ∧ context_ids_distinct db ∧ context_references_ok db.
Proof.
  intros (Hok & db & Hdb & Hcd & Hcr).
  destruct (store_ok_inv s Hok) as (db' & Hu & Hd & Hdb' & Hcache & Hdist & Hrefs).
  assert (db' = db) as -> by congruence. by exists db.
Qed.

(** Writing the lines of a known file under the current context. *)
Lemma write_lines_ok s db filename id context context_id (nums : list N) :
  store_ok_contexts s → storage s = Some db → _file_map s !! filename = Some id →
  tbl_context db !! context = Some context_id →
  let s' := set_storage
              (Some (set_tbl_line_bits
                       (<[(id, context_id) :=
                            match tbl_line_bits db !! (id, context_id) with
                            | Some numbits0 => numbits_union (nums_to_numbits nums) numbits0
                            | None => nums_to_numbits nums
                            end]> (tbl_line_bits db)) db)) s in
  store_ok_contexts s'
  ∧ ∀ g c n, line_in_context s' g c n
             ↔ line_in_context s g c n
               ∨ (g = filename ∧ c = context ∧ ∃ k, k ∈ nums ∧ n = Z.of_N k).
Proof.
  intros Hok Hdb Hf Hctx s'.
  destruct (store_ok_contexts_inv s Hok)
    as (db' & Hok0 & Hu & Hd & Hdb' & Hcache & Hdist & Hrefs & Hcd & Hcr).
  assert (db' = db) as -> by congruence.
  destruct Hrefs as (Hrlb & Hrarc & Hrtr). destruct Hcr as (Hcl & Hca).
  assert (tbl_file db !! filename = Some id) as Hfdb by by rewrite <- Hcache.
  set (merged := match tbl_line_bits db !! (id, context_id) with
                 | Some numbits0 => numbits_union (nums_to_numbits nums) numbits0
                 | None => nums_to_numbits nums
                 end).
  split.
  - split.
    + split; [by repeat split|]. eexists. split; [reflexivity|]. simpl.
      split; [done|]. split; [done|]. unfold references_ok. simpl.
      split; [|done]. intros key [nb Hkey].
      destruct (decide (key = (id, context_id))) as [->|Hne]; [by exists filename|].
      rewrite lookup_insert_ne in Hkey by done. apply Hrlb. by eexists.
    + eexists. split; [reflexivity|]. split; [done|]. split; [|done]. simpl.
      intros key [nb Hkey].
      destruct (decide (key = (id, context_id))) as [->|Hne]; [by exists context|].
      rewrite lookup_insert_ne in Hkey by done. apply Hcl. by eexists.
  - intros g c n. unfold line_in_context. simpl. split.
    + intros (db1 & id1 & c1 & nb & k & [= <-] & Hg & Hc & Hrow & Hk & ->). simpl in *.
      destruct (decide ((id1, c1) = (id, context_id))) as [[= -> ->]|Hne].
      * rewrite lookup_insert_eq in Hrow. injection Hrow as <-.
        assert (g = filename) as -> by (apply (Hdist g filename id); by rewrite <- ?Hcache).
        assert (c = context) as -> by by apply (Hcd c context context_id).
        apply elem_of_union_numbits in Hk as [Hk|(nb0 & Hex & Hk)].
        -- right. split; [done|]. split; [done|]. by exists k.
        -- left. by exists db, id, context_id, nb0, k.
      * rewrite lookup_insert_ne in Hrow by done. left. by exists db, id1, c1, nb, k.
    + intros [(db1 & id1 & c1 & nb & k & Hdb1 & Hg & Hc & Hrow & Hk & ->)
             |(-> & -> & k & Hk & ->)].
      * assert (db1 = db) as -> by congruence.
        destruct (decide ((id1, c1) = (id, context_id))) as [[= -> ->]|Hne].
        -- eexists _, id, context_id, merged, k. split; [reflexivity|]. simpl.
           split; [done|]. split; [done|]. split; [by rewrite lookup_insert_eq|].
           split; [|done]. apply elem_of_union_numbits. right. eauto.
        -- eexists _, id1, c1, nb, k. split; [reflexivity|]. simpl.
           split; [done|]. split; [done|]. split; [by rewrite lookup_insert_ne|]. done.
      * eexists _, id, context_id, merged, k. split; [reflexivity|]. simpl.
        split; [done|]. split; [done|]. split; [by rewrite lookup_insert_eq|].
        split; [|done]. apply elem_of_union_numbits. by left.
Qed.

Lemma with_file_ok_contexts filename s db :
  store_ok_contexts s → storage s = Some db → _file_map s !! filename = None →
  store_ok_contexts (with_file filename db s)
  ∧ ∀ g c n, line_in_context (with_file filename db s) g c n ↔ line_in_context s g c n.
Proof.
  intros Hok Hdb Hf.
  destruct (store_ok_contexts_inv s Hok)
    as (db' & Hok0 & Hu & Hd & Hdb' & Hcache & Hdist & Hrefs & Hcd & Hcr).
  assert (db' = db) as -> by congruence.
  split.
  - split; [by apply with_file_ok|]. eexists. split; [reflexivity|]. done.
  - destruct (new_file_id_fresh db Hrefs) as (Hfresh & Hnoline & _).
    intros g c n. unfold line_in_context. simpl. split.
    + intros (db1 & id & c1 & nb & k & [= <-] & Hg & Hc & Hrow & Hk). simpl in *.
      destruct (decide (g = filename)) as [->|Hne].
      * rewrite lookup_insert_eq in Hg. injection Hg as <-. by rewrite Hnoline in Hrow.
      * rewrite lookup_insert_ne in Hg by done. by exists db, id, c1, nb, k.
    + intros (db1 & id & c1 & nb & k & Hdb1 & Hg & Hc & Hrow & Hk).
      assert (db1 = db) as -> by congruence.
      assert (g ≠ filename) by (intros ->; congruence).
      eexists _, id, c1, nb, k. split; [reflexivity|]. by rewrite lookup_insert_ne.
Qed.

(** One item of [add_lines], context by context. *)
Lemma add_lines_item_contexts context context_id item s db :
  store_ok_contexts s → storage s = Some db →
  _current_context_id s = Some context_id → tbl_context db !! context = Some context_id →
  ∃ s' db', add_lines_item item s = Ok tt s'
    ∧ store_ok_contexts s' ∧ storage s' = Some db' ∧ tbl_context db' = tbl_context db
    ∧ _current_context_id s' = Some context_id ∧ same_attrs s s'
    ∧ ∀ g c n, line_in_context s' g c n
               ↔ line_in_context s g c n
                 ∨ (g = item.1 ∧ c = context ∧ ∃ k, k ∈ item.2 ∧ n = Z.of_N k).
Proof.
  intros Hok Hdb Hc Hctx.
  destruct (store_ok_contexts_inv s Hok) as (db' & Hok0 & Hu & Hd & Hdb' & Hcache & _).
  assert (db' = db) as -> by congruence.
  destruct item as [f nums]. simpl.
  destruct (_file_map s !! f) as [id|] eqn:Hf.
  - destruct (write_lines_ok s db f id context context_id nums Hok Hdb Hf Hctx) as [Hok' Hl].
    eexists _, _. split; [by apply (add_lines_item_known context_id _ _ _ db id)|].
    split; [exact Hok'|]. split; [reflexivity|]. split; [done|]. split; [done|].
    split; [by repeat split|]. exact Hl.
  - destruct (with_file_ok_contexts f s db Hok Hdb Hf) as [Hok1 Hl1].
    assert (_file_map (with_file f db s) !! f = Some (next_rowid (tbl_file db))) as Hf1
      by (simpl; by rewrite lookup_insert_eq).
    destruct (write_lines_ok (with_file f db s) _ f _ context context_id nums Hok1 eq_refl
                Hf1 Hctx) as [Hok' Hl].
    eexists _, _. split.
    { unfold add_lines_item. simpl.
      rewrite (bind_Ok _ _ _ _ _ (_file_id_add f s db Hd Hdb Hf)).
      unfold bind, get, db_read, db_write. simpl. rewrite Hc. simpl. reflexivity. }
    split; [exact Hok'|]. split; [reflexivity|]. split; [done|]. split; [done|].
    split; [by repeat split|].
    intros g c n. etrans; [apply (Hl g c n)|]. by rewrite (Hl1 g c n).
Qed.

(** The loop of [add_lines], context by context. *)
Lemma add_lines_loop_contexts context context_id line_data s db :
  store_ok_contexts s → storage s = Some db →
  _current_context_id s = Some context_id → tbl_context db !! context = Some context_id →
  ∃ s' db', for_each line_data add_lines_item s = Ok tt s'
    ∧ store_ok_contexts s' ∧ storage s' = Some db' ∧ tbl_context db' = tbl_context db
    ∧ same_attrs s s'
    ∧ ∀ g c n, line_in_context s' g c n
               ↔ line_in_context s g c n
                 ∨ (c = context ∧ ∃ nums k, (g, nums) ∈ line_data ∧ k ∈ nums ∧ n = Z.of_N k).
Proof.
  revert s db. induction line_data as [|item rest IH]; intros s db Hok Hdb Hc Hctx.
  - exists s, db. split; [done|]. split; [done|]. split; [done|]. split; [done|].
    split; [apply same_attrs_refl|]. intros g c n. split; [by left|].
    intros [?|(_ & ? & ? & Hin & _)]; [done|]. by apply elem_of_nil in Hin.
  - destruct (add_lines_item_contexts context context_id item s db Hok Hdb Hc Hctx)
      as (s1 & db1 & Hrun1 & Hok1 & Hdb1 & Htbl1 & Hc1 & Hat1 & Hl1).
    destruct (IH s1 db1 Hok1 Hdb1 Hc1 ltac:(by rewrite Htbl1))
      as (s2 & db2 & Hrun2 & Hok2 & Hdb2 & Htbl2 & Hat2 & Hl2).
    exists s2, db2. split; [simpl; by rewrite (bind_Ok _ _ _ _ _ Hrun1)|].
    split; [done|]. split; [done|]. split; [congruence|].
    split; [by eapply same_attrs_trans|].
    intros g c n. rewrite Hl2, Hl1. destruct item as [f nums]. simpl. split.
    + intros [[?|(-> & -> & k & Hk & ->)]|(-> & nums' & k & Hin & Hk & ->)]; [by left| |].
      * right. split; [done|]. exists nums, k. split; [left|done].
      * right. split; [done|]. exists nums', k. split; [by right|done].
    + intros [?|(-> & nums' & k & [[= -> ->]|Hin]%elem_of_cons & Hk & ->)];
        [by left; left| |].
      * left. right. split; [done|]. split; [done|]. by exists k.
      * right. split; [done|]. by exists nums', k.
Qed.

Lemma line_in_context_proper s s' g c n :
  _file_map s' = _file_map s →
  (∃ db db', storage s = Some db ∧ storage s' = Some db'
             ∧ tbl_line_bits db' = tbl_line_bits db ∧ tbl_context db' = tbl_context db) →
  line_in_context s' g c n ↔ line_in_context s g c n.
Proof.
  intros Hfm (db & db' & Hdb & Hdb' & Hl & Hc). unfold line_in_context. split.
  - intros (d & id & cid & nb & k & Hd & Hg & Hctx & Hrow & Hk).
    assert (d = db') as -> by congruence.
    exists db, id, cid, nb, k. by rewrite <- Hfm, <- Hl, <- Hc.
  - intros (d & id & cid & nb & k & Hd & Hg & Hctx & Hrow & Hk).
    assert (d = db) as -> by congruence.
    exists db', id, cid, nb, k. by rewrite Hfm, Hl, Hc.
Qed.

Lemma store_ok_contexts_proper s s' :
  store_ok_contexts s → same_rows s s' →
  (∃ db db', storage s = Some db ∧ storage s' = Some db'
             ∧ tbl_context db' = tbl_context db) →
  _have_used s' = true → _dbs s' = true → store_ok_contexts s'.
Proof.
  intros (Hok & db0 & Hdb0 & Hcd & Hcr) Hsame (db & db' & Hdb & Hdb' & Hc) Hu Hd.
  assert (db0 = db) as -> by congruence.
  split; [by apply (same_rows_ok s s')|]. exists db'. split; [done|].
  destruct Hsame as (_ & d & d' & Hd1 & Hd2 & _ & Hl & Ha & _).
  assert (d = db) as -> by congruence. assert (d' = db') as -> by congruence.
  split.
  - unfold context_ids_distinct. rewrite Hc. apply Hcd.
  - unfold context_references_ok. rewrite Hc, Hl, Ha. apply Hcr.
Qed.

(** [_choose_lines_or_arcs(lines=True)] on a store in use that is not in
    arc-mode. *)
Lemma _choose_lines_run s db :
  ready s → storage s = Some db → _has_arcs s = false →
  _choose_lines_or_arcs true false s
  = Ok tt (if _has_lines s then s
           else set_storage
                  (Some (set_tbl_meta (insert_or_ignore_meta "has_arcs" "0" (tbl_meta db)) db))
                  (set_has_arcs false (set_has_lines true s))).
Proof.
  intros (Hu & Hd & _) Hdb Ha.
  unfold _choose_lines_or_arcs. simpl. unfold bind at 1. unfold get. rewrite Ha. simpl.
  destruct (_has_lines s) eqn:Hl; simpl; [done|].
  unfold bind at 1. unfold modify at 1.
  rewrite with_connect_open by done. apply transaction_Ok.
  unfold db_write. simpl. rewrite Hdb. reflexivity.
Qed.

(** The new row of [_set_context_id] keeps the constraints on contexts, and
    no line is recorded under a context that has just got its row. *)
Lemma insert_context_ok s db context :
  store_ok_contexts s → storage s = Some db →
  let s' := set_storage
              (Some (set_tbl_context (insert_or_ignore_name context (tbl_context db)) db)) s in
  store_ok_contexts s'
  ∧ ∀ g c n, line_in_context s' g c n ↔ line_in_context s g c n.
Proof.
  intros Hok Hdb s'.
  destruct (store_ok_contexts_inv s Hok)
    as (db' & Hok0 & Hu & Hd & Hdb' & Hcache & Hdist & Hrefs & Hcd & Hcl & Hca).
  assert (db' = db) as -> by congruence.
  unfold s', insert_or_ignore_name.
  destruct (tbl_context db !! context) as [id|] eqn:Hctx.
  { rewrite set_tbl_context_same, <- Hdb, set_storage_same. done. }
  assert (∀ c, tbl_context db !! c ≠ Some (next_rowid (tbl_context db))) as Hfresh.
  { intros c Hc. apply next_rowid_gt in Hc. lia. }
  split.
  - split.
    + apply (same_rows_ok s); [done| |done..]. split; [done|].
      eexists db, _. split; [done|]. split; [reflexivity|]. done.
    + eexists. split; [reflexivity|]. split.
      * intros c1 c2 i. simpl.
        destruct (decide (c1 = context)) as [->|H1], (decide (c2 = context)) as [->|H2];
          rewrite ?lookup_insert_eq, ?lookup_insert_ne by done; try done.
        -- intros [= <-] Hc. by apply Hfresh in Hc.
        -- intros Hc [= <-]. by apply Hfresh in Hc.
        -- apply Hcd.
      * split; simpl.
        -- intros key Hkey. destruct (Hcl key Hkey) as [c Hc]. exists c.
           rewrite lookup_insert_ne; [done|]. intros <-. congruence.
        -- intros row Hrow. destruct (Hca row Hrow) as [c Hc]. exists c.
           rewrite lookup_insert_ne; [done|]. intros <-. congruence.
  - intros g c n. unfold line_in_context. simpl. split.
    + intros (db1 & id & cid & nb & k & [= <-] & Hg & Hc & Hrow & Hk). simpl in *.
      destruct (decide (c = context)) as [->|Hne].
      * rewrite lookup_insert_eq in Hc. injection Hc as <-.
        destruct (Hcl (id, next_rowid (tbl_context db))) as [c' Hc']; [by eexists|].
        by apply Hfresh in Hc'.
      * rewrite lookup_insert_ne in Hc by done. by exists db, id, cid, nb, k.
    + intros (db1 & id & cid & nb & k & Hdb1 & Hg & Hc & Hrow & Hk).
      assert (db1 = db) as -> by congruence.
      assert (c ≠ context) by (intros ->; congruence).
      eexists _, id, cid, nb, k. split; [reflexivity|]. simpl.
      by rewrite lookup_insert_ne.
Qed.

(** What [contexts_by_lineno] returns on a line-mode store without query
    contexts. *)
Lemma contexts_by_lineno_line_in_context filename s :
  store_ok s → _has_arcs s = false → _query_context_ids s = None →
  ∃ m, contexts_by_lineno filename s = Ok m s
       ∧ ∀ n c, has_context m n c ↔ line_in_context s filename c n.
Proof.
  intros Hok Ha Hq.
  destruct (store_ok_inv s Hok) as (db & Hu & Hd & Hdb & _).
  eexists. split; [by apply (contexts_by_lineno_ready _ _ db); [apply Hok|]|].
  rewrite Ha, Hq. intros n c. unfold line_in_context.
  destruct (_file_map s !! filename) as [id|] eqn:Hf.
  - rewrite has_context_elements, has_context_line_contexts_map. split.
    + intros ([nb c'] & Hrow & <- & k & Hk & Hn). simpl in *.
      apply elem_of_select_numbits_contexts in Hrow as (cid & Hrow & _ & Hc).
      by exists db, id, cid, nb, k.
    + intros (db' & id' & cid & nb & k & Hdb' & [= <-] & Hc & Hrow & Hk & Hn).
      assert (db' = db) as -> by congruence.
      exists (nb, c). split; [|split; [done|by exists k]].
      apply elem_of_select_numbits_contexts. by exists cid.
  - split.
    + intros (cs & Hcs & _). by rewrite lookup_empty in Hcs.
    + intros (db' & id' & cid & nb & k & _ & ? & _). done.
Qed.

(** X11.  On a line-mode (or new) store in use that satisfies the declared
    constraints, without query contexts: [set_context(context)] followed by
    [add_lines(line_data)] returns, and afterwards [contexts_by_lineno(file)]
    reports, for every file, the contexts it reported before and, for each
    line added for the file, the current context (the empty text when the
    context is [None]); nothing else.  When there was data to add, the
    current context is among [measured_contexts()]. *)
Theorem add_lines_under_context (s : CoverageData) (context : option string)
    (line_data : list (string * list N)) :
  store_ok_contexts s → _has_arcs s = false → _query_context_ids s = None →
  ∃ s1 s2,
    set_context context s = Ok tt s1 ∧ add_lines line_data s1 = Ok tt s2
    ∧ (∀ filename, ∃ before after,
         contexts_by_lineno filename s = Ok before s
         ∧ contexts_by_lineno filename s2 = Ok after s2
         ∧ ∀ n c, has_context after n c
                  ↔ has_context before n c
                    ∨ (c = default "" context
                       ∧ ∃ nums k, (filename, nums) ∈ line_data ∧ k ∈ nums ∧ n = Z.of_N k))
    ∧ (line_data ≠ [] →
       ∃ contexts, measured_contexts s2 = Ok contexts s2 ∧ default "" context ∈ contexts).
Proof.
  intros Hok Ha Hq.
  destruct (store_ok_contexts_inv s Hok) as (db & Hok0 & Hu & Hd & Hdb & _).
  set (s1 := set_current_context_id None (set_current_context context s)).
  assert (store_ok_contexts s1) as Hok1.
  { apply (store_ok_contexts_proper s); [done| |by exists db, db|done..].
    split; [done|]. by exists db, db. }
  assert (∀ g c n, line_in_context s1 g c n ↔ line_in_context s g c n) as Hl1.
  { intros g c n. apply line_in_context_proper; [done|]. by exists db, db. }
  (* the mode *)
  assert (ready s1) as Hready1 by apply Hok1.
  pose proof (_choose_lines_run s1 db Hready1 Hdb Ha) as Hrun2.
  set (s2 := if _has_lines s1 then s1
             else set_storage
                    (Some (set_tbl_meta (insert_or_ignore_meta "has_arcs" "0" (tbl_meta db)) db))
                    (set_has_arcs false (set_has_lines true s1))) in Hrun2.
  assert (∃ db2, storage s2 = Some db2 ∧ tbl_line_bits db2 = tbl_line_bits db
                 ∧ tbl_context db2 = tbl_context db ∧ tbl_file db2 = tbl_file db
                 ∧ tbl_arc db2 = tbl_arc db ∧ tbl_tracer db2 = tbl_tracer db)
    as (db2 & Hdb2 & Hlb2 & Hctx2 & Hf2 & Harc2 & Htr2).
  { unfold s2. destruct (_has_lines s1); [by exists db|]. eexists. split; [reflexivity|]. done. }
  assert (_file_map s2 = _file_map s ∧ _have_used s2 = true ∧ _dbs s2 = true
          ∧ _has_arcs s2 = false ∧ _query_context_ids s2 = None
          ∧ _current_context s2 = context) as (Hfm2 & Hu2 & Hd2 & Ha2 & Hq2 & Hcc2).
  { unfold s2. destruct (_has_lines s1); by repeat split. }
  assert (store_ok_contexts s2) as Hok2.
  { apply (store_ok_contexts_proper s1); [done| |by exists db, db2|done..].
    split; [done|]. by exists db, db2. }
  assert (∀ g c n, line_in_context s2 g c n ↔ line_in_context s g c n) as Hl2.
  { intros g c n. rewrite <- Hl1. apply line_in_context_proper; [done|]. by exists db, db2. }
  assert (∃ s3, add_lines line_data s1 = Ok tt s3
                ∧ store_ok s3 ∧ _has_arcs s3 = false ∧ _query_context_ids s3 = None
                ∧ (∀ g c n,
                     line_in_context s3 g c n
                     ↔ line_in_context s g c n
                       ∨ (c = default "" context
                          ∧ ∃ nums k, (g, nums) ∈ line_data ∧ k ∈ nums ∧ n = Z.of_N k))
                ∧ (line_data ≠ [] →
                   ∃ db3, storage s3 = Some db3
                          ∧ is_Some (tbl_context db3 !! default "" context)))
    as (s3 & Hrun & Hok3 & Ha3 & Hq3 & Hl3 & Hctx3).
  { unfold add_lines. rewrite (bind_Ok _ _ _ _ _ (_start_using_used s1 Hu)).
    rewrite (bind_Ok _ _ _ _ _ Hrun2).
    destruct line_data as [|item rest].
    { exists s2. split; [done|]. split; [apply Hok2|]. split; [done|]. split; [done|].
      split; [|done]. intros g c n. rewrite Hl2. split; [by left|].
      intros [?|(_ & ? & ? & Hin & _)]; [done|]. by apply elem_of_nil in Hin. }
    destruct (_set_context_id_run s2 db2 (proj1 (proj1 Hok2)) Hdb2) as (cid & Hcid & Hrun3).
    rewrite Hcc2 in Hcid, Hrun3.
    destruct (insert_context_ok s2 db2 (default "" context) Hok2 Hdb2) as [Hok3 Hl3].
    set (s3 := set_storage
                 (Some (set_tbl_context
                          (insert_or_ignore_name (default "" context) (tbl_context db2)) db2))
                 s2) in *.
    set (s4 := set_current_context_id (Some cid) s3) in *.
    assert (store_ok_contexts s4) as Hok4.
    { apply (store_ok_contexts_proper s3); [done| | |done..].
      - split; [done|]. eexists _, _. split; [reflexivity|]. split; [reflexivity|]. done.
      - eexists _, _. split; [reflexivity|]. split; [reflexivity|]. done. }
    assert (∀ g c n, line_in_context s4 g c n ↔ line_in_context s3 g c n) as Hl4.
    { intros g c n. apply line_in_context_proper; [done|].
      eexists _, _. split; [reflexivity|]. split; [reflexivity|]. done. }
    destruct (add_lines_loop_contexts (default "" context) cid (item :: rest) s4 _
                Hok4 eq_refl eq_refl Hcid)
      as (s5 & db5 & Hrun5 & Hok5 & Hdb5 & Htbl5 & Hat5 & Hl5).
    exists s5. split.
    { rewrite with_connect_open by done. apply transaction_Ok.
      by rewrite (bind_Ok _ _ _ _ _ Hrun3). }
    destruct Hat5 as (_ & _ & Ha5 & _ & Hq5). simpl in Ha5, Hq5.
    split; [apply Hok5|]. split; [congruence|]. split; [congruence|]. split.
    - intros g c n. by rewrite Hl5, Hl4, Hl3, Hl2.
    - intros _. exists db5. split; [done|]. rewrite Htbl5. by eexists. }
  exists s1, s3. split; [done|]. split; [done|]. split.
  - intros filename.
    destruct (contexts_by_lineno_line_in_context filename s Hok0 Ha Hq) as (before & Hb & Hbc).
    destruct (contexts_by_lineno_line_in_context filename s3 Hok3 Ha3 Hq3)
      as (after & Haf & Hac).
    exists before, after. split; [done|]. split; [done|].
    intros n c. by rewrite Hac, Hl3, Hbc.
  - intros Hne. destruct (Hctx3 Hne) as (db3 & Hdb3 & Hin).
    exists (dom (tbl_context db3)). split; [|by apply elem_of_dom].
    destruct (store_ok_inv s3 Hok3) as (db3' & Hu3 & Hd3 & Hdb3' & _).
    unfold measured_contexts. rewrite (bind_Ok _ _ _ _ _ (_start_using_used s3 Hu3)).
    rewrite with_connect_open by done. apply transaction_Ok. unfold db_read.
    by rewrite Hdb3.
Qed.

(** ** Purged files stay measured, without data *)

Lemma elem_of_ids_of s filenames id :
  id ∈ ids_of s filenames ↔ ∃ f, f ∈ filenames ∧ _file_map s !! f = Some id.
Proof. unfold ids_of. rewrite list_elem_of_omap. done. Qed.

Lemma ids_of_known s db filenames g id :
  _file_map s = tbl_file db → file_ids_distinct db → _file_map s !! g = Some id →
  id ∈ ids_of s filenames ↔ g ∈ filenames.
Proof.
  intros Hcache Hdist Hg. rewrite elem_of_ids_of. split.
  - intros (f & Hin & Hf). assert (f = g) as <-; [|done].
    apply (Hdist f g id); by rewrite <- Hcache.
  - intros Hin. by exists g.
Qed.

Lemma no_elements_nil {A} (l : list A) : (∀ x, x ∉ l) → l = [].
Proof. destruct l as [|x l]; [done|]. intros H. destruct (H x). by left. Qed.

(** [purge_files] on a store that satisfies the constraints and has a
    mode. *)
Lemma purge_files_spec (s : CoverageData) (filenames : list string) :
  store_ok s → mode_ok s → ¬ no_mode s →
  ∃ s', purge_files filenames s = Ok tt s'
    ∧ store_ok s' ∧ same_attrs s s'
    ∧ measured_files s' = measured_files s
    ∧ (∀ g, tracer_of s' g = tracer_of s g)
    ∧ (∀ g n, has_line s' g n
              ↔ has_line s g n ∧ (_has_lines s = true → g ∉ filenames))
    ∧ (∀ g a, has_arc s' g a
              ↔ has_arc s g a ∧ (_has_lines s = false → g ∉ filenames))
    ∧ (_query_context_ids s = None →
       ∀ f, f ∈ filenames → f ∈ measured_files s →
            lines f s' = Ok (Some []) s'
            ∧ (_has_arcs s = true → arcs f s' = Ok (Some []) s')).
Proof.
  intros Hok Hmode Hsome.
  destruct (store_ok_inv s Hok) as (db & Hu & Hd & Hdb & Hcache & Hdist & Hrefs).
  assert (∃ db', purge_files filenames s = Ok tt (set_storage (Some db') s)
                 ∧ tbl_file db' = tbl_file db ∧ tbl_context db' = tbl_context db
                 ∧ tbl_tracer db' = tbl_tracer db
                 ∧ (∀ key nb, tbl_line_bits db' !! key = Some nb
                              ↔ tbl_line_bits db !! key = Some nb
                                ∧ (_has_lines s = true → key.1 ∉ ids_of s filenames))
                 ∧ (∀ row, row ∈ tbl_arc db'
                           ↔ row ∈ tbl_arc db
                             ∧ (_has_lines s = false → row.1.1.1 ∉ ids_of s filenames)))
    as (db' & Hrun & Hf' & Hc' & Ht' & Hl' & Ha').
  { unfold purge_files. rewrite (bind_Ok _ _ _ _ _ (_start_using_used s Hu)).
    rewrite with_connect_open by done. destruct (_has_lines s) eqn:Hl.
    - eexists. split.
      { apply transaction_Ok. unfold bind at 1. unfold get. rewrite Hl.
        unfold bind at 1. unfold ret at 1. by apply purge_files_loop. }
      destruct (purged_line_bits (ids_of s filenames) db) as (_ & _ & ? & ? & Harc & ? & Hkey).
      split; [done|]. split; [done|]. split; [done|]. split.
      + intros key nb. rewrite Hkey. case_bool_decide; (tidy; naive_solver).
      + intros row. rewrite Harc. (tidy; naive_solver).
    - destruct (_has_arcs s) eqn:Ha; [|exfalso; by apply Hsome].
      eexists. split.
      { apply transaction_Ok. unfold bind at 1. unfold get. rewrite Hl, Ha.
        unfold bind at 1. unfold ret at 1. by apply purge_files_loop. }
      destruct (purged_arc (ids_of s filenames) db) as (_ & _ & ? & ? & Hlb & ? & Hrow).
      split; [done|]. split; [done|]. split; [done|]. split.
      + intros key nb. rewrite Hlb. (tidy; naive_solver).
      + intros row. rewrite Hrow. (tidy; naive_solver). }
  exists (set_storage (Some db') s). split; [done|].
  assert (store_ok (set_storage (Some db') s)) as Hok'.
  { split; [by repeat split|]. exists db'. split; [done|]. simpl. split; [congruence|].
    split; [unfold file_ids_distinct; rewrite Hf'; apply Hdist|].
    destruct Hrefs as (Hrlb & Hrarc & Hrtr). unfold references_ok. rewrite Hf', Ht'.
    split; [|split; [|done]].
    - intros key [nb Hkey]. apply Hl' in Hkey as [Hkey _]. apply Hrlb. by eexists.
    - intros row Hrow. apply Ha' in Hrow as [Hrow _]. by apply Hrarc. }
  assert (∀ g n, has_line (set_storage (Some db') s) g n
                 ↔ has_line s g n ∧ (_has_lines s = true → g ∉ filenames)) as Hlines.
  { intros g n. unfold has_line. simpl. split.
    - intros (d & id & c & nb & k & [= <-] & Hg & Hrow & Hk).
      apply Hl' in Hrow as [Hrow Hnot]. split; [by exists db, id, c, nb, k|].
      intros Hmode' Hin. apply (Hnot Hmode'). simpl.
      by apply (ids_of_known s db filenames g id).
    - intros [(d & id & c & nb & k & Hd' & Hg & Hrow & Hk) Hnot].
      assert (d = db) as -> by congruence.
      exists db', id, c, nb, k. split; [done|]. split; [done|]. split; [|done].
      apply Hl'. split; [done|]. intros Hmode' Hin. apply (Hnot Hmode').
      by apply (ids_of_known s db filenames g id) in Hin. }
  assert (∀ g a, has_arc (set_storage (Some db') s) g a
                 ↔ has_arc s g a ∧ (_has_lines s = false → g ∉ filenames)) as Harcs.
  { intros g a. unfold has_arc. simpl. split.
    - intros (d & id & c & [= <-] & Hg & Hrow).
      apply Ha' in Hrow as [Hrow Hnot]. split; [by exists db, id, c|].
      intros Hmode' Hin. apply (Hnot Hmode'). simpl.
      by apply (ids_of_known s db filenames g id).
    - intros [(d & id & c & Hd' & Hg & Hrow) Hnot].
      assert (d = db) as -> by congruence.
      exists db', id, c. split; [done|]. split; [done|].
      apply Ha'. split; [done|]. intros Hmode' Hin. apply (Hnot Hmode').
      by apply (ids_of_known s db filenames g id) in Hin. }
  split; [done|]. split; [by repeat split|]. split; [done|].
  split; [intros g; unfold tracer_of; simpl; by rewrite Hdb, Ht'|].
  split; [done|]. split; [done|].
  intros Hq f Hin Hmeasured. unfold measured_files in Hmeasured.
  apply elem_of_dom in Hmeasured as [id Hf].
  pose proof (lines_ready f (set_storage (Some db') s) db' (proj1 Hok') eq_refl) as Hrl.
  pose proof (arcs_ready f (set_storage (Some db') s) db' (proj1 Hok') eq_refl) as Hra.
  simpl in Hrl, Hra. rewrite Hf, Hq in Hrl, Hra. simpl in Hrl, Hra.
  assert (_has_arcs s = true →
          elements (select_arcs id None db') = []) as Hnoarcs.
  { intros Harc. apply no_elements_nil. intros a Ha.
    apply elem_of_elements, elem_of_select_arcs in Ha as (c & Hrow & _).
    assert (_has_lines s = false) as Hl.
    { destruct (_has_lines s) eqn:Hl; [|done]. exfalso. by apply Hmode. }
    assert (has_arc (set_storage (Some db') s) f a) as Hhas by by exists db', id, c.
    apply Harcs in Hhas as [_ Hnot]. by apply Hnot. }
  split.
  - rewrite Hrl. do 2 f_equal. destruct (_has_arcs s) eqn:Harc.
    + rewrite (Hnoarcs eq_refl). done.
    + apply no_elements_nil. intros n Hn.
      apply elem_of_elements, elem_of_nums_of in Hn as (nb & Hnb & k & Hk & ->).
      apply elem_of_select_numbits in Hnb as (c & Hrow & _).
      assert (has_line (set_storage (Some db') s) f (Z.of_N k)) as Hhas
        by by exists db', id, c, nb, k.
      apply Hlines in Hhas as [_ Hnot].
      destruct (_has_lines s) eqn:Hl; [by apply Hnot|]. apply Hsome. by split.
  - intros Harc. rewrite Hra. by rewrite (Hnoarcs Harc).
Qed.

(** X12.  [purge_files] on a store in use that satisfies the declared
    constraints and has a mode: it returns, the measured files and the
    tracers are as before, and in line-mode exactly the lines, in arc-mode
    exactly the arcs, of the named files are gone.  Without query contexts, a
    measured file that was named then has [lines] (and in arc-mode [arcs])
    equal to the empty list: it is still measured, not [None]. *)
Theorem purge_files_forgets (s : CoverageData) (filenames : list string) :
  store_ok s → mode_ok s → ¬ no_mode s →
  ∃ s', purge_files filenames s = Ok tt s'
    ∧ store_ok s' ∧ same_attrs s s'
    ∧ measured_files s' = measured_files s
    ∧ (∀ g, tracer_of s' g = tracer_of s g)
    ∧ (∀ g n, has_line s' g n
              ↔ has_line s g n ∧ (_has_lines s = true → g ∉ filenames))
    ∧ (∀ g a, has_arc s' g a
              ↔ has_arc s g a ∧ (_has_lines s = false → g ∉ filenames))
    ∧ (_query_context_ids s = None →
       ∀ f, f ∈ filenames → f ∈ measured_files s →
            lines f s' = Ok (Some []) s'
            ∧ (_has_arcs s = true → arcs f s' = Ok (Some []) s')).
Proof. apply purge_files_spec. Qed.

(** ** The constraints are kept *)

Lemma purge_files_no_mode filenames s :
  ready s → no_mode s →
  purge_files filenames s
  = Raise (DataError (Text "Can't purge files in an empty CoverageData")) s.
Proof.
  intros (Hu & Hd & _) [Hl Ha]. unfold purge_files.
  rewrite (bind_Ok _ _ _ _ _ (_start_using_used s Hu)).
  rewrite with_connect_open by done.
  erewrite transaction_Raise; [by rewrite restored_same|].
  unfold bind at 1. unfold get. by rewrite Hl, Ha.
Qed.

Lemma touch_files_no_mode filenames plugin_name s :
  ready s → no_mode s →
  touch_files filenames plugin_name s
  = Raise (DataError (Text "Can't touch files in an empty CoverageData")) s.
Proof.
  intros (Hu & Hd & Hst) [Hl Ha]. unfold touch_files.
  rewrite (bind_Ok _ _ _ _ _ (_start_using_used s Hu)).
  rewrite with_connect_open by done.
  erewrite transaction_Raise; [by rewrite restored_same|].
  unfold bind at 1. unfold get. by rewrite Hl, Ha.
Qed.

Lemma touch_files_spec filenames plugin_name s :
  store_ok s → ¬ no_mode s → truthy plugin_name = false →
  ∃ s', touch_files filenames plugin_name s = Ok tt s' ∧ store_ok s'.
Proof.
  intros Hok Hmode Hplugin.
  destruct (store_ok_inv s Hok) as (db & Hu & Hd & Hdb & _).
  destruct (touch_files_loop filenames plugin_name s Hplugin Hok) as (s' & Hrun & Hok' & _).
  exists s'. split; [|done].
  unfold touch_files. rewrite (bind_Ok _ _ _ _ _ (_start_using_used s Hu)).
  rewrite with_connect_open by done. apply transaction_Ok.
  unfold bind at 1. unfold get.
  destruct (_has_arcs s) eqn:Harcs, (_has_lines s) eqn:Hlines; simpl; try done.
  exfalso. by apply Hmode.
Qed.

Lemma store_ok_set_query_context_ids ids s :
  store_ok s → store_ok (set_query_context_ids ids s).
Proof.
  intros Hok. destruct (store_ok_inv s Hok) as (db & Hu & Hd & Hdb & _).
  apply (same_rows_ok s); [done| |done..]. split; [done|]. by exists db, db.
Qed.

(** X13.  The declared constraints are kept: on a store in use whose cache
    mirrors the [file] table, whose file ids are distinct and whose rows
    refer to files that exist, the same holds after [set_context],
    [add_lines], [add_arcs] of arcs whose line numbers are signed 64-bit
    integers, [purge_files], [touch_files] without a plugin name and after
    every query, whether the call returns or raises. *)
Theorem constraints_kept (c : Call) (s : CoverageData) :
  store_ok s → collects_or_queries c → bindable c → store_ok (call c s).
Proof.
  intros Hok Hc Hbind. pose proof Hok as [Hready _].
  destruct (store_ok_inv s Hok) as (db & Hu & Hd & Hdb & _).
  destruct c; simpl in Hc; try done; unfold call.
  - (* set_context is closed above; add_lines *)
    destruct (_has_arcs s) eqn:Ha.
    + rewrite (add_lines_on_arcs line_data s Ha). simpl. by rewrite started_used.
    + destruct (add_lines_spec line_data s Hok Ha) as (s' & -> & Hok' & _). done.
  - (* add_arcs *)
    destruct (_has_lines s) eqn:Hl.
    + rewrite (add_arcs_on_lines arc_data s Hl). simpl. by rewrite started_used.
    + destruct (add_arcs_spec arc_data s Hok Hl Hbind) as (s' & -> & Hok' & _). done.
  - (* touch_files *)
    destruct (decide (no_mode s)) as [Hnone|Hsome].
    + by rewrite (touch_files_no_mode filenames plugin_name s Hready Hnone).
    + destruct (touch_files_spec filenames plugin_name s Hok Hsome Hc) as (s' & -> & Hok').
      done.
  - (* purge_files *)
    destruct (decide (no_mode s)) as [Hnone|Hsome].
    + by rewrite (purge_files_no_mode filenames s Hready Hnone).
    + destruct (_has_lines s) eqn:Hl, (_has_arcs s) eqn:Ha.
      * (* both flags: the line rows are purged *)
        assert (purge_files filenames s
                = Ok tt (set_storage
                           (Some (foldl (λ d id, delete_line_bits id d) db
                                    (ids_of s filenames))) s)) as ->.
        { unfold purge_files. rewrite (bind_Ok _ _ _ _ _ (_start_using_used s Hu)).
          rewrite with_connect_open by done. apply transaction_Ok.
          unfold bind at 1. unfold get. rewrite Hl.
          unfold bind at 1. unfold ret at 1. by apply purge_files_loop. }
        simpl.
        destruct (purged_line_bits (ids_of s filenames) db)
          as (_ & _ & Hf' & _ & Harc' & Ht' & Hkey).
        destruct Hok as (_ & db0 & Hdb0 & Hcache & Hdist & Hrlb & Hrarc & Hrtr).
        assert (db0 = db) as -> by congruence.
        split; [by repeat split|]. eexists. split; [reflexivity|]. simpl.
        split; [congruence|]. split; [unfold file_ids_distinct; rewrite Hf'; apply Hdist|].
        unfold references_ok. rewrite Hf', Harc', Ht'. split; [|done].
        intros key [nb Hnb]. rewrite Hkey in Hnb. case_bool_decide; [done|].
        apply Hrlb. by eexists.
      * destruct (purge_files_spec s filenames Hok) as (s' & -> & Hok' & _); try done.
        intros [_ ?]. congruence.
      * destruct (purge_files_spec s filenames Hok) as (s' & -> & Hok' & _); try done.
        intros [? _]. congruence.
      * exfalso. by apply Hsome.
  - (* file_tracer *)
    by rewrite (file_tracer_ready filename s Hready).
  - (* measured_contexts *)
    unfold measured_contexts. rewrite (bind_Ok _ _ _ _ _ (_start_using_used s Hu)).
    rewrite with_connect_open by done. erewrite transaction_Ok; [done|].
    unfold db_read. by rewrite Hdb.
  - (* set_query_context *)
    rewrite (set_query_context_ready context s db Hready Hdb). simpl.
    by apply store_ok_set_query_context_ids.
  - (* set_query_contexts *)
    destruct contexts as [[|pattern patterns]|].
    + unfold set_query_contexts. rewrite (bind_Ok _ _ _ _ _ (_start_using_used s Hu)).
      simpl. by apply store_ok_set_query_context_ids.
    + rewrite (set_query_contexts_ready pattern patterns s db Hready Hdb).
      destruct (select_context_regexp _ db); simpl; [|done].
      by apply store_ok_set_query_context_ids.
    + unfold set_query_contexts. rewrite (bind_Ok _ _ _ _ _ (_start_using_used s Hu)).
      simpl. by apply store_ok_set_query_context_ids.
  - (* lines *) by rewrite (lines_ready filename s db Hready Hdb).
  - (* arcs *) by rewrite (arcs_ready filename s db Hready Hdb).
  - (* contexts_by_lineno *) by rewrite (contexts_by_lineno_ready filename s db Hready Hdb).
Qed.

(** ** Merging another store *)

(** *** Rows inserted by name *)

Lemma insert_or_ignore_name_old name (tbl : gmap string Z) n id :
  tbl !! n = Some id → insert_or_ignore_name name tbl !! n = Some id.
Proof.
  intros H. unfold insert_or_ignore_name. destruct (tbl !! name) eqn:Hname; [done|].
  rewrite lookup_insert_ne; [done|]. intros ->. congruence.
Qed.

Lemma insert_or_ignore_name_new name (tbl : gmap string Z) :
  is_Some (insert_or_ignore_name name tbl !! name).
Proof.
  unfold insert_or_ignore_name. destruct (tbl !! name) eqn:Hname; [by rewrite Hname|].
  by rewrite lookup_insert_eq.
Qed.

Lemma insert_or_ignore_name_inv name (tbl : gmap string Z) n id :
  insert_or_ignore_name name tbl !! n = Some id →
  tbl !! n = Some id ∨ (n = name ∧ id = next_rowid tbl).
Proof.
  unfold insert_or_ignore_name. destruct (tbl !! name) eqn:Hname; [by left|].
  destruct (decide (n = name)) as [->|Hne].
  - rewrite lookup_insert_eq. intros [= <-]. by right.
  - rewrite lookup_insert_ne by done. by left.
Qed.

Lemma insert_names_old names (tbl : gmap string Z) n id :
  tbl !! n = Some id → insert_names names tbl !! n = Some id.
Proof.
  revert tbl. induction names as [|name names IH]; intros tbl H; simpl; [done|].
  apply IH. by apply insert_or_ignore_name_old.
Qed.

Lemma insert_names_new names (tbl : gmap string Z) n :
  n ∈ names → is_Some (insert_names names tbl !! n).
Proof.
  revert tbl. induction names as [|name names IH]; intros tbl; [by intros ?%elem_of_nil|].
  intros [->|Hin]%elem_of_cons; simpl; [|by apply IH].
  destruct (insert_or_ignore_name_new name tbl) as [id Hid].
  exists id. by apply insert_names_old.
Qed.

Lemma insert_names_inv names (tbl : gmap string Z) n id :
  insert_names names tbl !! n = Some id → is_Some (tbl !! n) ∨ n ∈ names.
Proof.
  revert tbl. induction names as [|name names IH]; intros tbl; simpl; [by left; eexists|].
  intros [[id' Hid]|Hin]%IH; [|right; by right].
  apply insert_or_ignore_name_inv in Hid as [Hid|[-> _]]; [left; by eexists|right; by left].
Qed.

Lemma insert_names_distinct names (tbl : gmap string Z) :
  names_distinct tbl → names_distinct (insert_names names tbl).
Proof.
  revert tbl. induction names as [|name names IH]; intros tbl Hd; simpl; [done|].
  apply IH. intros n1 n2 id H1 H2.
  apply insert_or_ignore_name_inv in H1 as [H1|[-> ->]];
    apply insert_or_ignore_name_inv in H2 as [H2|[-> Heq]]; try done.
  - by apply (Hd n1 n2 id).
  - subst. apply next_rowid_gt in H1. lia.
  - apply next_rowid_gt in H2. lia.
Qed.

Lemma insert_names_union names (tbl : gmap string Z) :
  insert_names names tbl ∪ tbl = insert_names names tbl.
Proof.
  apply map_eq. intros n. rewrite lookup_union.
  destruct (tbl !! n) as [id|] eqn:Hn.
  - rewrite (insert_names_old names tbl n id Hn). done.
  - by rewrite (right_id None _).
Qed.

(** *** Rows written by key *)

Lemma write_rows_other (tbl : gmap (Z * Z) numbits) rows key :
  key ∉ rows.*1 → write_rows rows tbl !! key = tbl !! key.
Proof.
  revert tbl. induction rows as [|row rows IH]; intros tbl Hkey; simpl; [done|].
  rewrite fmap_cons, not_elem_of_cons in Hkey. destruct Hkey as [Hne Hkey].
  rewrite IH by done. by rewrite lookup_insert_ne.
Qed.

Lemma write_rows_row (tbl : gmap (Z * Z) numbits) rows key nb :
  NoDup rows.*1 → (key, nb) ∈ rows → write_rows rows tbl !! key = Some nb.
Proof.
  revert tbl. induction rows as [|row rows IH]; intros tbl Hnd; [by intros ?%elem_of_nil|].
  rewrite fmap_cons in Hnd. apply NoDup_cons in Hnd as [Hrow Hnd].
  intros [<-|Hin]%elem_of_cons; simpl.
  - rewrite write_rows_other by done. by rewrite lookup_insert_eq.
  - by apply IH.
Qed.

(** *** What is collected from the other store *)

Lemma elem_of_select_line_bits_join db path context nb :
  (path, context, nb) ∈ select_line_bits_join db
  ↔ ∃ id context_id,
      tbl_file db !! path = Some id ∧ tbl_context db !! context = Some context_id
      ∧ tbl_line_bits db !! (id, context_id) = Some nb.
Proof.
  unfold select_line_bits_join. rewrite list_elem_of_bind. split.
  - intros ([[id cid] nb'] & Hin & Hrow). simpl in Hin.
    apply list_elem_of_bind in Hin as (path' & Hin & Hp).
    apply list_elem_of_fmap in Hin as (context' & Heq & Hc). simplify_eq.
    apply elem_of_names_of_id in Hp, Hc. apply elem_of_map_to_list in Hrow.
    by exists id, cid.
  - intros (id & cid & Hp & Hc & Hrow). exists (id, cid, nb). split.
    + simpl. apply list_elem_of_bind. exists path. split; [|by apply elem_of_names_of_id].
      apply list_elem_of_fmap. exists context. split; [done|]. by apply elem_of_names_of_id.
    + by apply elem_of_map_to_list.
Qed.

(** The numbits collected under a key are the union of the numbits of the
    rows that the path map sends to the key. *)
Lemma collected_lines_spec (map_path : string → string)
    (rows : list (string * string * numbits)) (acc : gmap (string * string) numbits) :
  let lines :=
    foldl (λ (lines : gmap (string * string) numbits) (row : string * string * numbits),
             <[(map_path row.1.1, row.1.2) :=
                 match lines !! (map_path row.1.1, row.1.2) with
                 | Some numbits0 => numbits_union numbits0 row.2
                 | None => row.2
                 end]> lines)
          acc rows in
  (∀ f c, is_Some (lines !! (f, c))
          ↔ is_Some (acc !! (f, c)) ∨ ∃ path nb, (path, c, nb) ∈ rows ∧ map_path path = f)
  ∧ (∀ f c k, (∃ nb, lines !! (f, c) = Some nb ∧ k ∈ numbits_to_nums nb)
              ↔ (∃ nb, acc !! (f, c) = Some nb ∧ k ∈ numbits_to_nums nb)
                ∨ ∃ path nb, (path, c, nb) ∈ rows ∧ map_path path = f
                             ∧ k ∈ numbits_to_nums nb).
Proof.
  revert acc. induction rows as [|[[path ctx] nb0] rows IH]; intros acc; simpl.
  - split; intros; (split; [by left|]); intros [?|(? & ? & []%elem_of_nil & _)]; done.
  - destruct (IH (<[(map_path path, ctx) :=
                      match acc !! (map_path path, ctx) with
                      | Some numbits0 => numbits_union numbits0 nb0
                      | None => nb0
                      end]> acc)) as [IH1 IH2].
    split.
    + intros f c. rewrite IH1. destruct (decide ((map_path path, ctx) = (f, c))) as [Heq|Hne].
      * rewrite Heq, lookup_insert_eq. simplify_eq. split.
        -- intros _. right. exists path, nb0. split; [by left|done].
        -- intros _. left. by eexists.
      * rewrite lookup_insert_ne by done. split.
        -- intros [?|(p & nb & Hin & Hp)]; [by left|]. right. exists p, nb.
           split; [by right|done].
        -- intros [?|(p & nb & Hin & Hp)]; [by left|].
           apply elem_of_cons in Hin as [Heq|Hin]; [simplify_eq|].
           right. by exists p, nb.
    + intros f c k. rewrite IH2. destruct (decide ((map_path path, ctx) = (f, c))) as [Heq|Hne].
      * rewrite Heq, lookup_insert_eq. simplify_eq. split.
        -- intros [(nb & [= <-] & Hk)|(p & nb & Hin & Hp & Hk)].
           ++ destruct (acc !! (map_path path, c)) as [nb1|] eqn:Hacc.
              ** apply elem_of_numbits_union in Hk as [Hk|Hk].
                 --- left. by exists nb1.
                 --- right. exists path, nb0. split; [by left|done].
              ** right. exists path, nb0. split; [by left|done].
           ++ right. exists p, nb. split; [by right|done].
        -- intros [(nb & Hacc & Hk)|(p & nb & Hin & Hp & Hk)].
           ++ left. rewrite Hacc. eexists. split; [done|].
              apply elem_of_numbits_union. by left.
           ++ apply elem_of_cons in Hin as [Heq'|Hin].
              ** simplify_eq. left. destruct (acc !! (map_path path, c)) as [nb1|].
                 --- eexists. split; [done|]. apply elem_of_numbits_union. by right.
                 --- by eexists.
              ** right. by exists p, nb.
      * rewrite lookup_insert_ne by done. split.
        -- intros [?|(p & nb & Hin & Hp & Hk)]; [by left|]. right. exists p, nb.
           split; [by right|done].
        -- intros [?|(p & nb & Hin & Hp & Hk)]; [by left|].
           apply elem_of_cons in Hin as [Heq|Hin]; [simplify_eq|].
           right. by exists p, nb.
Qed.

Lemma elem_of_mapped_paths (map_path : string → string) (tbl : gmap string Z) f :
  f ∈ (map_to_list (map_imap (λ path (_ : Z), Some (map_path path)) tbl)).*2
  ↔ ∃ path, is_Some (tbl !! path) ∧ map_path path = f.
Proof.
  rewrite list_elem_of_fmap. split.
  - intros ([path f'] & -> & Hin). apply elem_of_map_to_list in Hin.
    rewrite map_lookup_imap in Hin. destruct (tbl !! path) as [id|] eqn:Hp; [|done].
    simpl in Hin. injection Hin as <-. exists path. split; [by eexists|done].
  - intros (path & [id Hp] & <-). exists (path, map_path path). split; [done|].
    apply elem_of_map_to_list. rewrite map_lookup_imap, Hp. done.
Qed.

(** *** Tracers when no plugin was used *)

Lemma fold_tracers_plain (map_path : string → string) (rows : list (string * string))
    (acc : gmap string string) :
  (∀ p name, acc !! p = Some name → name = "") →
  (∀ row, row ∈ rows → row.2 = "") →
  ∀ p name,
    foldl (λ (d : gmap string string) (row : string * string), <[map_path row.1 := row.2]> d)
          acc rows !! p = Some name →
    name = "".
Proof.
  revert acc. induction rows as [|row rows IH]; intros acc Hacc Hrows; simpl; [done|].
  apply IH; [|intros r Hr; apply Hrows; by right].
  intros p name. destruct (decide (map_path row.1 = p)) as [<-|Hne].
  - rewrite lookup_insert_eq. intros [= <-]. apply Hrows. by left.
  - rewrite lookup_insert_ne by done. apply Hacc.
Qed.

Lemma select_tracer_join_plain db row :
  no_plugins db → row ∈ select_tracer_join db → row.2 = "".
Proof.
  intros Hnp Hin. unfold select_tracer_join in Hin.
  apply list_elem_of_bind in Hin as ([id name] & Hin & Hrow).
  apply list_elem_of_fmap in Hin as (path & -> & _). simpl.
  apply elem_of_map_to_list in Hrow. by apply (Hnp id name).
Qed.

Lemma this_tracers_plain map_path db p name :
  no_plugins db → this_tracers map_path db !! p = Some name → name = "".
Proof.
  intros Hnp. unfold this_tracers. intros [H|[_ H]]%lookup_union_Some_raw.
  - revert H. apply fold_tracers_plain; [by intros ? ?|].
    intros row. by apply select_tracer_join_plain.
  - rewrite lookup_fmap in H. destruct (tbl_file db !! p); by simplify_eq/=.
Qed.

Lemma collected_tracers_plain map_path db p name :
  no_plugins db → other_tracers (collected map_path db) !! p = Some name → name = "".
Proof.
  intros Hnp. simpl. apply fold_tracers_plain; [by intros ? ?|].
  intros row. by apply select_tracer_join_plain.
Qed.

Lemma prepare_tracers_plain (this tracers : gmap string string) paths s :
  (∀ p name, this !! p = Some name → name = "") →
  (∀ p name, tracers !! p = Some name → name = "") →
  prepare_tracers this tracers paths s
  = Ok (foldl (λ (tracer_map : gmap string string) path, <[path := ""]> tracer_map) ∅ paths) s.
Proof.
  intros Hthis Htracers. unfold prepare_tracers. apply fold_M_pure.
  intros acc path _.
  assert (default "" (tracers !! path) = "") as ->.
  { destruct (tracers !! path) as [name|] eqn:Hp; [|done]. simpl. by apply (Htracers path). }
  destruct (this !! path) as [name|] eqn:Hp; [|done].
  rewrite (Hthis path name Hp). by rewrite bool_decide_false by (by intros ?).
Qed.

Lemma plain_tracer_map paths (acc : gmap string string) p :
  is_Some (foldl (λ (tracer_map : gmap string string) path, <[path := ""]> tracer_map)
                 acc paths !! p)
  ↔ is_Some (acc !! p) ∨ p ∈ paths.
Proof.
  revert acc. induction paths as [|path paths IH]; intros acc; simpl.
  - split; [by left|]. by intros [?|?%elem_of_nil].
  - rewrite IH. destruct (decide (path = p)) as [->|Hne].
    + rewrite lookup_insert_eq. split; [intros _; right; by left|intros _; left; by eexists].
    + rewrite lookup_insert_ne by done. rewrite elem_of_cons. tidy. naive_solver.
Qed.

(** The loop that prepares the tracers, when no file has a tracer in
    [self] other than the one it has in the other store. *)
Lemma prepare_tracers_agree (this tracers : gmap string string) paths s :
  (∀ p name, p ∈ paths → this !! p = Some name → name = default "" (tracers !! p)) →
  prepare_tracers this tracers paths s = Ok (merged_tracer_map tracers paths) s.
Proof.
  intros Hagree. unfold prepare_tracers, merged_tracer_map. apply fold_M_pure.
  intros acc path Hin.
  destruct (this !! path) as [name|] eqn:Hp; [|done].
  rewrite (Hagree path name Hin Hp). by rewrite bool_decide_false by (by intros ?).
Qed.

Lemma tracer_map_keys (tracers : gmap string string) paths (acc : gmap string string) p :
  is_Some (foldl (λ (tracer_map : gmap string string) path,
                    <[path := default "" (tracers !! path)]> tracer_map) acc paths !! p)
  ↔ is_Some (acc !! p) ∨ p ∈ paths.
Proof.
  revert acc. induction paths as [|path paths IH]; intros acc; simpl.
  - split; [by left|]. by intros [?|?%elem_of_nil].
  - rewrite IH. destruct (decide (path = p)) as [->|Hne].
    + rewrite lookup_insert_eq. split; [intros _; right; by left|intros _; left; by eexists].
    + rewrite lookup_insert_ne by done. rewrite elem_of_cons. tidy. naive_solver.
Qed.

Lemma merged_tracer_map_keys (tracers : gmap string string) paths p :
  is_Some (merged_tracer_map tracers paths !! p) → p ∈ paths.
Proof.
  unfold merged_tracer_map. intros [[name Hp]|Hp]%tracer_map_keys; [|done].
  by rewrite lookup_empty in Hp.
Qed.

(** Without plugins the prepared map gives every path the empty tracer. *)
Lemma merged_tracer_map_plain (tracers : gmap string string) paths :
  (∀ p name, tracers !! p = Some name → name = "") →
  merged_tracer_map tracers paths
  = foldl (λ (tracer_map : gmap string string) path, <[path := ""]> tracer_map) ∅ paths.
Proof.
  intros Hplain. unfold merged_tracer_map. generalize (∅ : gmap string string).
  induction paths as [|path paths IH]; intros acc; simpl; [done|].
  rewrite IH. do 2 f_equal.
  destruct (tracers !! path) as [name|] eqn:Hp; [|done]. simpl. by apply (Hplain path).
Qed.

(** *** The run of [merge] on line data *)

Lemma db_read_Ok {A} (q : Database → A) s db : storage s = Some db → db_read q s = Ok (q db) s.
Proof. intros H. unfold db_read. by rewrite H. Qed.

Lemma db_write_Ok stmt s db :
  storage s = Some db → db_write stmt s = Ok tt (set_storage (Some (stmt db)) s).
Proof. intros H. unfold db_write. by rewrite H. Qed.

(** Closing and reading again a store on disk that agrees with its
    database. *)
Lemma reset_read_in_sync s db :
  ready s → storage s = Some db → _no_disk s = false → in_sync s db →
  ∃ s', (_reset ;;; read) s = Ok tt s'
        ∧ ready s' ∧ storage s' = Some db ∧ _file_map s' = tbl_file db ∧ in_sync s' db
        ∧ _has_arcs s' = _has_arcs s ∧ _has_lines s' = _has_lines s.
Proof.
  intros (Hu & Hd & _) Hdb Hnd (Hschema & Hcache & Hmeta).
  destruct s as [nd st d fm hu hl ha cc ci qi]. simpl in *. subst.
  unfold _reset, read, path_exists. unfold_monad. unfold _open_db, _read_db. unfold_monad.
  simpl.
  rewrite Hschema. simpl.
  destruct (tbl_meta db !! "has_arcs") as [value|] eqn:Hvalue.
  - destruct Hmeta as [-> ->].
    destruct ha; simpl; (eexists; split; [reflexivity|]);
      unfold ready, in_sync, no_mode; simpl; rewrite Hvalue, (right_id_L ∅ (∪));
      by repeat split.
  - destruct Hmeta as [Hl Ha]. simpl in Hl, Ha. subst. simpl.
    eexists. split; [reflexivity|].
    unfold ready, in_sync, no_mode; simpl; rewrite Hvalue, (right_id_L ∅ (∪)).
    by repeat split.
Qed.

Lemma getitem_Ok {V} (d : gmap string V) key v s : d !! key = Some v → getitem d key s = Ok v s.
Proof. intros H. unfold getitem. by rewrite H. Qed.

(** The block of [update] that writes the collected lines. *)
Lemma write_lines_run (files contexts : gmap string Z)
    (lines : gmap (string * string) numbits) s db :
  ready s → storage s = Some db → (lines ≠ ∅ → _has_arcs s = false) → in_sync s db →
  (∀ f ctx, is_Some (lines !! (f, ctx)) → is_Some (files !! f) ∧ is_Some (contexts !! ctx)) →
  ∃ s' db',
    (if bool_decide (lines = ∅) then ret tt
     else
       _choose_lines_or_arcs true false ;;;
       let! rows :=
         map_M (λ item : string * string * numbits,
                  let! file_id := getitem files item.1.1 in
                  let! context_id := getitem contexts item.1.2 in
                  let! existing := db_read (λ db, tbl_line_bits db !! (file_id, context_id)) in
                  ret (file_id, context_id,
                       match existing with
                       | Some numbits0 => numbits_union item.2 numbits0
                       | None => item.2
                       end))
               (map_to_list lines) in
       db_write (λ db, set_tbl_line_bits
                         (foldl (λ tbl (row : Z * Z * numbits), <[row.1 := row.2]> tbl)
                                (tbl_line_bits db) rows)
                         db)) s
    = Ok tt s'
    ∧ ready s' ∧ storage s' = Some db' ∧ in_sync s' db' ∧ _has_arcs s' = _has_arcs s
    ∧ (lines = ∅ → _has_lines s' = _has_lines s)
    ∧ _no_disk s' = _no_disk s ∧ _file_map s' = _file_map s
    ∧ tbl_file db' = tbl_file db ∧ tbl_context db' = tbl_context db
    ∧ tbl_arc db' = tbl_arc db ∧ tbl_tracer db' = tbl_tracer db
    ∧ tbl_line_bits db'
      = write_rows (merged_rows files contexts (tbl_line_bits db) lines) (tbl_line_bits db)
    ∧ (lines ≠ ∅ → _has_lines s' = true).
Proof.
  intros Hready Hdb Ha Hsync Hkeys.
  case_bool_decide as Hempty.
  { exists s, db. subst lines. unfold merged_rows. rewrite map_to_list_empty. simpl.
    repeat (split; [done|]). done. }
  specialize (Ha Hempty).
  rewrite (bind_Ok _ _ _ _ _ (_choose_lines_run s db Hready Hdb Ha)).
  set (s4 := if _has_lines s then s
             else set_storage
                    (Some (set_tbl_meta (insert_or_ignore_meta "has_arcs" "0" (tbl_meta db)) db))
                    (set_has_arcs false (set_has_lines true s))).
  set (db4 := if _has_lines s then db
              else set_tbl_meta (insert_or_ignore_meta "has_arcs" "0" (tbl_meta db)) db).
  assert (storage s4 = Some db4) as Hdb4 by (unfold s4, db4; by destruct (_has_lines s)).
  assert (tbl_line_bits db4 = tbl_line_bits db) as Hl4
    by (unfold db4; by destruct (_has_lines s)).
  assert (ready s4) as Hready4.
  { destruct Hready as (? & ? & ?). unfold s4, ready. by destruct (_has_lines s). }
  assert (in_sync s4 db4) as Hsync4.
  { pose proof Hsync as (Hschema & Hcache & Hmeta). unfold s4, db4.
    destruct (_has_lines s) eqn:Hl; [done|].
    unfold in_sync, insert_or_ignore_meta. simpl.
    destruct (tbl_meta db !! "has_arcs") as [value|] eqn:Hvalue.
    - destruct Hmeta as [_ Hl']. rewrite Ha in Hl'. simpl in Hl'. congruence.
    - rewrite lookup_insert_eq. done. }
  erewrite bind_Ok; [|apply map_M_pure with
    (g := λ item : string * string * numbits,
            let file_id := default 0 (files !! item.1.1) in
            let context_id := default 0 (contexts !! item.1.2) in
            (file_id, context_id,
             match tbl_line_bits db !! (file_id, context_id) with
             | Some numbits0 => numbits_union item.2 numbits0
             | None => item.2
             end))].
  2:{ intros [[f ctx] nb] Hin. apply elem_of_map_to_list in Hin. simpl.
      destruct (Hkeys f ctx ltac:(by eexists)) as [[id Hid] [cid Hcid]].
      rewrite (bind_Ok _ _ _ _ _ (getitem_Ok _ _ _ _ Hid)).
      rewrite (bind_Ok _ _ _ _ _ (getitem_Ok _ _ _ _ Hcid)).
      rewrite (bind_Ok _ _ _ _ _ (db_read_Ok _ _ _ Hdb4)).
      rewrite Hid, Hcid, Hl4. done. }
  rewrite (db_write_Ok _ _ _ Hdb4).
  eexists _, _. split; [reflexivity|].
  destruct Hready4 as (Hu4 & Hd4 & _). destruct Hsync4 as (Hschema4 & Hcache4 & Hmeta4).
  split; [by repeat split|]. split; [done|].
  split; [done|].
  simpl. rewrite Hl4. unfold s4, db4.
  destruct (_has_lines s) eqn:Hhl; simpl; repeat (split; [done|]); done.
Qed.

(** The block of [update] that writes the collected arcs. *)
Lemma write_arcs_run (files contexts : gmap string Z)
    (arcs : list (string * string * Z * Z)) s db :
  ready s → storage s = Some db → (arcs ≠ [] → _has_lines s = false) → in_sync s db →
  (∀ row, row ∈ arcs → is_Some (files !! row.1.1.1) ∧ is_Some (contexts !! row.1.1.2)) →
  ∃ s' db',
    match arcs with
    | [] => ret tt
    | _ =>
        _choose_lines_or_arcs false true ;;;
        let! arc_rows :=
          map_M (λ row : string * string * Z * Z,
                   let! file_id := getitem files row.1.1.1 in
                   let! context_id := getitem contexts row.1.1.2 in
                   ret (file_id, context_id, row.1.2, row.2))
                arcs in
        db_write (λ db, set_tbl_arc (tbl_arc db ∪ list_to_set arc_rows) db)
    end s
    = Ok tt s'
    ∧ ready s' ∧ storage s' = Some db' ∧ in_sync s' db' ∧ _has_lines s' = _has_lines s
    ∧ (arcs = [] → _has_arcs s' = _has_arcs s)
    ∧ _no_disk s' = _no_disk s ∧ _file_map s' = _file_map s
    ∧ tbl_file db' = tbl_file db ∧ tbl_context db' = tbl_context db
    ∧ tbl_line_bits db' = tbl_line_bits db ∧ tbl_tracer db' = tbl_tracer db
    ∧ tbl_arc db' = tbl_arc db ∪ list_to_set (merged_arcs files contexts arcs)
    ∧ (arcs ≠ [] → _has_arcs s' = true).
Proof.
  intros Hready Hdb Hl Hsync Hkeys.
  destruct arcs as [|row0 rest].
  { exists s, db. simpl. rewrite (right_id_L ∅ (∪)). repeat (split; [done|]). done. }
  specialize (Hl ltac:(done)).
  set (arcs := row0 :: rest) in *.
  rewrite (bind_Ok _ _ _ _ _ (_choose_arcs_run s db Hready Hdb Hl)).
  set (s4 := if _has_arcs s then s
             else set_storage
                    (Some (set_tbl_meta (insert_or_ignore_meta "has_arcs" "1" (tbl_meta db)) db))
                    (set_has_arcs true (set_has_lines false s))).
  set (db4 := if _has_arcs s then db
              else set_tbl_meta (insert_or_ignore_meta "has_arcs" "1" (tbl_meta db)) db).
  assert (storage s4 = Some db4) as Hdb4 by (unfold s4, db4; by destruct (_has_arcs s)).
  assert (ready s4) as Hready4.
  { destruct Hready as (? & ? & ?). unfold s4, ready. by destruct (_has_arcs s). }
  assert (in_sync s4 db4) as Hsync4.
  { pose proof Hsync as (Hschema & Hcache & Hmeta). unfold s4, db4.
    destruct (_has_arcs s) eqn:Ha; [done|].
    unfold in_sync, insert_or_ignore_meta. simpl.
    destruct (tbl_meta db !! "has_arcs") as [value|] eqn:Hvalue.
    - destruct Hmeta as [_ Hl']. simpl in Hl'. congruence.
    - rewrite lookup_insert_eq. done. }
  erewrite bind_Ok; [|apply map_M_pure with
    (g := λ row : string * string * Z * Z,
            (default 0 (files !! row.1.1.1), default 0 (contexts !! row.1.1.2),
             row.1.2, row.2))].
  2:{ intros row Hin. destruct (Hkeys row Hin) as [[id Hid] [cid Hcid]].
      rewrite (bind_Ok _ _ _ _ _ (getitem_Ok _ _ _ _ Hid)).
      rewrite (bind_Ok _ _ _ _ _ (getitem_Ok _ _ _ _ Hcid)).
      rewrite Hid, Hcid. done. }
  rewrite (db_write_Ok _ _ _ Hdb4).
  eexists _, _. split; [reflexivity|].
  destruct Hready4 as (Hu4 & Hd4 & _). destruct Hsync4 as (Hschema4 & Hcache4 & Hmeta4).
  split; [by repeat split|]. split; [done|].
  split; [done|].
  simpl. unfold s4, db4, merged_arcs.
  destruct (_has_arcs s) eqn:Hha; simpl; repeat (split; [done|]); done.
Qed.

(** The block of [update] that writes the tracers. *)
Lemma write_tracers_run (files : gmap string Z) (tracer_map : gmap string string) s db :
  storage s = Some db → (∀ p, is_Some (tracer_map !! p) → is_Some (files !! p)) →
  (let! tracer_rows :=
     map_M (λ item : string * string,
              let! file_id := getitem files item.1 in
              ret (file_id, item.2))
           (map_to_list tracer_map) in
   db_write (λ db, set_tbl_tracer
                     (foldl (λ tbl (row : Z * string), insert_or_ignore_tracer row.1 row.2 tbl)
                            (tbl_tracer db) tracer_rows)
                     db)) s
  = Ok tt (set_storage (Some (set_tbl_tracer (merged_tracers files tracer_map (tbl_tracer db)) db))
                       s).
Proof.
  intros Hdb Hkeys.
  erewrite bind_Ok; [|apply map_M_pure with
    (g := λ item : string * string, (default 0 (files !! item.1), item.2))].
  2:{ intros [p name] Hin. apply elem_of_map_to_list in Hin. simpl.
      destruct (Hkeys p ltac:(by eexists)) as [id Hid].
      rewrite (bind_Ok _ _ _ _ _ (getitem_Ok _ _ _ _ Hid)). by rewrite Hid. }
  by rewrite (db_write_Ok _ _ _ Hdb).
Qed.

Lemma merge_run map_path c s db :
  ready s → storage s = Some db → in_sync s db →
  (∀ p name, p ∈ (map_to_list (other_files c)).*2 →
             this_tracers map_path db !! p = Some name →
             name = default "" (other_tracers c !! p)) →
  (other_arcs c ≠ [] → _has_lines s = false ∧ other_lines c = ∅) →
  (other_lines c ≠ ∅ → _has_arcs s = false) →
  let paths := (map_to_list (other_files c)).*2 in
  let files := insert_names paths (tbl_file db) in
  let contexts := insert_names (other_contexts c) (tbl_context db) in
  (∀ f ctx, is_Some (other_lines c !! (f, ctx)) → f ∈ paths ∧ ctx ∈ other_contexts c) →
  (∀ row, row ∈ other_arcs c → row.1.1.1 ∈ paths ∧ row.1.1.2 ∈ other_contexts c) →
  ∃ s' db',
    merge map_path c s = Ok tt s'
    ∧ ready s' ∧ storage s' = Some db' ∧ _file_map s' = files ∧ in_sync s' db'
    ∧ (other_arcs c = [] → _has_arcs s' = _has_arcs s)
    ∧ (other_lines c = ∅ → _has_lines s' = _has_lines s)
    ∧ tbl_file db' = files ∧ tbl_context db' = contexts
    ∧ tbl_line_bits db'
      = write_rows (merged_rows files contexts (tbl_line_bits db) (other_lines c))
                   (tbl_line_bits db)
    ∧ tbl_arc db' = tbl_arc db ∪ list_to_set (merged_arcs files contexts (other_arcs c))
    ∧ tbl_tracer db'
      = merged_tracers files (merged_tracer_map (other_tracers c) paths) (tbl_tracer db)
    ∧ (other_lines c ≠ ∅ → _has_lines s' = true)
    ∧ (other_arcs c ≠ [] → _has_arcs s' = true).
Proof.
  intros Hready Hdb Hsync Hagree Harcmode Hlinemode paths files contexts Hkeys Harckeys.
  unfold merge. unfold bind at 1.
  match goal with
  | |- context [with_connect ?body s] =>
      assert (∃ s5 db5,
                with_connect body s = Ok tt s5
                ∧ ready s5 ∧ storage s5 = Some db5 ∧ _file_map s5 = files ∧ in_sync s5 db5
                ∧ (other_arcs c = [] → _has_arcs s5 = _has_arcs s)
                ∧ (other_lines c = ∅ → _has_lines s5 = _has_lines s)
                ∧ tbl_file db5 = files ∧ tbl_context db5 = contexts
                ∧ tbl_line_bits db5
                  = write_rows (merged_rows files contexts (tbl_line_bits db) (other_lines c))
                               (tbl_line_bits db)
                ∧ tbl_arc db5
                  = tbl_arc db ∪ list_to_set (merged_arcs files contexts (other_arcs c))
                ∧ tbl_tracer db5
                  = merged_tracers files (merged_tracer_map (other_tracers c) paths)
                                   (tbl_tracer db)
                ∧ (other_lines c ≠ ∅ → _has_lines s5 = true)
                ∧ (other_arcs c ≠ [] → _has_arcs s5 = true))
        as (s5 & db5 & -> & Hready5 & Hdb5 & Hfm5 & Hsync5 & Ha5 & Hhl5 & Hf5 & Hc5 & Hl5
            & Harc5 & Ht5 & Hlines5 & Harcs5)
  end.
  2:{ unfold bind at 1. unfold get at 1.
      destruct (_no_disk s5) eqn:Hnd; simpl.
      - exists s5, db5. repeat (split; [done|]). done.
      - destruct (reset_read_in_sync s5 db5 Hready5 Hdb5 Hnd Hsync5)
          as (s' & Hrun & Hready' & Hdb' & Hfm' & Hsync' & Ha' & Hhl').
        exists s', db5. rewrite Hrun, Ha', Hhl'.
        repeat (split; [done || congruence|]). done. }
  set (db3 := set_tbl_context contexts (set_tbl_file files db)).
  set (s3 := set_storage (Some db3) (set_file_map files s)).
  assert (ready s3) as Hready3 by (destruct Hready as (? & ? & ?); by repeat split).
  assert (storage s3 = Some db3) as Hdb3 by done.
  assert (in_sync s3 db3) as Hsync3 by (destruct Hsync as (? & ? & ?); by repeat split).
  assert (∀ f ctx, is_Some (other_lines c !! (f, ctx)) →
                   is_Some (files !! f) ∧ is_Some (contexts !! ctx)) as Hkeys'.
  { intros f ctx [Hf Hctx]%Hkeys. split; by apply insert_names_new. }
  assert (∀ row, row ∈ other_arcs c →
                 is_Some (files !! row.1.1.1) ∧ is_Some (contexts !! row.1.1.2)) as Harckeys'.
  { intros row [Hf Hctx]%Harckeys. split; by apply insert_names_new. }
  destruct (write_arcs_run files contexts (other_arcs c) s3 db3 Hready3 Hdb3
              (λ H, proj1 (Harcmode H)) Hsync3 Harckeys')
    as (sa & dba & Hruna & Hreadya & Hdba & Hsynca & Hhla & Haa & Hnda & Hfma & Hfa & Hca
        & Hla & Hta & Harca & Harcsa).
  assert (other_lines c ≠ ∅ → _has_arcs sa = false) as Hlinemode'.
  { intros Hne. destruct (other_arcs c) as [|row0 rest] eqn:Harcs.
    - rewrite Haa by done. by apply Hlinemode.
    - by destruct (Harcmode ltac:(done)) as [_ ?]. }
  destruct (write_lines_run files contexts (other_lines c) sa dba Hreadya Hdba Hlinemode'
              Hsynca Hkeys')
    as (s4 & db4 & Hrun4 & Hready4 & Hdb4 & Hsync4 & Ha4 & Hhl4 & Hnd4 & Hfm4 & Hf4 & Hc4
        & Harc4 & Ht4 & Hl4 & Hlines4).
  pose proof (write_tracers_run files (merged_tracer_map (other_tracers c) paths) s4 db4 Hdb4)
    as Hrun5.
  exists (set_storage (Some (set_tbl_tracer
                               (merged_tracers files
                                  (merged_tracer_map (other_tracers c) paths)
                                  (tbl_tracer db4)) db4)) s4).
  eexists. split.
  - destruct Hready as (Hu & Hd & _). rewrite with_connect_open by done.
    apply transaction_Ok.
    rewrite (bind_Ok _ _ _ _ _ (db_read_Ok _ _ _ Hdb)).
    rewrite (bind_Ok _ _ _ _ _ (db_write_Ok _ _ _ Hdb)).
    erewrite bind_Ok; [|by apply db_read_Ok].
    erewrite bind_Ok; [|reflexivity].
    erewrite bind_Ok; [|by apply db_write_Ok].
    erewrite bind_Ok; [|by apply db_read_Ok].
    erewrite bind_Ok; [|apply prepare_tracers_agree; exact Hagree].
    erewrite bind_Ok.
    2:{ match goal with |- _ ?st = _ => replace st with s3; [exact Hruna|] end.
        destruct Hsync as (_ & Hcache & _). unfold s3, db3.
        unfold set_storage, set_file_map. cbn [_file_map]. rewrite Hcache.
        change (foldl (λ (tbl : gmap string Z) (file : string), insert_or_ignore_name file tbl)
                      (tbl_file db) paths) with files.
        by replace (files ∪ tbl_file db) with files by (symmetry; apply insert_names_union). }
    erewrite bind_Ok; [|exact Hrun4].
    apply Hrun5. intros p Hp%merged_tracer_map_keys. by apply insert_names_new.
  - clear Hruna Hrun4 Hrun5. unfold s3, db3 in *.
    simpl in Hfa, Hca, Harca, Hta, Hla, Hfma, Hnda, Hhla, Haa.
    destruct Hready4 as (Hu4 & Hd4 & _). destruct Hsync4 as (Hs4 & Hcache4 & Hmeta4).
    split; [by repeat split|]. split; [reflexivity|]. split; [simpl; congruence|].
    split; [by repeat split|].
    split; [intros Hnil; simpl; rewrite Ha4; by apply Haa|].
    split; [intros Hnil; simpl; rewrite Hhl4 by done; exact Hhla|].
    simpl. rewrite Ht4, Hta, Hl4, Hla, Harc4, Harca, Hf4, Hfa, Hc4, Hca.
    repeat (split; [done|]).
    intros Hne. rewrite Ha4. by apply Harcsa.
Qed.

Lemma merge_lines_run map_path c s db :
  ready s → storage s = Some db → _has_arcs s = false → in_sync s db →
  no_plugins db → (∀ p name, other_tracers c !! p = Some name → name = "") →
  other_arcs c = [] →
  let paths := (map_to_list (other_files c)).*2 in
  let files := insert_names paths (tbl_file db) in
  let contexts := insert_names (other_contexts c) (tbl_context db) in
  (∀ f ctx, is_Some (other_lines c !! (f, ctx)) → f ∈ paths ∧ ctx ∈ other_contexts c) →
  ∃ s' db',
    merge map_path c s = Ok tt s'
    ∧ ready s' ∧ storage s' = Some db' ∧ _file_map s' = files ∧ in_sync s' db'
    ∧ _has_arcs s' = false
    ∧ tbl_file db' = files ∧ tbl_context db' = contexts
    ∧ tbl_line_bits db'
      = write_rows (merged_rows files contexts (tbl_line_bits db) (other_lines c))
                   (tbl_line_bits db)
    ∧ tbl_arc db' = tbl_arc db
    ∧ tbl_tracer db'
      = merged_tracers files
          (foldl (λ (tracer_map : gmap string string) path, <[path := ""]> tracer_map) ∅ paths)
          (tbl_tracer db).
Proof.
  intros Hready Hdb Ha Hsync Hnp Hot Harcs paths files contexts Hkeys.
  destruct (merge_run map_path c s db Hready Hdb Hsync) with (4 := Hkeys)
    as (s' & db' & Hrun & Hready' & Hdb' & Hfm' & Hsync' & Ha' & _ & Hf' & Hc' & Hl' & Harc'
        & Ht' & _).
  - intros p name _ ->%this_tracers_plain; [|done].
    destruct (other_tracers c !! p) as [name|] eqn:Hp; [|done]. simpl.
    symmetry. by apply (Hot p).
  - by intros.
  - done.
  - rewrite Harcs. by intros row ?%elem_of_nil.
  - exists s', db'. rewrite Harcs in Harc'. simpl in Harc'.
    rewrite (right_id_L ∅ (∪)) in Harc'. rewrite Ha' by done.
    rewrite merged_tracer_map_plain in Ht' by done.
    repeat (split; [done|]). done.
Qed.

Lemma merge_arcs_run map_path c s db :
  ready s → storage s = Some db → _has_lines s = false → in_sync s db →
  no_plugins db → (∀ p name, other_tracers c !! p = Some name → name = "") →
  other_lines c = ∅ →
  let paths := (map_to_list (other_files c)).*2 in
  let files := insert_names paths (tbl_file db) in
  let contexts := insert_names (other_contexts c) (tbl_context db) in
  (∀ row, row ∈ other_arcs c → row.1.1.1 ∈ paths ∧ row.1.1.2 ∈ other_contexts c) →
  ∃ s' db',
    merge map_path c s = Ok tt s'
    ∧ ready s' ∧ storage s' = Some db' ∧ _file_map s' = files ∧ in_sync s' db'
    ∧ _has_lines s' = false
    ∧ tbl_file db' = files ∧ tbl_context db' = contexts
    ∧ tbl_line_bits db' = tbl_line_bits db
    ∧ tbl_arc db' = tbl_arc db ∪ list_to_set (merged_arcs files contexts (other_arcs c))
    ∧ tbl_tracer db'
      = merged_tracers files
          (foldl (λ (tracer_map : gmap string string) path, <[path := ""]> tracer_map) ∅ paths)
          (tbl_tracer db).
Proof.
  intros Hready Hdb Hl Hsync Hnp Hot Hlines paths files contexts Harckeys.
  destruct (merge_run map_path c s db Hready Hdb Hsync) with (5 := Harckeys)
    as (s' & db' & Hrun & Hready' & Hdb' & Hfm' & Hsync' & _ & Hl' & Hf' & Hc' & Hlb' & Harc'
        & Ht' & _).
  - intros p name _ ->%this_tracers_plain; [|done].
    destruct (other_tracers c !! p) as [name|] eqn:Hp; [|done]. simpl.
    symmetry. by apply (Hot p).
  - by intros.
  - by intros.
  - rewrite Hlines. intros f ctx [? Hnone]. by rewrite lookup_empty in Hnone.
  - exists s', db'. rewrite Hlines in Hlb'. unfold merged_rows in Hlb'.
    rewrite map_to_list_empty in Hlb'. simpl in Hlb'. rewrite Hl' by done.
    rewrite merged_tracer_map_plain in Ht' by done.
    repeat (split; [done|]). done.
Qed.

(** *** The tables after the merge *)

Lemma write_rows_inv (tbl : gmap (Z * Z) numbits) rows key :
  is_Some (write_rows rows tbl !! key) → is_Some (tbl !! key) ∨ key ∈ rows.*1.
Proof.
  destruct (decide (key ∈ rows.*1)) as [Hin|Hout]; [by right|].
  rewrite write_rows_other by done. by left.
Qed.

Lemma merged_rows_keys (files contexts : gmap string Z) (tbl : gmap (Z * Z) numbits)
    (lines : gmap (string * string) numbits) key :
  (∀ f c, is_Some (lines !! (f, c)) → is_Some (files !! f) ∧ is_Some (contexts !! c)) →
  key ∈ (merged_rows files contexts tbl lines).*1
  ↔ ∃ f c, is_Some (lines !! (f, c)) ∧ files !! f = Some key.1 ∧ contexts !! c = Some key.2.
Proof.
  intros Hkeys. unfold merged_rows. rewrite <- list_fmap_compose, list_elem_of_fmap. split.
  - intros ([[f c] nb] & -> & Hin). apply elem_of_map_to_list in Hin. simpl.
    destruct (Hkeys f c ltac:(by eexists)) as [[id Hid] [cid Hcid]].
    exists f, c. rewrite Hid, Hcid. split; [by eexists|done].
  - intros (f & c & [nb Hnb] & Hid & Hcid). exists (f, c, nb). simpl.
    rewrite Hid, Hcid. split; [by destruct key|]. by apply elem_of_map_to_list.
Qed.

Lemma merged_rows_NoDup (files contexts : gmap string Z) (tbl : gmap (Z * Z) numbits)
    (lines : gmap (string * string) numbits) :
  names_distinct files → names_distinct contexts →
  (∀ f c, is_Some (lines !! (f, c)) → is_Some (files !! f) ∧ is_Some (contexts !! c)) →
  NoDup (merged_rows files contexts tbl lines).*1.
Proof.
  intros Hfd Hcd Hkeys. unfold merged_rows. rewrite <- list_fmap_compose.
  apply NoDup_fmap_2_strong; [|apply NoDup_map_to_list].
  intros [[f1 c1] nb1] [[f2 c2] nb2] H1 H2 Heq. simpl in Heq.
  apply elem_of_map_to_list in H1, H2.
  destruct (Hkeys f1 c1 ltac:(by eexists)) as [[id1 Hid1] [cid1 Hcid1]].
  destruct (Hkeys f2 c2 ltac:(by eexists)) as [[id2 Hid2] [cid2 Hcid2]].
  rewrite Hid1, Hid2, Hcid1, Hcid2 in Heq. simpl in Heq. injection Heq as -> ->.
  assert (f1 = f2) as -> by (by apply (Hfd f1 f2 id2)).
  assert (c1 = c2) as -> by (by apply (Hcd c1 c2 cid2)).
  congruence.
Qed.

(** The numbers of a [line_bits] row after the merge: those of the row
    before, and those collected under the names of its two ids. *)
Lemma merged_rows_lookup (files contexts : gmap string Z) (tbl : gmap (Z * Z) numbits)
    (lines : gmap (string * string) numbits) id cid k :
  names_distinct files → names_distinct contexts →
  (∀ f c, is_Some (lines !! (f, c)) → is_Some (files !! f) ∧ is_Some (contexts !! c)) →
  (∃ nb, write_rows (merged_rows files contexts tbl lines) tbl !! (id, cid) = Some nb
         ∧ k ∈ numbits_to_nums nb)
  ↔ (∃ nb, tbl !! (id, cid) = Some nb ∧ k ∈ numbits_to_nums nb)
    ∨ ∃ f c nb, files !! f = Some id ∧ contexts !! c = Some cid
                ∧ lines !! (f, c) = Some nb ∧ k ∈ numbits_to_nums nb.
Proof.
  intros Hfd Hcd Hkeys.
  destruct (decide ((id, cid) ∈ (merged_rows files contexts tbl lines).*1)) as [Hin|Hout].
  - pose proof Hin as (f & c & [nb1 Hnb1] & Hid & Hcid)%merged_rows_keys; [|done].
    simpl in Hid, Hcid.
    rewrite (write_rows_row tbl _ (id, cid)
               (match tbl !! (id, cid) with
                | Some numbits0 => numbits_union nb1 numbits0
                | None => nb1
                end)); [|by apply merged_rows_NoDup|].
    2:{ unfold merged_rows. apply list_elem_of_fmap. exists (f, c, nb1). simpl.
        rewrite Hid, Hcid. split; [done|]. by apply elem_of_map_to_list. }
    split.
    + intros (nb & [= <-] & Hk). destruct (tbl !! (id, cid)) as [nb0|] eqn:Hrow.
      * apply elem_of_numbits_union in Hk as [Hk|Hk].
        -- right. by exists f, c, nb1.
        -- left. by exists nb0.
      * right. by exists f, c, nb1.
    + intros [(nb & Hrow & Hk)|(f2 & c2 & nb2 & Hid2 & Hcid2 & Hnb2 & Hk)].
      * rewrite Hrow. eexists. split; [done|]. apply elem_of_numbits_union. by right.
      * assert (f2 = f) as -> by (by apply (Hfd f2 f id)).
        assert (c2 = c) as -> by (by apply (Hcd c2 c cid)).
        assert (nb2 = nb1) as -> by congruence.
        eexists. split; [done|]. destruct (tbl !! (id, cid)); [|done].
        apply elem_of_numbits_union. by left.
  - rewrite write_rows_other by done. split; [by left|].
    intros [?|(f & c & nb & Hid & Hcid & Hnb & Hk)]; [done|].
    exfalso. apply Hout. apply merged_rows_keys; [done|].
    exists f, c. split; [by eexists|done].
Qed.

Lemma merged_tracers_inv (files : gmap string Z) (tracer_map : gmap string string)
    (tbl : gmap Z string) id name :
  merged_tracers files tracer_map tbl !! id = Some name →
  tbl !! id = Some name
  ∨ ∃ p, tracer_map !! p = Some name ∧ id = default 0 (files !! p).
Proof.
  unfold merged_tracers.
  assert (∀ (rows : list (Z * string)) (tbl : gmap Z string),
            foldl (λ tbl (row : Z * string), insert_or_ignore_tracer row.1 row.2 tbl) tbl rows
              !! id = Some name →
            tbl !! id = Some name ∨ (id, name) ∈ rows) as Hfold.
  { clear. induction rows as [|[i n] rows IH]; intros tbl; simpl; [by left|].
    intros [Hrow|Hin]%IH; [|right; by right].
    unfold insert_or_ignore_tracer in Hrow. simpl in Hrow.
    destruct (tbl !! i) eqn:Hi; [by left|].
    destruct (decide (i = id)) as [->|Hne].
    - rewrite lookup_insert_eq in Hrow. injection Hrow as ->. right. by left.
    - rewrite lookup_insert_ne in Hrow by done. by left. }
  intros [?|Hin]%Hfold; [by left|]. right.
  apply list_elem_of_fmap in Hin as ([p n] & [= -> ->] & Hin).
  apply elem_of_map_to_list in Hin. by exists p.
Qed.

Lemma plain_tracer_map_values paths (acc : gmap string string) p name :
  (∀ q n, acc !! q = Some n → n = "") →
  foldl (λ (tracer_map : gmap string string) path, <[path := ""]> tracer_map) acc paths !! p
    = Some name →
  name = "".
Proof.
  revert acc. induction paths as [|path paths IH]; intros acc Hacc; simpl; [apply Hacc|].
  apply IH. intros q n. destruct (decide (path = q)) as [->|Hne].
  - rewrite lookup_insert_eq. congruence.
  - rewrite lookup_insert_ne by done. apply Hacc.
Qed.

Lemma merged_tracers_plain (files : gmap string Z) paths (tbl : gmap Z string) id name :
  (∀ i n, tbl !! i = Some n → n = "") →
  merged_tracers files
    (foldl (λ (tracer_map : gmap string string) path, <[path := ""]> tracer_map) ∅ paths)
    tbl !! id = Some name →
  name = "".
Proof.
  intros Htbl [Hrow|(p & Hp & _)]%merged_tracers_inv; [by apply (Htbl id)|].
  revert Hp. apply plain_tracer_map_values. by intros ? ?.
Qed.

(** [collect] on a store in use returns the rows of its database and leaves
    the store as it is. *)
Lemma collect_ready map_path s db :
  ready s → storage s = Some db → collect map_path s = Ok (collected map_path db) s.
Proof.
  intros (Hu & Hd & _) Hdb. destruct s as [nd st d fm hu hl ha cc ci qi]. simpl in *. subst.
  unfold collect, read, path_exists. unfold_monad. simpl.
  destruct nd; simpl; by rewrite collect_rows_collected.
Qed.

(** The merged tables satisfy the constraints. *)
Lemma merged_store_ok_contexts (paths names : list string)
    (lines : gmap (string * string) numbits) (arcs : list (string * string * Z * Z))
    (tracer_map : gmap string string) s db s' db' :
  let files := insert_names paths (tbl_file db) in
  let contexts := insert_names names (tbl_context db) in
  store_ok_contexts s → storage s = Some db →
  (∀ f ctx, is_Some (lines !! (f, ctx)) → is_Some (files !! f) ∧ is_Some (contexts !! ctx)) →
  (∀ row, row ∈ arcs → is_Some (files !! row.1.1.1) ∧ is_Some (contexts !! row.1.1.2)) →
  (∀ p, is_Some (tracer_map !! p) → p ∈ paths) →
  ready s' → storage s' = Some db' → _file_map s' = files →
  tbl_file db' = files → tbl_context db' = contexts →
  tbl_line_bits db'
  = write_rows (merged_rows files contexts (tbl_line_bits db) lines) (tbl_line_bits db) →
  tbl_arc db' = tbl_arc db ∪ list_to_set (merged_arcs files contexts arcs) →
  tbl_tracer db' = merged_tracers files tracer_map (tbl_tracer db) →
  store_ok_contexts s'.
Proof.
  intros files contexts Hok Hdb Hkeys' Harckeys' Htm Hready' Hdb' Hfm' Hf' Hc' Hl' Harc' Ht'.
  destruct (store_ok_contexts_inv s Hok)
    as (db1 & Hok0 & Hu & Hd & Hdb1 & Hcache & Hdist & Hrefs & Hcd & Hcrefs).
  assert (db1 = db) as -> by congruence.
  assert (names_distinct files) as Hfd by (by apply insert_names_distinct).
  assert (names_distinct contexts) as Hctxd by (by apply insert_names_distinct).
  destruct Hrefs as (Hrl & Hra & Hrt). destruct Hcrefs as (Hcl & Hca).
  assert (∀ row, row ∈ tbl_arc db' →
                 (∃ path, files !! path = Some row.1.1.1)
                 ∧ ∃ ctx, contexts !! ctx = Some row.1.1.2) as Harcrows.
  { intros row. rewrite Harc', elem_of_union, elem_of_list_to_set.
    intros [Hold|Hnew].
    - destruct (Hra row Hold) as [path Hp]. destruct (Hca row Hold) as [ctx Hctx].
      split; [exists path|exists ctx]; by apply insert_names_old.
    - apply list_elem_of_fmap in Hnew as (row0 & -> & Hin). simpl.
      destruct (Harckeys' row0 Hin) as [[id Hid] [cid Hcid]]. rewrite Hid, Hcid.
      split; by eexists. }
  split; [split; [done|]|]; exists db'; (split; [done|]).
  - split; [by rewrite Hfm', Hf'|]. split.
    { unfold file_ids_distinct. rewrite Hf'. exact Hfd. }
    unfold references_ok. rewrite Hl', Hf', Ht'. split; [|split].
    + intros key [Hold|Hin]%write_rows_inv.
      * destruct (Hrl key Hold) as [path Hp]. exists path. by apply insert_names_old.
      * apply merged_rows_keys in Hin as (f & ctx & _ & Hid & _); [|done]. by exists f.
    + intros row Hrow. by destruct (Harcrows row Hrow).
    + intros id [name [Hold|(p & Hp & ->)]%merged_tracers_inv].
      * destruct (Hrt id ltac:(by eexists)) as [path Hpath]. exists path.
        by apply insert_names_old.
      * assert (p ∈ paths) as Hin by (apply Htm; by eexists).
        destruct (insert_names_new paths (tbl_file db) p Hin) as [id Hid].
        exists p. fold files in Hid. by rewrite Hid.
  - split.
    { unfold context_ids_distinct. rewrite Hc'. exact Hctxd. }
    unfold context_references_ok. rewrite Hl', Hc'. split.
    + intros key [Hold|Hin]%write_rows_inv.
      * destruct (Hcl key Hold) as [ctx Hctx]. exists ctx. by apply insert_names_old.
      * apply merged_rows_keys in Hin as (f & ctx & _ & _ & Hcid); [|done]. by exists ctx.
    + intros row Hrow. by destruct (Harcrows row Hrow).
Qed.

(** Without plugins on either side, there are none afterwards. *)
Lemma merged_store_ok (paths names : list string) (lines : gmap (string * string) numbits)
    (arcs : list (string * string * Z * Z)) s db s' db' :
  let files := insert_names paths (tbl_file db) in
  let contexts := insert_names names (tbl_context db) in
  store_ok_contexts s → storage s = Some db → no_plugins db →
  (∀ f ctx, is_Some (lines !! (f, ctx)) → is_Some (files !! f) ∧ is_Some (contexts !! ctx)) →
  (∀ row, row ∈ arcs → is_Some (files !! row.1.1.1) ∧ is_Some (contexts !! row.1.1.2)) →
  ready s' → storage s' = Some db' → _file_map s' = files →
  tbl_file db' = files → tbl_context db' = contexts →
  tbl_line_bits db'
  = write_rows (merged_rows files contexts (tbl_line_bits db) lines) (tbl_line_bits db) →
  tbl_arc db' = tbl_arc db ∪ list_to_set (merged_arcs files contexts arcs) →
  tbl_tracer db'
  = merged_tracers files
      (foldl (λ (tracer_map : gmap string string) path, <[path := ""]> tracer_map) ∅ paths)
      (tbl_tracer db) →
  store_ok_contexts s' ∧ no_plugins db'.
Proof.
  intros files contexts Hok Hdb Hnp Hkeys' Harckeys' Hready' Hdb' Hfm' Hf' Hc' Hl' Harc' Ht'.
  split.
  - refine (merged_store_ok_contexts paths names lines arcs _ s db s' db' Hok Hdb Hkeys'
              Harckeys' _ Hready' Hdb' Hfm' Hf' Hc' Hl' Harc' Ht').
    intros p [[? Hempty]|Hin]%plain_tracer_map; [|done]. by rewrite lookup_empty in Hempty.
  - unfold no_plugins. rewrite Ht'. intros id name Hrow.
    apply merged_tracers_plain in Hrow; [done|]. intros i n Hi. by apply (Hnp i n).
Qed.

(** The files and contexts that are collected. *)
Lemma collected_names (map_path : string → string) db :
  (∀ f, f ∈ (map_to_list (other_files (collected map_path db))).*2
        ↔ ∃ g, is_Some (tbl_file db !! g) ∧ map_path g = f)
  ∧ (∀ ctx, ctx ∈ other_contexts (collected map_path db) ↔ is_Some (tbl_context db !! ctx)).
Proof.
  split.
  - intros f. apply elem_of_mapped_paths.
  - intros ctx. simpl. rewrite list_elem_of_fmap. split.
    + intros ([ctx' cid] & -> & Hin). apply elem_of_map_to_list in Hin. by eexists.
    + intros [cid Hcid]. exists (ctx, cid). split; [done|]. by apply elem_of_map_to_list.
Qed.

(** The measured files after a merge. *)
Lemma merged_files_spec (map_path : string → string) (s other_data : CoverageData)
    (db other_db : Database) s' f :
  _file_map s = tbl_file db → _file_map other_data = tbl_file other_db →
  _file_map s'
  = insert_names (map_to_list (other_files (collected map_path other_db))).*2 (tbl_file db) →
  f ∈ measured_files s'
  ↔ f ∈ measured_files s ∨ ∃ g, g ∈ measured_files other_data ∧ map_path g = f.
Proof.
  intros Hcache Hcacheo Hfm'. destruct (collected_names map_path other_db) as [Hpaths _].
  unfold measured_files. rewrite Hfm', Hcache, !elem_of_dom. split.
  - intros [id [Hold|Hin]%insert_names_inv]; [by left|]. right.
    apply Hpaths in Hin as (g & Hg & Hm). exists g. split; [|done].
    apply elem_of_dom. by rewrite Hcacheo.
  - intros [[id Hid]|(g & Hg & Hm)].
    + exists id. by apply insert_names_old.
    + apply elem_of_dom in Hg. rewrite Hcacheo in Hg.
      apply insert_names_new. apply Hpaths. by exists g.
Qed.

Lemma elem_of_select_arc_join db path context fromno tono :
  (path, context, fromno, tono) ∈ select_arc_join db
  ↔ ∃ id context_id,
      tbl_file db !! path = Some id ∧ tbl_context db !! context = Some context_id
      ∧ (id, context_id, fromno, tono) ∈ tbl_arc db.
Proof.
  unfold select_arc_join. rewrite list_elem_of_bind. split.
  - intros ([[[id cid] a] b] & Hin & Hrow). simpl in Hin.
    apply list_elem_of_bind in Hin as (path' & Hin & Hp).
    apply list_elem_of_fmap in Hin as (context' & Heq & Hc). simplify_eq.
    apply elem_of_names_of_id in Hp, Hc. apply elem_of_elements in Hrow.
    by exists id, cid.
  - intros (id & cid & Hp & Hc & Hrow). exists (id, cid, fromno, tono). split.
    + simpl. apply list_elem_of_bind. exists path. split; [|by apply elem_of_names_of_id].
      apply list_elem_of_fmap. exists context. split; [done|]. by apply elem_of_names_of_id.
    + by apply elem_of_elements.
Qed.

(** What is collected from the other store, in terms of its lines. *)
Lemma collected_lines_other (map_path : string → string) (other_data : CoverageData)
    (other_db : Database) :
  storage other_data = Some other_db → _file_map other_data = tbl_file other_db →
  let c := collected map_path other_db in
  (∀ f ctx k,
     (∃ nb, other_lines c !! (f, ctx) = Some nb ∧ k ∈ numbits_to_nums nb)
     ↔ ∃ g, map_path g = f ∧ line_in_context other_data g ctx (Z.of_N k))
  ∧ (∀ f ctx, is_Some (other_lines c !! (f, ctx)) →
              f ∈ (map_to_list (other_files c)).*2 ∧ ctx ∈ other_contexts c).
Proof.
  intros Hdbo Hcacheo c.
  destruct (collected_names map_path other_db) as [Hpaths Hctxs]. fold c in Hpaths, Hctxs.
  assert ((∀ f ctx, is_Some (other_lines c !! (f, ctx))
                    ↔ is_Some ((∅ : gmap (string * string) numbits) !! (f, ctx))
                      ∨ ∃ path nb, (path, ctx, nb) ∈ select_line_bits_join other_db
                                   ∧ map_path path = f)
          ∧ (∀ f ctx k,
               (∃ nb, other_lines c !! (f, ctx) = Some nb ∧ k ∈ numbits_to_nums nb)
               ↔ (∃ nb, (∅ : gmap (string * string) numbits) !! (f, ctx) = Some nb
                        ∧ k ∈ numbits_to_nums nb)
                 ∨ ∃ path nb, (path, ctx, nb) ∈ select_line_bits_join other_db
                              ∧ map_path path = f ∧ k ∈ numbits_to_nums nb)) as [Hl1 Hl2]
    by apply (collected_lines_spec map_path (select_line_bits_join other_db) ∅).
  split.
  - intros f ctx k. rewrite Hl2. split.
    + intros [(nb & Hnb & _)|(g & nb & Hin & Hg & Hk)]; [by rewrite lookup_empty in Hnb|].
      apply elem_of_select_line_bits_join in Hin as (id & cid & Hid & Hcid & Hrow).
      exists g. split; [done|]. exists other_db, id, cid, nb, k. by rewrite Hcacheo.
    + intros (g & Hg & d & id & cid & nb & k' & Hd' & Hid & Hcid & Hrow & Hk & Hn).
      assert (d = other_db) as -> by congruence. apply (inj Z.of_N) in Hn as ->.
      right. exists g, nb. split; [|done].
      apply elem_of_select_line_bits_join. exists id, cid. by rewrite <- Hcacheo.
  - intros f ctx [[nb Hnb]|(g & nb & Hin & Hg)]%Hl1; [by rewrite lookup_empty in Hnb|].
    apply elem_of_select_line_bits_join in Hin as (id & cid & Hid & Hcid & Hrow).
    split; [apply Hpaths; exists g; split; [by eexists|done]|apply Hctxs; by eexists].
Qed.

(** What is collected from the other store, in terms of its arcs. *)
Lemma collected_arcs_other (map_path : string → string) (other_data : CoverageData)
    (other_db : Database) :
  storage other_data = Some other_db → _file_map other_data = tbl_file other_db →
  let c := collected map_path other_db in
  (∀ f ctx a b,
     (f, ctx, a, b) ∈ other_arcs c
     ↔ ∃ g, map_path g = f ∧ arc_in_context other_data g ctx (a, b))
  ∧ (∀ row, row ∈ other_arcs c →
            row.1.1.1 ∈ (map_to_list (other_files c)).*2 ∧ row.1.1.2 ∈ other_contexts c).
Proof.
  intros Hdbo Hcacheo c.
  destruct (collected_names map_path other_db) as [Hpaths Hctxs]. fold c in Hpaths, Hctxs.
  assert (∀ f ctx a b,
            (f, ctx, a, b) ∈ other_arcs c
            ↔ ∃ g, map_path g = f ∧ arc_in_context other_data g ctx (a, b)) as Harcs.
  { intros f ctx a b. simpl. rewrite list_elem_of_fmap. split.
    - intros ([[[g ctx'] a'] b'] & [= -> -> -> ->] & Hin).
      apply elem_of_select_arc_join in Hin as (id & cid & Hid & Hcid & Hrow).
      exists g. split; [done|]. exists other_db, id, cid. by rewrite Hcacheo.
    - intros (g & Hg & d & id & cid & Hd' & Hid & Hcid & Hrow).
      assert (d = other_db) as -> by congruence. exists (g, ctx, a, b). simpl.
      split; [by rewrite Hg|].
      apply elem_of_select_arc_join. exists id, cid. by rewrite <- Hcacheo. }
  split; [exact Harcs|].
  intros [[[f ctx] a] b] (g & Hg & d & id & cid & Hd' & Hid & Hcid & Hrow)%Harcs.
  assert (d = other_db) as -> by congruence. rewrite Hcacheo in Hid. simpl.
  split; [apply Hpaths; exists g; split; [by eexists|done]|apply Hctxs; by eexists].
Qed.

(** The lines under each context after the collected lines are written:
    the old ones, and those that were collected. *)
Lemma merged_lines_spec (paths names : list string) (lines : gmap (string * string) numbits)
    (collects : string → string → Z → Prop) s db s' db' :
  let files := insert_names paths (tbl_file db) in
  let contexts := insert_names names (tbl_context db) in
  store_ok_contexts s → storage s = Some db →
  (∀ f ctx, is_Some (lines !! (f, ctx)) → is_Some (files !! f) ∧ is_Some (contexts !! ctx)) →
  (∀ f ctx k, (∃ nb, lines !! (f, ctx) = Some nb ∧ k ∈ numbits_to_nums nb)
              ↔ collects f ctx (Z.of_N k)) →
  (∀ f ctx n, collects f ctx n → ∃ k, n = Z.of_N k) →
  storage s' = Some db' → _file_map s' = files → tbl_context db' = contexts →
  tbl_line_bits db'
  = write_rows (merged_rows files contexts (tbl_line_bits db) lines) (tbl_line_bits db) →
  ∀ f ctx n, line_in_context s' f ctx n ↔ line_in_context s f ctx n ∨ collects f ctx n.
Proof.
  intros files contexts Hok Hdb Hkeys' Hlines Hnat Hdb' Hfm' Hc' Hl' f ctx n.
  destruct (store_ok_contexts_inv s Hok)
    as (db1 & Hok0 & Hu & Hd & Hdb1 & Hcache & Hdist & Hrefs & Hcd & Hcrefs).
  assert (db1 = db) as -> by congruence.
  assert (names_distinct files) as Hfd by (by apply insert_names_distinct).
  assert (names_distinct contexts) as Hctxd by (by apply insert_names_distinct).
  split.
  - intros (d & id & cid & nb & k & Hd' & Hid & Hcid & Hrow & Hk & ->).
    assert (d = db') as -> by congruence.
    rewrite Hfm' in Hid. rewrite Hc' in Hcid. rewrite Hl' in Hrow.
    destruct (merged_rows_lookup files contexts (tbl_line_bits db) lines id cid k
                Hfd Hctxd Hkeys') as [Hfrom _].
    destruct (Hfrom ltac:(by exists nb))
      as [(nb0 & Hrow0 & Hk0)|(f2 & c2 & nb2 & Hid2 & Hcid2 & Hnb2 & Hk2)].
    + left. destruct Hrefs as (Hrl & _ & _). destruct Hcrefs as (Hcl & _).
      destruct (Hrl (id, cid) ltac:(by eexists)) as [path Hpath].
      destruct (Hcl (id, cid) ltac:(by eexists)) as [ctx0 Hctx0]. simpl in Hpath, Hctx0.
      assert (path = f) as ->
        by (apply (Hfd path f id); [by apply insert_names_old|done]).
      assert (ctx0 = ctx) as ->
        by (apply (Hctxd ctx0 ctx cid); [by apply insert_names_old|done]).
      exists db, id, cid, nb0, k. by rewrite Hcache.
    + right. assert (f2 = f) as -> by (by apply (Hfd f2 f id)).
      assert (c2 = ctx) as -> by (by apply (Hctxd c2 ctx cid)).
      apply Hlines. by exists nb2.
  - intros [(d & id & cid & nb & k & Hd' & Hid & Hcid & Hrow & Hk & ->)|Hline].
    + assert (d = db) as -> by congruence. rewrite Hcache in Hid.
      destruct (merged_rows_lookup files contexts (tbl_line_bits db) lines id cid k
                  Hfd Hctxd Hkeys') as [_ Hto].
      destruct (Hto ltac:(left; by exists nb)) as (nb' & Hrow' & Hk').
      exists db', id, cid, nb', k. rewrite Hfm', Hc', Hl'.
      split; [done|]. split; [by apply insert_names_old|].
      split; [by apply insert_names_old|done].
    + destruct (Hnat f ctx n Hline) as [k ->].
      destruct (Hlines f ctx k) as [_ Hcollect].
      destruct (Hcollect Hline) as (nb & Hnb & Hk).
      destruct (Hkeys' f ctx ltac:(by eexists)) as [[id Hid] [cid Hcid]].
      destruct (merged_rows_lookup files contexts (tbl_line_bits db) lines id cid k
                  Hfd Hctxd Hkeys') as [_ Hto].
      destruct (Hto ltac:(right; by exists f, ctx, nb)) as (nb' & Hrow' & Hk').
      exists db', id, cid, nb', k. by rewrite Hfm', Hc', Hl'.
Qed.

(** The arcs under each context after the collected arcs are written: the
    old ones, and those that were collected. *)
Lemma merged_arcs_spec (paths names : list string) (arcs : list (string * string * Z * Z))
    (collects : string → string → Z * Z → Prop) s db s' db' :
  let files := insert_names paths (tbl_file db) in
  let contexts := insert_names names (tbl_context db) in
  store_ok_contexts s → storage s = Some db →
  (∀ row, row ∈ arcs → is_Some (files !! row.1.1.1) ∧ is_Some (contexts !! row.1.1.2)) →
  (∀ f ctx a b, (f, ctx, a, b) ∈ arcs ↔ collects f ctx (a, b)) →
  storage s' = Some db' → _file_map s' = files → tbl_context db' = contexts →
  tbl_arc db' = tbl_arc db ∪ list_to_set (merged_arcs files contexts arcs) →
  ∀ f ctx a, arc_in_context s' f ctx a ↔ arc_in_context s f ctx a ∨ collects f ctx a.
Proof.
  intros files contexts Hok Hdb Hkeys' Harcs Hdb' Hfm' Hc' Harc' f ctx [a b].
  destruct (store_ok_contexts_inv s Hok)
    as (db1 & Hok0 & Hu & Hd & Hdb1 & Hcache & Hdist & Hrefs & Hcd & Hcrefs).
  assert (db1 = db) as -> by congruence.
  assert (names_distinct files) as Hfd by (by apply insert_names_distinct).
  assert (names_distinct contexts) as Hctxd by (by apply insert_names_distinct).
  split.
  - intros (d & id & cid & Hd' & Hid & Hcid & Hrow). simpl in Hrow.
    assert (d = db') as -> by congruence.
    rewrite Hfm' in Hid. rewrite Hc' in Hcid.
    rewrite Harc', elem_of_union, elem_of_list_to_set in Hrow.
    destruct Hrow as [Hold|Hnew].
    + left. destruct Hrefs as (_ & Hra & _). destruct Hcrefs as (_ & Hca).
      destruct (Hra _ Hold) as [path Hpath]. destruct (Hca _ Hold) as [ctx0 Hctx0].
      simpl in Hpath, Hctx0.
      assert (path = f) as ->
        by (apply (Hfd path f id); [by apply insert_names_old|done]).
      assert (ctx0 = ctx) as ->
        by (apply (Hctxd ctx0 ctx cid); [by apply insert_names_old|done]).
      exists db, id, cid. by rewrite Hcache.
    + right. apply list_elem_of_fmap in Hnew as ([[[f2 c2] a2] b2] & Heq & Hin).
      simpl in Heq. destruct (Hkeys' _ Hin) as [[id2 Hid2] [cid2 Hcid2]].
      simpl in Hid2, Hcid2. rewrite Hid2, Hcid2 in Heq. simpl in Heq.
      injection Heq as -> -> -> ->.
      assert (f2 = f) as -> by (by apply (Hfd f2 f id2)).
      assert (c2 = ctx) as -> by (by apply (Hctxd c2 ctx cid2)).
      by apply Harcs.
  - intros [(d & id & cid & Hd' & Hid & Hcid & Hrow)|Harc].
    + assert (d = db) as -> by congruence. rewrite Hcache in Hid.
      exists db', id, cid. rewrite Hfm', Hc', Harc'.
      split; [done|]. split; [by apply insert_names_old|].
      split; [by apply insert_names_old|]. apply elem_of_union. by left.
    + assert ((f, ctx, a, b) ∈ arcs) as Hin by (by apply Harcs).
      destruct (Hkeys' _ Hin) as [[id Hid] [cid Hcid]]. simpl in Hid, Hcid.
      exists db', id, cid. rewrite Hfm', Hc', Harc'.
      split; [done|]. split; [done|]. split; [done|].
      apply elem_of_union. right. apply elem_of_list_to_set.
      apply list_elem_of_fmap. exists (f, ctx, a, b). simpl. by rewrite Hid, Hcid.
Qed.

(** A store without files has no tracers to compare. *)
Lemma this_tracers_empty (map_path : string → string) db :
  tbl_file db = ∅ → this_tracers map_path db = ∅.
Proof.
  intros Hempty. unfold this_tracers, select_tracer_join, names_of_id.
  rewrite Hempty, map_to_list_empty, fmap_empty, (right_id_L ∅ (∪)). simpl.
  induction (map_to_list (tbl_tracer db)) as [|row rows IH]; [done|]. simpl. exact IH.
Qed.

(** [update] into a store that has no mode yet. *)
Lemma update_no_mode_spec (self other_data : CoverageData) (db other_db : Database)
    (map_path : option (string → string)) :
  no_mode self → store_ok_contexts self → storage self = Some db → in_sync self db →
  store_ok other_data → storage other_data = Some other_db →
  tbl_arc other_db = ∅ ∨ tbl_line_bits other_db = ∅ →
  tbl_file db = ∅ ∨ (no_plugins db ∧ no_plugins other_db) →
  let mapped := default (λ p, p) map_path in
  ∃ self',
    update self other_data map_path = Updated self' other_data
    ∧ store_ok_contexts self'
    ∧ (∀ f, f ∈ measured_files self'
            ↔ f ∈ measured_files self ∨ ∃ g, g ∈ measured_files other_data ∧ mapped g = f)
    ∧ (∀ f c n, line_in_context self' f c n
                ↔ line_in_context self f c n
                  ∨ ∃ g, mapped g = f ∧ line_in_context other_data g c n)
    ∧ (∀ f c a, arc_in_context self' f c a
                ↔ arc_in_context self f c a
                  ∨ ∃ g, mapped g = f ∧ arc_in_context other_data g c a)
    ∧ ((∃ g c n, line_in_context other_data g c n) → line_mode self')
    ∧ ((∃ g c a, arc_in_context other_data g c a) → arc_mode self').
Proof.
  intros [Hl Ha] Hok Hdb Hsync Hoko Hdbo Hkind Htracers mapped.
  destruct (store_ok_contexts_inv self Hok)
    as (db1 & Hok0 & Hu & Hd & Hdb1 & Hcache & Hdist & Hrefs & Hcd & Hcrefs).
  assert (db1 = db) as -> by congruence.
  destruct (store_ok_inv other_data Hoko)
    as (db2 & Huo & Hdo & Hdb2 & Hcacheo & Hdisto & Hrefso).
  assert (db2 = other_db) as -> by congruence.
  assert (ready self) as Hready by (by destruct Hok0).
  assert (ready other_data) as Hreadyo by (by destruct Hoko).
  (* what is collected *)
  pose (c := collected mapped other_db).
  destruct (collected_lines_other mapped other_data other_db Hdbo Hcacheo) as [Hlines Hkeys].
  destruct (collected_arcs_other mapped other_data other_db Hdbo Hcacheo) as [Harcs Harckeys].
  fold c in Hlines, Hkeys, Harcs, Harckeys.
  assert (∀ p name, p ∈ (map_to_list (other_files c)).*2 →
                    this_tracers mapped db !! p = Some name →
                    name = default "" (other_tracers c !! p)) as Hagree.
  { destruct Htracers as [Hnone|[Hnp Hnpo]]; intros p name _.
    - rewrite this_tracers_empty by done. by rewrite lookup_empty.
    - intros ->%this_tracers_plain; [|done].
      destruct (other_tracers c !! p) as [name|] eqn:Hp; [|done]. simpl.
      symmetry. by apply (collected_tracers_plain mapped other_db p). }
  assert (other_arcs c ≠ [] → _has_lines self = false ∧ other_lines c = ∅) as Harcmode.
  { intros Hne. split; [done|]. destruct Hkind as [Hk|Hk].
    - exfalso. apply Hne. simpl. by rewrite select_arc_join_empty.
    - simpl. by rewrite select_line_bits_join_empty. }
  assert (collected mapped other_db = c) as Hcollected by reflexivity.
  clearbody c.
  destruct (merge_run mapped c self db Hready Hdb Hsync Hagree Harcmode (λ _, Ha) Hkeys
              Harckeys)
    as (self' & db' & Hrun & Hready' & Hdb' & Hfm' & Hsync' & Ha' & Hl' & Hf' & Hc' & Hlb'
        & Harc' & Ht' & Hlines' & Harcs').
  set (paths := (map_to_list (other_files c)).*2) in *.
  set (files := insert_names paths (tbl_file db)) in *.
  set (contexts := insert_names (other_contexts c) (tbl_context db)) in *.
  assert (∀ f ctx, is_Some (other_lines c !! (f, ctx)) →
                   is_Some (files !! f) ∧ is_Some (contexts !! ctx)) as Hkeys'.
  { intros f ctx [Hf Hctx]%Hkeys. split; by apply insert_names_new. }
  assert (∀ row, row ∈ other_arcs c →
                 is_Some (files !! row.1.1.1) ∧ is_Some (contexts !! row.1.1.2)) as Harckeys'.
  { intros row [Hf Hctx]%Harckeys. split; by apply insert_names_new. }
  exists self'. split; [|split; [|split; [|split; [|split; [|split]]]]].
  - (* the run *)
    unfold update. rewrite Hl, Ha. simpl andb. cbv iota.
    rewrite (_start_using_used self Hu).
    fold mapped. rewrite (collect_ready mapped other_data other_db Hreadyo Hdbo).
    by rewrite Hcollected, Hrun.
  - (* the constraints *)
    apply (merged_store_ok_contexts paths (other_contexts c) (other_lines c) (other_arcs c)
             (merged_tracer_map (other_tracers c) paths) self db self' db'); try done.
    apply merged_tracer_map_keys.
  - (* the measured files *)
    intros f. apply (merged_files_spec mapped self other_data db other_db); try done.
    rewrite Hcollected. exact Hfm'.
  - (* the lines *)
    apply (merged_lines_spec paths (other_contexts c) (other_lines c)
             (λ f ctx n, ∃ g, mapped g = f ∧ line_in_context other_data g ctx n)
             self db self' db'); try done.
    intros f ctx n (g & _ & _ & _ & _ & _ & k & _ & _ & _ & _ & _ & ->). by exists k.
  - (* the arcs *)
    apply (merged_arcs_spec paths (other_contexts c) (other_arcs c)
             (λ f ctx a, ∃ g, mapped g = f ∧ arc_in_context other_data g ctx a)
             self db self' db'); try done.
  - (* lines have been merged *)
    intros (g & ctx & n & Hline).
    pose proof Hline as (_ & _ & _ & _ & k & _ & _ & _ & _ & _ & ->).
    assert (other_lines c ≠ ∅) as Hne.
    { destruct (Hlines (mapped g) ctx k) as [_ Hcollect].
      destruct (Hcollect ltac:(by exists g)) as (nb & Hnb & _).
      intros Hnone. by rewrite Hnone, lookup_empty in Hnb. }
    destruct Hready' as (Hu' & Hd' & _). repeat split; [done|done|by apply Hlines'|].
    destruct (other_arcs c) as [|row rest] eqn:Hrows; [by rewrite Ha'|].
    by destruct (Harcmode ltac:(done)).
  - (* arcs have been merged *)
    intros (g & ctx & [a b] & Harc).
    assert (other_arcs c ≠ []) as Hne.
    { assert ((mapped g, ctx, a, b) ∈ other_arcs c) as Hin by (apply Harcs; by exists g).
      intros Hnone. rewrite Hnone in Hin. by apply elem_of_nil in Hin. }
    destruct Hready' as (Hu' & Hd' & _). destruct (Harcmode Hne) as [_ Hnone].
    repeat split; [done|done| |by apply Harcs'].
    by rewrite Hl'.
Qed.

(** C4.  [update] raises the conflict error, leaving both stores as they
    were, when this store is in line-mode and the other in arc-mode, or this
    one in arc-mode and the other in line-mode.  A store without a mode
    accepts a store of either kind.  Whenever the other store holds rows of
    one kind only, [update] raises no mode conflict.  And when the two
    stores satisfy their constraints and no tracer of a file stands in the
    way (this store has no file yet, or neither store has a plugin tracer),
    the call succeeds and the data is merged: the other store is left as it
    was, this one still satisfies its constraints, its measured files are
    its old ones and the mapped files of the other store, a line or an arc
    is recorded for a file under a context exactly when it was before or the
    other store records it under that context for a file that [map_path]
    sends to this file, and this store is in line-mode when the other store
    has a line, in arc-mode when it has an arc. *)
Theorem update_mode_conflict (self other_data : CoverageData)
    (map_path : option (string → string)) :
  (_has_lines self = true → _has_arcs other_data = true →
     update self other_data map_path
     = UpdateRaise (DataError (Text "Can't combine arc data with line data"))
         self other_data)
  ∧ (mode_ok self → _has_arcs self = true → _has_lines other_data = true →
       update self other_data map_path
       = UpdateRaise (DataError (Text "Can't combine line data with arc data"))
           self other_data)
  ∧ (no_mode self → lifecycle_ok self → one_kind other_data →
       match update self other_data map_path with
       | UpdateRaise e _ _ => ¬ is_mode_conflict e
       | Updated _ _ => True
       end)
  ∧ (∀ db other_db,
       no_mode self → store_ok_contexts self → storage self = Some db → in_sync self db →
       store_ok other_data → storage other_data = Some other_db →
       tbl_arc other_db = ∅ ∨ tbl_line_bits other_db = ∅ →
       tbl_file db = ∅ ∨ (no_plugins db ∧ no_plugins other_db) →
       let mapped := default (λ p, p) map_path in
       ∃ self',
         update self other_data map_path = Updated self' other_data
         ∧ store_ok_contexts self'
         ∧ (∀ f, f ∈ measured_files self'
                 ↔ f ∈ measured_files self
                   ∨ ∃ g, g ∈ measured_files other_data ∧ mapped g = f)
         ∧ (∀ f c n, line_in_context self' f c n
                     ↔ line_in_context self f c n
                       ∨ ∃ g, mapped g = f ∧ line_in_context other_data g c n)
         ∧ (∀ f c a, arc_in_context self' f c a
                     ↔ arc_in_context self f c a
                       ∨ ∃ g, mapped g = f ∧ arc_in_context other_data g c a)
         ∧ ((∃ g c n, line_in_context other_data g c n) → line_mode self')
         ∧ ((∃ g c a, arc_in_context other_data g c a) → arc_mode self')).
Proof.
  split; [|split; [|split]].
  - intros Hl Ha. unfold update. by rewrite Hl, Ha.
  - intros Hm Ha Hl. unfold update. rewrite Ha, Hl.
    destruct (_has_lines self) eqn:Hsl; [by destruct Hm|]. done.
  - intros [Hl Ha] Hok Hone. unfold update. rewrite Hl, Ha. simpl.
    rewrite _start_using_started.
    pose proof (collect_no_conflict (default (λ p, p) map_path) other_data) as Hcn.
    destruct (collect _ other_data) as [c other1|e other1] eqn:Hcol; [|done].
    apply collect_spec in Hcol as (db & Hdb & Hfrom & ->).
    assert (tbl_arc db = ∅ ∨ tbl_line_bits db = ∅) as Hkind.
    { destruct Hfrom as [Hfrom| ->]; [by apply Hone|by left]. }
    destruct (started_fields self) as (Hu & Hl1 & Ha1 & _).
    destruct (_connect_lifecycle (started self)) as (s2 & Hc & Hd & _ & Hl2 & Ha2 & _);
      [by apply started_lifecycle|done|].
    rewrite (merge_connect _ _ _ _ Hc Hd).
    assert (post (λ _, True) no_conflict
              (merge (default (λ p, p) map_path) (collected (default (λ p, p) map_path) db) s2))
      as Hpost.
    { destruct Hkind as [Hk|Hk].
      - apply (merge_no_conflict false).
        + split; [done|]. simpl. congruence.
        + simpl. by rewrite select_arc_join_empty.
      - apply (merge_no_conflict true).
        + split; [done|]. simpl. congruence.
        + simpl. by rewrite select_line_bits_join_empty. }
    destruct (merge _ _ s2) as [[] s3|e s3]; done.
  - intros db other_db. apply update_no_mode_spec.
Qed.

(** [update] on line data. *)
Lemma update_lines_spec (self other_data : CoverageData) (db other_db : Database)
    (map_path : option (string → string)) :
  store_ok_contexts self → storage self = Some db → in_sync self db →
  _has_arcs self = false → no_plugins db →
  store_ok other_data → storage other_data = Some other_db →
  _has_arcs other_data = false → tbl_arc other_db = ∅ → no_plugins other_db →
  let mapped := default (λ p, p) map_path in
  ∃ self',
    update self other_data map_path = Updated self' other_data
    ∧ store_ok_contexts self' ∧ _has_arcs self' = false
    ∧ (∃ db', storage self' = Some db' ∧ in_sync self' db' ∧ no_plugins db')
    ∧ (∀ f, f ∈ measured_files self'
            ↔ f ∈ measured_files self ∨ ∃ g, g ∈ measured_files other_data ∧ mapped g = f)
    ∧ (∀ f c n, line_in_context self' f c n
                ↔ line_in_context self f c n
                  ∨ ∃ g, mapped g = f ∧ line_in_context other_data g c n).
Proof.
  intros Hok Hdb Hsync Ha Hnp Hoko Hdbo Hao Harco Hnpo mapped.
  destruct (store_ok_contexts_inv self Hok)
    as (db1 & Hok0 & Hu & Hd & Hdb1 & Hcache & Hdist & Hrefs & Hcd & Hcrefs).
  assert (db1 = db) as -> by congruence.
  destruct (store_ok_inv other_data Hoko)
    as (db2 & Huo & Hdo & Hdb2 & Hcacheo & Hdisto & Hrefso).
  assert (db2 = other_db) as -> by congruence.
  assert (ready self) as Hready by (by destruct Hok0).
  assert (ready other_data) as Hreadyo by (by destruct Hoko).
  (* what is collected *)
  pose (c := collected mapped other_db).
  destruct (collected_lines_other mapped other_data other_db Hdbo Hcacheo) as [Hlines Hkeys].
  fold c in Hlines, Hkeys.
  assert (other_arcs c = []) as Harcs.
  { simpl. by rewrite select_arc_join_empty. }
  assert (∀ p name, other_tracers c !! p = Some name → name = "") as Hot.
  { intros p name. by apply collected_tracers_plain. }
  assert (collected mapped other_db = c) as Hcollected by reflexivity.
  clearbody c.
  destruct (merge_lines_run mapped c self db Hready Hdb Ha Hsync Hnp Hot Harcs Hkeys)
    as (self' & db' & Hrun & Hready' & Hdb' & Hfm' & Hsync' & Ha' & Hf' & Hc' & Hl' & Harc'
        & Ht').
  set (paths := (map_to_list (other_files c)).*2) in *.
  set (files := insert_names paths (tbl_file db)) in *.
  set (contexts := insert_names (other_contexts c) (tbl_context db)) in *.
  assert (∀ f ctx, is_Some (other_lines c !! (f, ctx)) →
                   is_Some (files !! f) ∧ is_Some (contexts !! ctx)) as Hkeys'.
  { intros f ctx [Hf Hctx]%Hkeys. split; by apply insert_names_new. }
  exists self'. split; [|split; [|split; [done|split; [|split]]]].
  - (* the run *)
    unfold update. rewrite Ha, Hao, !andb_false_r. simpl andb. cbv iota.
    rewrite (_start_using_used self Hu).
    fold mapped. rewrite (collect_ready mapped other_data other_db Hreadyo Hdbo).
    by rewrite Hcollected, Hrun.
  - (* the constraints *)
    refine (proj1 (merged_store_ok paths (other_contexts c) (other_lines c) [] self db self' db'
                     Hok Hdb Hnp Hkeys' _ Hready' Hdb' Hfm' Hf' Hc' Hl' _ Ht')).
    + by intros row ?%elem_of_nil.
    + simpl. by rewrite (right_id_L ∅ (∪)).
  - (* the object and its database *)
    exists db'. split; [done|]. split; [done|].
    refine (proj2 (merged_store_ok paths (other_contexts c) (other_lines c) [] self db self' db'
                     Hok Hdb Hnp Hkeys' _ Hready' Hdb' Hfm' Hf' Hc' Hl' _ Ht')).
    + by intros row ?%elem_of_nil.
    + simpl. by rewrite (right_id_L ∅ (∪)).
  - (* the measured files *)
    intros f. apply (merged_files_spec mapped self other_data db other_db); try done.
    rewrite Hcollected. exact Hfm'.
  - (* the lines *)
    apply (merged_lines_spec paths (other_contexts c) (other_lines c)
             (λ f ctx n, ∃ g, mapped g = f ∧ line_in_context other_data g ctx n)
             self db self' db'); try done.
    intros f ctx n (g & _ & _ & _ & _ & _ & k & _ & _ & _ & _ & _ & ->). by exists k.
Qed.

(** X14. Merging line data: when neither store holds arcs or plugin
    tracers, [update] succeeds and leaves [other_data] as it was; afterwards
    [self] still satisfies its constraints and agrees with its database, its
    measured files are its old ones and the mapped files of [other_data],
    and a line is recorded for a file under a context exactly when it was
    before, or [other_data] records it under that context for a file that
    [map_path] sends to this file. *)
Theorem update_lines_union (self other_data : CoverageData) (db other_db : Database)
    (map_path : option (string → string)) :
  store_ok_contexts self → storage self = Some db → in_sync self db →
  _has_arcs self = false → no_plugins db →
  store_ok other_data → storage other_data = Some other_db →
  _has_arcs other_data = false → tbl_arc other_db = ∅ → no_plugins other_db →
  let mapped := default (λ p, p) map_path in
  ∃ self',
    update self other_data map_path = Updated self' other_data
    ∧ store_ok_contexts self' ∧ _has_arcs self' = false
    ∧ (∃ db', storage self' = Some db' ∧ in_sync self' db' ∧ no_plugins db')
    ∧ (∀ f, f ∈ measured_files self'
            ↔ f ∈ measured_files self ∨ ∃ g, g ∈ measured_files other_data ∧ mapped g = f)
    ∧ (∀ f c n, line_in_context self' f c n
                ↔ line_in_context self f c n
                  ∨ ∃ g, mapped g = f ∧ line_in_context other_data g c n).
Proof. apply update_lines_spec. Qed.

(** X16. Merging the same line data again changes nothing: after a merge
    under the conditions of X14, a second [update] from the same
    [other_data] with the same [map_path] succeeds, and the measured files
    and the lines recorded under each context are the same as after the
    first. *)
Theorem update_again_same (self other_data : CoverageData) (db other_db : Database)
    (map_path : option (string → string)) :
  store_ok_contexts self → storage self = Some db → in_sync self db →
  _has_arcs self = false → no_plugins db →
  store_ok other_data → storage other_data = Some other_db →
  _has_arcs other_data = false → tbl_arc other_db = ∅ → no_plugins other_db →
  ∃ self1 self2,
    update self other_data map_path = Updated self1 other_data
    ∧ update self1 other_data map_path = Updated self2 other_data
    ∧ measured_files self2 = measured_files self1
    ∧ ∀ f c n, line_in_context self2 f c n ↔ line_in_context self1 f c n.
Proof.
  intros Hok Hdb Hsync Ha Hnp Hoko Hdbo Hao Harco Hnpo.
  destruct (update_lines_spec self other_data db other_db map_path
              Hok Hdb Hsync Ha Hnp Hoko Hdbo Hao Harco Hnpo)
    as (self1 & Hrun1 & Hok1 & Ha1 & (db1 & Hdb1 & Hsync1 & Hnp1) & Hfiles1 & Hlines1).
  destruct (update_lines_spec self1 other_data db1 other_db map_path
              Hok1 Hdb1 Hsync1 Ha1 Hnp1 Hoko Hdbo Hao Harco Hnpo)
    as (self2 & Hrun2 & Hok2 & Ha2 & _ & Hfiles2 & Hlines2).
  exists self1, self2. split; [done|]. split; [done|]. split.
  - apply set_eq. intros f. rewrite Hfiles2. split; [|by left].
    intros [?|Hother]; [done|]. apply Hfiles1. by right.
  - intros f c n. rewrite Hlines2. split; [|by left].
    intros [?|Hother]; [done|]. apply Hlines1. by right.
Qed.

(** X15. Merging arc data: when neither store holds lines or plugin
    tracers, [update] succeeds and leaves [other_data] as it was; afterwards
    [self] still satisfies its constraints and agrees with its database, its
    measured files are its old ones and the mapped files of [other_data],
    and an arc is recorded for a file under a context exactly when it was
    before, or [other_data] records it under that context for a file that
    [map_path] sends to this file. *)
Theorem update_arcs_union (self other_data : CoverageData) (db other_db : Database)
    (map_path : option (string → string)) :
  store_ok_contexts self → storage self = Some db → in_sync self db →
  _has_lines self = false → no_plugins db →
  store_ok other_data → storage other_data = Some other_db →
  _has_lines other_data = false → tbl_line_bits other_db = ∅ → no_plugins other_db →
  let mapped := default (λ p, p) map_path in
  ∃ self',
    update self other_data map_path = Updated self' other_data
    ∧ store_ok_contexts self' ∧ _has_lines self' = false
    ∧ (∃ db', storage self' = Some db' ∧ in_sync self' db' ∧ no_plugins db')
    ∧ (∀ f, f ∈ measured_files self'
            ↔ f ∈ measured_files self ∨ ∃ g, g ∈ measured_files other_data ∧ mapped g = f)
    ∧ (∀ f c a, arc_in_context self' f c a
                ↔ arc_in_context self f c a
                  ∨ ∃ g, mapped g = f ∧ arc_in_context other_data g c a).
Proof.
  intros Hok Hdb Hsync Hl Hnp Hoko Hdbo Hlo Hlineso Hnpo mapped.
  destruct (store_ok_contexts_inv self Hok)
    as (db1 & Hok0 & Hu & Hd & Hdb1 & Hcache & Hdist & Hrefs & Hcd & Hcrefs).
  assert (db1 = db) as -> by congruence.
  destruct (store_ok_inv other_data Hoko)
    as (db2 & Huo & Hdo & Hdb2 & Hcacheo & Hdisto & Hrefso).
  assert (db2 = other_db) as -> by congruence.
  assert (ready self) as Hready by (by destruct Hok0).
  assert (ready other_data) as Hreadyo by (by destruct Hoko).
  (* what is collected *)
  pose (c := collected mapped other_db).
  destruct (collected_arcs_other mapped other_data other_db Hdbo Hcacheo) as [Harcs Hkeys].
  fold c in Harcs, Hkeys.
  assert (other_lines c = ∅) as Hlines.
  { simpl. by rewrite select_line_bits_join_empty. }
  assert (∀ p name, other_tracers c !! p = Some name → name = "") as Hot.
  { intros p name. by apply collected_tracers_plain. }
  assert (collected mapped other_db = c) as Hcollected by reflexivity.
  clearbody c.
  destruct (merge_arcs_run mapped c self db Hready Hdb Hl Hsync Hnp Hot Hlines Hkeys)
    as (self' & db' & Hrun & Hready' & Hdb' & Hfm' & Hsync' & Hl' & Hf' & Hc' & Hlb' & Harc'
        & Ht').
  set (paths := (map_to_list (other_files c)).*2) in *.
  set (files := insert_names paths (tbl_file db)) in *.
  set (contexts := insert_names (other_contexts c) (tbl_context db)) in *.
  assert (∀ row, row ∈ other_arcs c →
                 is_Some (files !! row.1.1.1) ∧ is_Some (contexts !! row.1.1.2)) as Hkeys'.
  { intros row [Hf Hctx]%Hkeys. split; by apply insert_names_new. }
  assert (store_ok_contexts self' ∧ no_plugins db') as [Hok' Hnp'].
  { refine (merged_store_ok paths (other_contexts c) ∅ (other_arcs c) self db self' db'
              Hok Hdb Hnp _ Hkeys' Hready' Hdb' Hfm' Hf' Hc' _ Harc' Ht').
    - intros f ctx [? Hnone]. by rewrite lookup_empty in Hnone.
    - unfold merged_rows. by rewrite map_to_list_empty. }
  exists self'. split; [|split; [done|split; [done|split; [|split]]]].
  - (* the run *)
    unfold update. rewrite Hl, Hlo, andb_false_r. simpl andb. cbv iota.
    rewrite (_start_using_used self Hu).
    fold mapped. rewrite (collect_ready mapped other_data other_db Hreadyo Hdbo).
    by rewrite Hcollected, Hrun.
  - (* the object and its database *)
    by exists db'.
  - (* the measured files *)
    intros f. apply (merged_files_spec mapped self other_data db other_db); try done.
    rewrite Hcollected. exact Hfm'.
  - (* the arcs *)
    apply (merged_arcs_spec paths (other_contexts c) (other_arcs c)
             (λ f ctx a, ∃ g, mapped g = f ∧ arc_in_context other_data g ctx a)
             self db self' db'); try done.
Qed.

End CoverageData.

(* ===================================================================== *)
(** * The theorems at given stores *)
(* ===================================================================== *)

(** The parameters are set to a version text, to [literal_engine] for the
    engine of regular expressions, to a [decompress] that always raises and
    to an [executescript] that leaves the database as it is. *)

Tactic Notation "evaluate" uconstr(decision) :=
  apply (@bool_decide_unpack _ decision); vm_compute; exact I.

Lemma add_lines_union_witness :
  store_ok (two_contexts_store "7.5.0")
  ∧ _has_arcs (two_contexts_store "7.5.0") = false
  ∧ _query_context_ids (two_contexts_store "7.5.0") = None
  ∧ ∃ s',
      for_each [[("a.py", [1%N; 2%N; 3%N])]; [("a.py", [3%N; 4%N]); ("c.py", [9%N])]]
        (add_lines "7.5.0") (two_contexts_store "7.5.0")
      = Ok tt s'
      ∧ ∀ filename, ∃ before after,
          lines "7.5.0" filename (two_contexts_store "7.5.0")
          = Ok before (two_contexts_store "7.5.0")
          ∧ lines "7.5.0" filename s' = Ok after s'
          ∧ (is_Some after
             ↔ is_Some before
               ∨ ∃ line_data,
                   line_data ∈ [[("a.py", [1%N; 2%N; 3%N])];
                                [("a.py", [3%N; 4%N]); ("c.py", [9%N])]]
                   ∧ filename ∈ line_data.*1)
          ∧ ∀ n, n ∈ default [] after
                 ↔ n ∈ default [] before
                   ∨ ∃ line_data linenos k,
                       line_data ∈ [[("a.py", [1%N; 2%N; 3%N])];
                                    [("a.py", [3%N; 4%N]); ("c.py", [9%N])]]
                       ∧ (filename, linenos) ∈ line_data ∧ k ∈ linenos ∧ n = Z.of_N k.
Proof.
  assert (Hok : store_ok (two_contexts_store "7.5.0")) by evaluate (store_ok_dec _).
  assert (Hlinemode : _has_arcs (two_contexts_store "7.5.0") = false)
    by (vm_compute; reflexivity).
  assert (Hall : _query_context_ids (two_contexts_store "7.5.0") = None)
    by (vm_compute; reflexivity).
  split; [exact Hok|]. split; [exact Hlinemode|]. split; [exact Hall|].
  exact (proj1 (add_lines_union "7.5.0" (two_contexts_store "7.5.0") _ Hok Hlinemode Hall)).
Defined.

Lemma store_mode_exclusive_witness :
  lifecycle_ok (__init__ true None) ∧ no_mode (__init__ true None)
  ∧ add_lines "7.5.0" [("a.py", [1%N])] (__init__ true None)
    = Ok tt (state_after (add_lines "7.5.0" [("a.py", [1%N])] (__init__ true None)))
  ∧ line_mode (state_after (add_lines "7.5.0" [("a.py", [1%N])] (__init__ true None)))
  ∧ meta_value "has_arcs" (state_after (add_lines "7.5.0" [("a.py", [1%N])] (__init__ true None)))
    = Some "0"
  ∧ _has_lines (two_contexts_store "7.5.0") = true
  ∧ add_arcs "7.5.0" [("a.py", [(1, 2)])] (two_contexts_store "7.5.0")
    = Raise arcs_on_lines (started (two_contexts_store "7.5.0"))
  ∧ started (two_contexts_store "7.5.0") = two_contexts_store "7.5.0".
Proof.
  assert (Hlife : lifecycle_ok (__init__ true None)).
  { split; [intros H; vm_compute in H; discriminate|].
    intros _ H. vm_compute in H. discriminate. }
  assert (Hnone : no_mode (__init__ true None)) by (split; reflexivity).
  assert (Hrun : add_lines "7.5.0" [("a.py", [1%N])] (__init__ true None)
                 = Ok tt (state_after (add_lines "7.5.0" [("a.py", [1%N])] (__init__ true None))))
    by (vm_compute; reflexivity).
  pose proof (store_mode_exclusive "7.5.0" literal_engine (λ _, None) (λ _ db, db))
    as (_ & _ & _ & Hfirst & _ & _ & _ & Hopposite & _).
  destruct (Hfirst _ _ _ Hlife Hnone Hrun) as [Hmode Hmeta].
  assert (Hlines : _has_lines (two_contexts_store "7.5.0") = true)
    by (vm_compute; reflexivity).
  assert (Hused : _have_used (two_contexts_store "7.5.0") = true)
    by (vm_compute; reflexivity).
  destruct (Hopposite (two_contexts_store "7.5.0") [("a.py", [(1, 2)])] Hlines)
    as (Hraise & Hsame & _).
  split; [exact Hlife|]. split; [exact Hnone|]. split; [exact Hrun|].
  split; [exact Hmode|]. split; [exact Hmeta|]. split; [exact Hlines|].
  split; [exact Hraise|]. exact (Hsame Hused).
Defined.

Lemma update_mode_conflict_witness :
  (_has_lines (two_contexts_store "7.5.0") = true
   ∧ _has_arcs (arcs_store "7.5.0") = true
   ∧ update "7.5.0" (two_contexts_store "7.5.0") (arcs_store "7.5.0") None
     = UpdateRaise (DataError (Text "Can't combine arc data with line data"))
         (two_contexts_store "7.5.0") (arcs_store "7.5.0"))
  ∧ (mode_ok (arcs_store "7.5.0")
     ∧ _has_arcs (arcs_store "7.5.0") = true
     ∧ _has_lines (two_contexts_store "7.5.0") = true
     ∧ update "7.5.0" (arcs_store "7.5.0") (two_contexts_store "7.5.0") None
       = UpdateRaise (DataError (Text "Can't combine line data with arc data"))
           (arcs_store "7.5.0") (two_contexts_store "7.5.0"))
  ∧ (no_mode (new_store "7.5.0") ∧ lifecycle_ok (new_store "7.5.0")
     ∧ one_kind (arcs_store "7.5.0")
     ∧ match update "7.5.0" (new_store "7.5.0") (arcs_store "7.5.0") None with
       | UpdateRaise e _ _ => ¬ is_mode_conflict e
       | Updated _ _ => True
       end)
  ∧ (no_mode (new_store "7.5.0") ∧ store_ok_contexts (new_store "7.5.0")
     ∧ storage (new_store "7.5.0") = Some (database "7.5.0" (new_store "7.5.0"))
     ∧ in_sync (new_store "7.5.0") (database "7.5.0" (new_store "7.5.0"))
     ∧ store_ok (traced_store "7.5.0")
     ∧ storage (traced_store "7.5.0") = Some (database "7.5.0" (traced_store "7.5.0"))
     ∧ tbl_arc (database "7.5.0" (traced_store "7.5.0")) = ∅
     ∧ tbl_file (database "7.5.0" (new_store "7.5.0")) = ∅
     ∧ ∃ self',
         update "7.5.0" (new_store "7.5.0") (traced_store "7.5.0") (Some chain_map)
         = Updated self' (traced_store "7.5.0")
         ∧ store_ok_contexts self'
         ∧ (∀ f, f ∈ measured_files self'
                 ↔ f ∈ measured_files (new_store "7.5.0")
                   ∨ ∃ g, g ∈ measured_files (traced_store "7.5.0") ∧ chain_map g = f)
         ∧ (∀ f c n, line_in_context self' f c n
                     ↔ line_in_context (new_store "7.5.0") f c n
                       ∨ ∃ g, chain_map g = f ∧ line_in_context (traced_store "7.5.0") g c n)
         ∧ (∀ f c a, arc_in_context self' f c a
                     ↔ arc_in_context (new_store "7.5.0") f c a
                       ∨ ∃ g, chain_map g = f ∧ arc_in_context (traced_store "7.5.0") g c a)
         ∧ ((∃ g c n, line_in_context (traced_store "7.5.0") g c n) → line_mode self')
         ∧ ((∃ g c a, arc_in_context (traced_store "7.5.0") g c a) → arc_mode self')).
Proof.
  assert (Hmode : mode_ok (arcs_store "7.5.0")) by (intros [H _]; vm_compute in H; discriminate).
  assert (Hnone : no_mode (new_store "7.5.0")) by (split; vm_compute; reflexivity).
  assert (Hlife : lifecycle_ok (new_store "7.5.0")).
  { split; [|intros H; vm_compute in H; discriminate].
    intros _. split; [eexists; vm_compute; reflexivity|]. intros _. vm_compute. reflexivity. }
  assert (Hkind : one_kind (arcs_store "7.5.0")).
  { intros db H. vm_compute in H. injection H as <-. right. reflexivity. }
  assert (Hlines : _has_lines (two_contexts_store "7.5.0") = true)
    by (vm_compute; reflexivity).
  assert (Harcs : _has_arcs (arcs_store "7.5.0") = true) by (vm_compute; reflexivity).
  assert (Hok : store_ok_contexts (new_store "7.5.0")) by evaluate (store_ok_contexts_dec _).
  assert (Hdb : storage (new_store "7.5.0") = Some (database "7.5.0" (new_store "7.5.0")))
    by (vm_compute; reflexivity).
  assert (Hsync : in_sync (new_store "7.5.0") (database "7.5.0" (new_store "7.5.0")))
    by evaluate (in_sync_dec _ _).
  assert (Hoko : store_ok (traced_store "7.5.0")) by evaluate (store_ok_dec _).
  assert (Hdbo : storage (traced_store "7.5.0")
                 = Some (database "7.5.0" (traced_store "7.5.0")))
    by (vm_compute; reflexivity).
  assert (Hnoarcs : tbl_arc (database "7.5.0" (traced_store "7.5.0")) = ∅)
    by (vm_compute; reflexivity).
  assert (Hnofiles : tbl_file (database "7.5.0" (new_store "7.5.0")) = ∅)
    by (vm_compute; reflexivity).
  split; [|split; [|split]].
  - split; [exact Hlines|]. split; [exact Harcs|].
    exact (proj1 (update_mode_conflict "7.5.0" (two_contexts_store "7.5.0")
                    (arcs_store "7.5.0") None) Hlines Harcs).
  - split; [exact Hmode|]. split; [exact Harcs|]. split; [exact Hlines|].
    exact (proj1 (proj2 (update_mode_conflict "7.5.0" (arcs_store "7.5.0")
                           (two_contexts_store "7.5.0") None)) Hmode Harcs Hlines).
  - split; [exact Hnone|]. split; [exact Hlife|]. split; [exact Hkind|].
    exact (proj1 (proj2 (proj2 (update_mode_conflict "7.5.0" (new_store "7.5.0")
                                  (arcs_store "7.5.0") None))) Hnone Hlife Hkind).
  - split; [exact Hnone|]. split; [exact Hok|]. split; [exact Hdb|]. split; [exact Hsync|].
    split; [exact Hoko|]. split; [exact Hdbo|]. split; [exact Hnoarcs|].
    split; [exact Hnofiles|].
    exact (proj2 (proj2 (proj2 (update_mode_conflict "7.5.0" (new_store "7.5.0")
                                  (traced_store "7.5.0") (Some chain_map))))
             (database "7.5.0" (new_store "7.5.0")) (database "7.5.0" (traced_store "7.5.0"))
             Hnone Hok Hdb Hsync Hoko Hdbo (or_introl Hnoarcs) (or_introl Hnofiles)).
Defined.

Lemma unmeasured_or_empty_witness :
  (lifecycle_ok (two_contexts_store "7.5.0")
   ∧ _file_map (two_contexts_store "7.5.0") !! "c.py" = None
   ∧ (∃ s', arcs "7.5.0" "c.py" (two_contexts_store "7.5.0") = Ok None s')
   ∧ (∃ s', lines "7.5.0" "c.py" (two_contexts_store "7.5.0") = Ok None s'))
  ∧ (ready (integration_store "7.5.0")
     ∧ storage (integration_store "7.5.0")
       = Some (database "7.5.0" (integration_store "7.5.0"))
     ∧ _file_map (integration_store "7.5.0") !! "b.py" = Some 2
     ∧ _has_arcs (integration_store "7.5.0") = false
     ∧ arcs "7.5.0" "b.py" (integration_store "7.5.0")
       = Ok (Some []) (integration_store "7.5.0")
     ∧ lines "7.5.0" "b.py" (integration_store "7.5.0")
       = Ok (Some []) (integration_store "7.5.0"))
  ∧ (ready (two_contexts_store "7.5.0")
     ∧ storage (two_contexts_store "7.5.0")
       = Some (database "7.5.0" (two_contexts_store "7.5.0"))
     ∧ ¬ no_mode (two_contexts_store "7.5.0")
     ∧ references_ok (database "7.5.0" (two_contexts_store "7.5.0"))
     ∧ ∃ s', touch_files "7.5.0" ["c.py"] None (two_contexts_store "7.5.0") = Ok tt s'
             ∧ arcs "7.5.0" "c.py" s' = Ok (Some []) s'
             ∧ lines "7.5.0" "c.py" s' = Ok (Some []) s').
Proof.
  assert (Hlife : lifecycle_ok (two_contexts_store "7.5.0")).
  { split; [|intros H; vm_compute in H; discriminate].
    intros _. split; [eexists; vm_compute; reflexivity|].
    intros [H _]. vm_compute in H. discriminate. }
  assert (Hready : ready (two_contexts_store "7.5.0")) by evaluate (ready_dec _).
  assert (Hready' : ready (integration_store "7.5.0")) by evaluate (ready_dec _).
  assert (Hdb : storage (two_contexts_store "7.5.0")
                = Some (database "7.5.0" (two_contexts_store "7.5.0")))
    by (vm_compute; reflexivity).
  assert (Hdb' : storage (integration_store "7.5.0")
                 = Some (database "7.5.0" (integration_store "7.5.0")))
    by (vm_compute; reflexivity).
  assert (Hnew : _file_map (two_contexts_store "7.5.0") !! "c.py" = None)
    by (vm_compute; reflexivity).
  assert (Hid : _file_map (integration_store "7.5.0") !! "b.py" = Some 2)
    by (vm_compute; reflexivity).
  assert (Hlinemode : _has_arcs (integration_store "7.5.0") = false)
    by (vm_compute; reflexivity).
  assert (Hmode : ¬ no_mode (two_contexts_store "7.5.0"))
    by (intros [H _]; vm_compute in H; discriminate).
  assert (Hrefs : references_ok (database "7.5.0" (two_contexts_store "7.5.0")))
    by evaluate (references_ok_dec _).
  assert (Hnone : ∀ context_id fromno tono,
            (2, context_id, fromno, tono)
            ∈ tbl_arc (database "7.5.0" (integration_store "7.5.0")) →
            ¬ context_selected (_query_context_ids (integration_store "7.5.0")) context_id).
  { intros context_id fromno tono H. vm_compute in H. discriminate. }
  assert (Hempty : ∀ context_id nb,
            tbl_line_bits (database "7.5.0" (integration_store "7.5.0")) !! (2, context_id)
            = Some nb →
            context_selected (_query_context_ids (integration_store "7.5.0")) context_id →
            numbits_to_nums nb = []).
  { intros context_id nb H Hsel.
    assert (context_id = 2) as ->.
    { vm_compute in Hsel. apply list_elem_of_singleton. exact Hsel. }
    vm_compute in H. discriminate. }
  split; [|split].
  - split; [exact Hlife|]. split; [exact Hnew|].
    exact (proj1 (unmeasured_or_empty "7.5.0" (two_contexts_store "7.5.0") "c.py")
             Hlife Hnew).
  - split; [exact Hready'|]. split; [exact Hdb'|]. split; [exact Hid|].
    split; [exact Hlinemode|].
    destruct (proj1 (proj2 (unmeasured_or_empty "7.5.0" (integration_store "7.5.0") "b.py"))
                (database "7.5.0" (integration_store "7.5.0")) 2 Hready' Hdb' Hid)
      as [Harcs Hlines].
    split; [exact (proj1 (Harcs Hnone))|]. exact (Hlines Hlinemode Hempty).
  - split; [exact Hready|]. split; [exact Hdb|]. split; [exact Hmode|].
    split; [exact Hrefs|].
    exact (proj2 (proj2 (unmeasured_or_empty "7.5.0" (two_contexts_store "7.5.0") "c.py"))
             (database "7.5.0" (two_contexts_store "7.5.0")) Hready Hdb Hmode Hrefs Hnew).
Defined.

Lemma query_context_filter_witness :
  ready (two_contexts_store "7.5.0")
  ∧ storage (two_contexts_store "7.5.0")
    = Some (database "7.5.0" (two_contexts_store "7.5.0"))
  ∧ (∃ ids,
       set_query_context "7.5.0" "integration" (two_contexts_store "7.5.0")
       = Ok tt (set_query_context_ids (Some ids) (two_contexts_store "7.5.0"))
       ∧ ∀ context_id,
           context_selected (Some ids) context_id
           ↔ tbl_context (database "7.5.0" (two_contexts_store "7.5.0")) !! "integration"
             = Some context_id)
  ∧ Forall (λ p, plain p = true) ["unit"]
  ∧ (∃ ids,
       set_query_contexts "7.5.0" literal_engine (Some ["unit"]) (two_contexts_store "7.5.0")
       = Ok tt (set_query_context_ids (Some ids) (two_contexts_store "7.5.0"))
       ∧ ∀ context_id,
           context_selected (Some ids) context_id
           ↔ ∃ context p,
               tbl_context (database "7.5.0" (two_contexts_store "7.5.0")) !! context
               = Some context_id
               ∧ p ∈ ["unit"] ∧ contains p context)
  ∧ (∃ ids,
       set_query_contexts "7.5.0" literal_engine (Some ["unit"]) (two_contexts_store "7.5.0")
       = Ok tt (set_query_context_ids (Some ids) (two_contexts_store "7.5.0"))
       ∧ ∀ context_id,
           context_selected (Some ids) context_id
           ↔ ∃ context p,
               tbl_context (database "7.5.0" (two_contexts_store "7.5.0")) !! context
               = Some context_id
               ∧ p ∈ ["unit"] ∧ regexp literal_engine p context = Some true)
  ∧ is_Some (tbl_context (database "7.5.0" (two_contexts_store "7.5.0")) !! "unit_tests")
  ∧ Forall (λ p, regexp literal_engine p "unit_tests" = Some false) ["xyz"]
  ∧ regexp literal_engine "(" "unit_tests" = None
  ∧ set_query_contexts "7.5.0" literal_engine (Some ["xyz"; "("; "unit"])
      (two_contexts_store "7.5.0")
    = Raise SqliteError (two_contexts_store "7.5.0")
  ∧ set_query_contexts "7.5.0" literal_engine None (two_contexts_store "7.5.0")
    = Ok tt (set_query_context_ids None (two_contexts_store "7.5.0"))
  ∧ set_query_contexts "7.5.0" literal_engine (Some []) (two_contexts_store "7.5.0")
    = Ok tt (set_query_context_ids None (two_contexts_store "7.5.0"))
  ∧ _file_map (two_contexts_store "7.5.0") !! "a.py" = Some 1
  ∧ (∃ l,
       lines "7.5.0" "a.py" (set_query_context_ids (Some [1]) (two_contexts_store "7.5.0"))
       = Ok (Some l) (set_query_context_ids (Some [1]) (two_contexts_store "7.5.0"))
       ∧ ∀ n, n ∈ l
              ↔ ∃ context_id nb k,
                  tbl_line_bits (database "7.5.0" (two_contexts_store "7.5.0"))
                    !! (1, context_id) = Some nb
                  ∧ context_selected (Some [1]) context_id
                  ∧ k ∈ numbits_to_nums nb ∧ n = Z.of_N k)
  ∧ (∃ m,
       contexts_by_lineno "7.5.0" "a.py"
         (set_query_context_ids (Some [1]) (two_contexts_store "7.5.0"))
       = Ok m (set_query_context_ids (Some [1]) (two_contexts_store "7.5.0"))
       ∧ ∀ n context,
           has_context m n context
           ↔ ∃ context_id nb k,
               tbl_line_bits (database "7.5.0" (two_contexts_store "7.5.0"))
                 !! (1, context_id) = Some nb
               ∧ context_selected (Some [1]) context_id
               ∧ tbl_context (database "7.5.0" (two_contexts_store "7.5.0")) !! context
                 = Some context_id
               ∧ k ∈ numbits_to_nums nb ∧ n = Z.of_N k).
Proof.
  assert (Hready : ready (two_contexts_store "7.5.0")) by evaluate (ready_dec _).
  assert (Hdb : storage (two_contexts_store "7.5.0")
                = Some (database "7.5.0" (two_contexts_store "7.5.0")))
    by (vm_compute; reflexivity).
  assert (Hid : _file_map (two_contexts_store "7.5.0") !! "a.py" = Some 1)
    by (vm_compute; reflexivity).
  assert (Hlinemode : _has_arcs (two_contexts_store "7.5.0") = false)
    by (vm_compute; reflexivity).
  assert (Hplain : Forall (λ p, plain p = true) ["unit"])
    by (repeat constructor).
  assert (Hvalid : ∀ context p,
            is_Some (tbl_context (database "7.5.0" (two_contexts_store "7.5.0")) !! context) →
            p ∈ ["unit"] → is_Some (regexp literal_engine p context)).
  { intros context p _ Hp. apply list_elem_of_singleton in Hp. subst p.
    unfold regexp. eexists. reflexivity. }
  assert (Hcontext : is_Some (tbl_context (database "7.5.0" (two_contexts_store "7.5.0"))
                                !! "unit_tests"))
    by (eexists; vm_compute; reflexivity).
  assert (Hbefore : Forall (λ p, regexp literal_engine p "unit_tests" = Some false) ["xyz"])
    by (repeat constructor).
  assert (Hbad : regexp literal_engine "(" "unit_tests" = None) by reflexivity.
  destruct (query_context_filter "7.5.0" literal_engine (two_contexts_store "7.5.0")
              (database "7.5.0" (two_contexts_store "7.5.0")) Hready Hdb)
    as (Hone & Hmany & Hengine & Hfail & (Hnone & Hnil & _) & Hrows).
  pose proof (Hrows (Some [1]) "a.py" 1 Hid) as Hfile.
  rewrite Hlinemode in Hfile. destruct Hfile as (_ & Hlines & Hcontexts).
  split; [exact Hready|]. split; [exact Hdb|]. split; [exact (Hone "integration")|].
  split; [exact Hplain|]. split; [exact (Hmany "unit" [] Hplain)|].
  split; [exact (Hengine "unit" [] Hvalid)|].
  split; [exact Hcontext|]. split; [exact Hbefore|]. split; [exact Hbad|].
  split; [exact (proj2 (Hfail ["xyz"] "(" ["unit"] "unit_tests" Hcontext Hbefore Hbad))|].
  split; [exact Hnone|]. split; [exact Hnil|].
  split; [exact Hid|]. split; [exact Hlines|]. exact Hcontexts.
Defined.



Lemma purge_files_frame_witness :
  (ready (two_contexts_store "7.5.0")
   ∧ storage (two_contexts_store "7.5.0")
     = Some (database "7.5.0" (two_contexts_store "7.5.0"))
   ∧ _has_lines (two_contexts_store "7.5.0") = true
   ∧ ∃ db',
       purge_files "7.5.0" ["a.py"; "c.py"] (two_contexts_store "7.5.0")
       = Ok tt (set_storage (Some db') (two_contexts_store "7.5.0"))
       ∧ tbl_coverage_schema db'
         = tbl_coverage_schema (database "7.5.0" (two_contexts_store "7.5.0"))
       ∧ tbl_meta db' = tbl_meta (database "7.5.0" (two_contexts_store "7.5.0"))
       ∧ tbl_file db' = tbl_file (database "7.5.0" (two_contexts_store "7.5.0"))
       ∧ tbl_context db' = tbl_context (database "7.5.0" (two_contexts_store "7.5.0"))
       ∧ tbl_arc db' = tbl_arc (database "7.5.0" (two_contexts_store "7.5.0"))
       ∧ tbl_tracer db' = tbl_tracer (database "7.5.0" (two_contexts_store "7.5.0"))
       ∧ ∀ key,
           tbl_line_bits db' !! key
           = if bool_decide (key.1 ∈ ids_of (two_contexts_store "7.5.0") ["a.py"; "c.py"])
             then None
             else tbl_line_bits (database "7.5.0" (two_contexts_store "7.5.0")) !! key)
  ∧ (ready (arcs_store "7.5.0")
     ∧ storage (arcs_store "7.5.0") = Some (database "7.5.0" (arcs_store "7.5.0"))
     ∧ _has_lines (arcs_store "7.5.0") = false ∧ _has_arcs (arcs_store "7.5.0") = true
     ∧ ∃ db',
         purge_files "7.5.0" ["b.py"] (arcs_store "7.5.0")
         = Ok tt (set_storage (Some db') (arcs_store "7.5.0"))
         ∧ tbl_coverage_schema db' = tbl_coverage_schema (database "7.5.0" (arcs_store "7.5.0"))
         ∧ tbl_meta db' = tbl_meta (database "7.5.0" (arcs_store "7.5.0"))
         ∧ tbl_file db' = tbl_file (database "7.5.0" (arcs_store "7.5.0"))
         ∧ tbl_context db' = tbl_context (database "7.5.0" (arcs_store "7.5.0"))
         ∧ tbl_line_bits db' = tbl_line_bits (database "7.5.0" (arcs_store "7.5.0"))
         ∧ tbl_tracer db' = tbl_tracer (database "7.5.0" (arcs_store "7.5.0"))
         ∧ ∀ row,
             row ∈ tbl_arc db'
             ↔ row ∈ tbl_arc (database "7.5.0" (arcs_store "7.5.0"))
               ∧ row.1.1.1 ∉ ids_of (arcs_store "7.5.0") ["b.py"])
  ∧ (ready (new_store "7.5.0")
     ∧ storage (new_store "7.5.0") = Some (database "7.5.0" (new_store "7.5.0"))
     ∧ no_mode (new_store "7.5.0")
     ∧ purge_files "7.5.0" ["a.py"] (new_store "7.5.0")
       = Raise (DataError (Text "Can't purge files in an empty CoverageData"))
           (new_store "7.5.0")).
Proof.
  assert (Hlines : ready (two_contexts_store "7.5.0")) by evaluate (ready_dec _).
  assert (Harcs : ready (arcs_store "7.5.0")) by evaluate (ready_dec _).
  assert (Hnew : ready (new_store "7.5.0")) by evaluate (ready_dec _).
  assert (Hdb1 : storage (two_contexts_store "7.5.0")
                 = Some (database "7.5.0" (two_contexts_store "7.5.0")))
    by (vm_compute; reflexivity).
  assert (Hdb2 : storage (arcs_store "7.5.0") = Some (database "7.5.0" (arcs_store "7.5.0")))
    by (vm_compute; reflexivity).
  assert (Hdb3 : storage (new_store "7.5.0") = Some (database "7.5.0" (new_store "7.5.0")))
    by (vm_compute; reflexivity).
  assert (Hl1 : _has_lines (two_contexts_store "7.5.0") = true) by (vm_compute; reflexivity).
  assert (Hl2 : _has_lines (arcs_store "7.5.0") = false) by (vm_compute; reflexivity).
  assert (Ha2 : _has_arcs (arcs_store "7.5.0") = true) by (vm_compute; reflexivity).
  assert (Hnone : no_mode (new_store "7.5.0")) by (split; vm_compute; reflexivity).
  split; [|split].
  - split; [exact Hlines|]. split; [exact Hdb1|]. split; [exact Hl1|].
    exact (proj1 (purge_files_frame "7.5.0" (two_contexts_store "7.5.0")
                    (database "7.5.0" (two_contexts_store "7.5.0")) ["a.py"; "c.py"]
                    Hlines Hdb1) Hl1).
  - split; [exact Harcs|]. split; [exact Hdb2|]. split; [exact Hl2|]. split; [exact Ha2|].
    exact (proj1 (proj2 (purge_files_frame "7.5.0" (arcs_store "7.5.0")
                           (database "7.5.0" (arcs_store "7.5.0")) ["b.py"] Harcs Hdb2))
             Hl2 Ha2).
  - split; [exact Hnew|]. split; [exact Hdb3|]. split; [exact Hnone|].
    exact (proj2 (proj2 (purge_files_frame "7.5.0" (new_store "7.5.0")
                           (database "7.5.0" (new_store "7.5.0")) ["a.py"] Hnew Hdb3))
             Hnone).
Defined.

Lemma loads_rejects_unmarked_witness :
  take 1 [x50; x4b; x03; x04] ≠ [x7a]
  ∧ loads "7.5.0" (λ _, None) (λ _ db, db) [x50; x4b; x03; x04] (two_contexts_store "7.5.0")
    = Raise (DataError (Unrecognized_serialization [x50; x4b; x03; x04] 4))
        (two_contexts_store "7.5.0").
Proof.
  assert (H : take 1 [x50; x4b; x03; x04] ≠ [x7a]) by (simpl; discriminate).
  split; [exact H|].
  exact (loads_rejects_unmarked "7.5.0" (λ _, None) (λ _ db, db) _
           (two_contexts_store "7.5.0") H).
Defined.

Lemma empty_add_commits_mode_witness :
  lifecycle_ok (__init__ true None) ∧ no_mode (__init__ true None)
  ∧ (∃ s', add_lines "7.5.0" [] (__init__ true None) = Ok tt s'
           ∧ line_mode s'
           ∧ meta_value "has_arcs" s' = Some "0"
           ∧ (data_rows s' = data_rows (__init__ true None) ∨ data_rows s' = no_rows)
           ∧ ∀ arc_data, add_arcs "7.5.0" arc_data s' = Raise arcs_on_lines s')
  ∧ (∃ s', add_arcs "7.5.0" [] (__init__ true None) = Ok tt s'
           ∧ arc_mode s'
           ∧ meta_value "has_arcs" s' = Some "1"
           ∧ (data_rows s' = data_rows (__init__ true None) ∨ data_rows s' = no_rows)
           ∧ ∀ line_data, add_lines "7.5.0" line_data s' = Raise lines_on_arcs s').
Proof.
  assert (Hlife : lifecycle_ok (__init__ true None)).
  { split; [intros H; vm_compute in H; discriminate|].
    intros _ H. vm_compute in H. discriminate. }
  assert (Hnone : no_mode (__init__ true None)) by (split; reflexivity).
  split; [exact Hlife|]. split; [exact Hnone|].
  exact (empty_add_commits_mode "7.5.0" (__init__ true None) Hlife Hnone).
Defined.

(** ** Runs *)

(** Two [add_lines] calls on a new store: nothing is lost. *)
Example lines_after_two_calls :
  match for_each [[("a.py", [1%N; 2%N; 3%N])]; [("a.py", [3%N; 4%N])]]
          (add_lines "7.5.0") (new_store "7.5.0") with
  | Ok _ s =>
      match lines "7.5.0" "a.py" s with
      | Ok (Some l) _ => list_to_set l = ({[1; 2; 3; 4]} : gset Z)
      | _ => False
      end
  | Raise _ _ => False
  end.
Proof. vm_compute. reflexivity. Qed.

(** The patterns of [set_query_contexts] are searched for, not matched
    against the whole context. *)
Example lines_under_unit :
  match set_query_contexts "7.5.0" literal_engine (Some ["unit"]) (two_contexts_store "7.5.0") with
  | Ok _ s =>
      match lines "7.5.0" "a.py" s with
      | Ok (Some l) _ => list_to_set l = ({[1; 2]} : gset Z)
      | _ => False
      end
  | Raise _ _ => False
  end.
Proof. vm_compute. reflexivity. Qed.

(** A file that was only touched is measured, without lines. *)
Example touched_file_lines :
  match touch_files "7.5.0" ["c.py"] None (two_contexts_store "7.5.0") with
  | Ok _ s =>
      match lines "7.5.0" "c.py" s, lines "7.5.0" "d.py" s with
      | Ok l _, Ok l' _ => l = Some [] ∧ l' = None
      | _, _ => False
      end
  | Raise _ _ => False
  end.
Proof. vm_compute. split; reflexivity. Qed.

(** With the identity for [map_path], the second merge changes nothing. *)
Example update_twice_same :
  match update "7.5.0" (new_store "7.5.0") (traced_store "7.5.0") None with
  | Updated self other_data =>
      update "7.5.0" self other_data None = Updated self other_data
  | UpdateRaise _ _ _ => False
  end.
Proof. vm_compute. reflexivity. Qed.

(** A line number that does not fit in 64 bits: [add_arcs] raises after the
    file has been entered. *)
Example add_arcs_overflow_run :
  match add_arcs "7.5.0" [("a.py", [(1, 2 ^ 63)])] (new_store "7.5.0") with
  | Raise e s =>
      e = OverflowError ∧ _file_map s !! "a.py" = Some 1
      ∧ tbl_file (database "7.5.0" s) !! "a.py" = Some 1
      ∧ tbl_arc (database "7.5.0" s) = ∅
  | Ok _ _ => False
  end.
Proof. vm_compute. repeat split; reflexivity. Qed.

(** ** The further properties at given stores *)

Lemma add_arcs_union_witness :
  store_ok (arcs_store "7.5.0")
  ∧ _has_lines (arcs_store "7.5.0") = false
  ∧ _query_context_ids (arcs_store "7.5.0") = None
  ∧ Forall arcs_in_range [[("a.py", [(2, 3)]); ("c.py", [])]; [("d.py", [(-1, 1)])]]
  ∧ ∃ s',
      for_each [[("a.py", [(2, 3)]); ("c.py", [])]; [("d.py", [(-1, 1)])]]
        (add_arcs "7.5.0") (arcs_store "7.5.0")
      = Ok tt s'
      ∧ ∀ filename, ∃ before after,
          arcs "7.5.0" filename (arcs_store "7.5.0") = Ok before (arcs_store "7.5.0")
          ∧ arcs "7.5.0" filename s' = Ok after s'
          ∧ (is_Some after
             ↔ is_Some before
               ∨ ∃ arc_data pairs,
                   arc_data ∈ [[("a.py", [(2, 3)]); ("c.py", [])]; [("d.py", [(-1, 1)])]]
                   ∧ (filename, pairs) ∈ arc_data ∧ pairs ≠ [])
          ∧ (∀ a, a ∈ default [] after
                  ↔ a ∈ default [] before
                    ∨ ∃ arc_data pairs,
                        arc_data ∈ [[("a.py", [(2, 3)]); ("c.py", [])]; [("d.py", [(-1, 1)])]]
                        ∧ (filename, pairs) ∈ arc_data ∧ a ∈ pairs)
          ∧ ([[("a.py", [(2, 3)]); ("c.py", @nil (Z * Z))]; [("d.py", [(-1, 1)])]] ≠ [] →
             ∃ result, lines "7.5.0" filename s' = Ok result s'
                       ∧ (is_Some result ↔ is_Some after)
                       ∧ ∀ n, n ∈ default [] result
                              ↔ 0 < n ∧ ∃ a, a ∈ default [] after ∧ (n = a.1 ∨ n = a.2)).
Proof.
  assert (Hok : store_ok (arcs_store "7.5.0")) by evaluate (store_ok_dec _).
  assert (Hmode : _has_lines (arcs_store "7.5.0") = false) by (vm_compute; reflexivity).
  assert (Hall : _query_context_ids (arcs_store "7.5.0") = None) by (vm_compute; reflexivity).
  assert (Hrange : Forall arcs_in_range
                     [[("a.py", [(2, 3)]); ("c.py", [])]; [("d.py", [(-1, 1)])]])
    by (repeat constructor).
  split; [exact Hok|]. split; [exact Hmode|]. split; [exact Hall|]. split; [exact Hrange|].
  exact (add_arcs_union "7.5.0" (arcs_store "7.5.0") _ Hok Hmode Hall Hrange).
Defined.


Lemma touch_files_measures_witness :
  (store_ok (two_contexts_store "7.5.0") ∧ ¬ no_mode (two_contexts_store "7.5.0")
   ∧ truthy None = false
   ∧ ∃ s', touch_files "7.5.0" ["c.py"] None (two_contexts_store "7.5.0") = Ok tt s'
           ∧ store_ok s'
           ∧ ∀ g, g ∈ measured_files s'
                  ↔ g ∈ measured_files (two_contexts_store "7.5.0") ∨ g ∈ ["c.py"])
  ∧ (ready (new_store "7.5.0") ∧ no_mode (new_store "7.5.0")
     ∧ touch_files "7.5.0" ["c.py"] None (new_store "7.5.0")
       = Raise (DataError (Text "Can't touch files in an empty CoverageData"))
           (new_store "7.5.0")).
Proof.
  assert (Hok : store_ok (two_contexts_store "7.5.0")) by evaluate (store_ok_dec _).
  assert (Hmode : ¬ no_mode (two_contexts_store "7.5.0"))
    by (intros [H _]; vm_compute in H; discriminate).
  assert (Hnew : ready (new_store "7.5.0")) by evaluate (ready_dec _).
  assert (Hnone : no_mode (new_store "7.5.0")) by (split; vm_compute; reflexivity).
  split.
  - split; [exact Hok|]. split; [exact Hmode|]. split; [reflexivity|].
    destruct (proj1 (touch_files_measures "7.5.0" (two_contexts_store "7.5.0") ["c.py"] None)
                Hok Hmode eq_refl) as (s' & Hrun & Hok' & _ & Hfiles & _).
    exists s'. split; [exact Hrun|]. split; [exact Hok'|]. exact Hfiles.
  - split; [exact Hnew|]. split; [exact Hnone|].
    exact (proj2 (touch_files_measures "7.5.0" (new_store "7.5.0") ["c.py"] None) Hnew Hnone).
Defined.

Lemma add_file_tracers_recorded_witness :
  store_ok (traced_store "7.5.0")
  ∧ NoDup [("a", "T"); ("b", "P")].*1
  ∧ (∀ f p, (f, p) ∈ [("a", "T"); ("b", "P")] →
            tracer_row (traced_store "7.5.0") f = None
            ∨ tracer_row (traced_store "7.5.0") f = Some p)
  ∧ ∃ s', add_file_tracers "7.5.0" [("a", "T"); ("b", "P")] (traced_store "7.5.0") = Ok tt s'
          ∧ file_tracer "7.5.0" "a" s' = Ok (Some "T") s'
          ∧ file_tracer "7.5.0" "b" s' = Ok (Some "P") s'.
Proof.
  assert (Hok : store_ok (traced_store "7.5.0")) by evaluate (store_ok_dec _).
  assert (Hnodup : NoDup [("a", "T"); ("b", "P")].*1) by evaluate (NoDup_dec _).
  assert (Hrows : ∀ f p, (f, p) ∈ [("a", "T"); ("b", "P")] →
                         tracer_row (traced_store "7.5.0") f = None
                         ∨ tracer_row (traced_store "7.5.0") f = Some p).
  { intros f p Hin. apply list_elem_of_In in Hin.
    destruct Hin as [Heq|[Heq|[]]]; injection Heq as <- <-.
    - right. vm_compute. reflexivity.
    - left. vm_compute. reflexivity. }
  split; [exact Hok|]. split; [exact Hnodup|]. split; [exact Hrows|].
  destruct (add_file_tracers_recorded "7.5.0" (traced_store "7.5.0") _ Hok Hnodup Hrows)
    as (s' & Hrun & _ & Hnames & _).
  exists s'. split; [exact Hrun|]. split.
  - apply Hnames. apply list_elem_of_In. left. reflexivity.
  - apply Hnames. apply list_elem_of_In. right. left. reflexivity.
Defined.

Lemma erase_forgets_witness :
  lifecycle_ok (two_contexts_store "7.5.0")
  ∧ _has_lines (two_contexts_store "7.5.0") = true
  ∧ ∃ s', erase (two_contexts_store "7.5.0") = Ok tt s'
          ∧ measured_files s' = ∅
          ∧ (∃ s'', lines "7.5.0" "a.py" s' = Ok None s'')
          ∧ (∃ s'', add_arcs "7.5.0" [("a.py", [(1, 2)])] s' = Raise arcs_on_lines s'').
Proof.
  assert (Hlife : lifecycle_ok (two_contexts_store "7.5.0")).
  { split; [|intros H; vm_compute in H; discriminate].
    intros _. split; [eexists; vm_compute; reflexivity|].
    intros [H _]. vm_compute in H. discriminate. }
  assert (Hlines : _has_lines (two_contexts_store "7.5.0") = true)
    by (vm_compute; reflexivity).
  split; [exact Hlife|]. split; [exact Hlines|].
  destruct (erase_forgets "7.5.0" (two_contexts_store "7.5.0"))
    as (s' & Hrun & Hfiles & _ & _ & _ & _ & Hqueries & Harcs & _).
  exists s'. split; [exact Hrun|]. split; [exact Hfiles|].
  split; [exact (proj1 (Hqueries Hlife "a.py"))|]. exact (Harcs Hlines _).
Defined.

Lemma bool_measured_witness :
  (store_ok (two_contexts_store "7.5.0")
   ∧ __bool__ "7.5.0" data_errors_caught (two_contexts_store "7.5.0")
     = Ok (bool_decide (measured_files (two_contexts_store "7.5.0") ≠ ∅))
         (two_contexts_store "7.5.0"))
  ∧ (_dbs (__init__ false None) = false ∧ path_exists (__init__ false None) = false
     ∧ __bool__ "7.5.0" data_errors_caught (__init__ false None)
       = Ok false (__init__ false None))
  ∧ (_no_disk (__init__ false (Some old_schema_file)) = false
     ∧ _dbs (__init__ false (Some old_schema_file)) = false
     ∧ storage (__init__ false (Some old_schema_file)) = Some old_schema_file
     ∧ tbl_coverage_schema old_schema_file = [6]
     ∧ 6 ≠ SCHEMA_VERSION
     ∧ data_errors_caught (DataError (Wrong_schema 6)) = true
     ∧ ∃ s', __bool__ "7.5.0" data_errors_caught (__init__ false (Some old_schema_file))
             = Ok false s'
             ∧ storage s' = Some old_schema_file).
Proof.
  assert (Hok : store_ok (two_contexts_store "7.5.0")) by evaluate (store_ok_dec _).
  assert (Hold : 6 ≠ SCHEMA_VERSION) by discriminate.
  split; [|split].
  - split; [exact Hok|].
    exact (proj1 (bool_measured "7.5.0" data_errors_caught (two_contexts_store "7.5.0")) Hok).
  - split; [reflexivity|]. split; [reflexivity|].
    exact (proj1 (proj2 (bool_measured "7.5.0" data_errors_caught (__init__ false None)))
             eq_refl eq_refl).
  - split; [reflexivity|]. split; [reflexivity|]. split; [reflexivity|].
    split; [reflexivity|]. split; [exact Hold|]. split; [reflexivity|].
    exact (proj2 (proj2 (bool_measured "7.5.0" data_errors_caught
                           (__init__ false (Some old_schema_file))))
             old_schema_file 6 eq_refl eq_refl eq_refl eq_refl Hold eq_refl).
Defined.

Lemma read_restores_witness :
  ready (disk_store "7.5.0")
  ∧ storage (disk_store "7.5.0") = Some (database "7.5.0" (disk_store "7.5.0"))
  ∧ in_sync (disk_store "7.5.0") (database "7.5.0" (disk_store "7.5.0"))
  ∧ _query_context_ids (disk_store "7.5.0") = None
  ∧ ∃ t, read "7.5.0" (__init__ false (Some (database "7.5.0" (disk_store "7.5.0"))))
         = Ok tt t
         ∧ storage t = Some (database "7.5.0" (disk_store "7.5.0"))
         ∧ measured_files t = measured_files (disk_store "7.5.0")
         ∧ ∀ filename,
             ∃ r, lines "7.5.0" filename (disk_store "7.5.0") = Ok r (disk_store "7.5.0")
                  ∧ lines "7.5.0" filename t = Ok r t.
Proof.
  assert (Hready : ready (disk_store "7.5.0")) by evaluate (ready_dec _).
  assert (Hdb : storage (disk_store "7.5.0") = Some (database "7.5.0" (disk_store "7.5.0")))
    by (vm_compute; reflexivity).
  assert (Hsync : in_sync (disk_store "7.5.0") (database "7.5.0" (disk_store "7.5.0")))
    by evaluate (in_sync_dec _ _).
  assert (Hall : _query_context_ids (disk_store "7.5.0") = None) by (vm_compute; reflexivity).
  split; [exact Hready|]. split; [exact Hdb|]. split; [exact Hsync|]. split; [exact Hall|].
  destruct (read_restores "7.5.0" (disk_store "7.5.0") (database "7.5.0" (disk_store "7.5.0"))
              Hready Hdb Hsync Hall) as (t & Hrun & Hst & Hfiles & _ & _ & Hsame).
  exists t. split; [exact Hrun|]. split; [exact Hst|]. split; [exact Hfiles|].
  intros filename. exact (proj1 (Hsame filename)).
Defined.

Lemma read_edge_cases_witness :
  (path_exists (__init__ false None) = false
   ∧ read "7.5.0" (__init__ false None) = Ok tt (__init__ false None))
  ∧ (_no_disk (two_contexts_store "7.5.0") = true
     ∧ read "7.5.0" (two_contexts_store "7.5.0") = Ok tt (two_contexts_store "7.5.0"))
  ∧ (_no_disk (__init__ false (Some old_schema_file)) = false
     ∧ _dbs (__init__ false (Some old_schema_file)) = false
     ∧ storage (__init__ false (Some old_schema_file)) = Some old_schema_file
     ∧ tbl_coverage_schema old_schema_file = [6]
     ∧ 6 ≠ SCHEMA_VERSION
     ∧ read "7.5.0" (__init__ false (Some old_schema_file))
       = Raise (DataError (Wrong_schema 6))
           (set_dbs true (__init__ false (Some old_schema_file)))).
Proof.
  assert (Hmemory : _no_disk (two_contexts_store "7.5.0") = true)
    by (vm_compute; reflexivity).
  assert (Hold : 6 ≠ SCHEMA_VERSION) by discriminate.
  split; [|split].
  - split; [reflexivity|].
    exact (proj1 (read_edge_cases "7.5.0" (__init__ false None)) eq_refl).
  - split; [exact Hmemory|].
    exact (proj1 (proj2 (read_edge_cases "7.5.0" (two_contexts_store "7.5.0"))) Hmemory).
  - split; [reflexivity|]. split; [reflexivity|]. split; [reflexivity|].
    split; [reflexivity|]. split; [exact Hold|].
    exact (proj1 (proj2 (proj2 (read_edge_cases "7.5.0"
                                  (__init__ false (Some old_schema_file)))))
             old_schema_file 6 eq_refl eq_refl eq_refl eq_refl Hold).
Defined.

Lemma loads_dumps_witness :
  ready (two_contexts_store "7.5.0")
  ∧ storage (two_contexts_store "7.5.0")
    = Some (database "7.5.0" (two_contexts_store "7.5.0"))
  ∧ in_sync (two_contexts_store "7.5.0") (database "7.5.0" (two_contexts_store "7.5.0"))
  ∧ _query_context_ids (two_contexts_store "7.5.0") = None
  ∧ ∃ data t,
      dumps "7.5.0" (λ _, "dump") (λ _, [x00]) (two_contexts_store "7.5.0")
      = Ok data (two_contexts_store "7.5.0")
      ∧ take 1 data = [x7a]
      ∧ loads "7.5.0" (λ _, Some "dump")
          (λ _ old, match old with
                    | None => Some (database "7.5.0" (two_contexts_store "7.5.0"))
                    | Some _ => None
                    end)
          data (__init__ true None)
        = Ok tt t
      ∧ storage t = Some (database "7.5.0" (two_contexts_store "7.5.0"))
      ∧ measured_files t = measured_files (two_contexts_store "7.5.0")
      ∧ ∀ filename,
          ∃ r, lines "7.5.0" filename (two_contexts_store "7.5.0")
               = Ok r (two_contexts_store "7.5.0")
               ∧ lines "7.5.0" filename t = Ok r t.
Proof.
  assert (Hready : ready (two_contexts_store "7.5.0")) by evaluate (ready_dec _).
  assert (Hdb : storage (two_contexts_store "7.5.0")
                = Some (database "7.5.0" (two_contexts_store "7.5.0")))
    by (vm_compute; reflexivity).
  assert (Hsync : in_sync (two_contexts_store "7.5.0")
                    (database "7.5.0" (two_contexts_store "7.5.0")))
    by evaluate (in_sync_dec _ _).
  assert (Hall : _query_context_ids (two_contexts_store "7.5.0") = None)
    by (vm_compute; reflexivity).
  split; [exact Hready|]. split; [exact Hdb|]. split; [exact Hsync|]. split; [exact Hall|].
  destruct (loads_dumps "7.5.0" (λ _, Some "dump")
              (λ _ old, match old with
                        | None => Some (database "7.5.0" (two_contexts_store "7.5.0"))
                        | Some _ => None
                        end)
              (λ _, "dump") (λ _, [x00]) (two_contexts_store "7.5.0")
              (database "7.5.0" (two_contexts_store "7.5.0")) true
              Hready Hdb Hsync Hall eq_refl eq_refl)
    as (data & t & Hdump & Hmark & Hload & Hst & Hfiles & _ & _ & Hsame).
  exists data, t. split; [exact Hdump|]. split; [exact Hmark|]. split; [exact Hload|].
  split; [exact Hst|]. split; [exact Hfiles|].
  intros filename. exact (proj1 (Hsame filename)).
Defined.

Lemma contexts_by_lineno_lines_witness :
  ready (two_contexts_store "7.5.0")
  ∧ storage (two_contexts_store "7.5.0")
    = Some (database "7.5.0" (two_contexts_store "7.5.0"))
  ∧ context_references_ok (database "7.5.0" (two_contexts_store "7.5.0"))
  ∧ ∃ result m,
      lines "7.5.0" "a.py" (two_contexts_store "7.5.0")
      = Ok result (two_contexts_store "7.5.0")
      ∧ contexts_by_lineno "7.5.0" "a.py" (two_contexts_store "7.5.0")
        = Ok m (two_contexts_store "7.5.0")
      ∧ (∀ n contexts, m !! n = Some contexts → contexts ≠ [] ∧ n ∈ default [] result)
      ∧ (∀ n, n ∈ default [] result → is_Some (m !! n)).
Proof.
  assert (Hready : ready (two_contexts_store "7.5.0")) by evaluate (ready_dec _).
  assert (Hdb : storage (two_contexts_store "7.5.0")
                = Some (database "7.5.0" (two_contexts_store "7.5.0")))
    by (vm_compute; reflexivity).
  assert (Hrefs : context_references_ok (database "7.5.0" (two_contexts_store "7.5.0")))
    by evaluate (context_references_ok_dec _).
  split; [exact Hready|]. split; [exact Hdb|]. split; [exact Hrefs|].
  destruct (contexts_by_lineno_lines "7.5.0" (two_contexts_store "7.5.0")
              (database "7.5.0" (two_contexts_store "7.5.0")) "a.py" Hready Hdb)
    as (result & m & Hlines & Hcontexts & _ & Hkeys & Hall).
  exists result, m. split; [exact Hlines|]. split; [exact Hcontexts|]. split.
  - intros n contexts Hn. destruct (Hkeys n contexts Hn) as (Hne & Hin & _).
    split; [exact Hne|exact Hin].
  - exact (Hall Hrefs).
Defined.

Lemma add_lines_under_context_witness :
  store_ok_contexts (two_contexts_store "7.5.0")
  ∧ _has_arcs (two_contexts_store "7.5.0") = false
  ∧ _query_context_ids (two_contexts_store "7.5.0") = None
  ∧ ∃ s1 s2,
      set_context (Some "nightly") (two_contexts_store "7.5.0") = Ok tt s1
      ∧ add_lines "7.5.0" [("a.py", [9%N]); ("c.py", [1%N])] s1 = Ok tt s2
      ∧ (∀ filename, ∃ before after,
           contexts_by_lineno "7.5.0" filename (two_contexts_store "7.5.0")
           = Ok before (two_contexts_store "7.5.0")
           ∧ contexts_by_lineno "7.5.0" filename s2 = Ok after s2
           ∧ ∀ n c, has_context after n c
                    ↔ has_context before n c
                      ∨ (c = default "" (Some "nightly")
                         ∧ ∃ nums k, (filename, nums) ∈ [("a.py", [9%N]); ("c.py", [1%N])]
                                     ∧ k ∈ nums ∧ n = Z.of_N k))
      ∧ ([("a.py", [9%N]); ("c.py", [1%N])] ≠ [] →
         ∃ contexts, measured_contexts "7.5.0" s2 = Ok contexts s2
                     ∧ default "" (Some "nightly") ∈ contexts).
Proof.
  assert (Hok : store_ok_contexts (two_contexts_store "7.5.0"))
    by evaluate (store_ok_contexts_dec _).
  assert (Hmode : _has_arcs (two_contexts_store "7.5.0") = false)
    by (vm_compute; reflexivity).
  assert (Hall : _query_context_ids (two_contexts_store "7.5.0") = None)
    by (vm_compute; reflexivity).
  split; [exact Hok|]. split; [exact Hmode|]. split; [exact Hall|].
  exact (add_lines_under_context "7.5.0" (two_contexts_store "7.5.0") (Some "nightly")
           [("a.py", [9%N]); ("c.py", [1%N])] Hok Hmode Hall).
Defined.

Lemma purge_files_forgets_witness :
  store_ok (two_contexts_store "7.5.0") ∧ mode_ok (two_contexts_store "7.5.0")
  ∧ ¬ no_mode (two_contexts_store "7.5.0")
  ∧ _query_context_ids (two_contexts_store "7.5.0") = None
  ∧ "a.py" ∈ measured_files (two_contexts_store "7.5.0")
  ∧ ∃ s', purge_files "7.5.0" ["a.py"] (two_contexts_store "7.5.0") = Ok tt s'
          ∧ measured_files s' = measured_files (two_contexts_store "7.5.0")
          ∧ lines "7.5.0" "a.py" s' = Ok (Some []) s'.
Proof.
  assert (Hok : store_ok (two_contexts_store "7.5.0")) by evaluate (store_ok_dec _).
  assert (Honly : mode_ok (two_contexts_store "7.5.0"))
    by (intros [_ H]; vm_compute in H; discriminate).
  assert (Hmode : ¬ no_mode (two_contexts_store "7.5.0"))
    by (intros [H _]; vm_compute in H; discriminate).
  assert (Hall : _query_context_ids (two_contexts_store "7.5.0") = None)
    by (vm_compute; reflexivity).
  assert (Hfile : "a.py" ∈ measured_files (two_contexts_store "7.5.0")).
  { apply elem_of_dom. exists 1. vm_compute. reflexivity. }
  assert (Hnamed : "a.py" ∈ ["a.py"]) by (apply list_elem_of_In; left; reflexivity).
  split; [exact Hok|]. split; [exact Honly|]. split; [exact Hmode|]. split; [exact Hall|].
  split; [exact Hfile|].
  destruct (purge_files_forgets "7.5.0" (two_contexts_store "7.5.0") ["a.py"] Hok Honly Hmode)
    as (s' & Hrun & _ & _ & Hfiles & _ & _ & _ & Hempty).
  exists s'. split; [exact Hrun|]. split; [exact Hfiles|].
  exact (proj1 (Hempty Hall "a.py" Hnamed Hfile)).
Defined.

Lemma constraints_kept_witness :
  store_ok (arcs_store "7.5.0")
  ∧ collects_or_queries (Call_add_arcs [("a.py", [(2, 3)]); ("c.py", [(-1, 4)])])
  ∧ bindable (Call_add_arcs [("a.py", [(2, 3)]); ("c.py", [(-1, 4)])])
  ∧ store_ok (call "7.5.0" literal_engine (λ _, None) (λ _ db, db)
                (Call_add_arcs [("a.py", [(2, 3)]); ("c.py", [(-1, 4)])])
                (arcs_store "7.5.0")).
Proof.
  assert (Hok : store_ok (arcs_store "7.5.0")) by evaluate (store_ok_dec _).
  assert (Hbind : bindable (Call_add_arcs [("a.py", [(2, 3)]); ("c.py", [(-1, 4)])]))
    by (repeat constructor).
  split; [exact Hok|]. split; [exact I|]. split; [exact Hbind|].
  exact (constraints_kept "7.5.0" literal_engine (λ _, None) (λ _ db, db)
           (Call_add_arcs [("a.py", [(2, 3)]); ("c.py", [(-1, 4)])]) (arcs_store "7.5.0")
           Hok I Hbind).
Defined.

Lemma update_lines_union_witness :
  store_ok_contexts (two_contexts_store "7.5.0")
  ∧ in_sync (two_contexts_store "7.5.0") (database "7.5.0" (two_contexts_store "7.5.0"))
  ∧ no_plugins (database "7.5.0" (two_contexts_store "7.5.0"))
  ∧ store_ok (second_run "7.5.0")
  ∧ tbl_arc (database "7.5.0" (second_run "7.5.0")) = ∅
  ∧ no_plugins (database "7.5.0" (second_run "7.5.0"))
  ∧ ∃ self',
      update "7.5.0" (two_contexts_store "7.5.0") (second_run "7.5.0") (Some with_suffix)
      = Updated self' (second_run "7.5.0")
      ∧ store_ok_contexts self'
      ∧ (∀ f, f ∈ measured_files self'
              ↔ f ∈ measured_files (two_contexts_store "7.5.0")
                ∨ ∃ g, g ∈ measured_files (second_run "7.5.0") ∧ with_suffix g = f)
      ∧ (∀ f c n, line_in_context self' f c n
                  ↔ line_in_context (two_contexts_store "7.5.0") f c n
                    ∨ ∃ g, with_suffix g = f ∧ line_in_context (second_run "7.5.0") g c n).
Proof.
  assert (Hok : store_ok_contexts (two_contexts_store "7.5.0"))
    by evaluate (store_ok_contexts_dec _).
  assert (Hdb : storage (two_contexts_store "7.5.0")
                = Some (database "7.5.0" (two_contexts_store "7.5.0")))
    by (vm_compute; reflexivity).
  assert (Hsync : in_sync (two_contexts_store "7.5.0")
                    (database "7.5.0" (two_contexts_store "7.5.0")))
    by evaluate (in_sync_dec _ _).
  assert (Hmode : _has_arcs (two_contexts_store "7.5.0") = false)
    by (vm_compute; reflexivity).
  assert (Hplain : no_plugins (database "7.5.0" (two_contexts_store "7.5.0")))
    by evaluate (no_plugins_dec _).
  assert (Hoko : store_ok (second_run "7.5.0")) by evaluate (store_ok_dec _).
  assert (Hdbo : storage (second_run "7.5.0") = Some (database "7.5.0" (second_run "7.5.0")))
    by (vm_compute; reflexivity).
  assert (Hmodeo : _has_arcs (second_run "7.5.0") = false) by (vm_compute; reflexivity).
  assert (Harcs : tbl_arc (database "7.5.0" (second_run "7.5.0")) = ∅)
    by (vm_compute; reflexivity).
  assert (Hplaino : no_plugins (database "7.5.0" (second_run "7.5.0")))
    by evaluate (no_plugins_dec _).
  split; [exact Hok|]. split; [exact Hsync|]. split; [exact Hplain|]. split; [exact Hoko|].
  split; [exact Harcs|]. split; [exact Hplaino|].
  destruct (update_lines_union "7.5.0" (two_contexts_store "7.5.0") (second_run "7.5.0")
              (database "7.5.0" (two_contexts_store "7.5.0"))
              (database "7.5.0" (second_run "7.5.0")) (Some with_suffix)
              Hok Hdb Hsync Hmode Hplain Hoko Hdbo Hmodeo Harcs Hplaino)
    as (self' & Hrun & Hok' & _ & _ & Hfiles & Hlines).
  exists self'. split; [exact Hrun|]. split; [exact Hok'|]. split; [exact Hfiles|exact Hlines].
Defined.

Lemma update_arcs_union_witness :
  store_ok_contexts (arcs_store "7.5.0")
  ∧ in_sync (arcs_store "7.5.0") (database "7.5.0" (arcs_store "7.5.0"))
  ∧ no_plugins (database "7.5.0" (arcs_store "7.5.0"))
  ∧ store_ok (second_arcs_run "7.5.0")
  ∧ tbl_line_bits (database "7.5.0" (second_arcs_run "7.5.0")) = ∅
  ∧ no_plugins (database "7.5.0" (second_arcs_run "7.5.0"))
  ∧ ∃ self',
      update "7.5.0" (arcs_store "7.5.0") (second_arcs_run "7.5.0") (Some with_suffix)
      = Updated self' (second_arcs_run "7.5.0")
      ∧ store_ok_contexts self'
      ∧ (∀ f, f ∈ measured_files self'
              ↔ f ∈ measured_files (arcs_store "7.5.0")
                ∨ ∃ g, g ∈ measured_files (second_arcs_run "7.5.0") ∧ with_suffix g = f)
      ∧ (∀ f c a, arc_in_context self' f c a
                  ↔ arc_in_context (arcs_store "7.5.0") f c a
                    ∨ ∃ g, with_suffix g = f ∧ arc_in_context (second_arcs_run "7.5.0") g c a).
Proof.
  assert (Hok : store_ok_contexts (arcs_store "7.5.0"))
    by evaluate (store_ok_contexts_dec _).
  assert (Hdb : storage (arcs_store "7.5.0") = Some (database "7.5.0" (arcs_store "7.5.0")))
    by (vm_compute; reflexivity).
  assert (Hsync : in_sync (arcs_store "7.5.0") (database "7.5.0" (arcs_store "7.5.0")))
    by evaluate (in_sync_dec _ _).
  assert (Hmode : _has_lines (arcs_store "7.5.0") = false) by (vm_compute; reflexivity).
  assert (Hplain : no_plugins (database "7.5.0" (arcs_store "7.5.0")))
    by evaluate (no_plugins_dec _).
  assert (Hoko : store_ok (second_arcs_run "7.5.0")) by evaluate (store_ok_dec _).
  assert (Hdbo : storage (second_arcs_run "7.5.0")
                 = Some (database "7.5.0" (second_arcs_run "7.5.0")))
    by (vm_compute; reflexivity).
  assert (Hmodeo : _has_lines (second_arcs_run "7.5.0") = false) by (vm_compute; reflexivity).
  assert (Hlines : tbl_line_bits (database "7.5.0" (second_arcs_run "7.5.0")) = ∅)
    by (vm_compute; reflexivity).
  assert (Hplaino : no_plugins (database "7.5.0" (second_arcs_run "7.5.0")))
    by evaluate (no_plugins_dec _).
  split; [exact Hok|]. split; [exact Hsync|]. split; [exact Hplain|]. split; [exact Hoko|].
  split; [exact Hlines|]. split; [exact Hplaino|].
  destruct (update_arcs_union "7.5.0" (arcs_store "7.5.0") (second_arcs_run "7.5.0")
              (database "7.5.0" (arcs_store "7.5.0"))
              (database "7.5.0" (second_arcs_run "7.5.0")) (Some with_suffix)
              Hok Hdb Hsync Hmode Hplain Hoko Hdbo Hmodeo Hlines Hplaino)
    as (self' & Hrun & Hok' & _ & _ & Hfiles & Harcs).
  exists self'. split; [exact Hrun|]. split; [exact Hok'|]. split; [exact Hfiles|exact Harcs].
Defined.

Lemma update_again_same_witness :
  store_ok_contexts (two_contexts_store "7.5.0")
  ∧ in_sync (two_contexts_store "7.5.0") (database "7.5.0" (two_contexts_store "7.5.0"))
  ∧ no_plugins (database "7.5.0" (two_contexts_store "7.5.0"))
  ∧ store_ok (second_run "7.5.0")
  ∧ tbl_arc (database "7.5.0" (second_run "7.5.0")) = ∅
  ∧ no_plugins (database "7.5.0" (second_run "7.5.0"))
  ∧ ∃ self1 self2,
      update "7.5.0" (two_contexts_store "7.5.0") (second_run "7.5.0") (Some with_suffix)
      = Updated self1 (second_run "7.5.0")
      ∧ update "7.5.0" self1 (second_run "7.5.0") (Some with_suffix)
        = Updated self2 (second_run "7.5.0")
      ∧ measured_files self2 = measured_files self1
      ∧ ∀ f c n, line_in_context self2 f c n ↔ line_in_context self1 f c n.
Proof.
  assert (Hok : store_ok_contexts (two_contexts_store "7.5.0"))
    by evaluate (store_ok_contexts_dec _).
  assert (Hdb : storage (two_contexts_store "7.5.0")
                = Some (database "7.5.0" (two_contexts_store "7.5.0")))
    by (vm_compute; reflexivity).
  assert (Hsync : in_sync (two_contexts_store "7.5.0")
                    (database "7.5.0" (two_contexts_store "7.5.0")))
    by evaluate (in_sync_dec _ _).
  assert (Hmode : _has_arcs (two_contexts_store "7.5.0") = false)
    by (vm_compute; reflexivity).
  assert (Hplain : no_plugins (database "7.5.0" (two_contexts_store "7.5.0")))
    by evaluate (no_plugins_dec _).
  assert (Hoko : store_ok (second_run "7.5.0")) by evaluate (store_ok_dec _).
  assert (Hdbo : storage (second_run "7.5.0") = Some (database "7.5.0" (second_run "7.5.0")))
    by (vm_compute; reflexivity).
  assert (Hmodeo : _has_arcs (second_run "7.5.0") = false) by (vm_compute; reflexivity).
  assert (Harcs : tbl_arc (database "7.5.0" (second_run "7.5.0")) = ∅)
    by (vm_compute; reflexivity).
  assert (Hplaino : no_plugins (database "7.5.0" (second_run "7.5.0")))
    by evaluate (no_plugins_dec _).
  split; [exact Hok|]. split; [exact Hsync|]. split; [exact Hplain|]. split; [exact Hoko|].
  split; [exact Harcs|]. split; [exact Hplaino|].
  exact (update_again_same "7.5.0" (two_contexts_store "7.5.0") (second_run "7.5.0")
           (database "7.5.0" (two_contexts_store "7.5.0"))
           (database "7.5.0" (second_run "7.5.0")) (Some with_suffix)
           Hok Hdb Hsync Hmode Hplain Hoko Hdbo Hmodeo Harcs Hplaino).
Defined.
